(** * AI-Document-Processor: the ingestion and batch-processing pipeline

    A shallow embedding of
      - [src/app/actions.ts]          (deleteUploadedFile, cleanupUploadsFolder,
                                       processDocumentAction, extractTextFromFile,
                                       estimatePageCount, processBatchDocuments)
      - [src/app/api/upload/route.ts] (MAX_FILE_SIZE, POST)
      - [src/app/api/process/route.ts] (POST)
      - [src/lib/pdfParser.ts]        (parsePDFContent)
      - the components [ProcessingStatus] (startProcessing, allFilesCompleted)
        and [FileUpload] (validateFile, uploadFiles)
    together with the properties the specification states about them and
    further properties of the code.

    Asynchronous functions are embedded as computations in a state-and-exception
    monad over a [World]: every [await] in the sources is sequential, so a
    promise is the computation that produces its value or its rejection. The
    components run in a monad of the same kind over the state of the browser. *)

From Stdlib Require Import ZArith NArith QArith Qround String Ascii Lia Bool.
From stdpp Require Import gmap strings list fin_maps.

Set Default Proof Using "Type".
Set Warnings "-register-all".
Local Open Scope Z_scope.

(* ===================================================================== *)
(** * JavaScript strings *)
(* ===================================================================== *)

(** A JavaScript string is a sequence of UTF-16 code units; a code unit is
    modelled as a natural number. *)
Module JsString.

(** A string literal of the sources (all of them are ASCII). *)
Definition lit (s : string) : list N :=
  List.map N_of_ascii (list_ascii_of_string s).

(** A literal in which every apostrophe stands for a double quote. *)
Definition litq (s : string) : list N :=
  List.map (fun c => if (c =? 39)%N then 34%N else c) (lit s).

(** ECMAScript [WhiteSpace] and [LineTerminator] code points: what the regular
    expression class [\s] matches and what [String.prototype.trim] strips. *)
Definition isWhiteSpace (c : N) : bool :=
  ((9 <=? c) && (c <=? 13) || (c =? 32) || (c =? 160) || (c =? 5760)
   || (8192 <=? c) && (c <=? 8202) || (c =? 8232) || (c =? 8233)
   || (c =? 8239) || (c =? 8287) || (c =? 12288) || (c =? 65279))%N.

Fixpoint trimStart (s : list N) : list N :=
  match s with
  | c :: s' => if isWhiteSpace c then trimStart s' else s
  | [] => []
  end.

Definition trimEnd (s : list N) : list N := rev (trimStart (rev s)).

(** [s.trim()] *)
Definition trim (s : list N) : list N := trimEnd (trimStart s).

Fixpoint startsWith (p s : list N) : bool :=
  match p, s with
  | [], _ => true
  | a :: p', b :: s' => (a =? b)%N && startsWith p' s'
  | _ :: _, [] => false
  end.

(** [removeAllFrom pat skip s]: [s] with every occurrence of [pat] removed,
    scanning left to right without rescanning; [skip] counts the code units of
    the occurrence being removed that are still to be dropped. *)
Fixpoint removeAllFrom (pat : list N) (skip : nat) (s : list N) : list N :=
  match s with
  | [] => []
  | c :: s' =>
      match skip with
      | S k => removeAllFrom pat k s'
      | O => if startsWith pat s
             then removeAllFrom pat (Nat.pred (length pat)) s'
             else c :: removeAllFrom pat O s'
      end
  end.

(** [s.replace(/pat/g, "")] for a literal, non-empty pattern [pat]. *)
Definition removeAll (pat s : list N) : list N := removeAllFrom pat O s.

(** The suffix of [s] that starts at the first occurrence of [c]. *)
Fixpoint fromFirst (c : N) (s : list N) : option (list N) :=
  match s with
  | [] => None
  | x :: s' => if (x =? c)%N then Some s else fromFirst c s'
  end.

(** The prefix of [s] that ends at the last occurrence of [c]. *)
Fixpoint throughLast (c : N) (s : list N) : option (list N) :=
  match s with
  | [] => None
  | x :: s' =>
      match throughLast c s' with
      | Some r => Some (x :: r)
      | None => if (x =? c)%N then Some [x] else None
      end
  end.

Definition LBRACE : N := 123.
Definition RBRACE : N := 125.

(** [s.match(/\{[\s\S]*\}/)]: the leftmost match starts at the first opening
    brace and, [*] being greedy and [[\s\S]] matching every code unit,
    extends to the last closing brace behind it. *)
Definition matchBraces (s : list N) : option (list N) :=
  match fromFirst LBRACE s with
  | Some (open :: rest) =>
      match throughLast RBRACE rest with
      | Some body => Some (open :: body)
      | None => None
      end
  | _ => None
  end.

(** [splitWs insep cur s]: the pieces of [s.split(/\s+/)]; [cur] is the piece
    being read, reversed, and [insep] tells that the scan is inside a run of
    whitespace (one separator match). *)
Fixpoint splitWs (insep : bool) (cur : list N) (s : list N) : list (list N) :=
  match s with
  | [] => [rev cur]
  | c :: s' =>
      if isWhiteSpace c
      then (if insep then splitWs true [] s'
            else rev cur :: splitWs true [] s')
      else splitWs false (c :: cur) s'
  end.

(** [s.split(/\s+/)] *)
Definition split_whitespace (s : list N) : list (list N) := splitWs false [] s.

(** [Boolean(s)] for a string: the empty string is the only falsy one. *)
Definition truthy (s : list N) : bool :=
  match s with [] => false | _ => true end.

(** [s.slice(0, n)] *)
Definition slice0 (n : nat) (s : list N) : list N := take n s.

End JsString.
Export JsString.

(* ===================================================================== *)
(** * JavaScript values, exceptions and the world *)
(* ===================================================================== *)

(** A number is kept as the exact decimal [mant * 10 ^ exp10] of its literal;
    the rounding of IEEE doubles is not part of the model. *)
Record JSNumber := Dec { mant : Z; exp10 : Z }.

(** The values [JSON.parse] produces, and [undefined]. An object is the list of
    its own properties, each name once. *)
Inductive JSValue :=
| JUndefined
| JNull
| JBool (b : bool)
| JNum (n : JSNumber)
| JStr (s : list N)
| JArr (items : list JSValue)
| JObj (fields : list (list N * JSValue)).

(** What a [throw] carries: an [Error] with its message, or any other value. *)
Inductive Thrown :=
| JsError (message : list N)
| JsNonError.

Inductive Result (A : Type) :=
| Ok (a : A)
| Throw (e : Thrown).
Arguments Ok {A} a.
Arguments Throw {A} e.

(** [error instanceof Error ? error.message : "Unknown error"] *)
Definition errorMessage (e : Thrown) : list N :=
  match e with
  | JsError m => m
  | JsNonError => lit "Unknown error"
  end.

Module JsValue.

Fixpoint objGet (fields : list (list N * JSValue)) (k : list N) : JSValue :=
  match fields with
  | [] => JUndefined
  | (k', v) :: rest => if decide (k' = k) then v else objGet rest k
  end.

(** [obj[k] = v] on the property list. *)
Fixpoint objSet (fields : list (list N * JSValue)) (k : list N) (v : JSValue)
  : list (list N * JSValue) :=
  match fields with
  | [] => [(k, v)]
  | (k', v') :: rest =>
      if decide (k' = k) then (k', v) :: rest else (k', v') :: objSet rest k v
  end.

(** [v.k] for the property names the sources read ([sentiment], [topics],
    [summary], [entities], [keyInsights], [confidence]); none of them is
    defined on a prototype, so a primitive or an array yields [undefined]. *)
Definition getProp (v : JSValue) (k : list N) : Result JSValue :=
  match v with
  | JObj fields => Ok (objGet fields k)
  | JNull =>
      Throw (JsError (lit "Cannot read properties of null (reading '"
                        ++ k ++ lit "')"))
  | JUndefined =>
      Throw (JsError (lit "Cannot read properties of undefined (reading '"
                        ++ k ++ lit "')"))
  | _ => Ok JUndefined
  end.

(** JavaScript truthiness, as used by [||]. *)
Definition truthy (v : JSValue) : bool :=
  match v with
  | JUndefined | JNull => false
  | JBool b => b
  | JNum n => negb (mant n =? 0)
  | JStr s => JsString.truthy s
  | JArr _ | JObj _ => true
  end.

(** [a || b] *)
Definition or (a b : JSValue) : JSValue := if truthy a then a else b.

(** [Array.isArray(v) ? v : []] *)
Definition arrayOrEmpty (v : JSValue) : list JSValue :=
  match v with
  | JArr items => items
  | _ => []
  end.

End JsValue.

(** ** Temp storage and the other things outside the program *)

(** A regular file of the uploads directory. *)
Record Entry := { e_mtime : Z; e_data : list Byte.byte }.

(** The file-system calls of the sources. A file of temp storage is addressed
    by its name in the uploads directory, which is what
    [path.join("./uploads", p)] and [path.join(UPLOAD_DIR, name)] denote for a
    file name [p]. Paths are not resolved here: a [filePath] of several
    segments ("./x", "../x", "a/b") is taken for the name it spells, where
    [path.join] would normalise it first. *)
Inductive FsOp :=
| OpReaddir
| OpStat (p : list N)
| OpUnlink (p : list N)
| OpReadFile (p : list N)
| OpWriteFile (p : list N)
| OpMkdir.

Inductive ConsoleLine :=
| ConsoleLog (msg : list N)
| ConsoleError (msg : list N).

(** What [documentText] is bound to in the prompt. *)
Inductive DocumentText :=
| WholeText (text : list N)
| Chunks (chunks : list (list N)).

Record World := {
  (** the uploads directory, [None] when it does not exist *)
  w_uploads : option (gmap (list N) Entry);
  (** file-system calls that fail for a reason outside the program
      (permissions, a full disk, ...) *)
  w_fault : FsOp -> bool;
  (** the order in which the operating system lists the names of the uploads
      directory: the names mentioned here come first, in this order, the
      other names behind them *)
  w_order : list (list N);
  (** what a write that fails leaves behind: nothing, when the file could not
      be opened, or the file with that many of the first bytes of the data *)
  w_remnant : list N -> option nat;
  (** the wall clock: what the k-th reading of the current time returns *)
  w_clock : nat -> Z;
  w_tick : nat;
  (** the hosted language model: the outcome of the k-th invocation *)
  w_model : nat -> DocumentText -> Result (list N);
  w_calls : nat;
  (** [uuidv4()] *)
  w_uuid : nat -> list N;
  w_uuids : nat;
  (** console output, latest line first *)
  w_console : list ConsoleLine
}.

(** A computation returns a value or throws, and changes the world either way. *)
Definition M (A : Type) : Type := World -> Result A * World.

Definition ret {A} (a : A) : M A := fun w => (Ok a, w).

Definition bind {A B} (m : M A) (k : A -> M B) : M B :=
  fun w => match m w with
           | (Ok a, w') => k a w'
           | (Throw e, w') => (Throw e, w')
           end.

Definition throw {A} (e : Thrown) : M A := fun w => (Throw e, w).

(** [try { body } catch (e) { handler e }] *)
Definition try_catch {A} (body : M A) (handler : Thrown -> M A) : M A :=
  fun w => match body w with
           | (Ok a, w') => (Ok a, w')
           | (Throw e, w') => handler e w'
           end.

(** A pure step that may throw. *)
Definition liftResult {A} (r : Result A) : M A := fun w => (r, w).

Declare Scope js_scope.
Delimit Scope js_scope with js.
Notation "x <- m ;; k" := (bind m (fun x => k))
  (at level 100, m at next level, right associativity) : js_scope.
Notation "m ;; k" := (bind m (fun _ => k))
  (at level 100, right associativity) : js_scope.
Local Open Scope js_scope.

Definition set_uploads (d : option (gmap (list N) Entry)) (w : World) : World :=
  {| w_uploads := d; w_fault := w_fault w;
     w_order := w_order w; w_remnant := w_remnant w; w_clock := w_clock w;
     w_tick := w_tick w; w_model := w_model w; w_calls := w_calls w;
     w_uuid := w_uuid w; w_uuids := w_uuids w; w_console := w_console w |}.

Definition console (l : ConsoleLine) : M unit :=
  fun w => (Ok tt,
     {| w_uploads := w_uploads w; w_fault := w_fault w;
        w_order := w_order w; w_remnant := w_remnant w; w_clock := w_clock w;
        w_tick := w_tick w; w_model := w_model w; w_calls := w_calls w;
        w_uuid := w_uuid w; w_uuids := w_uuids w;
        w_console := l :: w_console w |}).

(** [console.log(msg, ...)] and [console.error(msg, ...)]: the line is recorded
    by its leading text. *)
Definition console_log (msg : list N) : M unit := console (ConsoleLog msg).
Definition console_error (msg : list N) : M unit := console (ConsoleError msg).

(** [Date.now()], [new Date()] *)
Definition Date_now : M Z :=
  fun w => (Ok (w_clock w (w_tick w)),
     {| w_uploads := w_uploads w; w_fault := w_fault w;
        w_order := w_order w; w_remnant := w_remnant w; w_clock := w_clock w;
        w_tick := S (w_tick w); w_model := w_model w; w_calls := w_calls w;
        w_uuid := w_uuid w; w_uuids := w_uuids w; w_console := w_console w |}).

(** [uuidv4()] *)
Definition uuidv4 : M (list N) :=
  fun w => (Ok (w_uuid w (w_uuids w)),
     {| w_uploads := w_uploads w; w_fault := w_fault w;
        w_order := w_order w; w_remnant := w_remnant w; w_clock := w_clock w;
        w_tick := w_tick w; w_model := w_model w; w_calls := w_calls w;
        w_uuid := w_uuid w; w_uuids := S (w_uuids w);
        w_console := w_console w |}).

(** [prompt.pipe(model).invoke({ documentText })], returning
    [String(aiResult.content)]. *)
Definition chain_invoke (documentText : DocumentText) : M (list N) :=
  fun w => (w_model w (w_calls w) documentText,
     {| w_uploads := w_uploads w; w_fault := w_fault w;
        w_order := w_order w; w_remnant := w_remnant w; w_clock := w_clock w;
        w_tick := w_tick w; w_model := w_model w; w_calls := S (w_calls w);
        w_uuid := w_uuid w; w_uuids := w_uuids w; w_console := w_console w |}).

Module Fs.

Definition ENOENT : Thrown := JsError (lit "ENOENT: no such file or directory").
Definition EACCES : Thrown := JsError (lit "EACCES: permission denied").
Definition ENOSPC : Thrown := JsError (lit "ENOSPC: no space left on device").

(** The names of a directory in the order of its listing: the names [order]
    mentions, each once and as far as the directory has them, and behind
    them the names it does not mention. *)
Definition listing (order : list (list N)) (dir : gmap (list N) Entry)
  : list (list N) :=
  filter (fun p => is_Some (dir !! p)) (remove_dups order)
  ++ filter (fun p => p ∉ order) (map_to_list dir).*1.

(** [fs.readdir(uploadsDir)] *)
Definition readdir : M (list (list N)) :=
  fun w =>
    if w_fault w OpReaddir then (Throw EACCES, w)
    else match w_uploads w with
         | Some dir => (Ok (listing (w_order w) dir), w)
         | None => (Throw ENOENT, w)
         end.

Definition lookup (p : list N) (w : World) : option Entry :=
  match w_uploads w with
  | Some dir => dir !! p
  | None => None
  end.

(** [fs.stat(p)], read through [stats.mtime.getTime()] *)
Definition stat_mtime (p : list N) : M Z :=
  fun w =>
    if w_fault w (OpStat p) then (Throw EACCES, w)
    else match lookup p w with
         | Some e => (Ok (e_mtime e), w)
         | None => (Throw ENOENT, w)
         end.

(** [fs.unlink(p)] *)
Definition unlink (p : list N) : M unit :=
  fun w =>
    if w_fault w (OpUnlink p) then (Throw EACCES, w)
    else match w_uploads w with
         | Some dir =>
             match dir !! p with
             | Some _ => (Ok tt, set_uploads (Some (delete p dir)) w)
             | None => (Throw ENOENT, w)
             end
         | None => (Throw ENOENT, w)
         end.

(** [fs.readFile(p)] *)
Definition readFile (p : list N) : M (list Byte.byte) :=
  fun w =>
    if w_fault w (OpReadFile p) then (Throw EACCES, w)
    else match lookup p w with
         | Some e => (Ok (e_data e), w)
         | None => (Throw ENOENT, w)
         end.

(** [writeFile(p, buffer)] opens the file, which creates or empties it, and
    then writes; the file carries the current time. A write that fails
    before the file is open changes nothing; one that fails later leaves the
    file with the bytes written so far. *)
Definition writeFile (p : list N) (buffer : list Byte.byte) : M unit :=
  fun w =>
    if w_fault w (OpWriteFile p) then
      match w_uploads w, w_remnant w p with
      | Some dir, Some written =>
          (Throw ENOSPC,
           set_uploads
             (Some (<[p := {| e_mtime := w_clock w (w_tick w);
                              e_data := take written buffer |}]> dir)) w)
      | _, _ => (Throw EACCES, w)
      end
    else match w_uploads w with
         | Some dir =>
             (Ok tt,
              set_uploads
                (Some (<[p := {| e_mtime := w_clock w (w_tick w);
                                 e_data := buffer |}]> dir)) w)
         | None => (Throw ENOENT, w)
         end.

(** [existsSync(UPLOAD_DIR)] *)
Definition existsSync : M bool :=
  fun w => (Ok (bool_decide (is_Some (w_uploads w))), w).

(** [mkdir(UPLOAD_DIR, { recursive: true })] *)
Definition mkdir : M unit :=
  fun w =>
    if w_fault w OpMkdir then (Throw EACCES, w)
    else match w_uploads w with
         | Some _ => (Ok tt, w)
         | None => (Ok tt, set_uploads (Some ∅) w)
         end.

End Fs.

(* ===================================================================== *)
(** * src/app/actions.ts *)
(* ===================================================================== *)

(** The descriptor of an uploaded file: [{ id, fileName, filePath, type }]. *)
Record FileData := {
  fd_id : list N;
  fd_fileName : list N;
  fd_filePath : list N;
  fd_type : list N
}.

(** [DocumentAnalysis]. The fields copied from the model's reply hold whatever
    JavaScript value the reply had there; [pageCount] is optional. *)
Record DocumentAnalysis := {
  id : list N;
  fileName : list N;
  fileType : list N;
  processingTime : Z;
  textContent : list N;
  wordCount : nat;
  pageCount : option Z;
  sentiment : JSValue;
  topics : list JSValue;
  summary : JSValue;
  entities : list JSValue;
  keyInsights : list JSValue;
  analyzedAt : Z;
  confidence : JSValue
}.

Definition MIME_PDF : list N := lit "application/pdf".
Definition MIME_DOCX : list N :=
  lit "application/vnd.openxmlformats-officedocument.wordprocessingml.document".
Definition MIME_DOC : list N := lit "application/msword".
Definition MIME_TXT : list N := lit "text/plain".

(** [text.split(/\s+/).filter(Boolean).length] *)
Definition countWords (text : list N) : nat :=
  length (filter (fun piece => JsString.truthy piece = true)
                 (split_whitespace text)).

(** [Math.ceil(wordCount / 250)], in exact arithmetic. *)
Definition estimatePageCount (text : list N) : Z :=
  let wordCount := countWords text in
  Qceiling (inject_Z (Z.of_nat wordCount) / inject_Z 250).

(** The record of the [catch] branch inside [processDocumentAction]. *)
Definition fallbackAnalysis : JSValue :=
  JObj [ (lit "sentiment", JStr (lit "Analysis completed"));
         (lit "topics", JArr [JStr (lit "Document analysis")]);
         (lit "summary", JStr (lit "Document processed successfully"));
         (lit "entities", JArr []);
         (lit "keyInsights", JArr [JStr (lit "Document contains valuable content")]);
         (lit "confidence", JNum (Dec 7 (-1))) ].

Definition FENCE_JSON : list N := lit "```json".
Definition FENCE : list N := lit "```".

(** [String(aiResult.content).replace(/```json/g, "").replace(/```/g, "").trim()] *)
Definition cleanResponse (content : list N) : list N :=
  trim (removeAll FENCE (removeAll FENCE_JSON content)).

(** The text handed to [JSON.parse]: [jsonMatch[0]] when the brace pattern
    matches, the whole cleaned response otherwise. *)
Definition jsonCandidate (cleanedResponse : list N) : list N :=
  match matchBraces cleanedResponse with
  | Some jsonMatch => jsonMatch
  | None => cleanedResponse
  end.

Section Actions.

(** Libraries the sources call. [JSON_parse] throws a [SyntaxError] on text
    that is not JSON. [parsePDFContent] is [src/lib/pdfParser.ts] at the
    options [extractTextFromFile] passes; it drives the pdf2json parser. *)
Variable JSON_parse : list N -> Result JSValue.
Variable parsePDFContent : list Byte.byte -> Result (list N).
Variable mammoth_extractRawText : list Byte.byte -> Result (list N).
Variable decodeUtf8 : list Byte.byte -> list N.
(** [new RecursiveCharacterTextSplitter({ chunkSize: 4000, chunkOverlap: 200 })
    .splitText] *)
Variable splitText : list N -> list (list N).

Definition deleteUploadedFile (filePath : list N) : M unit :=
  try_catch
    (Fs.unlink filePath ;;
     console_log (lit "Deleted uploaded file: " ++ filePath))
    (fun error =>
       console_error (lit "Failed to delete file " ++ filePath ++ lit ":")).

(** The body of [for (const file of files)] in [cleanupUploadsFolder]. *)
Fixpoint cleanupLoop (files : list (list N)) : M unit :=
  match files with
  | [] => ret tt
  | file :: rest =>
      mtime <- Fs.stat_mtime file ;;
      now <- Date_now ;;
      let oneHourAgo := now - 3600000 in
      (if mtime <? oneHourAgo
       then Fs.unlink file ;;
            console_log (lit "Cleaned up old file: " ++ file)
       else ret tt) ;;
      cleanupLoop rest
  end.

Definition cleanupUploadsFolder : M unit :=
  try_catch
    (files <- Fs.readdir ;;
     cleanupLoop files)
    (fun error => console_error (lit "Failed to cleanup uploads folder:")).

Definition extractTextFromFile (filePath fileType : list N) : M (list N) :=
  try_catch
    (if decide (fileType = MIME_PDF) then
       pdfBuffer <- Fs.readFile filePath ;;
       text <- liftResult (parsePDFContent pdfBuffer) ;;
       console_log (lit "text") ;;
       ret text
     else if decide (fileType = MIME_DOCX \/ fileType = MIME_DOC) then
       docBuffer <- Fs.readFile filePath ;;
       docData <- liftResult (mammoth_extractRawText docBuffer) ;;
       ret docData
     else if decide (fileType = MIME_TXT) then
       buffer <- Fs.readFile filePath ;;
       ret (decodeUtf8 buffer)
     else
       throw (JsError (lit "Unsupported file type: " ++ fileType)))
    (fun error =>
       console_error (lit "Text extraction error:") ;;
       throw (JsError (lit "Failed to extract text from document"))).

(** The inner [try]/[catch] of [processDocumentAction]: from the model's
    reply to [analysis]. *)
Definition parseAnalysis (content : list N) : M JSValue :=
  let cleanedResponse := cleanResponse content in
  try_catch
    (console_log (lit "cleanedResponse") ;;
     analysis <- liftResult (JSON_parse (jsonCandidate cleanedResponse)) ;;
     console_log (lit "analysis") ;;
     ret analysis)
    (fun parseError =>
       console_error (lit "JSON parsing error:") ;;
       console_error (lit "Failed to parse:") ;;
       ret fallbackAnalysis).

(** [chunks.length > 1 ? chunks : textContent], with
    [chunks = await textSplitter.splitText(textContent)]. *)
Definition analysisTextOf (textContent : list N) : DocumentText :=
  let chunks := splitText textContent in
  if (1 <? length chunks)%nat then Chunks chunks else WholeText textContent.

(** The outer [try] block of [processDocumentAction]. *)
Definition processDocumentBody (fileData : FileData) (startTime : Z)
  : M DocumentAnalysis :=
  textContent <- extractTextFromFile (fd_filePath fileData) (fd_type fileData) ;;
  (if negb (JsString.truthy textContent)
      || (length (trim textContent) =? 0)%nat
   then throw (JsError (lit "No text content found in document"))
   else ret tt) ;;
  aiResult <- chain_invoke (analysisTextOf textContent) ;;
  console_log (lit "aiResult") ;;
  analysis <- parseAnalysis aiResult ;;
  console_log (lit "analysis") ;;
  now <- Date_now ;;
  let processingTime := now - startTime in
  let wordCount := countWords textContent in
  sentiment <- liftResult (JsValue.getProp analysis (lit "sentiment")) ;;
  topics <- liftResult (JsValue.getProp analysis (lit "topics")) ;;
  summary <- liftResult (JsValue.getProp analysis (lit "summary")) ;;
  entities <- liftResult (JsValue.getProp analysis (lit "entities")) ;;
  keyInsights <- liftResult (JsValue.getProp analysis (lit "keyInsights")) ;;
  analyzedAt <- Date_now ;;
  confidence <- liftResult (JsValue.getProp analysis (lit "confidence")) ;;
  let result :=
    {| id := fd_id fileData;
       fileName := fd_fileName fileData;
       fileType := fd_type fileData;
       processingTime := processingTime;
       textContent := slice0 1000 textContent;
       wordCount := wordCount;
       pageCount := Some (estimatePageCount textContent);
       sentiment := sentiment;
       topics := JsValue.arrayOrEmpty topics;
       summary := JsValue.or summary (JStr (lit "No summary available"));
       entities := JsValue.arrayOrEmpty entities;
       keyInsights := JsValue.arrayOrEmpty keyInsights;
       analyzedAt := analyzedAt;
       confidence := JsValue.or confidence (JNum (Dec 7 (-1))) |} in
  deleteUploadedFile (fd_filePath fileData) ;;
  ret result.

Definition processDocumentAction (fileData : FileData) : M DocumentAnalysis :=
  startTime <- Date_now ;;
  try_catch
    (processDocumentBody fileData startTime)
    (fun error =>
       console_error (lit "Document processing error:") ;;
       deleteUploadedFile (fd_filePath fileData) ;;
       throw (JsError (lit "Failed to process document: " ++ errorMessage error))).

(** The record pushed by the [catch] branch of [processBatchDocuments]. *)
Definition errorResult (file : FileData) (error : Thrown) (now : Z)
  : DocumentAnalysis :=
  {| id := fd_id file;
     fileName := fd_fileName file;
     fileType := fd_type file;
     processingTime := 0;
     textContent := [];
     wordCount := 0;
     pageCount := None;
     sentiment := JStr (lit "Error");
     topics := [];
     summary := JStr (lit "Processing failed: " ++ errorMessage error);
     entities := [];
     keyInsights := [];
     analyzedAt := now;
     confidence := JNum (Dec 0 0) |}.

(** One iteration of the loop of [processBatchDocuments]: the record that is
    pushed onto [results]. *)
Definition processBatchStep (file : FileData) : M DocumentAnalysis :=
  try_catch
    (processDocumentAction file)
    (fun error =>
       console_error (lit "Failed to process " ++ fd_fileName file ++ lit ":") ;;
       deleteUploadedFile (fd_filePath file) ;;
       now <- Date_now ;;
       ret (errorResult file error now)).

Fixpoint processBatchLoop (files : list FileData) (results : list DocumentAnalysis)
  : M (list DocumentAnalysis) :=
  match files with
  | [] => ret results
  | file :: rest =>
      pushed <- processBatchStep file ;;
      processBatchLoop rest (results ++ [pushed])
  end.

Definition processBatchDocuments (files : list FileData)
  : M (list DocumentAnalysis) :=
  processBatchLoop files [].

End Actions.

(* ===================================================================== *)
(** * src/app/api/upload/route.ts *)
(* ===================================================================== *)

Module ParseInt.

(** The value of a code unit as a digit: [0-9], [a-z], [A-Z]. *)
Definition digitValue (c : N) : option Z :=
  if ((48 <=? c) && (c <=? 57))%N then Some (Z.of_N c - 48)
  else if ((97 <=? c) && (c <=? 122))%N then Some (Z.of_N c - 87)
  else if ((65 <=? c) && (c <=? 90))%N then Some (Z.of_N c - 55)
  else None.

(** The longest prefix of digits below [radix]; [acc] is [None] until a digit
    has been read. *)
Fixpoint digits (radix : Z) (acc : option Z) (s : list N) : option Z :=
  match s with
  | [] => acc
  | c :: s' =>
      match digitValue c with
      | Some d =>
          if d <? radix
          then digits radix (Some (default 0 acc * radix + d)) s'
          else acc
      | None => acc
      end
  end.

Definition unsigned (s : list N) : option Z :=
  match s with
  | 48%N :: x :: s' =>
      if ((x =? 120) || (x =? 88))%N then digits 16 None s'
      else digits 10 None s
  | _ => digits 10 None s
  end.

(** [parseInt(s)] with no radix argument; [None] is [NaN]. The result is the
    exact integer. *)
Definition parseInt (s : list N) : option Z :=
  match trimStart s with
  | 45%N :: s' => Z.opp <$> unsigned s'
  | 43%N :: s' => unsigned s'
  | s' => unsigned s'
  end.

End ParseInt.

(** [File] of the form data. *)
Record File := {
  f_name : list N;
  f_size : Z;
  f_type : list N;
  f_bytes : list Byte.byte
}.

(** What [req.formData()] followed by [formData.getAll("files")] gives: the
    files, or the exception raised while the body is read. *)
Inductive Request :=
| Unreadable (e : Thrown)
| FormData (files : list File).

(** One element of [uploadResults]. *)
Inductive UploadResult :=
| UploadFailure (fileName : list N) (error : list N)
| UploadSuccess (id fileName originalName : list N) (size : Z)
                (type filePath : list N) (uploadedAt : Z).

(** [NextResponse.json({ error }, { status })] and
    [NextResponse.json({ success: true, files })]. *)
Inductive Response :=
| ErrorResponse (status : Z) (error : list N)
| SuccessResponse (files : list UploadResult).

Definition allowedTypes : list (list N) :=
  [ MIME_PDF; MIME_DOCX; MIME_DOC; MIME_TXT ].

(** [a > b] on numbers, false when [b] is [NaN]. *)
Definition js_gt (a : Z) (b : option Z) : bool :=
  match b with
  | Some m => m <? a
  | None => false
  end.

Section Upload.

(** [process.env.NEXT_PUBLIC_MAX_FILE_SIZE] *)
Variable NEXT_PUBLIC_MAX_FILE_SIZE : option (list N).
(** [path.extname] *)
Variable path_extname : list N -> list N.

Definition MAX_FILE_SIZE : option Z :=
  ParseInt.parseInt
    (match NEXT_PUBLIC_MAX_FILE_SIZE with
     | Some v => if JsString.truthy v then v else lit "10485760"
     | None => lit "10485760"
     end).

(** The [try] block that saves one accepted file. *)
Definition saveFile (file : File) : M UploadResult :=
  try_catch
    (fileId <- uuidv4 ;;
     let fileExtension := path_extname (f_name file) in
     let fileName := fileId ++ fileExtension in
     Fs.writeFile fileName (f_bytes file) ;;
     uploadedAt <- Date_now ;;
     ret (UploadSuccess fileId (f_name file) (f_name file) (f_size file)
                        (f_type file) fileName uploadedAt))
    (fun error => ret (UploadFailure (f_name file) (lit "Failed to save file"))).

(** One iteration of [for (const file of files)]: the element pushed onto
    [uploadResults]. *)
Definition uploadStep (file : File) : M UploadResult :=
  if js_gt (f_size file) MAX_FILE_SIZE then
    ret (UploadFailure (f_name file) (lit "File size exceeds limit (10MB)"))
  else if negb (bool_decide (f_type file ∈ allowedTypes)) then
    ret (UploadFailure (f_name file) (lit "Unsupported file type"))
  else saveFile file.

Fixpoint uploadLoop (files : list File) (uploadResults : list UploadResult)
  : M (list UploadResult) :=
  match files with
  | [] => ret uploadResults
  | file :: rest =>
      pushed <- uploadStep file ;;
      uploadLoop rest (uploadResults ++ [pushed])
  end.

Definition POST (req : Request) : M Response :=
  try_catch
    (files <- liftResult (match req with
                          | Unreadable e => Throw e
                          | FormData files => Ok files
                          end) ;;
     if (length files =? 0)%nat then
       ret (ErrorResponse 400 (lit "No files uploaded"))
     else
       cleanupUploadsFolder ;;
       dirExists <- Fs.existsSync ;;
       (if negb dirExists then Fs.mkdir else ret tt) ;;
       uploadResults <- uploadLoop files [] ;;
       ret (SuccessResponse uploadResults))
    (fun error =>
       console_error (lit "Upload error:") ;;
       ret (ErrorResponse 500 (lit "Upload failed"))).

End Upload.

(* ===================================================================== *)
(** * JSON.parse *)
(* ===================================================================== *)

(** [JSON.parse(text)] with no reviver, after the JSON grammar of ECMA-404.
    The theorems about [processDocumentAction] hold for every function in the
    place of [JSON.parse]; this one evaluates it on concrete replies. *)
Module Json.

(** JSON whitespace: tab, line feed, carriage return, space. *)
Definition isJsonWs (c : N) : bool :=
  ((c =? 9) || (c =? 10) || (c =? 13) || (c =? 32))%N.

Fixpoint skipWs (s : list N) : list N :=
  match s with
  | c :: s' => if isJsonWs c then skipWs s' else s
  | [] => []
  end.

Definition isDigit (c : N) : bool := ((48 <=? c) && (c <=? 57))%N.

Definition hexValue (c : N) : option N :=
  if isDigit c then Some (c - 48)%N
  else if ((97 <=? c) && (c <=? 102))%N then Some (c - 87)%N
  else if ((65 <=? c) && (c <=? 70))%N then Some (c - 55)%N
  else None.

(** The characters of a string after its opening quote, up to the closing
    one; [acc] is what has been read, reversed. *)
Fixpoint stringChars (acc : list N) (s : list N) : option (list N * list N) :=
  match s with
  | [] => None
  | 34%N :: rest => Some (rev acc, rest)
  | 92%N :: 117%N :: h1 :: h2 :: h3 :: h4 :: rest =>
      match hexValue h1, hexValue h2, hexValue h3, hexValue h4 with
      | Some a, Some b, Some c, Some d =>
          stringChars ((((a * 16 + b) * 16 + c) * 16 + d)%N :: acc) rest
      | _, _, _, _ => None
      end
  | 92%N :: e :: rest =>
      if ((e =? 34) || (e =? 92) || (e =? 47))%N then stringChars (e :: acc) rest
      else if (e =? 98)%N then stringChars (8%N :: acc) rest
      else if (e =? 102)%N then stringChars (12%N :: acc) rest
      else if (e =? 110)%N then stringChars (10%N :: acc) rest
      else if (e =? 114)%N then stringChars (13%N :: acc) rest
      else if (e =? 116)%N then stringChars (9%N :: acc) rest
      else None
  | c :: rest => if (c <? 32)%N then None else stringChars (c :: acc) rest
  end.

(** A run of decimal digits: its value on top of [acc], how many there are,
    and the rest. *)
Fixpoint digitRun (acc : Z) (n : nat) (s : list N) : Z * nat * list N :=
  match s with
  | c :: s' =>
      if isDigit c then digitRun (acc * 10 + (Z.of_N c - 48)) (S n) s'
      else (acc, n, s)
  | [] => (acc, n, s)
  end.

(** Drop the trailing zeros of a mantissa, so that equal decimals have equal
    representations. *)
Fixpoint normalize (fuel : nat) (m e : Z) : JSNumber :=
  match fuel with
  | O => Dec m e
  | S fuel' =>
      if m =? 0 then Dec 0 0
      else if m mod 10 =? 0 then normalize fuel' (m / 10) (e + 1)
      else Dec m e
  end.

(** [int frac? exp?] after the optional minus sign. *)
Definition numberBody (s : list N) : option (JSNumber * list N) :=
  match digitRun 0 0 s with
  | (_, O, _) => None
  | (i, S ni, r) =>
      if (match s with 48%N :: _ => true | _ => false end) && (0 <? ni)%nat
      then None
      else
        let '(m, nf, r1, okf) :=
          match r with
          | 46%N :: r' =>
              match digitRun i 0 r' with
              | (_, O, _) => (i, O, r, false)
              | (m, nf, r1) => (m, nf, r1, true)
              end
          | _ => (i, O, r, true)
          end in
        if negb okf then None
        else
          let digitsRead := (S ni + nf)%nat in
          match r1 with
          | x :: r2 =>
              if ((x =? 101) || (x =? 69))%N then
                let '(neg, r3) :=
                  match r2 with
                  | 45%N :: r3 => (true, r3)
                  | 43%N :: r3 => (false, r3)
                  | _ => (false, r2)
                  end in
                match digitRun 0 0 r3 with
                | (_, O, _) => None
                | (e, _, r4) =>
                    Some (normalize digitsRead m
                            ((if neg then - e else e) - Z.of_nat nf), r4)
                end
              else Some (normalize digitsRead m (- Z.of_nat nf), r1)
          | [] => Some (normalize digitsRead m (- Z.of_nat nf), r1)
          end
  end.

Definition number (s : list N) : option (JSValue * list N) :=
  match s with
  | 45%N :: s' =>
      match numberBody s' with
      | Some (Dec m e, r) => Some (JNum (Dec (- m) e), r)
      | None => None
      end
  | _ =>
      match numberBody s with
      | Some (n, r) => Some (JNum n, r)
      | None => None
      end
  end.

Definition keyword (kw : list N) (v : JSValue) (s : list N)
  : option (JSValue * list N) :=
  if startsWith kw s then Some (v, drop (length kw) s) else None.

(** [value] reads one JSON value, [elements] the rest of an array after its
    opening bracket or a comma, [members] the rest of an object after its
    opening brace or a comma. *)
Fixpoint value (fuel : nat) (s : list N) : option (JSValue * list N) :=
  match fuel with
  | O => None
  | S fuel' =>
      match skipWs s with
      | 123%N :: r =>
          match skipWs r with
          | 125%N :: r' => Some (JObj [], r')
          | r1 => members fuel' [] r1
          end
      | 91%N :: r =>
          match skipWs r with
          | 93%N :: r' => Some (JArr [], r')
          | r1 => elements fuel' [] r1
          end
      | 34%N :: r =>
          match stringChars [] r with
          | Some (str, r') => Some (JStr str, r')
          | None => None
          end
      | (116%N :: _) as s1 => keyword (lit "true") (JBool true) s1
      | (102%N :: _) as s1 => keyword (lit "false") (JBool false) s1
      | (110%N :: _) as s1 => keyword (lit "null") JNull s1
      | s1 => number s1
      end
  end
with elements (fuel : nat) (acc : list JSValue) (s : list N)
  : option (JSValue * list N) :=
  match fuel with
  | O => None
  | S fuel' =>
      match value fuel' s with
      | Some (v, r) =>
          match skipWs r with
          | 44%N :: r' => elements fuel' (acc ++ [v]) r'
          | 93%N :: r' => Some (JArr (acc ++ [v]), r')
          | _ => None
          end
      | None => None
      end
  end
with members (fuel : nat) (acc : list (list N * JSValue)) (s : list N)
  : option (JSValue * list N) :=
  match fuel with
  | O => None
  | S fuel' =>
      match skipWs s with
      | 34%N :: r =>
          match stringChars [] r with
          | Some (key, r1) =>
              match skipWs r1 with
              | 58%N :: r2 =>
                  match value fuel' r2 with
                  | Some (v, r3) =>
                      let acc' := JsValue.objSet acc key v in
                      match skipWs r3 with
                      | 44%N :: r4 => members fuel' acc' r4
                      | 125%N :: r4 => Some (JObj acc', r4)
                      | _ => None
                      end
                  | None => None
                  end
              | _ => None
              end
          | None => None
          end
      | _ => None
      end
  end.

Definition SyntaxError : Thrown :=
  JsError (lit "Unexpected token in JSON").

Definition parse (text : list N) : Result JSValue :=
  match value (2 * length text + 2) text with
  | Some (v, rest) =>
      match skipWs rest with
      | [] => Ok v
      | _ => Throw SyntaxError
      end
  | None => Throw SyntaxError
  end.

End Json.


(* ===================================================================== *)
(** * src/app/api/process/route.ts *)
(* ===================================================================== *)

Module ProcessRoute.

(** [NextResponse.json({ error }, { status })] and
    [NextResponse.json(result)]. *)
Inductive Response :=
| ErrorResponse (status : Z) (error : list N)
| ResultResponse (result : DocumentAnalysis).

(** The descriptor a body stands for when the four fields it was checked for
    are strings, as the signature of [processDocumentAction] wants them. *)
Definition descriptorOf (id fileName filePath type : JSValue) : option FileData :=
  match id, fileName, filePath, type with
  | JStr id, JStr fileName, JStr filePath, JStr type =>
      Some {| fd_id := id; fd_fileName := fileName;
              fd_filePath := filePath; fd_type := type |}
  | _, _, _, _ => None
  end.

Section Route.

Variable JSON_parse : list N -> Result JSValue.
Variable parsePDFContent : list Byte.byte -> Result (list N).
Variable mammoth_extractRawText : list Byte.byte -> Result (list N).
Variable decodeUtf8 : list Byte.byte -> list N.
Variable splitText : list N -> list (list N).
(** [processDocumentAction] applied to a body whose fields are truthy without
    all being strings, which its signature rules out and the type checker
    cannot see behind [req.json()]. *)
Variable processDocumentAction_untyped : JSValue -> M DocumentAnalysis.

(** [body] is what [await req.json()] comes to. None of the four property
    names read off it is defined on a prototype, and reading a property of a
    value other than [null] and [undefined] does not throw, so the four reads
    are done before the tests. *)
Definition POST (body : Result JSValue) : M Response :=
  try_catch
    (fileData <- liftResult body ;;
     id <- liftResult (JsValue.getProp fileData (lit "id")) ;;
     fileName <- liftResult (JsValue.getProp fileData (lit "fileName")) ;;
     filePath <- liftResult (JsValue.getProp fileData (lit "filePath")) ;;
     type <- liftResult (JsValue.getProp fileData (lit "type")) ;;
     if negb (JsValue.truthy id) || negb (JsValue.truthy fileName)
        || negb (JsValue.truthy filePath) || negb (JsValue.truthy type)
     then ret (ErrorResponse 400 (lit "Missing required file data"))
     else
       result <- match descriptorOf id fileName filePath type with
                 | Some descriptor =>
                     processDocumentAction JSON_parse parsePDFContent
                       mammoth_extractRawText decodeUtf8 splitText descriptor
                 | None => processDocumentAction_untyped fileData
                 end ;;
       ret (ResultResponse result))
    (fun error =>
       console_error (lit "Processing API error:") ;;
       ret (ErrorResponse 500
              (match error with
               | JsError message => message
               | JsNonError => lit "Processing failed"
               end))).

End Route.

End ProcessRoute.

(* ===================================================================== *)
(** * src/lib/pdfParser.ts *)
(* ===================================================================== *)

Module PdfParser.

(** [PDFOptions]; a field that is left out is [None]. [maxPages] may also be
    given as [null]. *)
Record PDFOptions := {
  includePageNumbers : option bool;
  pageBreakSeparator : option (list N);
  preserveLayout : option bool;
  preserveWhitespace : option bool;
  maxPages : option (option Z)
}.

Record PDFTextRun := { T : list N }.

(** [R] is [None] when the text has no runs array. *)
Record PDFText := { x : Q; y : Q; R : option (list PDFTextRun) }.

(** [Texts] is [None] when the page has no texts array. *)
Record PDFPage := { Texts : option (list PDFText) }.

(** [Pages] is [None] when the data has no pages array. *)
Record PDFData := { Pages : option (list PDFPage) }.

(** The event the pdf2json parser emits for a source: [pdfParser_dataError]
    with [errData.parserError.message], or [pdfParser_dataReady] with the
    parsed data, [None] standing for a [null] or [undefined] one. *)
Inductive ParserEvent :=
| pdfParser_dataError (message : list N)
| pdfParser_dataReady (pdfData : option PDFData).

(** [PDFSource], and what else may be passed at run time. *)
Inductive PDFSource :=
| SourceBuffer (buffer : list Byte.byte)
| SourcePath (path : list N)
| SourceOther.

(** [s.replace(/\s+/g, " ")]; [insep] tells that the scan is inside a run of
    whitespace. *)
Fixpoint collapseFrom (insep : bool) (s : list N) : list N :=
  match s with
  | [] => []
  | c :: s' =>
      if isWhiteSpace c
      then (if insep then collapseFrom true s' else 32%N :: collapseFrom true s')
      else c :: collapseFrom false s'
  end.

Definition collapseWhitespace (s : list N) : list N := collapseFrom false s.

(** The decimal digits of a number, least significant first; [fuel] bounds
    their number. *)
Fixpoint digitsRev (fuel n : nat) : list N :=
  match fuel with
  | O => []
  | S fuel' =>
      N.of_nat (48 + n mod 10) ::
      (if (n / 10 =? 0)%nat then [] else digitsRev fuel' (n / 10))
  end.

(** [String(n)] for a page number. *)
Definition showNat (n : nat) : list N := rev (digitsRev (S n) n).

(** [pdfData.Pages.slice(0, maxPages)] *)
Definition slicePages (pages : list PDFPage) (maxPages : Z) : list PDFPage :=
  if maxPages <? 0
  then take (Z.to_nat (Z.of_nat (length pages) + maxPages)) pages
  else take (Z.to_nat maxPages) pages.

Section Parser.

(** [await import("pdf2json")]: whether the module loads. *)
Variable import_pdf2json : Result unit.
(** [pdfParser.parseBuffer] and [pdfParser.loadPDF], by the event that
    follows. *)
Variable parseBuffer : list Byte.byte -> ParserEvent.
Variable loadPDF : list N -> ParserEvent.
Variable decodeURIComponent : list N -> Result (list N).
(** The branch for [preserveLayout]: the text of a page whose texts are
    sorted by position, the order being the one the engine's sort gives for
    a comparison with a tolerance. *)
Variable layoutPageText : list PDFText -> Result (list N).

(** [text.R.forEach(...)] of the branch without layout. *)
Fixpoint runsText (runs : list PDFTextRun) : Result (list N) :=
  match runs with
  | [] => Ok []
  | textRun :: rest =>
      if JsString.truthy (T textRun) then
        match decodeURIComponent (T textRun) with
        | Ok decoded =>
            match runsText rest with
            | Ok more => Ok (decoded ++ lit " " ++ more)
            | Throw e => Throw e
            end
        | Throw e => Throw e
        end
      else runsText rest
  end.

(** [page.Texts.forEach(...)] of the branch without layout. *)
Fixpoint textsText (texts : list PDFText) : Result (list N) :=
  match texts with
  | [] => Ok []
  | text :: rest =>
      match (match R text with
             | Some ((_ :: _) as runs) => runsText runs
             | _ => Ok []
             end) with
      | Ok here =>
          match textsText rest with
          | Ok more => Ok (here ++ more)
          | Throw e => Throw e
          end
      | Throw e => Throw e
      end
  end.

(** What one page adds to [extractedText]; [currentPage] is its number. *)
Definition pageContribution (includePageNumbers : bool)
    (pageBreakSeparator : list N) (preserveLayout preserveWhitespace : bool)
    (currentPage : nat) (page : PDFPage) : Result (list N) :=
  match Texts page with
  | None | Some [] => Ok []
  | Some texts =>
      match (if preserveLayout then layoutPageText texts else textsText texts) with
      | Throw e => Throw e
      | Ok raw =>
          let pageText :=
            if negb preserveWhitespace then collapseWhitespace (trim raw)
            else trim raw in
          if JsString.truthy pageText then
            if includePageNumbers
            then Ok (lit "--- Page " ++ showNat currentPage ++ lit " ---"
                     ++ [10%N] ++ pageText ++ pageBreakSeparator)
            else Ok (pageText ++ pageBreakSeparator)
          else Ok []
      end
  end.

(** [pages.forEach((page, pageIndex) => ...)], from page index [pageIndex]
    on. *)
Fixpoint pagesText (includePageNumbers : bool) (pageBreakSeparator : list N)
    (preserveLayout preserveWhitespace : bool)
    (pageIndex : nat) (pages : list PDFPage) : Result (list N) :=
  match pages with
  | [] => Ok []
  | page :: rest =>
      match pageContribution includePageNumbers pageBreakSeparator
              preserveLayout preserveWhitespace (pageIndex + 1) page with
      | Ok here =>
          match pagesText includePageNumbers pageBreakSeparator
                  preserveLayout preserveWhitespace (S pageIndex) rest with
          | Ok more => Ok (here ++ more)
          | Throw e => Throw e
          end
      | Throw e => Throw e
      end
  end.

(** The handler of [pdfParser_dataReady]: how the promise settles. *)
Definition onDataReady (options : PDFOptions) (pdfData : option PDFData)
  : Result (list N) :=
  match pdfData with
  | None => Throw (JsError (lit "Invalid PDF data structure"))
  | Some data =>
      match Pages data with
      | None => Throw (JsError (lit "Invalid PDF data structure"))
      | Some allPages =>
          let pages :=
            match default None (maxPages options) with
            | Some n => if n =? 0 then allPages else slicePages allPages n
            | None => allPages
            end in
          match pagesText (default false (includePageNumbers options))
                  (default [10%N] (pageBreakSeparator options))
                  (default false (preserveLayout options))
                  (default false (preserveWhitespace options))
                  0 pages with
          | Ok extractedText => Ok (trim extractedText)
          | Throw processingError =>
              Throw (JsError (lit "Text processing error: "
                                ++ match processingError with
                                   | JsError message => message
                                   | JsNonError => lit "Unknown processing error"
                                   end))
          end
      end
  end.

(** How the promise settles once the parser has emitted its event. *)
Definition onEvent (options : PDFOptions) (event : ParserEvent) : Result (list N) :=
  match event with
  | pdfParser_dataError message =>
      Throw (JsError (lit "PDF parsing error: " ++ message))
  | pdfParser_dataReady pdfData => onDataReady options pdfData
  end.

(** The promise is returned, not awaited, inside the [try]: the [catch]
    sees a failure of the import only. *)
Definition parsePDFContent (pdfSource : PDFSource) (options : PDFOptions)
  : Result (list N) :=
  match import_pdf2json with
  | Throw error =>
      Throw (JsError (lit "PDF parser initialization failed: "
                        ++ match error with
                           | JsError message => message
                           | JsNonError => lit "Unknown error occurred"
                           end))
  | Ok _ =>
      match pdfSource with
      | SourceBuffer buffer => onEvent options (parseBuffer buffer)
      | SourcePath path => onEvent options (loadPDF path)
      | SourceOther =>
          Throw (JsError (lit "Invalid PDF source. Expected Buffer or file path."))
      end
  end.

(** The call in [extractTextFromFile]. *)
Definition parsePDFContent_of_buffer (pdfBuffer : list Byte.byte) : Result (list N) :=
  parsePDFContent (SourceBuffer pdfBuffer)
    {| includePageNumbers := Some false;
       pageBreakSeparator := Some [10%N];
       preserveLayout := None;
       preserveWhitespace := Some false;
       maxPages := None |}.

End Parser.

End PdfParser.

(* ===================================================================== *)
(** * src/components/document-processor/ProcessingStatus.tsx *)
(* ===================================================================== *)

Module ProcessingStatus.

(** [UploadedFile], as far as the component reads it. *)
Record UploadedFile := {
  uf_id : list N;
  uf_name : list N;
  uf_filePath : list N;
  uf_type : list N
}.

(** [ProcessingProgress]; the first report of a file has no message. *)
Record ProcessingProgress := {
  fileId : list N;
  progress : Z;
  status : list N;
  message : option (list N)
}.

(** An element of [results]: what [response.json()] gave, as it came, or the
    error record built in the [catch]. *)
Inductive ResultItem :=
| FromServer (result : JSValue)
| ErrorRecord (record : DocumentAnalysis).

(** How a [fetch] ends: it rejects, or it resolves with a response, read
    through [response.ok], [response.statusText] and [response.json()]. *)
Inductive FetchOutcome :=
| FetchRejected (e : Thrown)
| FetchResponse (ok : bool) (statusText : list N) (json : Result JSValue).

(** A call of one of the callbacks the parent passed. *)
Inductive CallbackCall :=
| OnProcessingStart
| OnProcessingProgress (p : ProcessingProgress)
| OnProcessingComplete (results : list ResultItem).

Record Browser := {
  (** the state of the component *)
  processingFiles : gmap (list N) ProcessingProgress;
  isProcessing : bool;
  completedResults : list ResultItem;
  error : list N;
  processedCount : nat;
  startTime : option Z;
  (** the wall clock: what the k-th reading returns *)
  b_clock : nat -> Z;
  b_tick : nat;
  (** the network: how the k-th [fetch] of [/api/process] ends, given the
      body sent *)
  b_fetch : nat -> JSValue -> FetchOutcome;
  (** the bodies sent, latest first *)
  b_requests : list JSValue;
  (** the parent: the callback calls made, latest first, and what the k-th
      of them throws, if it throws *)
  b_calls : list CallbackCall;
  b_callbackThrows : nat -> option Thrown;
  b_console : list ConsoleLine
}.

(** A computation of the component returns a value or throws, and changes
    the browser either way. *)
Definition C (A : Type) : Type := Browser -> Result A * Browser.

Definition ret {A} (a : A) : C A := fun b => (Ok a, b).

Definition bind {A B} (m : C A) (k : A -> C B) : C B :=
  fun b => match m b with
           | (Ok a, b') => k a b'
           | (Throw e, b') => (Throw e, b')
           end.

Definition throw {A} (e : Thrown) : C A := fun b => (Throw e, b).

Definition try_catch {A} (body : C A) (handler : Thrown -> C A) : C A :=
  fun b => match body b with
           | (Ok a, b') => (Ok a, b')
           | (Throw e, b') => handler e b'
           end.

(** [try { body } finally { final }], for a [final] that does not throw. *)
Definition try_finally {A} (body : C A) (final : Browser -> Browser) : C A :=
  fun b => match body b with
           | (r, b') => (r, final b')
           end.

Declare Scope client_scope.
Delimit Scope client_scope with client.
Notation "x <- m ;; k" := (bind m (fun x => k))
  (at level 100, m at next level, right associativity) : client_scope.
Notation "m ;; k" := (bind m (fun _ => k))
  (at level 100, right associativity) : client_scope.
Local Open Scope client_scope.

(** A change of the component's state or of the browser that cannot fail. *)
Definition update (f : Browser -> Browser) : C unit := fun b => (Ok tt, f b).

Definition setProcessingFiles
    (f : gmap (list N) ProcessingProgress -> gmap (list N) ProcessingProgress)
    (b : Browser) : Browser :=
  {| processingFiles := f (processingFiles b); isProcessing := isProcessing b;
     completedResults := completedResults b; error := error b;
     processedCount := processedCount b; startTime := startTime b;
     b_clock := b_clock b; b_tick := b_tick b; b_fetch := b_fetch b;
     b_requests := b_requests b; b_calls := b_calls b;
     b_callbackThrows := b_callbackThrows b; b_console := b_console b |}.

Definition setIsProcessing (v : bool) (b : Browser) : Browser :=
  {| processingFiles := processingFiles b; isProcessing := v;
     completedResults := completedResults b; error := error b;
     processedCount := processedCount b; startTime := startTime b;
     b_clock := b_clock b; b_tick := b_tick b; b_fetch := b_fetch b;
     b_requests := b_requests b; b_calls := b_calls b;
     b_callbackThrows := b_callbackThrows b; b_console := b_console b |}.

Definition setCompletedResults (v : list ResultItem) (b : Browser) : Browser :=
  {| processingFiles := processingFiles b; isProcessing := isProcessing b;
     completedResults := v; error := error b;
     processedCount := processedCount b; startTime := startTime b;
     b_clock := b_clock b; b_tick := b_tick b; b_fetch := b_fetch b;
     b_requests := b_requests b; b_calls := b_calls b;
     b_callbackThrows := b_callbackThrows b; b_console := b_console b |}.

Definition setError (v : list N) (b : Browser) : Browser :=
  {| processingFiles := processingFiles b; isProcessing := isProcessing b;
     completedResults := completedResults b; error := v;
     processedCount := processedCount b; startTime := startTime b;
     b_clock := b_clock b; b_tick := b_tick b; b_fetch := b_fetch b;
     b_requests := b_requests b; b_calls := b_calls b;
     b_callbackThrows := b_callbackThrows b; b_console := b_console b |}.

Definition setProcessedCount (f : nat -> nat) (b : Browser) : Browser :=
  {| processingFiles := processingFiles b; isProcessing := isProcessing b;
     completedResults := completedResults b; error := error b;
     processedCount := f (processedCount b); startTime := startTime b;
     b_clock := b_clock b; b_tick := b_tick b; b_fetch := b_fetch b;
     b_requests := b_requests b; b_calls := b_calls b;
     b_callbackThrows := b_callbackThrows b; b_console := b_console b |}.

Definition setStartTime (v : option Z) (b : Browser) : Browser :=
  {| processingFiles := processingFiles b; isProcessing := isProcessing b;
     completedResults := completedResults b; error := error b;
     processedCount := processedCount b; startTime := v;
     b_clock := b_clock b; b_tick := b_tick b; b_fetch := b_fetch b;
     b_requests := b_requests b; b_calls := b_calls b;
     b_callbackThrows := b_callbackThrows b; b_console := b_console b |}.

(** [new Date()] *)
Definition newDate : C Z :=
  fun b => (Ok (b_clock b (b_tick b)),
     {| processingFiles := processingFiles b; isProcessing := isProcessing b;
        completedResults := completedResults b; error := error b;
        processedCount := processedCount b; startTime := startTime b;
        b_clock := b_clock b; b_tick := S (b_tick b); b_fetch := b_fetch b;
        b_requests := b_requests b; b_calls := b_calls b;
        b_callbackThrows := b_callbackThrows b; b_console := b_console b |}).

(** [console.error(msg, ...)], recorded by its leading text. *)
Definition console_error (msg : list N) : C unit :=
  fun b => (Ok tt,
     {| processingFiles := processingFiles b; isProcessing := isProcessing b;
        completedResults := completedResults b; error := error b;
        processedCount := processedCount b; startTime := startTime b;
        b_clock := b_clock b; b_tick := b_tick b; b_fetch := b_fetch b;
        b_requests := b_requests b; b_calls := b_calls b;
        b_callbackThrows := b_callbackThrows b;
        b_console := ConsoleError msg :: b_console b |}).

(** A call of a callback of the parent: it is made, and may throw. *)
Definition callback (call : CallbackCall) : C unit :=
  fun b =>
    let b' :=
      {| processingFiles := processingFiles b; isProcessing := isProcessing b;
         completedResults := completedResults b; error := error b;
         processedCount := processedCount b; startTime := startTime b;
         b_clock := b_clock b; b_tick := b_tick b; b_fetch := b_fetch b;
         b_requests := b_requests b; b_calls := call :: b_calls b;
         b_callbackThrows := b_callbackThrows b; b_console := b_console b |} in
    match b_callbackThrows b (length (b_calls b)) with
    | Some e => (Throw e, b')
    | None => (Ok tt, b')
    end.

(** [await fetch('/api/process', { method: 'POST', ..., body })] *)
Definition fetch (body : JSValue) : C FetchOutcome :=
  fun b =>
    (Ok (b_fetch b (length (b_requests b)) body),
     {| processingFiles := processingFiles b; isProcessing := isProcessing b;
        completedResults := completedResults b; error := error b;
        processedCount := processedCount b; startTime := startTime b;
        b_clock := b_clock b; b_tick := b_tick b; b_fetch := b_fetch b;
        b_requests := body :: b_requests b; b_calls := b_calls b;
        b_callbackThrows := b_callbackThrows b; b_console := b_console b |}).

(** The object [JSON.stringify] is applied to for the body of the
    request. *)
Definition requestBody (file : UploadedFile) : JSValue :=
  JObj [ (lit "id", JStr (uf_id file));
         (lit "fileName", JStr (uf_name file));
         (lit "filePath", JStr (uf_filePath file));
         (lit "type", JStr (uf_type file)) ].

(** [progressUpdates] *)
Definition progressUpdates : list (Z * list N) :=
  [ (25, lit "Extracting text content...");
    (50, lit "Running AI analysis...");
    (75, lit "Processing insights...") ].

Section Component.

(** The props: [files], and whether the two optional callbacks are
    passed. *)
Variable files : list UploadedFile.
Variable onProcessingStart : bool.
Variable onProcessingProgress : bool.

(** [files.forEach(file => { initialStatus[file.id] = ... })] *)
Definition initialStatus : gmap (list N) ProcessingProgress :=
  foldl (fun acc file =>
           <[uf_id file :=
               {| fileId := uf_id file; progress := 0;
                  status := lit "Initializing...";
                  message := Some (lit "Preparing document for analysis") |}]> acc)
        ∅ files.

(** [for (const update of progressUpdates) { ... }]; the timer between two
    updates changes nothing the component reads. *)
Fixpoint reportUpdates (file : UploadedFile) (updates : list (Z * list N))
  : C unit :=
  match updates with
  | [] => ret tt
  | (p, m) :: rest =>
      update (setProcessingFiles
                (insert (uf_id file)
                   {| fileId := uf_id file; progress := p;
                      status := lit "Processing..."; message := Some m |})) ;;
      (if onProcessingProgress
       then callback (OnProcessingProgress
                        {| fileId := uf_id file; progress := p;
                           status := lit "Processing..."; message := Some m |})
       else ret tt) ;;
      reportUpdates file rest
  end.

(** The inner [try] block: what is pushed onto [results] when it gets
    through. *)
Definition processFile (file : UploadedFile) : C ResultItem :=
  update (setProcessingFiles
            (insert (uf_id file)
               {| fileId := uf_id file; progress := 10;
                  status := lit "Processing...";
                  message := Some (lit "Analyzing document content") |})) ;;
  (if onProcessingProgress
   then callback (OnProcessingProgress
                    {| fileId := uf_id file; progress := 10;
                       status := lit "Processing..."; message := None |})
   else ret tt) ;;
  reportUpdates file progressUpdates ;;
  response <- fetch (requestBody file) ;;
  match response with
  | FetchRejected e => throw e
  | FetchResponse ok statusText json =>
      if negb ok
      then throw (JsError (lit "Processing failed: " ++ statusText))
      else
        match json with
        | Throw e => throw e
        | Ok result =>
            update (setProcessingFiles
                      (insert (uf_id file)
                         {| fileId := uf_id file; progress := 100;
                            status := lit "Completed";
                            message := Some (lit "Analysis complete!") |})) ;;
            update (setProcessedCount S) ;;
            ret (FromServer result)
        end
  end.

(** The inner [catch]: the error record that is pushed. *)
Definition fileFailed (file : UploadedFile) (fileError : Thrown) : C ResultItem :=
  console_error (lit "Failed to process " ++ uf_name file ++ lit ":") ;;
  update (setProcessingFiles
            (insert (uf_id file)
               {| fileId := uf_id file; progress := 0;
                  status := lit "Error";
                  message := Some (match fileError with
                                   | JsError m => m
                                   | JsNonError => lit "Processing failed"
                                   end) |})) ;;
  analyzedAt <- newDate ;;
  update (setProcessedCount S) ;;
  ret (ErrorRecord
         {| id := uf_id file;
            fileName := uf_name file;
            fileType := uf_type file;
            processingTime := 0;
            textContent := [];
            wordCount := 0;
            pageCount := None;
            sentiment := JStr (lit "Error");
            topics := [];
            summary := JStr (lit "Processing failed: " ++ errorMessage fileError);
            entities := [];
            keyInsights := [];
            analyzedAt := analyzedAt;
            confidence := JNum (Dec 0 0) |}).

(** [for (let i = 0; i < files.length; i++) { ... }] *)
Fixpoint processLoop (rest : list UploadedFile) (results : list ResultItem)
  : C (list ResultItem) :=
  match rest with
  | [] => ret results
  | file :: rest' =>
      pushed <- try_catch (processFile file) (fileFailed file) ;;
      processLoop rest' (results ++ [pushed])
  end.

Definition startProcessing : C unit :=
  if (length files =? 0)%nat then ret tt
  else
    update (setIsProcessing true) ;;
    now <- newDate ;;
    update (setStartTime (Some now)) ;;
    update (setError []) ;;
    update (setCompletedResults []) ;;
    update (setProcessedCount (fun _ => O)) ;;
    (if onProcessingStart then callback OnProcessingStart else ret tt) ;;
    update (setProcessingFiles (fun _ => initialStatus)) ;;
    try_finally
      (try_catch
         (results <- processLoop files [] ;;
          update (setCompletedResults results) ;;
          callback (OnProcessingComplete results))
         (fun error =>
            console_error (lit "Batch processing error:") ;;
            update (setError (match error with
                              | JsError m => m
                              | JsNonError => lit "Processing failed"
                              end))))
      (setIsProcessing false).

(** [allFilesCompleted] *)
Definition allFilesCompleted (b : Browser) : bool :=
  (processedCount b =? length files)%nat && (0 <? length files)%nat.

End Component.

End ProcessingStatus.

(* ===================================================================== *)
(** * The FileUpload component (components/document-processor/FileUpload) *)
(* ===================================================================== *)

Module FileUpload.

(** An element of [successfulFiles]: the properties are the values read from
    the entry of the response, [uploadedAt] the value [new Date] is applied
    to. *)
Record UploadedFile := {
  uf_id : JSValue;
  uf_name : JSValue;
  uf_size : JSValue;
  uf_type : JSValue;
  uf_uploadedAt : JSValue;
  uf_status : list N;
  uf_filePath : JSValue
}.

(** How the [fetch] of [/api/upload] ends: it rejects, or it resolves with a
    response, read through [response.ok] and [response.json()]. *)
Inductive FetchOutcome :=
| FetchRejected (e : Thrown)
| FetchResponse (ok : bool) (json : Result JSValue).

Record Browser := {
  (** the state of the component that [uploadFiles] sets *)
  uploadProgress : gmap (list N) Q;
  isUploading : bool;
  error : list N;
  (** the network: how the k-th [fetch] ends, given the files of the form,
      and how often the progress interval fires while it is in flight *)
  b_fetch : nat -> list File -> FetchOutcome;
  b_ticks : nat -> nat;
  (** the forms sent, latest first *)
  b_requests : list (list File);
  (** [Math.random()]: what the k-th call returns, and the calls made *)
  b_random : nat -> Q;
  b_drawn : nat;
  (** the timers: intervals that are running, time-outs that are pending *)
  b_intervals : nat;
  b_timeouts : nat;
  (** the parent: the calls of [onFilesUploaded], latest first, and what the
      k-th of them throws, if it throws *)
  b_calls : list (list UploadedFile);
  b_callbackThrows : nat -> option Thrown;
  b_console : list ConsoleLine
}.

(** A computation of the component returns a value or throws, and changes
    the browser either way. *)
Definition C (A : Type) : Type := Browser -> Result A * Browser.

Definition ret {A} (a : A) : C A := fun b => (Ok a, b).

Definition bind {A B} (m : C A) (k : A -> C B) : C B :=
  fun b => match m b with
           | (Ok a, b') => k a b'
           | (Throw e, b') => (Throw e, b')
           end.

Definition throw {A} (e : Thrown) : C A := fun b => (Throw e, b).

Definition liftResult {A} (r : Result A) : C A := fun b => (r, b).

Definition try_catch {A} (body : C A) (handler : Thrown -> C A) : C A :=
  fun b => match body b with
           | (Ok a, b') => (Ok a, b')
           | (Throw e, b') => handler e b'
           end.

(** [try { body } finally { final }], for a [final] that does not throw. *)
Definition try_finally {A} (body : C A) (final : Browser -> Browser) : C A :=
  fun b => match body b with
           | (r, b') => (r, final b')
           end.

Declare Scope upload_scope.
Delimit Scope upload_scope with upload.
Notation "x <- m ;; k" := (bind m (fun x => k))
  (at level 100, m at next level, right associativity) : upload_scope.
Notation "m ;; k" := (bind m (fun _ => k))
  (at level 100, right associativity) : upload_scope.
Local Open Scope upload_scope.

(** A change of the component's state or of the browser that cannot fail. *)
Definition update (f : Browser -> Browser) : C unit := fun b => (Ok tt, f b).

Definition setUploadProgress (f : gmap (list N) Q -> gmap (list N) Q)
    (b : Browser) : Browser :=
  {| uploadProgress := f (uploadProgress b); isUploading := isUploading b;
     error := error b; b_fetch := b_fetch b; b_ticks := b_ticks b;
     b_requests := b_requests b; b_random := b_random b; b_drawn := b_drawn b;
     b_intervals := b_intervals b; b_timeouts := b_timeouts b;
     b_calls := b_calls b; b_callbackThrows := b_callbackThrows b;
     b_console := b_console b |}.

Definition setIsUploading (v : bool) (b : Browser) : Browser :=
  {| uploadProgress := uploadProgress b; isUploading := v;
     error := error b; b_fetch := b_fetch b; b_ticks := b_ticks b;
     b_requests := b_requests b; b_random := b_random b; b_drawn := b_drawn b;
     b_intervals := b_intervals b; b_timeouts := b_timeouts b;
     b_calls := b_calls b; b_callbackThrows := b_callbackThrows b;
     b_console := b_console b |}.

Definition setError (v : list N) (b : Browser) : Browser :=
  {| uploadProgress := uploadProgress b; isUploading := isUploading b;
     error := v; b_fetch := b_fetch b; b_ticks := b_ticks b;
     b_requests := b_requests b; b_random := b_random b; b_drawn := b_drawn b;
     b_intervals := b_intervals b; b_timeouts := b_timeouts b;
     b_calls := b_calls b; b_callbackThrows := b_callbackThrows b;
     b_console := b_console b |}.

(** [setInterval(...)] starts an interval, [clearInterval(progressInterval)]
    stops it. *)
Definition setIntervals (f : nat -> nat) (b : Browser) : Browser :=
  {| uploadProgress := uploadProgress b; isUploading := isUploading b;
     error := error b; b_fetch := b_fetch b; b_ticks := b_ticks b;
     b_requests := b_requests b; b_random := b_random b; b_drawn := b_drawn b;
     b_intervals := f (b_intervals b); b_timeouts := b_timeouts b;
     b_calls := b_calls b; b_callbackThrows := b_callbackThrows b;
     b_console := b_console b |}.

(** [setTimeout(() => setUploadProgress({}), 2000)]: the time-out is pending
    when [uploadFiles] is through. *)
Definition setTimeout (b : Browser) : Browser :=
  {| uploadProgress := uploadProgress b; isUploading := isUploading b;
     error := error b; b_fetch := b_fetch b; b_ticks := b_ticks b;
     b_requests := b_requests b; b_random := b_random b; b_drawn := b_drawn b;
     b_intervals := b_intervals b; b_timeouts := S (b_timeouts b);
     b_calls := b_calls b; b_callbackThrows := b_callbackThrows b;
     b_console := b_console b |}.

(** [Math.random()] *)
Definition Math_random : C Q :=
  fun b => (Ok (b_random b (b_drawn b)),
     {| uploadProgress := uploadProgress b; isUploading := isUploading b;
        error := error b; b_fetch := b_fetch b; b_ticks := b_ticks b;
        b_requests := b_requests b; b_random := b_random b;
        b_drawn := S (b_drawn b);
        b_intervals := b_intervals b; b_timeouts := b_timeouts b;
        b_calls := b_calls b; b_callbackThrows := b_callbackThrows b;
        b_console := b_console b |}).

(** [console.error(msg, ...)], recorded by its leading text. *)
Definition console_error (msg : list N) : C unit :=
  fun b => (Ok tt,
     {| uploadProgress := uploadProgress b; isUploading := isUploading b;
        error := error b; b_fetch := b_fetch b; b_ticks := b_ticks b;
        b_requests := b_requests b; b_random := b_random b;
        b_drawn := b_drawn b;
        b_intervals := b_intervals b; b_timeouts := b_timeouts b;
        b_calls := b_calls b; b_callbackThrows := b_callbackThrows b;
        b_console := ConsoleError msg :: b_console b |}).

(** [onFilesUploaded(successfulFiles)]: the call is made, and may throw. *)
Definition onFilesUploaded (successfulFiles : list UploadedFile) : C unit :=
  fun b =>
    let b' :=
      {| uploadProgress := uploadProgress b; isUploading := isUploading b;
         error := error b; b_fetch := b_fetch b; b_ticks := b_ticks b;
         b_requests := b_requests b; b_random := b_random b;
         b_drawn := b_drawn b;
         b_intervals := b_intervals b; b_timeouts := b_timeouts b;
         b_calls := successfulFiles :: b_calls b;
         b_callbackThrows := b_callbackThrows b;
         b_console := b_console b |} in
    match b_callbackThrows b (length (b_calls b)) with
    | Some e => (Throw e, b')
    | None => (Ok tt, b')
    end.

(** The request leaves: the form is on its way. *)
Definition send (form : list File) (b : Browser) : Browser :=
  {| uploadProgress := uploadProgress b; isUploading := isUploading b;
     error := error b; b_fetch := b_fetch b; b_ticks := b_ticks b;
     b_requests := form :: b_requests b; b_random := b_random b;
     b_drawn := b_drawn b;
     b_intervals := b_intervals b; b_timeouts := b_timeouts b;
     b_calls := b_calls b; b_callbackThrows := b_callbackThrows b;
     b_console := b_console b |}.

(** [Math.round(n / 1024 / 1024)] for an integer [n]: the nearest integer,
    a half rounded up. *)
Definition roundMB (n : Z) : Z := (n + 524288) / 1048576.

(** An integer in a template literal. *)
Definition showInt (z : Z) : list N :=
  if z <? 0 then lit "-" ++ PdfParser.showNat (Z.to_nat (- z))
  else PdfParser.showNat (Z.to_nat z).

(** [result.files.filter]: the elements of an array; anything else has no
    [filter]. *)
Definition filterOf (v : JSValue) : Result (list JSValue) :=
  match v with
  | JArr items => Ok items
  | JUndefined =>
      Throw (JsError (lit "Cannot read properties of undefined (reading 'filter')"))
  | JNull =>
      Throw (JsError (lit "Cannot read properties of null (reading 'filter')"))
  | _ => Throw (JsError (lit "result.files.filter is not a function"))
  end.

(** [items.filter(file => keep(file.success))]; reading [success] throws at
    an element that is [null]. *)
Fixpoint filterSuccess (keep : bool -> bool) (items : list JSValue)
  : Result (list JSValue) :=
  match items with
  | [] => Ok []
  | file :: rest =>
      match JsValue.getProp file (lit "success") with
      | Throw e => Throw e
      | Ok success =>
          match filterSuccess keep rest with
          | Throw e => Throw e
          | Ok kept =>
              Ok (if keep (JsValue.truthy success) then file :: kept else kept)
          end
      end
  end.

(** The object [map] builds from an entry of the response. *)
Definition uploadedOf (file : JSValue) : Result UploadedFile :=
  match JsValue.getProp file (lit "id"),
        JsValue.getProp file (lit "originalName"),
        JsValue.getProp file (lit "size"),
        JsValue.getProp file (lit "type"),
        JsValue.getProp file (lit "uploadedAt"),
        JsValue.getProp file (lit "filePath") with
  | Ok id, Ok originalName, Ok size, Ok type, Ok uploadedAt, Ok filePath =>
      Ok {| uf_id := id; uf_name := originalName; uf_size := size;
            uf_type := type; uf_uploadedAt := uploadedAt;
            uf_status := lit "uploaded"; uf_filePath := filePath |}
  | Throw e, _, _, _, _, _ => Throw e
  | _, Throw e, _, _, _, _ => Throw e
  | _, _, Throw e, _, _, _ => Throw e
  | _, _, _, Throw e, _, _ => Throw e
  | _, _, _, _, Throw e, _ => Throw e
  | _, _, _, _, _, Throw e => Throw e
  end.

(** [items.map(f)] for an [f] that may throw. *)
Fixpoint mapResult {A B} (f : A -> Result B) (items : list A) : Result (list B) :=
  match items with
  | [] => Ok []
  | item :: rest =>
      match f item with
      | Throw e => Throw e
      | Ok b =>
          match mapResult f rest with
          | Throw e => Throw e
          | Ok bs => Ok (b :: bs)
          end
      end
  end.

(** [cells.join(sep)] on strings. *)
Fixpoint joinWith (sep : list N) (cells : list (list N)) : list N :=
  match cells with
  | [] => []
  | cell :: rest =>
      match rest with
      | [] => cell
      | _ :: _ => cell ++ sep ++ joinWith sep rest
      end
  end.

Section Component.

(** The props: [maxFiles] and [maxFileSize], both integers. *)
Variable maxFiles : Z.
Variable maxFileSize : Z.
(** The text of a number, which the model leaves open. *)
Variable Number_toString : JSNumber -> list N.

(** The text [join] writes for an element: nothing for [undefined] and
    [null], and for an array its own elements joined by a comma. *)
Fixpoint joinText (v : JSValue) : list N :=
  match v with
  | JUndefined | JNull => []
  | JBool b => if b then lit "true" else lit "false"
  | JNum n => Number_toString n
  | JStr s => s
  | JArr items =>
      (fix joined (items : list JSValue) : list N :=
         match items with
         | [] => []
         | item :: rest =>
             match rest with
             | [] => joinText item
             | _ :: _ => joinText item ++ lit "," ++ joined rest
             end
         end) items
  | JObj _ => lit "[object Object]"
  end.

(** [validateFile] *)
Definition validateFile (file : File) : option (list N) :=
  if maxFileSize <? f_size file then
    Some (litq "File '" ++ f_name file
            ++ litq "' is too large. Maximum size is "
            ++ showInt (roundMB maxFileSize) ++ lit "MB.")
  else if negb (bool_decide
                  (f_type file ∈
                     [ lit "application/pdf";
                       lit "application/vnd.openxmlformats-officedocument.wordprocessingml.document";
                       lit "application/msword";
                       lit "text/plain" ])) then
    Some (litq "File '" ++ f_name file
            ++ litq "' is not a supported format. Please use PDF, Word, or Text files.")
  else None.

(** [for (const file of files) { ... }]: the message of the first file whose
    validation is truthy. *)
Fixpoint firstInvalid (files : list File) : option (list N) :=
  match files with
  | [] => None
  | file :: rest =>
      match validateFile file with
      | Some validation =>
          if JsString.truthy validation then Some validation
          else firstInvalid rest
      | None => firstInvalid rest
      end
  end.

(** The body of the interval's updater: [files.forEach(file => { ... })] on
    the copy [updated]. *)
Fixpoint bumpAll (files : list File) (updated : gmap (list N) Q)
  : C (gmap (list N) Q) :=
  match files with
  | [] => ret updated
  | file :: rest =>
      match updated !! f_name file with
      | Some shown =>
          if Qlt_le_dec shown 90 then
            r <- Math_random ;;
            let raised := (shown + r * 30)%Q in
            bumpAll rest
              (<[f_name file := if Qlt_le_dec raised 90 then raised else 90%Q]>
                 updated)
          else bumpAll rest updated
      | None => bumpAll rest updated
      end
  end.

(** One firing of the interval. *)
Definition progressTick (files : list File) : C unit :=
  fun b =>
    match bumpAll files (uploadProgress b) b with
    | (Ok updated, b') => (Ok tt, setUploadProgress (fun _ => updated) b')
    | (Throw e, b') => (Throw e, b')
    end.

Fixpoint progressTicks (n : nat) (files : list File) : C unit :=
  match n with
  | O => ret tt
  | S n' => progressTick files ;; progressTicks n' files
  end.

(** [await fetch('/api/upload', { method: 'POST', body: formData })]; the
    interval fires while the request is in flight. *)
Definition fetch (form : list File) : C FetchOutcome :=
  fun b =>
    let k := length (b_requests b) in
    match progressTicks (b_ticks b k) form (send form b) with
    | (Ok _, b') => (Ok (b_fetch b k form), b')
    | (Throw e, b') => (Throw e, b')
    end.

(** What follows [if (result.success)]. *)
Definition reportResult (result : JSValue) : C unit :=
  resultFiles <- liftResult (JsValue.getProp result (lit "files")) ;;
  items <- liftResult (filterOf resultFiles) ;;
  kept <- liftResult (filterSuccess (fun success => success) items) ;;
  successfulFiles <- liftResult (mapResult uploadedOf kept) ;;
  onFilesUploaded successfulFiles ;;
  resultFiles' <- liftResult (JsValue.getProp result (lit "files")) ;;
  items' <- liftResult (filterOf resultFiles') ;;
  failedFiles <- liftResult (filterSuccess negb items') ;;
  if (0 <? length failedFiles)%nat then
    errors <- liftResult
                (mapResult (fun f => JsValue.getProp f (lit "error")) failedFiles) ;;
    update (setError (lit "Some files failed to upload: "
                        ++ joinWith (lit ", ") (joinText <$> errors)))
  else ret tt.

(** The [try] block. *)
Definition upload (files : list File) : C unit :=
  update (setUploadProgress
            (fun prev => foldl (fun acc file => <[f_name file := 0%Q]> acc)
                               prev files)) ;;
  update (setIntervals S) ;;
  response <- fetch files ;;
  match response with
  | FetchRejected e => throw e
  | FetchResponse ok json =>
      update (setIntervals Nat.pred) ;;
      if negb ok then throw (JsError (lit "Upload failed"))
      else
        result <- liftResult json ;;
        update (setUploadProgress
                  (fun prev => foldl (fun acc file => <[f_name file := 100%Q]> acc)
                                     prev files)) ;;
        update setTimeout ;;
        success <- liftResult (JsValue.getProp result (lit "success")) ;;
        if JsValue.truthy success then reportResult result else ret tt
  end.

(** The [catch] block. *)
Definition uploadFailed (error : Thrown) : C unit :=
  console_error (lit "Upload error:") ;;
  update (setError (lit "Failed to upload files. Please try again.")) ;;
  update (setUploadProgress (fun _ => ∅)).

(** [uploadFiles] *)
Definition uploadFiles (files : list File) : C unit :=
  if (length files =? 0)%nat then ret tt
  else
    update (setIsUploading true) ;;
    update (setError []) ;;
    match firstInvalid files with
    | Some validation =>
        update (setError validation) ;;
        update (setIsUploading false)
    | None =>
        if maxFiles <? Z.of_nat (length files) then
          update (setError (lit "Too many files selected. Maximum is "
                              ++ showInt maxFiles ++ lit " files.")) ;;
          update (setIsUploading false)
        else
          try_finally (try_catch (upload files) uploadFailed)
                      (setIsUploading false)
    end.

End Component.

End FileUpload.

(* ===================================================================== *)
(** * Notions the specification speaks in *)
(* ===================================================================== *)

(** [Tokenized text toks]: [toks] are the whitespace-delimited tokens of [text],
    in order: the maximal runs of code units that are not whitespace. *)
Inductive Tokenized : list N -> list (list N) -> Prop :=
| Tokenized_end : Tokenized [] []
| Tokenized_space c text toks :
    isWhiteSpace c = true ->
    Tokenized text toks ->
    Tokenized (c :: text) toks
| Tokenized_token tok text toks :
    tok <> [] ->
    Forall (fun c => isWhiteSpace c = false) tok ->
    (text = [] \/ exists c text', text = c :: text' /\ isWhiteSpace c = true) ->
    Tokenized text toks ->
    Tokenized (tok ++ text) (tok :: toks).

(** [containsPat pat s]: [pat] occurs somewhere in [s]. *)
Fixpoint containsPat (pat s : list N) : bool :=
  match s with
  | [] => startsWith pat []
  | _ :: s' => startsWith pat s || containsPat pat s'
  end.

(** The specification's reading of the brace search, "the first balanced-brace
    substring": from the first opening brace to the closing brace that
    balances it. [balancedFrom depth s] reads [s] behind [depth] unclosed
    opening braces. *)
Fixpoint balancedFrom (depth : nat) (s : list N) : option (list N) :=
  match s with
  | [] => None
  | c :: s' =>
      if (c =? LBRACE)%N then cons c <$> balancedFrom (S depth) s'
      else if (c =? RBRACE)%N then
        match depth with
        | O => None
        | S O => Some [c]
        | S d => cons c <$> balancedFrom d s'
        end
      else cons c <$> balancedFrom depth s'
  end.

Definition firstBalanced (s : list N) : option (list N) :=
  match fromFirst LBRACE s with
  | Some (open :: rest) => cons open <$> balancedFrom 1 rest
  | _ => None
  end.

(** The text the specification's parser hands to [JSON.parse]. *)
Definition specCandidate (cleanedResponse : list N) : list N :=
  match firstBalanced cleanedResponse with
  | Some balanced => balanced
  | None => cleanedResponse
  end.

(** The record is the one of this descriptor: same id, file name and type. *)
Definition describes (file : FileData) (r : DocumentAnalysis) : Prop :=
  id r = fd_id file /\ fileName r = fd_fileName file /\
  fileType r = fd_type file.

(** The file is older than one hour at a reading [now] of the clock. *)
Definition olderThanOneHour (now : Z) (e : Entry) : Prop :=
  now - e_mtime e > 3600000.

(** No file-system call the sweep makes up to and including the file at
    position [i] of the listing [files] fails for an outside reason: the
    listing itself, the [stat] of each file up to there, and the [unlink] of
    each of them that is older than one hour at the reading of the clock the
    sweep compares it with. *)
Definition sweepUnhinderedUpTo (w : World) (files : list (list N)) (i : nat)
  : Prop :=
  w_fault w OpReaddir = false /\
  forall j q,
    (j <= i)%nat -> files !! j = Some q ->
    w_fault w (OpStat q) = false /\
    forall e,
      Fs.lookup q w = Some e ->
      olderThanOneHour (w_clock w (w_tick w + j)%nat) e ->
      w_fault w (OpUnlink q) = false.

(** Two worlds that differ at most in which deletions fail for an outside
    reason. *)
Definition sameButUnlinkFaults (w1 w2 : World) : Prop :=
  w_uploads w1 = w_uploads w2 /\
  (forall op, (forall p, op <> OpUnlink p) -> w_fault w1 op = w_fault w2 op) /\
  w_clock w1 = w_clock w2 /\ w_tick w1 = w_tick w2 /\
  w_model w1 = w_model w2 /\ w_calls w1 = w_calls w2 /\
  w_uuid w1 = w_uuid w2 /\ w_uuids w1 = w_uuids w2.

(** Two worlds that agree on everything but temp storage, its faults and the
    console. *)
Definition sameOutsideStorage (w1 w2 : World) : Prop :=
  w_clock w1 = w_clock w2 /\ w_tick w1 = w_tick w2 /\
  w_model w1 = w_model w2 /\ w_calls w1 = w_calls w2 /\
  w_uuid w1 = w_uuid w2 /\ w_uuids w1 = w_uuids w2.

(** Two worlds that differ at most in their console output. *)
Definition sameButConsole (w1 w2 : World) : Prop :=
  w_uploads w1 = w_uploads w2 /\ w_fault w1 = w_fault w2 /\
  sameOutsideStorage w1 w2.

(** Every code unit is whitespace (the empty text included). *)
Definition blank (text : list N) : Prop :=
  Forall (fun c => isWhiteSpace c = true) text.

(** [Rel2 P Q m]: run from worlds related by [P], [m] gives the same outcome
    and worlds related by [Q]. *)
Definition Rel2 {A} (P Q : World -> World -> Prop) (m : M A) : Prop :=
  forall w1 w2, P w1 w2 ->
    fst (m w1) = fst (m w2) /\ Q (snd (m w1)) (snd (m w2)).

(** [Keeps I m]: whatever [I] relates a reference world to before [m] runs, it
    still relates it to afterwards. *)
Definition Keeps {A} (I : World -> World -> Prop) (m : M A) : Prop :=
  forall w0 w, I w0 w -> I w0 (snd (m w)).

(** The fault plan is the one of the reference world. *)
Definition sameFaults (w0 w : World) : Prop := w_fault w = w_fault w0.

(** The console line [deleteUploadedFile] leaves for a path. *)
Definition deletionLine (filePath : list N) (l : ConsoleLine) : Prop :=
  l = ConsoleLog (lit "Deleted uploaded file: " ++ filePath) \/
  l = ConsoleError (lit "Failed to delete file " ++ filePath ++ lit ":").

(** The state a deletion attempt on [filePath] leaves: its console line is the
    latest one, and the entry is gone unless the deletion failed for an
    outside reason. *)
Definition afterDeletion (filePath : list N) (w : World) : Prop :=
  (exists line older, w_console w = line :: older /\ deletionLine filePath line) /\
  (w_fault w (OpUnlink filePath) = false -> Fs.lookup filePath w = None).

(** The file's size is above the configured maximum; nothing is when the
    configured value is not a number. *)
Definition exceedsLimit (maxSize : option Z) (file : File) : Prop :=
  match maxSize with
  | Some m => f_size file > m
  | None => False
  end.

(** How the element pushed for an uploaded file relates to the file: rejected
    for its size, rejected for its type, saved, or accepted but not saved. *)
Inductive UploadOutcome (maxSize : option Z) (file : File) : UploadResult -> Prop :=
| OutcomeTooLarge :
    exceedsLimit maxSize file ->
    UploadOutcome maxSize file
      (UploadFailure (f_name file) (lit "File size exceeds limit (10MB)"))
| OutcomeUnsupported :
    ~ exceedsLimit maxSize file ->
    f_type file ∉ allowedTypes ->
    UploadOutcome maxSize file
      (UploadFailure (f_name file) (lit "Unsupported file type"))
| OutcomeSaved fileId filePath uploadedAt :
    ~ exceedsLimit maxSize file ->
    f_type file ∈ allowedTypes ->
    UploadOutcome maxSize file
      (UploadSuccess fileId (f_name file) (f_name file) (f_size file)
                     (f_type file) filePath uploadedAt)
| OutcomeNotSaved :
    ~ exceedsLimit maxSize file ->
    f_type file ∈ allowedTypes ->
    UploadOutcome maxSize file
      (UploadFailure (f_name file) (lit "Failed to save file")).

(** The uploads directory exists in one world exactly when it does in the
    other. *)
Definition sameDirPresence (w0 w : World) : Prop :=
  w_uploads w = None <-> w_uploads w0 = None.

(** The upload directory is missing and cannot be created. *)
Definition cannotCreateDir (w : World) : Prop :=
  w_uploads w = None /\ w_fault w OpMkdir = true.

(* ===================================================================== *)
(** * Further notions *)
(* ===================================================================== *)

(** The model has been invoked as often as in the reference world. *)
Definition sameCalls (w0 w : World) : Prop := w_calls w = w_calls w0.

(** Temp storage differs from the reference world's at most by the removal of
    entries at [paths]: nothing was created, nothing was rewritten, and the
    directory is there or not as before. *)
Definition removedAtMost (paths : list (list N)) (w0 w : World) : Prop :=
  (forall q, Fs.lookup q w = None \/ Fs.lookup q w = Fs.lookup q w0) /\
  (forall q, q ∉ paths -> Fs.lookup q w = Fs.lookup q w0) /\
  sameDirPresence w0 w.

(** [analysis.k] once [analysis] is known to be neither [null] nor
    [undefined]. *)
Definition fieldOf (analysis : JSValue) (k : list N) : JSValue :=
  match analysis with
  | JObj fields => JsValue.objGet fields k
  | _ => JUndefined
  end.

(** The value [analysis] is bound to after the inner [try]/[catch] of
    [processDocumentAction]. *)
Definition analysisOf (parsed : Result JSValue) : JSValue :=
  match parsed with
  | Ok v => v
  | Throw _ => fallbackAnalysis
  end.

(** The id under which an element of [uploadResults] reports a saved file. *)
Definition uploadedId (r : UploadResult) : option (list N) :=
  match r with
  | UploadSuccess id _ _ _ _ _ _ => Some id
  | UploadFailure _ _ => None
  end.

(** The path under which an element of [uploadResults] reports a saved
    file. *)
Definition uploadedPath (r : UploadResult) : option (list N) :=
  match r with
  | UploadSuccess _ _ _ _ _ filePath _ => Some filePath
  | UploadFailure _ _ => None
  end.

(** A path that [path.join("./uploads", p)] resolves to the entry named [p] of
    the uploads directory: one segment, that is, not empty, neither "." nor
    "..", and without a slash or a NUL. *)
Definition plainName (p : list N) : Prop :=
  p <> [] /\ p <> lit "." /\ p <> lit ".." /\
  Forall (fun c => c <> 47%N /\ c <> 0%N) p.

(** What failing writes leave behind is as in the reference world. *)
Definition sameRemnants (w0 w : World) : Prop := w_remnant w = w_remnant w0.

(** The entry [e] at path [q] is what a failed save of [file] left behind:
    the id drawn for the file is the [k]-th, the write to the path fails
    after the file was opened, and the entry holds the bytes written until
    then. *)
Definition leftBehind (path_extname : list N -> list N) (w : World)
    (file : File) (q : list N) (e : Entry) : Prop :=
  exists k written,
    q = w_uuid w k ++ path_extname (f_name file) /\
    w_fault w (OpWriteFile q) = true /\
    w_remnant w q = Some written /\
    e_data e = take written (f_bytes file).

(** The id generator is where it was in the reference world. *)
Definition sameUuids (w0 w : World) : Prop :=
  w_uuid w = w_uuid w0 /\ w_uuids w = w_uuids w0.

(** [text.split(/\s+/).filter(Boolean)]: the words [countWords] counts. *)
Definition wordsOf (text : list N) : list (list N) :=
  filter (fun piece => JsString.truthy piece = true) (split_whitespace text).

(** The texts of the runs of a page that the parser reads, in order: the
    non-empty [T] of the runs of its texts. *)
Definition runsOfPage (page : PdfParser.PDFPage) : list (list N) :=
  match PdfParser.Texts page with
  | Some texts =>
      texts ≫= (fun text =>
                  match PdfParser.R text with
                  | Some runs =>
                      filter (fun t => JsString.truthy t = true)
                             (PdfParser.T <$> runs)
                  | None => []
                  end)
  | None => []
  end.

(** The run texts decoded one after the other; the first failure is the
    outcome. *)
Fixpoint decodeAll (decode : list N -> Result (list N)) (ts : list (list N))
  : Result (list (list N)) :=
  match ts with
  | [] => Ok []
  | t :: rest =>
      match decode t with
      | Ok d =>
          match decodeAll decode rest with
          | Ok ds => Ok (d :: ds)
          | Throw e => Throw e
          end
      | Throw e => Throw e
      end
  end.

(** What the component reports of one file to [onProcessingProgress], in
    order. *)
Definition progressReports (file : ProcessingStatus.UploadedFile)
  : list ProcessingStatus.ProcessingProgress :=
  {| ProcessingStatus.fileId := ProcessingStatus.uf_id file;
     ProcessingStatus.progress := 10;
     ProcessingStatus.status := lit "Processing...";
     ProcessingStatus.message := None |}
  :: List.map (fun '(p, m) =>
                 {| ProcessingStatus.fileId := ProcessingStatus.uf_id file;
                    ProcessingStatus.progress := p;
                    ProcessingStatus.status := lit "Processing...";
                    ProcessingStatus.message := Some m |})
              ProcessingStatus.progressUpdates.

(** The entry of [processingFiles] a file ends with: completed, or failed
    with a message. *)
Definition completedEntry (file : ProcessingStatus.UploadedFile)
  : ProcessingStatus.ProcessingProgress :=
  {| ProcessingStatus.fileId := ProcessingStatus.uf_id file;
     ProcessingStatus.progress := 100;
     ProcessingStatus.status := lit "Completed";
     ProcessingStatus.message := Some (lit "Analysis complete!") |}.

Definition errorEntry (file : ProcessingStatus.UploadedFile) (m : list N)
  : ProcessingStatus.ProcessingProgress :=
  {| ProcessingStatus.fileId := ProcessingStatus.uf_id file;
     ProcessingStatus.progress := 0;
     ProcessingStatus.status := lit "Error";
     ProcessingStatus.message := Some m |}.

(** The element of [results] is one the component may push for the file:
    what the server sent, or an error record that names the file. *)
Definition itemOf (file : ProcessingStatus.UploadedFile)
    (item : ProcessingStatus.ResultItem) : Prop :=
  match item with
  | ProcessingStatus.FromServer _ => True
  | ProcessingStatus.ErrorRecord r =>
      id r = ProcessingStatus.uf_id file /\
      fileName r = ProcessingStatus.uf_name file /\
      fileType r = ProcessingStatus.uf_type file /\
      sentiment r = JStr (lit "Error") /\
      confidence r = JNum (Dec 0 0) /\
      wordCount r = 0%nat /\ pageCount r = None /\
      exists cause, summary r = JStr (lit "Processing failed: " ++ cause)
  end.

(** The browser outside the component's state of progress: the rest of the
    state, the clock, the network and the parent's behaviour are those of the
    reference browser. *)
Definition sameSurroundings (b0 b : ProcessingStatus.Browser) : Prop :=
  ProcessingStatus.isProcessing b = ProcessingStatus.isProcessing b0 /\
  ProcessingStatus.completedResults b = ProcessingStatus.completedResults b0 /\
  ProcessingStatus.error b = ProcessingStatus.error b0 /\
  ProcessingStatus.startTime b = ProcessingStatus.startTime b0 /\
  ProcessingStatus.b_clock b = ProcessingStatus.b_clock b0 /\
  ProcessingStatus.b_fetch b = ProcessingStatus.b_fetch b0 /\
  ProcessingStatus.b_callbackThrows b = ProcessingStatus.b_callbackThrows b0.

(** All that has happened between two browsers is that the progress of a
    file was set, and reported to the parent by the calls [reported]. *)
Definition progressOnly (file : ProcessingStatus.UploadedFile)
    (reported : list ProcessingStatus.ProcessingProgress)
    (b b' : ProcessingStatus.Browser) : Prop :=
  sameSurroundings b b' /\
  ProcessingStatus.b_tick b' = ProcessingStatus.b_tick b /\
  ProcessingStatus.b_console b' = ProcessingStatus.b_console b /\
  ProcessingStatus.processedCount b' = ProcessingStatus.processedCount b /\
  ProcessingStatus.b_requests b' = ProcessingStatus.b_requests b /\
  (forall k, k <> ProcessingStatus.uf_id file ->
             ProcessingStatus.processingFiles b' !! k
             = ProcessingStatus.processingFiles b !! k) /\
  ProcessingStatus.b_calls b'
  = (ProcessingStatus.OnProcessingProgress <$> rev reported)
      ++ ProcessingStatus.b_calls b.

(* ===================================================================== *)
(** * Further notions: the upload as the browser sees it *)
(* ===================================================================== *)

(** Two browsers that differ at most in the progress shown and in the random
    numbers drawn: what the firings of the progress interval can change. *)
Definition sameButProgress (b0 b : FileUpload.Browser) : Prop :=
  FileUpload.isUploading b = FileUpload.isUploading b0 /\
  FileUpload.error b = FileUpload.error b0 /\
  FileUpload.b_fetch b = FileUpload.b_fetch b0 /\
  FileUpload.b_ticks b = FileUpload.b_ticks b0 /\
  FileUpload.b_requests b = FileUpload.b_requests b0 /\
  FileUpload.b_random b = FileUpload.b_random b0 /\
  FileUpload.b_intervals b = FileUpload.b_intervals b0 /\
  FileUpload.b_timeouts b = FileUpload.b_timeouts b0 /\
  FileUpload.b_calls b = FileUpload.b_calls b0 /\
  FileUpload.b_callbackThrows b = FileUpload.b_callbackThrows b0 /\
  FileUpload.b_console b = FileUpload.b_console b0.

(** What [uploadFiles] leaves alone in every run: the network and the parent
    as they will behave, and the time-outs and console lines that were there
    before. *)
Definition sameOracles (b0 b : FileUpload.Browser) : Prop :=
  FileUpload.b_fetch b = FileUpload.b_fetch b0 /\
  FileUpload.b_ticks b = FileUpload.b_ticks b0 /\
  FileUpload.b_random b = FileUpload.b_random b0 /\
  FileUpload.b_callbackThrows b = FileUpload.b_callbackThrows b0.

(** Two browsers that differ at most in the error shown and in the calls of
    [onFilesUploaded]. *)
Definition sameButReport (b0 b : FileUpload.Browser) : Prop :=
  FileUpload.uploadProgress b = FileUpload.uploadProgress b0 /\
  FileUpload.isUploading b = FileUpload.isUploading b0 /\
  FileUpload.b_requests b = FileUpload.b_requests b0 /\
  FileUpload.b_drawn b = FileUpload.b_drawn b0 /\
  FileUpload.b_intervals b = FileUpload.b_intervals b0 /\
  FileUpload.b_timeouts b = FileUpload.b_timeouts b0 /\
  FileUpload.b_console b = FileUpload.b_console b0 /\
  sameOracles b0 b.

(** How the [fetch] that [uploadFiles] makes in browser [b] ends. *)
Definition uploadAnswer (b : FileUpload.Browser) (files : list File)
  : FileUpload.FetchOutcome :=
  FileUpload.b_fetch b (length (FileUpload.b_requests b)) files.

(** The answer lets the [try] block get as far as reading the body. *)
Definition answered (a : FileUpload.FetchOutcome) : bool :=
  match a with
  | FileUpload.FetchResponse true (Ok _) => true
  | _ => false
  end.

(** The request was rejected: no response came. *)
Definition rejected (a : FileUpload.FetchOutcome) : bool :=
  match a with
  | FileUpload.FetchRejected _ => true
  | FileUpload.FetchResponse _ _ => false
  end.

(** An element of [uploadResults] as [response.json()] returns it. How a size
    is read back as a number and how a date is written are left open. *)
Definition wireResult (numberOf : Z -> JSNumber) (toISOString : Z -> list N)
    (r : UploadResult) : JSValue :=
  match r with
  | UploadFailure fileName error =>
      JObj [ (lit "fileName", JStr fileName);
             (lit "success", JBool false);
             (lit "error", JStr error) ]
  | UploadSuccess id fileName originalName size type filePath uploadedAt =>
      JObj [ (lit "id", JStr id);
             (lit "fileName", JStr fileName);
             (lit "originalName", JStr originalName);
             (lit "size", JNum (numberOf size));
             (lit "type", JStr type);
             (lit "filePath", JStr filePath);
             (lit "success", JBool true);
             (lit "uploadedAt", JStr (toISOString uploadedAt)) ]
  end.

(** A response of the upload route as the browser receives it. *)
Definition wireResponse (numberOf : Z -> JSNumber) (toISOString : Z -> list N)
    (resp : Response) : FileUpload.FetchOutcome :=
  match resp with
  | ErrorResponse status error =>
      FileUpload.FetchResponse ((200 <=? status) && (status <=? 299))
        (Ok (JObj [ (lit "error", JStr error) ]))
  | SuccessResponse files =>
      FileUpload.FetchResponse true
        (Ok (JObj [ (lit "success", JBool true);
                    (lit "files",
                     JArr (wireResult numberOf toISOString <$> files)) ]))
  end.

(** What the parent is handed for a saved file, and nothing for a failure. *)
Definition handedOver (numberOf : Z -> JSNumber) (toISOString : Z -> list N)
    (r : UploadResult) : option FileUpload.UploadedFile :=
  match r with
  | UploadFailure _ _ => None
  | UploadSuccess id fileName originalName size type filePath uploadedAt =>
      Some {| FileUpload.uf_id := JStr id;
              FileUpload.uf_name := JStr originalName;
              FileUpload.uf_size := JNum (numberOf size);
              FileUpload.uf_type := JStr type;
              FileUpload.uf_uploadedAt := JStr (toISOString uploadedAt);
              FileUpload.uf_status := lit "uploaded";
              FileUpload.uf_filePath := JStr filePath |}
  end.

(** [success] of an element of [uploadResults]. *)
Definition isSaved (r : UploadResult) : bool :=
  match r with
  | UploadFailure _ _ => false
  | UploadSuccess _ _ _ _ _ _ _ => true
  end.

(** The error of a failure, and nothing for a saved file. *)
Definition failureOf (r : UploadResult) : option (list N) :=
  match r with
  | UploadFailure _ error => Some error
  | UploadSuccess _ _ _ _ _ _ _ => None
  end.

(** A file the server accepted: saved, or not saved for a fault of the
    storage. *)
Definition accepted (file : File) (r : UploadResult) : Prop :=
  (exists fileId filePath uploadedAt,
      r = UploadSuccess fileId (f_name file) (f_name file) (f_size file)
                        (f_type file) filePath uploadedAt) \/
  r = UploadFailure (f_name file) (lit "Failed to save file").

(* ===================================================================== *)
(** * Concrete libraries and worlds *)
(* ===================================================================== *)

Module Demo.

Definition parsePDFContent (_ : list Byte.byte) : Result (list N) :=
  Throw (JsError (lit "PDF parsing error: Invalid PDF structure")).

Definition mammoth_extractRawText (_ : list Byte.byte) : Result (list N) :=
  Throw (JsError (lit "Could not find the body element: are you sure this is a docx file?")).

(** UTF-8 decoding of ASCII bytes. *)
Definition decodeUtf8 (b : list Byte.byte) : list N :=
  List.map (fun x => N.of_nat (Byte.to_nat x)) b.

(** A text below the chunk size is one chunk. *)
Definition splitText (text : list N) : list (list N) := [text].

Definition bytes (s : string) : list Byte.byte := list_byte_of_string s.

Definition noFaults (_ : FsOp) : bool := false.

(** A world with the given files (name, modification time, content), fault
    plan and model reply; the clock reads 10 000 000, 10 000 001, ... *)
Definition world (files : list (string * Z * string)) (faults : FsOp -> bool)
           (reply : Result (list N)) : World :=
  {| w_uploads :=
       Some (list_to_map
               (List.map (fun '(name, mtime, content) =>
                            (lit name, {| e_mtime := mtime;
                                          e_data := bytes content |}))
                         files));
     w_fault := faults;
     w_order := [];
     w_remnant := fun _ => None;
     w_clock := fun k => 10000000 + Z.of_nat k;
     w_tick := 0;
     w_model := fun _ _ => reply;
     w_calls := 0;
     w_uuid := fun k => lit "3f2b8c1e-" ++ List.repeat 48%N (S k);
     w_uuids := 0;
     w_console := [] |}.

(** The same world with the directory listed in the given order. *)
Definition listed (order : list string) (w : World) : World :=
  {| w_uploads := w_uploads w; w_fault := w_fault w;
     w_order := List.map lit order; w_remnant := w_remnant w;
     w_clock := w_clock w; w_tick := w_tick w; w_model := w_model w;
     w_calls := w_calls w; w_uuid := w_uuid w; w_uuids := w_uuids w;
     w_console := w_console w |}.

(** The same world in which a write that fails leaves the file behind with
    the first [written] bytes of the data. *)
Definition leavingBehind (written : nat) (w : World) : World :=
  {| w_uploads := w_uploads w; w_fault := w_fault w;
     w_order := w_order w; w_remnant := fun _ => Some written;
     w_clock := w_clock w; w_tick := w_tick w; w_model := w_model w;
     w_calls := w_calls w; w_uuid := w_uuid w; w_uuids := w_uuids w;
     w_console := w_console w |}.

Definition textFile (name : string) : FileData :=
  {| fd_id := lit "id-" ++ lit name;
     fd_fileName := lit name;
     fd_filePath := lit name;
     fd_type := MIME_TXT |}.

(** [path.extname] on names with one dot. *)
Definition path_extname (name : list N) : list N :=
  match fromFirst 46%N name with
  | Some ext => ext
  | None => []
  end.

Definition processDocumentAction :=
  processDocumentAction Json.parse parsePDFContent mammoth_extractRawText
                        decodeUtf8 splitText.

Definition processBatchDocuments :=
  processBatchDocuments Json.parse parsePDFContent mammoth_extractRawText
                        decodeUtf8 splitText.

End Demo.

(** ** More concrete libraries *)

Module DemoPdf.

(** [decodeURIComponent] on texts whose escapes are those of ASCII
    characters, which is where it is used; an escape from [%80] on starts a
    multi-byte sequence and is not decoded here. *)
Fixpoint decodeURIComponent (s : list N) : Result (list N) :=
  match s with
  | [] => Ok []
  | 37%N :: h :: l :: rest =>
      match Json.hexValue h, Json.hexValue l with
      | Some a, Some b =>
          if (16 * a + b <? 128)%N then
            match decodeURIComponent rest with
            | Ok more => Ok ((16 * a + b)%N :: more)
            | Throw e => Throw e
            end
          else Throw (JsError (lit "URI malformed"))
      | _, _ => Throw (JsError (lit "URI malformed"))
      end
  | 37%N :: _ => Throw (JsError (lit "URI malformed"))
  | c :: rest =>
      match decodeURIComponent rest with
      | Ok more => Ok (c :: more)
      | Throw e => Throw e
      end
  end.

Definition run (t : string) : PdfParser.PDFTextRun := {| PdfParser.T := lit t |}.

Definition textAt (runs : list PdfParser.PDFTextRun) : PdfParser.PDFText :=
  {| PdfParser.x := 0; PdfParser.y := 0; PdfParser.R := Some runs |}.

(** Two pages of text around an empty one. *)
Definition letter : PdfParser.PDFData :=
  {| PdfParser.Pages :=
       Some [ {| PdfParser.Texts :=
                   Some [ textAt [run "Dear%20%20Ada%2C"; run ""];
                          textAt [run "thank%20you"] ] |};
              {| PdfParser.Texts := Some [] |};
              {| PdfParser.Texts := Some [ textAt [run "Yours%0A"; run "Charles"] ] |} ] |}.

(** A scan: pages without text. *)
Definition scan : PdfParser.PDFData :=
  {| PdfParser.Pages :=
       Some [ {| PdfParser.Texts := None |}; {| PdfParser.Texts := Some [] |} ] |}.

(** A parser that tells the three files of the examples by their first
    byte. *)
Definition parseBuffer (buffer : list Byte.byte) : PdfParser.ParserEvent :=
  match buffer with
  | Byte.x4c :: _ => PdfParser.pdfParser_dataReady (Some letter)
  | Byte.x53 :: _ => PdfParser.pdfParser_dataReady (Some scan)
  | _ => PdfParser.pdfParser_dataError (lit "Invalid PDF structure")
  end.

Definition loadPDF (_ : list N) : PdfParser.ParserEvent :=
  PdfParser.pdfParser_dataError (lit "ENOENT: no such file or directory").

Definition layoutPageText (_ : list PdfParser.PDFText) : Result (list N) := Ok [].

Definition parsePDFContent_of_buffer :=
  PdfParser.parsePDFContent_of_buffer (Ok tt) parseBuffer loadPDF
    decodeURIComponent layoutPageText.

Definition pdfFile (name : string) : FileData :=
  {| fd_id := lit "id-" ++ lit name;
     fd_fileName := lit name;
     fd_filePath := lit name;
     fd_type := MIME_PDF |}.

End DemoPdf.

Module DemoClient.

(** A browser that has just mounted the component; the clock reads
    20 000 000, 20 000 001, ... *)
Definition browser (fetchOutcome : nat -> JSValue -> ProcessingStatus.FetchOutcome)
           (throws : nat -> option Thrown) : ProcessingStatus.Browser :=
  {| ProcessingStatus.processingFiles := ∅;
     ProcessingStatus.isProcessing := false;
     ProcessingStatus.completedResults := [];
     ProcessingStatus.error := [];
     ProcessingStatus.processedCount := 0;
     ProcessingStatus.startTime := None;
     ProcessingStatus.b_clock := fun k => 20000000 + Z.of_nat k;
     ProcessingStatus.b_tick := 0;
     ProcessingStatus.b_fetch := fetchOutcome;
     ProcessingStatus.b_requests := [];
     ProcessingStatus.b_calls := [];
     ProcessingStatus.b_callbackThrows := throws;
     ProcessingStatus.b_console := [] |}.

Definition uploaded (name : string) : ProcessingStatus.UploadedFile :=
  {| ProcessingStatus.uf_id := lit "id-" ++ lit name;
     ProcessingStatus.uf_name := lit name;
     ProcessingStatus.uf_filePath := lit name;
     ProcessingStatus.uf_type := MIME_TXT |}.

(** A server that analyses the first file and fails on every other one. *)
Definition firstOnly (k : nat) (_ : JSValue) : ProcessingStatus.FetchOutcome :=
  match k with
  | O => ProcessingStatus.FetchResponse true (lit "OK")
           (Ok (JObj [(lit "sentiment", JStr (lit "Positive"))]))
  | S _ => ProcessingStatus.FetchResponse false (lit "Internal Server Error")
             (Ok (JObj [(lit "error",
                         JStr (lit "Failed to process document: No text content found in document"))]))
  end.

Definition quiet (_ : nat) : option Thrown := None.

End DemoClient.

Module DemoUpload.

(** A size is read back as the integer it is; every date is written as the
    same text. *)
Definition numberOf (size : Z) : JSNumber := Dec size 0.
Definition toISOString (_ : Z) : list N := lit "2026-01-01T00:00:00.000Z".
Definition Number_toString (n : JSNumber) : list N :=
  FileUpload.showInt (mant n).

(** A browser that has just mounted the component; the interval fires three
    times while a request is in flight, and [Math.random()] alternates between
    1/4 and 3/4. *)
Definition browser (fetchOutcome : nat -> list File -> FileUpload.FetchOutcome)
           (throws : nat -> option Thrown) : FileUpload.Browser :=
  {| FileUpload.uploadProgress := ∅;
     FileUpload.isUploading := false;
     FileUpload.error := [];
     FileUpload.b_fetch := fetchOutcome;
     FileUpload.b_ticks := fun _ => 3%nat;
     FileUpload.b_requests := [];
     FileUpload.b_random := fun k => if Nat.even k then (1 # 4)%Q else (3 # 4)%Q;
     FileUpload.b_drawn := 0;
     FileUpload.b_intervals := 0;
     FileUpload.b_timeouts := 0;
     FileUpload.b_calls := [];
     FileUpload.b_callbackThrows := throws;
     FileUpload.b_console := [] |}.

Definition notes : File :=
  {| f_name := lit "notes.txt"; f_size := 5; f_type := MIME_TXT;
     f_bytes := Demo.bytes "hello" |}.

Definition memo : File :=
  {| f_name := lit "memo.txt"; f_size := 4; f_type := MIME_TXT;
     f_bytes := Demo.bytes "memo" |}.

Definition photo : File :=
  {| f_name := lit "photo.png"; f_size := 3; f_type := lit "image/png";
     f_bytes := Demo.bytes "png" |}.

Definition big : File :=
  {| f_name := lit "scan.pdf"; f_size := 20000000; f_type := MIME_PDF;
     f_bytes := [] |}.

(** The network when the request never gets through. *)
Definition offline (_ : nat) (_ : list File) : FileUpload.FetchOutcome :=
  FileUpload.FetchRejected (JsError (lit "Failed to fetch")).

(** The upload route, in world [w], behind the network. *)
Definition route (w : World) (_ : nat) (files : list File)
  : FileUpload.FetchOutcome :=
  wireResponse numberOf toISOString
    (match fst (POST None Demo.path_extname (FormData files) w) with
     | Ok resp => resp
     | Throw _ => ErrorResponse 500 []
     end).

Definition quiet (_ : nat) : option Thrown := None.

(** Storage in which the first file written is lost. *)
Definition firstWriteFails (op : FsOp) : bool :=
  match op with
  | OpWriteFile p => bool_decide (p = lit "3f2b8c1e-0.txt")
  | _ => false
  end.

End DemoUpload.

(* ===================================================================== *)
(** * Properties *)
(* ===================================================================== *)

(** ** Word and page counts *)

Section WordCount.

Local Abbreviation nonEmpty := (filter (fun piece => JsString.truthy piece = true)).

Lemma splitWs_token tok : forall insep cur s,
  Forall (fun c => isWhiteSpace c = false) tok ->
  tok <> [] ->
  splitWs insep cur (tok ++ s) = splitWs false (rev tok ++ cur) s.
Proof.
  induction tok as [|c tok IH]; intros insep cur s Hall Hne; [done|].
  inversion Hall as [|? ? Hc Htok]; subst.
  cbn [app splitWs]. rewrite Hc.
  destruct tok as [|c' tok'].
  - reflexivity.
  - rewrite IH by done. cbn [rev]. by rewrite <- !app_assoc.
Qed.

Lemma Tokenized_nil_inv toks : Tokenized [] toks -> toks = [].
Proof.
  intros H. inversion H as [| |tok text toks' Hne]; subst; [done|].
  destruct tok; [done | discriminate].
Qed.

Lemma split_tokens text toks :
  Tokenized text toks ->
  nonEmpty (splitWs true [] text) = toks /\
  nonEmpty (splitWs false [] text) = toks.
Proof.
  induction 1 as [|c text toks Hc _ [IH1 IH2]
                  |tok text toks Hne Hall Hnext Htok [IH1 IH2]].
  - by cbn.
  - cbn [splitWs]. rewrite Hc. split; [done|].
    cbn [rev]. rewrite filter_cons_False by (cbn; congruence). done.
  - assert (Hgo : forall b, nonEmpty (splitWs b [] (tok ++ text)) = tok :: toks).
    { intros b. rewrite splitWs_token by done. rewrite app_nil_r.
      destruct Hnext as [-> | (c & text' & -> & Hc)].
      - apply Tokenized_nil_inv in Htok as ->. cbn [splitWs].
        rewrite rev_involutive.
        rewrite filter_cons_True by (destruct tok; [done | reflexivity]).
        done.
      - cbn [splitWs]. rewrite Hc, rev_involutive.
        rewrite filter_cons_True by (destruct tok; [done | reflexivity]).
        f_equal. cbn [splitWs] in IH1. by rewrite Hc in IH1. }
    split; apply Hgo.
Qed.

(** The pieces that survive [filter(Boolean)] are exactly the tokens. *)
Lemma countWords_tokens text toks :
  Tokenized text toks -> countWords text = length toks.
Proof.
  intros H. unfold countWords, split_whitespace.
  by destruct (split_tokens _ _ H) as [_ ->].
Qed.

End WordCount.

(** Every text has its tokens. *)
Lemma Tokenized_total text : exists toks, Tokenized text toks.
Proof.
  induction text as [|c text [toks IH]].
  - exists []. constructor.
  - destruct (isWhiteSpace c) eqn:Hc.
    + exists toks. by constructor.
    + destruct IH as [|c' text toks Hc' IH|tok text toks Hne Hall Hnext IH].
      * exists [[c]]. apply (Tokenized_token [c] [] []); auto using Tokenized.
      * exists ([c] :: toks).
        apply (Tokenized_token [c] (c' :: text) toks); eauto using Tokenized.
      * exists ((c :: tok) :: toks).
        apply (Tokenized_token (c :: tok) text toks); auto.
Qed.

Lemma Qceiling_div_250 n :
  Qceiling (inject_Z n / inject_Z 250) = (n + 249) / 250.
Proof.
  unfold Qceiling, Qfloor, Qdiv, Qmult, Qinv, Qopp, inject_Z.
  cbn [Qnum Qden]. change (Z.pos (1 * 250)) with 250.
  rewrite Z.mul_1_r.
  pose proof (Z.div_mod n 250 ltac:(lia)) as Hn.
  pose proof (Z.mod_pos_bound n 250 ltac:(lia)) as Hr.
  pose proof (Z.div_mod (- n) 250 ltac:(lia)) as Hn'.
  pose proof (Z.mod_pos_bound (- n) 250 ltac:(lia)) as Hr'.
  pose proof (Z.div_mod (n + 249) 250 ltac:(lia)) as Hm.
  pose proof (Z.mod_pos_bound (n + 249) 250 ltac:(lia)) as Hs.
  lia.
Qed.

(** [estimatePageCount] is the word count divided by 250, rounded up. *)
Lemma estimatePageCount_ceiling text :
  let words := Z.of_nat (countWords text) in
  let pages := estimatePageCount text in
  250 * (pages - 1) < words <= 250 * pages.
Proof.
  cbv zeta. unfold estimatePageCount. rewrite Qceiling_div_250.
  set (n := Z.of_nat (countWords text)).
  pose proof (Z.div_mod (n + 249) 250 ltac:(lia)) as Hm.
  pose proof (Z.mod_pos_bound (n + 249) 250 ltac:(lia)) as Hs.
  lia.
Qed.

(** ** Strings *)

Lemma trimStart_blank text : blank text -> trimStart text = [].
Proof.
  induction 1 as [|c text Hc _ IH]; [done|]. cbn. by rewrite Hc.
Qed.

Lemma trim_blank text : blank text -> trim text = [].
Proof. intros H. unfold trim, trimEnd. by rewrite (trimStart_blank text H). Qed.


Lemma trimStart_app_blank ws text :
  blank ws -> trimStart (ws ++ text) = trimStart text.
Proof.
  induction 1 as [|c ws Hc _ IH]; [done|]. cbn. by rewrite Hc.
Qed.

Lemma trimStart_head c text :
  isWhiteSpace c = false -> trimStart (c :: text) = c :: text.
Proof. intros H. cbn. by rewrite H. Qed.

(** Trimming strips the blank margins around a text that starts and ends with
    a code unit that is not whitespace. *)
Lemma trim_margins ws1 ws2 a mid z :
  blank ws1 -> blank ws2 ->
  isWhiteSpace a = false -> isWhiteSpace z = false ->
  trim (ws1 ++ (a :: mid ++ [z]) ++ ws2) = a :: mid ++ [z].
Proof.
  intros H1 H2 Ha Hz. unfold trim, trimEnd.
  rewrite trimStart_app_blank by done.
  cbn [app]. rewrite trimStart_head by done.
  change (a :: (mid ++ [z]) ++ ws2) with ((a :: mid ++ [z]) ++ ws2).
  rewrite rev_app_distr, trimStart_app_blank
    by (by apply List.Forall_rev).
  change (a :: mid ++ [z]) with ((a :: mid) ++ [z]).
  rewrite rev_app_distr. cbn [rev app]. rewrite trimStart_head by done.
  change (z :: rev mid ++ [a]) with ([z] ++ rev (a :: mid)).
  rewrite rev_app_distr, rev_involutive. done.
Qed.

Lemma fromFirst_app c pre rest :
  c ∉ pre -> fromFirst c (pre ++ c :: rest) = Some (c :: rest).
Proof.
  induction pre as [|x pre IH]; intros Hc; cbn.
  - by rewrite N.eqb_refl.
  - apply not_elem_of_cons in Hc as [Hx Hpre].
    destruct (N.eqb_spec x c); [congruence | auto].
Qed.

Lemma fromFirst_Some c s t :
  fromFirst c s = Some t ->
  exists pre rest, s = pre ++ c :: rest /\ t = c :: rest /\ c ∉ pre.
Proof.
  induction s as [|x s IH]; [done|]. cbn.
  destruct (N.eqb_spec x c) as [->|Hne].
  - intros [= <-]. exists [], s. split; [done|]. split; [done|].
    apply not_elem_of_nil.
  - intros H. destruct (IH H) as (pre & rest & -> & -> & Hpre).
    exists (x :: pre), rest. split; [done|]. split; [done|].
    apply not_elem_of_cons. split; [congruence | done].
Qed.

Lemma fromFirst_None c s : fromFirst c s = None -> c ∉ s.
Proof.
  induction s as [|x s IH]; [intros _; apply not_elem_of_nil|]. cbn.
  destruct (N.eqb_spec x c) as [->|Hne]; [done|].
  intros H. apply not_elem_of_cons. split; [congruence | auto].
Qed.

Lemma throughLast_None c s : c ∉ s -> throughLast c s = None.
Proof.
  induction s as [|x s IH]; [done|]. intros Hc.
  apply not_elem_of_cons in Hc as [Hx Hs]. cbn. rewrite IH by done.
  destruct (N.eqb_spec x c); congruence.
Qed.

Lemma throughLast_app c body post :
  c ∉ post -> throughLast c (body ++ c :: post) = Some (body ++ [c]).
Proof.
  intros Hc. induction body as [|x body IH]; cbn.
  - by rewrite throughLast_None, N.eqb_refl.
  - by rewrite IH.
Qed.

Lemma throughLast_None_inv c s : throughLast c s = None -> c ∉ s.
Proof.
  induction s as [|x s IH]; [intros _; apply not_elem_of_nil|]. cbn.
  destruct (throughLast c s); [done|].
  destruct (N.eqb_spec x c) as [->|Hne]; [done|].
  intros _. apply not_elem_of_cons. split; [congruence | auto].
Qed.

Lemma throughLast_Some c s r :
  throughLast c s = Some r ->
  exists body post, s = body ++ c :: post /\ r = body ++ [c] /\ c ∉ post.
Proof.
  revert r. induction s as [|x s IH]; [done|]. intros r. cbn.
  destruct (throughLast c s) as [r'|] eqn:Hs.
  - intros [= <-]. destruct (IH r' eq_refl) as (body & post & -> & -> & Hpost).
    by exists (x :: body), post.
  - destruct (N.eqb_spec x c) as [->|]; [|done].
    intros [= <-]. exists [], s. split; [done|]. split; [done|].
    by apply throughLast_None_inv.
Qed.

(** The brace pattern matches from the first opening brace to the last
    closing brace. *)
Lemma matchBraces_first_to_last pre body post :
  LBRACE ∉ pre -> RBRACE ∉ post ->
  matchBraces (pre ++ LBRACE :: body ++ RBRACE :: post)
  = Some (LBRACE :: body ++ [RBRACE]).
Proof.
  intros Hpre Hpost. unfold matchBraces.
  by rewrite fromFirst_app, throughLast_app.
Qed.

(** It matches nothing when no closing brace stands behind an opening one. *)
Lemma matchBraces_None s :
  (forall pre body post, s <> pre ++ LBRACE :: body ++ RBRACE :: post) ->
  matchBraces s = None.
Proof.
  intros Hno. unfold matchBraces.
  destruct (fromFirst LBRACE s) as [t|] eqn:Hf; [|done].
  apply fromFirst_Some in Hf as (pre & rest & -> & -> & _).
  destruct (throughLast RBRACE rest) as [r|] eqn:Hl; [|done].
  apply throughLast_Some in Hl as (body & post & -> & -> & _).
  by destruct (Hno pre body post).
Qed.

(** Where a closing brace stands behind an opening one, the stretch from the
    first opening to the last closing brace exists: the two cases of the
    pattern are exhaustive. *)
Lemma brace_span_exists s pre body post :
  s = pre ++ LBRACE :: body ++ RBRACE :: post ->
  exists pre' body' post',
    s = (pre' ++ LBRACE :: body' ++ RBRACE :: post') /\
    (LBRACE ∉ pre') /\ (RBRACE ∉ post').
Proof.
  intros Hs.
  destruct (fromFirst LBRACE s) as [t|] eqn:Hf.
  - apply fromFirst_Some in Hf as (pre' & rest & Hs' & -> & Hpre').
    destruct (throughLast RBRACE rest) as [r|] eqn:Hl.
    + apply throughLast_Some in Hl as (body' & post' & -> & -> & Hpost').
      by exists pre', body', post'.
    + apply throughLast_None_inv in Hl.
      assert (Hin : RBRACE ∈ rest); [|done].
      (* the given opening brace is the first one or lies behind it *)
      assert (Hsuffix : exists mid, rest = mid ++ RBRACE :: post).
      { rewrite Hs in Hs'. clear Hs Hl.
        revert pre Hs'. induction pre' as [|x pre' IH]; intros pre Hs'.
        - destruct pre as [|y pre]; cbn in Hs'.
          + injection Hs' as <-. eauto.
          + injection Hs' as -> <-. eexists (pre ++ LBRACE :: body).
            by rewrite <- app_assoc.
        - destruct pre as [|y pre]; cbn in Hs'.
          + injection Hs' as <- _. apply not_elem_of_cons in Hpre' as [? _].
            done.
          + injection Hs' as -> Hs'. apply not_elem_of_cons in Hpre' as [_ ?].
            eauto. }
      destruct Hsuffix as [mid ->]. set_solver.
  - apply fromFirst_None in Hf. rewrite Hs in Hf. set_solver.
Qed.

Lemma removeAllFrom_skip pat a s :
  removeAllFrom pat (length a) (a ++ s) = removeAllFrom pat O s.
Proof. induction a as [|x a IH]; [done | exact IH]. Qed.

Lemma startsWith_app pat s : startsWith pat (pat ++ s) = true.
Proof.
  induction pat as [|x pat IH]; [done|]. cbn. by rewrite N.eqb_refl.
Qed.

(** An occurrence at the front is dropped and the scan goes on behind it. *)
Lemma removeAll_front pat s :
  pat <> [] -> removeAll pat (pat ++ s) = removeAll pat s.
Proof.
  destruct pat as [|x pat]; [done|]. intros _. unfold removeAll.
  pose proof (startsWith_app (x :: pat) s) as Hs. cbn [app] in Hs.
  cbn [app removeAllFrom]. rewrite Hs.
  cbn [length Nat.pred]. apply removeAllFrom_skip.
Qed.

Lemma FENCE_units : FENCE = [96; 96; 96]%N.
Proof. reflexivity. Qed.

Lemma FENCE_JSON_units : FENCE_JSON = FENCE ++ lit "json".
Proof. reflexivity. Qed.

Lemma startsWith_prefix p q s :
  startsWith (p ++ q) s = true -> startsWith p s = true.
Proof.
  revert s. induction p as [|x p IH]; intros s; [done|].
  destruct s as [|y s]; [done|]. cbn.
  intros [-> H]%andb_true_iff. cbn. eauto.
Qed.

Lemma startsWith_FENCE_JSON s :
  startsWith FENCE_JSON s = true -> startsWith FENCE s = true.
Proof. rewrite FENCE_JSON_units. apply startsWith_prefix. Qed.

(** A fence cannot begin in a text without fences that ends with something
    else than a backtick, whatever follows that text. *)
Lemma no_fence_at_head c Y z t :
  containsPat FENCE (c :: Y ++ [z]) = false -> z <> 96%N ->
  startsWith FENCE (c :: Y ++ [z] ++ t) = false.
Proof.
  intros Hno Hz. cbn [containsPat] in Hno.
  apply orb_false_iff in Hno as [Hhead _].
  assert (Hz' : (96 =? z)%N = false) by (apply N.eqb_neq; congruence).
  rewrite FENCE_units in *.
  destruct Y as [|y [|y2 Y]]; cbn -[N.eqb] in *.
  - rewrite Hz'. by rewrite andb_false_r.
  - rewrite Hz'. by rewrite !andb_false_r.
  - exact Hhead.
Qed.

Lemma removeAll_FENCE_closing Y z :
  containsPat FENCE (Y ++ [z]) = false -> z <> 96%N ->
  removeAll FENCE (Y ++ [z] ++ FENCE) = Y ++ [z].
Proof.
  intros Hno Hz. unfold removeAll.
  induction Y as [|c Y IH].
  - assert (Hz' : (96 =? z)%N = false) by (apply N.eqb_neq; congruence).
    rewrite FENCE_units. cbn -[N.eqb]. by rewrite Hz'.
  - cbn [app removeAllFrom].
    change (c :: Y ++ z :: FENCE) with (c :: Y ++ [z] ++ FENCE).
    rewrite no_fence_at_head by done.
    f_equal. apply IH. cbn [app containsPat] in Hno.
    by apply orb_false_iff in Hno as [_ ?].
Qed.

Lemma removeAll_FENCE_JSON_none Y z :
  containsPat FENCE (Y ++ [z]) = false -> z <> 96%N ->
  removeAll FENCE_JSON (Y ++ [z] ++ FENCE) = Y ++ [z] ++ FENCE.
Proof.
  intros Hno Hz. unfold removeAll.
  induction Y as [|c Y IH].
  - assert (Hz' : (96 =? z)%N = false) by (apply N.eqb_neq; congruence).
    rewrite FENCE_JSON_units, FENCE_units. cbn -[N.eqb]. by rewrite Hz'.
  - cbn [app removeAllFrom].
    change (c :: Y ++ z :: FENCE) with (c :: Y ++ [z] ++ FENCE).
    destruct (startsWith FENCE_JSON (c :: Y ++ [z] ++ FENCE)) eqn:Hs.
    + apply startsWith_FENCE_JSON in Hs.
      by rewrite no_fence_at_head in Hs.
    + f_equal. apply IH. cbn [app containsPat] in Hno.
      by apply orb_false_iff in Hno as [_ ?].
Qed.

Lemma whitespace_not_backtick c : isWhiteSpace c = true -> c <> 96%N.
Proof. by intros H ->. Qed.

Lemma containsPat_FENCE_blank_l ws s :
  blank ws -> containsPat FENCE (ws ++ s) = containsPat FENCE s.
Proof.
  induction 1 as [|c ws Hc _ IH]; [done|].
  cbn [app containsPat]. rewrite IH.
  apply whitespace_not_backtick in Hc.
  rewrite FENCE_units. cbn -[N.eqb].
  destruct (N.eqb_spec 96 c); [congruence | done].
Qed.

Lemma containsPat_FENCE_blank_r s ws :
  blank ws -> containsPat FENCE (s ++ ws) = containsPat FENCE s.
Proof.
  intros Hws. destruct ws as [|x ws]; [by rewrite app_nil_r|].
  assert (Hx : (96 =? x)%N = false).
  { inversion Hws as [|? ? Hx _]; subst.
    apply whitespace_not_backtick in Hx. apply N.eqb_neq. congruence. }
  induction s as [|c s IH].
  - pose proof (containsPat_FENCE_blank_l (x :: ws) [] Hws) as Hl.
    by rewrite app_nil_r in Hl.
  - cbn [app containsPat]. rewrite IH. f_equal. rewrite FENCE_units.
    destruct s as [|y [|y2 s]]; cbn -[N.eqb]; rewrite ?Hx, ?andb_false_r; done.
Qed.

(** The cleaned form of a reply that is one fenced body. *)
Lemma cleanResponse_fenced ws1 mid ws2 :
  blank ws1 -> blank ws2 ->
  containsPat FENCE (LBRACE :: mid ++ [RBRACE]) = false ->
  cleanResponse (FENCE_JSON ++ ws1 ++ (LBRACE :: mid ++ [RBRACE]) ++ ws2 ++ FENCE)
  = LBRACE :: mid ++ [RBRACE].
Proof.
  intros H1 H2 Hbody. unfold cleanResponse.
  rewrite removeAll_front by done.
  assert (Hsplit : exists Y z,
             ws1 ++ (LBRACE :: mid ++ [RBRACE]) ++ ws2 = Y ++ [z] /\
             z <> 96%N).
  { destruct ws2 as [|x ws2 _] using rev_ind.
    - exists (ws1 ++ LBRACE :: mid), RBRACE. split; [|done].
      rewrite app_nil_r. by rewrite <- app_assoc.
    - exists (ws1 ++ (LBRACE :: mid ++ [RBRACE]) ++ ws2), x. split.
      + by rewrite <- !app_assoc.
      + apply whitespace_not_backtick.
        by apply Forall_app in H2 as [_ [? _]%Forall_cons]. }
  destruct Hsplit as (Y & z & HY & Hz).
  assert (Hno : containsPat FENCE (Y ++ [z]) = false).
  { rewrite <- HY, containsPat_FENCE_blank_l, containsPat_FENCE_blank_r by done.
    exact Hbody. }
  replace (ws1 ++ (LBRACE :: mid ++ [RBRACE]) ++ ws2 ++ FENCE)
    with (Y ++ [z] ++ FENCE)
    by (rewrite (app_assoc Y), <- HY; by rewrite <- !app_assoc).
  rewrite removeAll_FENCE_JSON_none, removeAll_FENCE_closing by done.
  rewrite <- HY. by apply trim_margins.
Qed.

Lemma jsonCandidate_braced mid :
  jsonCandidate (LBRACE :: mid ++ [RBRACE]) = LBRACE :: mid ++ [RBRACE].
Proof.
  unfold jsonCandidate.
  pose proof (matchBraces_first_to_last [] mid []) as H. cbn [app] in H.
  rewrite H; [done | apply not_elem_of_nil ..].
Qed.

(** ** Running computations *)

Lemma bind_ok {A B} (m : M A) (k : A -> M B) w a w' :
  m w = (Ok a, w') -> bind m k w = k a w'.
Proof. unfold bind. by intros ->. Qed.

Lemma bind_throw {A B} (m : M A) (k : A -> M B) w e w' :
  m w = (Throw e, w') -> bind m k w = (Throw e, w').
Proof. unfold bind. by intros ->. Qed.

Lemma try_catch_ok {A} (m : M A) h w a w' :
  m w = (Ok a, w') -> try_catch m h w = (Ok a, w').
Proof. unfold try_catch. by intros ->. Qed.

Lemma try_catch_throw {A} (m : M A) h w e w' :
  m w = (Throw e, w') -> try_catch m h w = h e w'.
Proof. unfold try_catch. by intros ->. Qed.

(** Case analysis on the next scrutinee of a hypothesis. *)
Ltac split_run H :=
  repeat match type of H with
         | context [match ?x with _ => _ end] =>
             let E := fresh "E" in destruct x eqn:E; try discriminate H
         end.

(** ** Computations that keep an invariant, or respect a relation *)

Lemma Keeps_ret {A} I (a : A) : Keeps I (ret a).
Proof. by intros w0 w H. Qed.

Lemma Keeps_throw {A} I e : Keeps I (@throw A e).
Proof. by intros w0 w H. Qed.

Lemma Keeps_liftResult {A} I (r : Result A) : Keeps I (liftResult r).
Proof. by intros w0 w H. Qed.

Lemma Keeps_bind {A B} I (m : M A) (k : A -> M B) :
  Keeps I m -> (forall a, Keeps I (k a)) -> Keeps I (bind m k).
Proof.
  intros Hm Hk w0 w H. unfold bind. specialize (Hm w0 w H).
  destruct (m w) as [[a|e] w1]; [by apply Hk | exact Hm].
Qed.

Lemma Keeps_try_catch {A} I (m : M A) h :
  Keeps I m -> (forall e, Keeps I (h e)) -> Keeps I (try_catch m h).
Proof.
  intros Hm Hh w0 w H. unfold try_catch. specialize (Hm w0 w H).
  destruct (m w) as [[a|e] w1]; [exact Hm | by apply Hh].
Qed.

Lemma Keeps_if {A} I (b : bool) (m1 m2 : M A) :
  Keeps I m1 -> Keeps I m2 -> Keeps I (if b then m1 else m2).
Proof. by destruct b. Qed.

Lemma Rel2_ret {A} P (a : A) : Rel2 P P (ret a).
Proof. by intros w1 w2 H. Qed.

Lemma Rel2_throw {A} P e : Rel2 P P (@throw A e).
Proof. by intros w1 w2 H. Qed.

Lemma Rel2_liftResult {A} P (r : Result A) : Rel2 P P (liftResult r).
Proof. by intros w1 w2 H. Qed.

Lemma Rel2_weaken {A} (P Q S : World -> World -> Prop) (m : M A) :
  (forall w1 w2, Q w1 w2 -> S w1 w2) -> Rel2 P Q m -> Rel2 P S m.
Proof. intros HQS Hm w1 w2 H. destruct (Hm w1 w2 H). auto. Qed.

Lemma Rel2_bind {A B} (P Q S : World -> World -> Prop) (m : M A) (k : A -> M B) :
  (forall w1 w2, Q w1 w2 -> S w1 w2) ->
  Rel2 P Q m -> (forall a, Rel2 Q S (k a)) -> Rel2 P S (bind m k).
Proof.
  intros HQS Hm Hk w1 w2 H. unfold bind.
  destruct (Hm w1 w2 H) as [Hfst Hsnd].
  destruct (m w1) as [[a|e] w1'], (m w2) as [[a'|e'] w2'];
    cbn [fst snd] in *; try discriminate Hfst.
  - injection Hfst as <-. by apply Hk.
  - injection Hfst as <-. auto.
Qed.

Lemma Rel2_try_catch {A} (P Q S : World -> World -> Prop) (m : M A) h :
  (forall w1 w2, Q w1 w2 -> S w1 w2) ->
  Rel2 P Q m -> (forall e, Rel2 Q S (h e)) -> Rel2 P S (try_catch m h).
Proof.
  intros HQS Hm Hh w1 w2 H. unfold try_catch.
  destruct (Hm w1 w2 H) as [Hfst Hsnd].
  destruct (m w1) as [[a|e] w1'], (m w2) as [[a'|e'] w2'];
    cbn [fst snd] in *; try discriminate Hfst.
  - injection Hfst as <-. auto.
  - injection Hfst as <-. by apply Hh.
Qed.

Lemma Rel2_if {A} P Q (b : bool) (m1 m2 : M A) :
  Rel2 P Q m1 -> Rel2 P Q m2 -> Rel2 P Q (if b then m1 else m2).
Proof. by destruct b. Qed.

Lemma sameButUnlinkFaults_outside w1 w2 :
  sameButUnlinkFaults w1 w2 -> sameOutsideStorage w1 w2.
Proof. intros (_ & _ & H). exact H. Qed.

(** The primitives. *)

Lemma Keeps_console l : Keeps sameFaults (console l).
Proof. by intros w0 w H. Qed.

Lemma Keeps_Date_now : Keeps sameFaults Date_now.
Proof. by intros w0 w H. Qed.

Lemma Keeps_chain_invoke t : Keeps sameFaults (chain_invoke t).
Proof. by intros w0 w H. Qed.

Lemma Keeps_readFile p : Keeps sameFaults (Fs.readFile p).
Proof.
  intros w0 w H. unfold Fs.readFile. by repeat case_match.
Qed.

Lemma Keeps_unlink p : Keeps sameFaults (Fs.unlink p).
Proof.
  intros w0 w H. unfold Fs.unlink. by repeat case_match.
Qed.

Lemma Rel2_console_strict l :
  Rel2 sameButUnlinkFaults sameButUnlinkFaults (console l).
Proof. by intros w1 w2 H. Qed.

Lemma Rel2_console_outside l :
  Rel2 sameOutsideStorage sameOutsideStorage (console l).
Proof. by intros w1 w2 H. Qed.

Lemma Rel2_Date_now_strict :
  Rel2 sameButUnlinkFaults sameButUnlinkFaults Date_now.
Proof.
  intros w1 w2 (Hu & Hf & Hc & Ht & Hm & Hn & Hi & Hj). cbn.
  rewrite Hc, Ht. repeat split; cbn; auto; congruence.
Qed.

Lemma Rel2_Date_now_outside :
  Rel2 sameOutsideStorage sameOutsideStorage Date_now.
Proof.
  intros w1 w2 (Hc & Ht & Hm & Hn & Hi & Hj). cbn.
  rewrite Hc, Ht. repeat split; cbn; congruence.
Qed.

Lemma Rel2_chain_invoke t :
  Rel2 sameButUnlinkFaults sameButUnlinkFaults (chain_invoke t).
Proof.
  intros w1 w2 (Hu & Hf & Hc & Ht & Hm & Hn & Hi & Hj). cbn.
  rewrite Hm, Hn. repeat split; cbn; auto; congruence.
Qed.

Lemma Rel2_readFile p :
  Rel2 sameButUnlinkFaults sameButUnlinkFaults (Fs.readFile p).
Proof.
  intros w1 w2 H. pose proof H as (Hu & Hf & _).
  unfold Fs.readFile, Fs.lookup. rewrite Hu, (Hf (OpReadFile p)) by done.
  by repeat case_match.
Qed.


(** ** The sweep of temp storage *)

(** One iteration of the sweep, spelled out. *)
Lemma cleanupLoop_cons file rest w :
  cleanupLoop (file :: rest) w
  = if w_fault w (OpStat file) then (Throw Fs.EACCES, w)
    else match Fs.lookup file w with
         | None => (Throw Fs.ENOENT, w)
         | Some e =>
             let w1 := snd (Date_now w) in
             if e_mtime e <? w_clock w (w_tick w) - 3600000 then
               if w_fault w (OpUnlink file) then (Throw Fs.EACCES, w1)
               else cleanupLoop rest
                      (snd (console_log (lit "Cleaned up old file: " ++ file)
                              (snd (Fs.unlink file w1))))
             else cleanupLoop rest w1
         end.
Proof.
  cbn [cleanupLoop]. unfold bind at 1, Fs.stat_mtime.
  destruct (w_fault w (OpStat file)); [done|].
  destruct (Fs.lookup file w) as [e|] eqn:He; [|done].
  unfold bind at 1. cbn [Date_now snd]. cbv zeta.
  destruct (e_mtime e <? w_clock w (w_tick w) - 3600000); [|done].
  unfold bind at 1 2, Fs.unlink. cbn [w_fault w_uploads].
  destruct (w_fault w (OpUnlink file)); [done|].
  unfold Fs.lookup in He. destruct (w_uploads w) as [dir|]; [|done].
  rewrite He. done.
Qed.

(** What [fs.unlink] does to the world. *)
Lemma unlink_effect p w :
  let w' := snd (Fs.unlink p w) in
  w_clock w' = w_clock w /\ w_tick w' = w_tick w /\ w_fault w' = w_fault w /\
  forall q, Fs.lookup q w'
            = if decide (p = q)
              then (if w_fault w (OpUnlink p) then Fs.lookup q w else None)
              else Fs.lookup q w.
Proof.
  cbv zeta. unfold Fs.unlink, Fs.lookup.
  destruct (w_fault w (OpUnlink p)) eqn:Hf; cbn.
  { repeat split. intros q. by case_decide. }
  destruct (w_uploads w) as [dir|] eqn:Hd; cbn.
  - destruct (dir !! p) eqn:Hp; cbn.
    + repeat split. intros q. apply lookup_delete.
    + rewrite Hd. repeat split. intros q. case_decide; by subst.
  - rewrite Hd. repeat split. intros q. by case_decide.
Qed.

(** The world behind the deletion of an old file in the sweep. *)
Lemma sweep_deletion_effect file w :
  w_fault w (OpUnlink file) = false ->
  let w1 := snd (console_log (lit "Cleaned up old file: " ++ file)
                   (snd (Fs.unlink file (snd (Date_now w))))) in
  w_clock w1 = w_clock w /\ w_tick w1 = S (w_tick w) /\
  w_fault w1 = w_fault w /\
  forall q, Fs.lookup q w1 = if decide (file = q) then None else Fs.lookup q w.
Proof.
  intros Hf w1.
  destruct (unlink_effect file (snd (Date_now w))) as (Hc & Ht & Hfa & Hl).
  cbn [Date_now snd w_fault] in Hl. rewrite Hf in Hl.
  repeat split; [exact Hc | exact Ht | exact Hfa |].
  intros q. unfold w1. exact (Hl q).
Qed.

Lemma olderThanOneHour_ltb now e :
  (e_mtime e <? now - 3600000) = true <-> olderThanOneHour now e.
Proof. unfold olderThanOneHour. rewrite Z.ltb_lt. lia. Qed.

(** A file the sweep does not find older than one hour when it reaches it is
    still there afterwards, whatever fails. *)
Lemma cleanupLoop_retains files : forall w p e,
  Fs.lookup p w = Some e ->
  (forall i, files !! i = Some p ->
             ~ olderThanOneHour (w_clock w (w_tick w + i)%nat) e) ->
  Fs.lookup p (snd (cleanupLoop files w)) = Some e.
Proof.
  induction files as [|file rest IH]; intros w p e Hp Hyoung; [done|].
  rewrite cleanupLoop_cons.
  destruct (w_fault w (OpStat file)); [done|].
  destruct (Fs.lookup file w) as [e0|] eqn:He0; [|done].
  cbv zeta.
  assert (Hrest : forall w1, w_clock w1 = w_clock w -> w_tick w1 = S (w_tick w) ->
            forall i, rest !! i = Some p ->
              ~ olderThanOneHour (w_clock w1 (w_tick w1 + i)%nat) e).
  { intros w1 Hc Ht i Hi. rewrite Hc, Ht.
    replace (S (w_tick w) + i)%nat with (w_tick w + S i)%nat by lia.
    by apply Hyoung. }
  destruct (e_mtime e0 <? w_clock w (w_tick w) - 3600000) eqn:Hold.
  - destruct (w_fault w (OpUnlink file)) eqn:Hf; [done|].
    assert (Hne : p <> file).
    { intros ->. rewrite He0 in Hp. injection Hp as ->.
      apply olderThanOneHour_ltb in Hold.
      apply (Hyoung O eq_refl). by rewrite Nat.add_0_r. }
    destruct (sweep_deletion_effect file w Hf) as (Hc & Ht & _ & Hl).
    apply IH; [|by apply Hrest].
    rewrite Hl. by case_decide.
  - apply IH; [done | by apply Hrest].
Qed.

(** What is gone stays gone. *)
Lemma cleanupLoop_stays_gone files : forall w p,
  Fs.lookup p w = None -> Fs.lookup p (snd (cleanupLoop files w)) = None.
Proof.
  induction files as [|file rest IH]; intros w p Hp; [done|].
  rewrite cleanupLoop_cons.
  destruct (w_fault w (OpStat file)); [done|].
  destruct (Fs.lookup file w) as [e0|] eqn:He0; [|done].
  cbv zeta.
  destruct (e_mtime e0 <? w_clock w (w_tick w) - 3600000); [|by apply IH].
  destruct (w_fault w (OpUnlink file)) eqn:Hf; [done|].
  destruct (sweep_deletion_effect file w Hf) as (_ & _ & _ & Hl).
  apply IH. rewrite Hl. by case_decide.
Qed.

(** The listing names every file of the directory once. *)
Lemma listing_NoDup (order : list (list N)) (dir : gmap (list N) Entry) :
  NoDup (Fs.listing order dir).
Proof.
  unfold Fs.listing. apply NoDup_app. split_and!.
  - apply NoDup_filter, NoDup_remove_dups.
  - intros p [_ Hp]%list_elem_of_filter [Hnot _]%list_elem_of_filter.
    apply Hnot. by apply elem_of_remove_dups.
  - apply NoDup_filter, NoDup_fst_map_to_list.
Qed.

Lemma elem_of_listing (order : list (list N)) (dir : gmap (list N) Entry) p :
  p ∈ Fs.listing order dir <-> is_Some (dir !! p).
Proof.
  unfold Fs.listing. rewrite elem_of_app, !list_elem_of_filter.
  rewrite elem_of_remove_dups. split.
  - intros [[Hp _] | [_ [[p' e] [-> Hpe]]%list_elem_of_fmap]]; [done|].
    apply elem_of_map_to_list in Hpe. eauto.
  - intros [e Hp]. destruct (decide (p ∈ order)); [left; eauto|].
    right. split; [done|]. apply list_elem_of_fmap. exists (p, e).
    split; [done|]. by apply elem_of_map_to_list.
Qed.

(** What becomes of a listed file: it is deleted when it is older than one
    hour at the reading it is compared with and no call of the loop up to and
    including its own fails; when one of these calls fails, it is retained,
    whatever its age. *)
Lemma cleanupLoop_fate files : forall w,
  NoDup files ->
  (forall p, p ∈ files -> is_Some (Fs.lookup p w)) ->
  forall i p e,
    files !! i = Some p -> Fs.lookup p w = Some e ->
    let passes :=
      forall j q,
        (j <= i)%nat -> files !! j = Some q ->
        w_fault w (OpStat q) = false /\
        forall e',
          Fs.lookup q w = Some e' ->
          olderThanOneHour (w_clock w (w_tick w + j)%nat) e' ->
          w_fault w (OpUnlink q) = false in
    (passes -> olderThanOneHour (w_clock w (w_tick w + i)%nat) e ->
     Fs.lookup p (snd (cleanupLoop files w)) = None) /\
    (~ passes -> Fs.lookup p (snd (cleanupLoop files w)) = Some e).
Proof.
  induction files as [|file rest IH]; intros w Hnd Hin i p e Hi Hp; [done|].
  cbv zeta. rewrite cleanupLoop_cons.
  apply NoDup_cons in Hnd as [Hfresh Hnd].
  destruct (w_fault w (OpStat file)) eqn:Hstat.
  { split; [|done]. intros Hpass.
    destruct (Hpass O file (Nat.le_0_l i) eq_refl) as [Hno _]. congruence. }
  destruct (Hin file) as [e0 He0]; [left|]. rewrite He0. cbv zeta.
  destruct (e_mtime e0 <? w_clock w (w_tick w) - 3600000) eqn:Hold.
  - destruct (w_fault w (OpUnlink file)) eqn:Hunlink.
    { split; [|done]. intros Hpass.
      destruct (Hpass O file (Nat.le_0_l i) eq_refl) as [_ Hno].
      rewrite (Hno e0 He0) in Hunlink; [done|].
      rewrite Nat.add_0_r. by apply olderThanOneHour_ltb. }
    destruct (sweep_deletion_effect file w Hunlink) as (Hc & Ht & Hfa & Hlk).
    set (w1 := snd (console_log _ (snd (Fs.unlink file (snd (Date_now w))))))
      in *.
    destruct i as [|i].
    + injection Hi as <-. split.
      * intros _ _. apply cleanupLoop_stays_gone. rewrite Hlk. by case_decide.
      * intros Hnot. destruct Hnot. intros j q Hj Hq.
        assert (j = O) as -> by lia. injection Hq as <-. done.
    + cbn in Hi.
      assert (Hne : file <> p).
      { intros ->. apply Hfresh. by eapply list_elem_of_lookup_2. }
      assert (Hp1 : Fs.lookup p w1 = Some e) by (rewrite Hlk; by case_decide).
      destruct (IH w1 Hnd) with (i := i) (p := p) (e := e) as [Hdel Hret];
        [|done|done|].
      { intros q Hq. rewrite Hlk. case_decide; [by subst|].
        apply Hin. by right. }
      rewrite Hc, Ht, Hfa in Hdel, Hret.
      assert (Hclock : forall j, (S (w_tick w) + j)%nat = (w_tick w + S j)%nat)
        by (intros; lia).
      split.
      * intros Hpass Holder. apply Hdel.
        -- intros j q Hj Hq.
           destruct (Hpass (S j) q) as [Hs Hu]; [lia|done|].
           split; [done|]. intros e' He'. rewrite Hclock. apply Hu.
           rewrite Hlk in He'. by case_decide.
        -- by rewrite Hclock.
      * intros Hnot. apply Hret. intros Hpass. apply Hnot.
        intros [|j] q Hj Hq.
        -- injection Hq as <-. done.
        -- cbn in Hq. destruct (Hpass j q) as [Hs Hu]; [lia|done|].
           split; [done|]. intros e' He'. rewrite <- Hclock. apply Hu.
           rewrite Hlk. case_decide; [|done].
           subst. destruct Hfresh. by eapply list_elem_of_lookup_2.
  - set (w1 := snd (Date_now w)).
    assert (Hyoung : ~ olderThanOneHour (w_clock w (w_tick w)) e0).
    { rewrite <- olderThanOneHour_ltb. congruence. }
    destruct i as [|i].
    + injection Hi as <-. rewrite He0 in Hp. injection Hp as ->.
      split.
      * intros _ Holder. rewrite Nat.add_0_r in Holder. done.
      * intros _. apply cleanupLoop_retains; [done|].
        intros j Hj. destruct Hfresh. by eapply list_elem_of_lookup_2.
    + cbn in Hi.
      destruct (IH w1 Hnd) with (i := i) (p := p) (e := e) as [Hdel Hret];
        [|done|done|].
      { intros q Hq. apply Hin. by right. }
      change (w_clock w1) with (w_clock w) in Hdel, Hret.
      change (w_tick w1) with (S (w_tick w)) in Hdel, Hret.
      change (w_fault w1) with (w_fault w) in Hdel, Hret.
      assert (Hclock : forall j, (S (w_tick w) + j)%nat = (w_tick w + S j)%nat)
        by (intros; lia).
      split.
      * intros Hpass Holder. apply Hdel.
        -- intros j q Hj Hq.
           destruct (Hpass (S j) q) as [Hs Hu]; [lia|done|].
           split; [done|]. intros e' He'. rewrite Hclock. by apply Hu.
        -- by rewrite Hclock.
      * intros Hnot. apply Hret. intros Hpass. apply Hnot.
        intros [|j] q Hj Hq.
        -- injection Hq as <-. split; [done|].
           intros e' He' Holder. rewrite He0 in He'. injection He' as <-.
           rewrite Nat.add_0_r in Holder. done.
        -- cbn in Hq. destruct (Hpass j q) as [Hs Hu]; [lia|done|].
           split; [done|]. intros e' He'. rewrite <- Hclock. by apply Hu.
Qed.

(** C8 (amended). The sweep never surfaces a failure. Every file of the uploads
    directory has its position in the directory listing, which fixes the
    clock reading the sweep compares it with; a file that is not older than
    3,600,000 ms at that reading is retained, whatever fails. A file that is
    older than that is deleted when no file-system call the sweep makes up to
    and including its own fails (the listing, the [stat] of each file listed up
    to it, the [unlink] of each of those that is older than one hour); when
    one of these calls fails, the file is retained. *)
Theorem C8_sweep_deletes_old_files w :
  exists w',
    cleanupUploadsFolder w = (Ok tt, w') /\
    forall dir p e,
      w_uploads w = Some dir ->
      dir !! p = Some e ->
      exists i,
        Fs.listing (w_order w) dir !! i = Some p /\
        let now := w_clock w (w_tick w + i)%nat in
        (~ olderThanOneHour now e -> Fs.lookup p w' = Some e) /\
        (sweepUnhinderedUpTo w (Fs.listing (w_order w) dir) i ->
         olderThanOneHour now e -> Fs.lookup p w' = None) /\
        (~ sweepUnhinderedUpTo w (Fs.listing (w_order w) dir) i ->
         Fs.lookup p w' = Some e).
Proof.
  unfold cleanupUploadsFolder, try_catch, bind, Fs.readdir.
  destruct (w_fault w OpReaddir) eqn:Hrd.
  { eexists. split; [reflexivity|].
    intros dir p e Hdir Hp.
    assert (Hin : p ∈ Fs.listing (w_order w) dir) by (apply elem_of_listing; eauto).
    apply list_elem_of_lookup_1 in Hin as [i Hi].
    exists i. split; [exact Hi|]. cbv zeta.
    assert (Hsame : Fs.lookup p
                      (snd (console_error (lit "Failed to cleanup uploads folder:") w))
                    = Some e).
    { unfold Fs.lookup. cbn. by rewrite Hdir. }
    split_and!; [done | | done].
    intros [Hno _]. congruence. }
  destruct (w_uploads w) as [dir0|] eqn:Hdir0.
  2: { eexists. split; [reflexivity|]. intros dir p e Hdir. discriminate Hdir. }
  set (listing := Fs.listing (w_order w) dir0).
  assert (Hnd : NoDup listing) by apply listing_NoDup.
  assert (Hlisted : forall p, p ∈ listing -> is_Some (Fs.lookup p w)).
  { intros p Hp%elem_of_listing. unfold Fs.lookup. by rewrite Hdir0. }
  assert (Hkeep : forall w1 line q,
            Fs.lookup q (snd (console_error line w1)) = Fs.lookup q w1) by done.
  exists (match cleanupLoop listing w with
          | (Ok _, w1) => w1
          | (Throw _, w1) =>
              snd (console_error (lit "Failed to cleanup uploads folder:") w1)
          end).
  split.
  { destruct (cleanupLoop listing w) as [[[]|err] w1]; reflexivity. }
  intros dir p e [= <-] Hp.
  assert (Hin : p ∈ listing) by (apply elem_of_listing; eauto).
  apply list_elem_of_lookup_1 in Hin as [i Hi].
  exists i. split; [exact Hi|]. cbv zeta.
  assert (Hpw : Fs.lookup p w = Some e) by (unfold Fs.lookup; by rewrite Hdir0).
  pose proof (cleanupLoop_retains listing w p e Hpw) as Hret.
  destruct (cleanupLoop_fate listing w Hnd Hlisted i p e Hi Hpw) as [Hdel Hstay].
  assert (Hend : Fs.lookup p
                   (match cleanupLoop listing w with
                    | (Ok _, w1) => w1
                    | (Throw _, w1) =>
                        snd (console_error
                               (lit "Failed to cleanup uploads folder:") w1)
                    end)
                 = Fs.lookup p (snd (cleanupLoop listing w))).
  { destruct (cleanupLoop listing w) as [[[]|err] w1]; [done | apply Hkeep]. }
  rewrite Hend. split_and!.
  - intros Hyoung. apply Hret.
    intros j Hj. by rewrite (NoDup_lookup _ _ _ _ Hnd Hj Hi).
  - intros [_ Hpass] Hold. by apply Hdel.
  - intros Hnot. apply Hstay. intros Hpass. apply Hnot. by split.
Qed.

Section ActionsFacts.

Variable JSON_parse : list N -> Result JSValue.
Variable parsePDFContent : list Byte.byte -> Result (list N).
Variable mammoth_extractRawText : list Byte.byte -> Result (list N).
Variable decodeUtf8 : list Byte.byte -> list N.
Variable splitText : list N -> list (list N).

Local Abbreviation extractText :=
  (extractTextFromFile parsePDFContent mammoth_extractRawText decodeUtf8).
Local Abbreviation processBody :=
  (processDocumentBody JSON_parse parsePDFContent mammoth_extractRawText
                       decodeUtf8 splitText).
Local Abbreviation processAction :=
  (processDocumentAction JSON_parse parsePDFContent mammoth_extractRawText
                         decodeUtf8 splitText).
Local Abbreviation batchStep :=
  (processBatchStep JSON_parse parsePDFContent mammoth_extractRawText
                    decodeUtf8 splitText).
Local Abbreviation batchLoop :=
  (processBatchLoop JSON_parse parsePDFContent mammoth_extractRawText
                    decodeUtf8 splitText).
Local Abbreviation batch :=
  (processBatchDocuments JSON_parse parsePDFContent mammoth_extractRawText
                         decodeUtf8 splitText).

(** [deleteUploadedFile] returns normally whatever [fs.unlink] does. *)
Lemma deleteUploadedFile_total filePath w :
  exists w', deleteUploadedFile filePath w = (Ok tt, w').
Proof.
  unfold deleteUploadedFile, try_catch, bind, console_log, console_error,
    console.
  destruct (Fs.unlink filePath w) as [[[]|e] w1]; eauto.
Qed.

(** Text extraction touches nothing but the console. *)
Lemma extractTextFromFile_frame filePath fileType w :
  sameButConsole w (snd (extractText filePath fileType w)).
Proof.
  unfold extractTextFromFile, try_catch, bind, Fs.readFile, liftResult,
    console_log, console_error, console, ret, throw, sameButConsole,
    sameOutsideStorage.
  repeat case_match; simplify_eq; cbn; done.
Qed.

(** Deleting a file leaves the clock, the model and the id generator alone,
    and the fault plan too. *)
Lemma deleteUploadedFile_frame filePath w :
  sameOutsideStorage w (snd (deleteUploadedFile filePath w)) /\
  w_fault (snd (deleteUploadedFile filePath w)) = w_fault w.
Proof.
  unfold deleteUploadedFile, try_catch, bind, Fs.unlink, console_log,
    console_error, console, set_uploads, sameOutsideStorage.
  repeat case_match; simplify_eq; cbn; done.
Qed.

(** The emptiness test of [processDocumentAction]. *)
Lemma blank_rejected text :
  blank text ->
  negb (JsString.truthy text) || (length (trim text) =? 0)%nat = true.
Proof. intros H. rewrite trim_blank by done. apply orb_true_r. Qed.


(** A record returned by the [try] block carries the descriptor's identity. *)
Lemma processDocumentBody_identity fileData startTime w r w' :
  processBody fileData startTime w = (Ok r, w') ->
  id r = fd_id fileData /\ fileName r = fd_fileName fileData /\
  fileType r = fd_type fileData.
Proof.
  unfold processDocumentBody, bind, ret, throw, liftResult.
  intros H. split_run H.
  by injection H as <- _.
Qed.

(** A record returned by the [try] block is measured on the whole extracted
    text. *)
Lemma processDocumentBody_counts fileData startTime w r w' :
  processBody fileData startTime w = (Ok r, w') ->
  exists text w1,
    extractText (fd_filePath fileData) (fd_type fileData) w = (Ok text, w1) /\
    wordCount r = countWords text /\
    pageCount r = Some (estimatePageCount text) /\
    textContent r = slice0 1000 text.
Proof.
  unfold processDocumentBody, bind, ret, throw, liftResult.
  intros H.
  destruct (extractText _ _ w) as [[text|e] w1] eqn:Hx; [|discriminate H].
  exists text, w1. split; [reflexivity|].
  split_run H. by injection H as <- _.
Qed.

Lemma processDocumentAction_ok_body fileData w r w' :
  processAction fileData w = (Ok r, w') ->
  processBody fileData (w_clock w (w_tick w)) (snd (Date_now w)) = (Ok r, w').
Proof.
  unfold processDocumentAction, bind, try_catch, throw. cbn [Date_now snd].
  destruct (processBody _ _ _) as [[r0|e] w1] eqn:E; [done|].
  destruct (console_error _ _) as [[[]|?] ?]; [|done].
  destruct (deleteUploadedFile _ _) as [[[]|?] ?]; done.
Qed.

Lemma processDocumentAction_identity fileData w r w' :
  processAction fileData w = (Ok r, w') ->
  id r = fd_id fileData /\ fileName r = fd_fileName fileData /\
  fileType r = fd_type fileData.
Proof.
  unfold processDocumentAction, bind, try_catch, throw. cbn [Date_now].
  intros H.
  destruct (processBody _ _ _) as [[r0|e] w1] eqn:E.
  - injection H as <- _. eauto using processDocumentBody_identity.
  - destruct (console_error _ _) as [[[]|?] ?]; [|done].
    destruct (deleteUploadedFile _ _) as [[[]|?] ?]; done.
Qed.

(** One iteration of the batch loop always pushes a record, and that record
    carries the descriptor's identity. *)
Lemma processBatchStep_total file w :
  exists r w', batchStep file w = (Ok r, w') /\
    id r = fd_id file /\ fileName r = fd_fileName file /\
    fileType r = fd_type file.
Proof.
  unfold processBatchStep, try_catch.
  destruct (processAction file w) as [[r|e] w1] eqn:E.
  - exists r, w1. eauto using processDocumentAction_identity.
  - unfold bind, console_error, console.
    destruct (deleteUploadedFile_total (fd_filePath file)
                (snd (console (ConsoleError
                   (lit "Failed to process " ++ fd_fileName file ++ lit ":")) w1)))
      as [w2 Hdel].
    cbn [console snd] in Hdel. rewrite Hdel. cbn [Date_now ret].
    eexists _, _. split; [reflexivity|]. done.
Qed.

Lemma processBatchLoop_total files : forall w,
  exists pushed w',
    (forall results, batchLoop files results w = (Ok (results ++ pushed), w')) /\
    Forall2 describes files pushed.
Proof.
  induction files as [|file files IH]; intros w.
  - exists [], w. split; [|constructor].
    intros results. cbn. by rewrite app_nil_r.
  - destruct (processBatchStep_total file w) as (r & w1 & Hstep & Hr).
    destruct (IH w1) as (pushed & w2 & Hloop & Hall).
    exists (r :: pushed), w2. split; [|by constructor].
    intros results. cbn [processBatchLoop].
    rewrite (bind_ok _ _ _ _ _ Hstep), Hloop. by rewrite <- app_assoc.
Qed.

(** The batch is its first iteration followed by the batch of the rest. *)
Lemma processBatchDocuments_cons file rest w r w1 others w2 :
  batchStep file w = (Ok r, w1) ->
  batch rest w1 = (Ok others, w2) ->
  batch (file :: rest) w = (Ok (r :: others), w2).
Proof.
  intros Hstep Hrest. unfold processBatchDocuments in *.
  cbn [processBatchLoop]. rewrite (bind_ok _ _ _ _ _ Hstep).
  destruct (processBatchLoop_total rest w1) as (pushed & w' & Hloop & _).
  rewrite Hloop in Hrest. injection Hrest as <- <-.
  by rewrite Hloop.
Qed.

(** C1. For every batch of N descriptors and every world, whatever fails
    along the way, [processBatchDocuments] returns normally a list of exactly
    N records, and the i-th record carries the id, file name and file type of
    the i-th descriptor. *)
Theorem C1_batch_one_record_per_file files w :
  exists results w',
    batch files w = (Ok results, w') /\
    length results = length files /\
    Forall2 describes files results.
Proof.
  destruct (processBatchLoop_total files w) as (pushed & w' & H & Hall).
  exists pushed, w'. split; [exact (H [])|].
  split; [symmetry; eapply Forall2_length, Hall | exact Hall].
Qed.

(** C9. In every record [processDocumentAction] returns, the word count is
    the number of whitespace-delimited tokens of the whole extracted text (not
    of the stored 1000-unit preview), and the page count is the word count
    divided by 250 and rounded up; 500 words give 2 pages. *)
Theorem C9_word_and_page_count fileData w r w' :
  processAction fileData w = (Ok r, w') ->
  exists text w1,
    extractText (fd_filePath fileData) (fd_type fileData) (snd (Date_now w))
      = (Ok text, w1) /\
    (forall toks, Tokenized text toks -> wordCount r = length toks) /\
    (exists pages,
        pageCount r = Some pages /\
        250 * (pages - 1) < Z.of_nat (wordCount r) <= 250 * pages) /\
    (wordCount r = 500%nat -> pageCount r = Some 2).
Proof.
  intros H. apply processDocumentAction_ok_body in H.
  apply processDocumentBody_counts in H
    as (text & w1 & Hx & Hwords & Hpages & _).
  exists text, w1. split; [exact Hx|]. split; [|split].
  - intros toks Htoks. rewrite Hwords. by apply countWords_tokens.
  - exists (estimatePageCount text). split; [exact Hpages|].
    rewrite Hwords. apply estimatePageCount_ceiling.
  - intros H500. rewrite Hpages. f_equal.
    pose proof (estimatePageCount_ceiling text) as Hc. cbv zeta in Hc.
    rewrite <- Hwords, H500 in Hc. lia.
Qed.


(** When the extracted text is blank, the [try] block throws before it
    reaches the model. *)
Lemma processDocumentBody_blank fileData startTime w text w1 :
  extractText (fd_filePath fileData) (fd_type fileData) w = (Ok text, w1) ->
  blank text ->
  processBody fileData startTime w
  = (Throw (JsError (lit "No text content found in document")), w1).
Proof.
  intros Hx Hblank. unfold processDocumentBody.
  rewrite (bind_ok _ _ _ _ _ Hx), (blank_rejected _ Hblank).
  reflexivity.
Qed.

(** C5. When the text extracted from a file is empty or all whitespace,
    [processDocumentAction] fails with the empty-content error without having
    invoked the model, and the batch loop turns that failure into an error
    record (confidence 0, sentiment "Error", the error text in the summary)
    and goes on with the remaining files. *)
Theorem C5_blank_text_becomes_error_record file w text w1 :
  extractText (fd_filePath file) (fd_type file) (snd (Date_now w))
    = (Ok text, w1) ->
  blank text ->
  let failure :=
    JsError (lit "Failed to process document: No text content found in document") in
  (exists w2,
      processAction file w = (Throw failure, w2) /\ w_calls w2 = w_calls w) /\
  (forall rest, exists r w3 others w4,
      batchStep file w = (Ok r, w3) /\
      batch rest w3 = (Ok others, w4) /\
      batch (file :: rest) w = (Ok (r :: others), w4) /\
      describes file r /\
      confidence r = JNum (Dec 0 0) /\
      sentiment r = JStr (lit "Error") /\
      summary r
      = JStr (lit "Processing failed: Failed to process document: No text content found in document")).
Proof.
  intros Hx Hblank failure.
  pose proof (processDocumentBody_blank file (w_clock w (w_tick w)) _ _ _
                Hx Hblank) as Hbody.
  assert (Hact : exists w2, processAction file w = (Throw failure, w2) /\
                            w_calls w2 = w_calls w).
  { unfold processDocumentAction.
    rewrite (bind_ok _ _ w (w_clock w (w_tick w)) (snd (Date_now w)) eq_refl).
    rewrite (try_catch_throw _ _ _ _ _ Hbody).
    unfold bind at 1. cbn [console_error console].
    match goal with
    | |- context [bind (deleteUploadedFile ?p) ?k ?w0] =>
        destruct (deleteUploadedFile_total p w0) as [w2 Hdel];
        pose proof (deleteUploadedFile_frame p w0) as [Hframe _];
        rewrite (bind_ok _ _ _ _ _ Hdel)
    end.
    exists w2. split; [reflexivity|].
    rewrite Hdel in Hframe. cbn [snd] in Hframe.
    destruct Hframe as (_ & _ & _ & <- & _). cbn [w_calls].
    pose proof (extractTextFromFile_frame (fd_filePath file) (fd_type file)
                  (snd (Date_now w))) as (_ & _ & _ & _ & _ & Hcalls & _).
    rewrite Hx in Hcalls. cbn [snd Date_now w_calls] in Hcalls. done. }
  split; [exact Hact|].
  destruct Hact as (w2 & Hact & _). intros rest.
  assert (Hstep : exists r w3, batchStep file w = (Ok r, w3) /\
            r = errorResult file failure (w_clock w3 (Nat.pred (w_tick w3)))).
  { unfold processBatchStep. rewrite (try_catch_throw _ _ _ _ _ Hact).
    unfold bind at 1. cbn [console_error console].
    match goal with
    | |- context [bind (deleteUploadedFile ?p) ?k ?w0] =>
        destruct (deleteUploadedFile_total p w0) as [w3 Hdel];
        rewrite (bind_ok _ _ _ _ _ Hdel)
    end.
    cbn. eauto. }
  destruct Hstep as (r & w3 & Hstep & ->).
  destruct (processBatchLoop_total rest w3) as (others & w4 & Hrest & _).
  specialize (Hrest []). cbn [app] in Hrest.
  eexists _, w3, others, w4. split; [exact Hstep|]. split; [exact Hrest|].
  split; [eapply processBatchDocuments_cons; eassumption|].
  repeat split.
Qed.


Lemma nonblank_accepted text :
  trim text <> [] ->
  negb (JsString.truthy text) || (length (trim text) =? 0)%nat = false.
Proof.
  intros H. destruct text as [|c text]; [done|].
  cbn [JsString.truthy negb orb]. by destruct (trim (c :: text)).
Qed.

(** When [JSON.parse] throws, the inner [catch] supplies the fallback. *)
Lemma parseAnalysis_throw content e w :
  JSON_parse (jsonCandidate (cleanResponse content)) = Throw e ->
  exists w', parseAnalysis JSON_parse content w = (Ok fallbackAnalysis, w') /\
             sameButConsole w w'.
Proof.
  intros H. unfold parseAnalysis, try_catch, bind, liftResult. rewrite H.
  cbn. eexists. split; [reflexivity|]. repeat split.
Qed.

Lemma parseAnalysis_ok content v w :
  JSON_parse (jsonCandidate (cleanResponse content)) = Ok v ->
  exists w', parseAnalysis JSON_parse content w = (Ok v, w') /\
             sameButConsole w w'.
Proof.
  intros H. unfold parseAnalysis, try_catch, bind, liftResult. rewrite H.
  cbn. eexists. split; [reflexivity|]. repeat split.
Qed.

Lemma fallback_fields :
  JsValue.getProp fallbackAnalysis (lit "sentiment") = Ok (JStr (lit "Analysis completed")) /\
  JsValue.getProp fallbackAnalysis (lit "topics") = Ok (JArr [JStr (lit "Document analysis")]) /\
  JsValue.getProp fallbackAnalysis (lit "summary") = Ok (JStr (lit "Document processed successfully")) /\
  JsValue.getProp fallbackAnalysis (lit "entities") = Ok (JArr []) /\
  JsValue.getProp fallbackAnalysis (lit "keyInsights") = Ok (JArr [JStr (lit "Document contains valuable content")]) /\
  JsValue.getProp fallbackAnalysis (lit "confidence") = Ok (JNum (Dec 7 (-1))).
Proof. repeat split; vm_compute; reflexivity. Qed.

(** C2 (amended). When the extracted text is not blank, the model answers,
    and [JSON.parse] throws on the text handed to it (the brace match of the
    cleaned reply, or the whole cleaned reply when nothing matches),
    [processDocumentAction] does not fail: it returns the record built from
    the fixed fallback analysis. *)
Theorem C2_unparseable_reply_gives_fallback fileData w text w1 reply e :
  extractText (fd_filePath fileData) (fd_type fileData) (snd (Date_now w))
    = (Ok text, w1) ->
  trim text <> [] ->
  w_model w1 (w_calls w1) (analysisTextOf splitText text) = Ok reply ->
  JSON_parse (jsonCandidate (cleanResponse reply)) = Throw e ->
  exists r w',
    processAction fileData w = (Ok r, w') /\
    sentiment r = JStr (lit "Analysis completed") /\
    confidence r = JNum (Dec 7 (-1)) /\
    topics r = [JStr (lit "Document analysis")] /\
    summary r = JStr (lit "Document processed successfully") /\
    entities r = [] /\
    keyInsights r = [JStr (lit "Document contains valuable content")].
Proof.
  intros Hx Htext Hmodel Hparse.
  destruct fallback_fields as (Hs & Ht & Hsum & He & Hk & Hc).
  unfold processDocumentAction.
  rewrite (bind_ok _ _ w (w_clock w (w_tick w)) (snd (Date_now w)) eq_refl).
  unfold try_catch at 1. unfold processDocumentBody.
  rewrite (bind_ok _ _ _ _ _ Hx), (nonblank_accepted _ Htext).
  unfold bind at 1. cbn [ret].
  unfold bind at 1, chain_invoke at 1. rewrite Hmodel.
  unfold bind at 1. cbn [console_log console].
  match goal with
  | |- context [bind (parseAnalysis _ _) ?k ?w0] =>
      destruct (parseAnalysis_throw reply e w0 Hparse) as (w3 & Hpa & _);
      rewrite (bind_ok _ _ _ _ _ Hpa)
  end.
  unfold bind at 1. cbn [console_log console].
  unfold bind at 1. cbn [Date_now].
  rewrite Hs. unfold bind at 1. cbn [liftResult].
  rewrite Ht. unfold bind at 1. cbn [liftResult].
  rewrite Hsum. unfold bind at 1. cbn [liftResult].
  rewrite He. unfold bind at 1. cbn [liftResult].
  rewrite Hk. unfold bind at 1. cbn [liftResult].
  unfold bind at 1. cbn [Date_now].
  rewrite Hc. unfold bind at 1. cbn [liftResult].
  match goal with
  | |- context [bind (deleteUploadedFile ?p) ?k ?w0] =>
      destruct (deleteUploadedFile_total p w0) as [w4 Hdel];
      rewrite (bind_ok _ _ _ _ _ Hdel)
  end.
  cbn [ret].
  eexists _, _. split; [reflexivity|]. repeat split.
Qed.

(** C3 (amended). The parser removes every code-fence marker (first the
    occurrences of the json fence, then those of the bare fence) and trims;
    it hands to [JSON.parse] the stretch from the first opening brace to the
    last closing brace of the cleaned text, and the whole cleaned text only
    when no closing brace stands behind an opening one; what [JSON.parse]
    returns is the analysis, and the fallback takes its place when it throws.
    In particular a reply that is one json-fenced object whose text contains
    no fence marker is parsed into that object. *)
Theorem C3_response_parser reply w :
  let cleaned := trim (removeAll FENCE (removeAll FENCE_JSON reply)) in
  (exists text w',
      parseAnalysis JSON_parse reply w
      = (Ok (match JSON_parse text with
             | Ok v => v
             | Throw _ => fallbackAnalysis
             end), w') /\
      (forall pre body post,
          cleaned = pre ++ LBRACE :: body ++ RBRACE :: post ->
          LBRACE ∉ pre -> RBRACE ∉ post ->
          text = LBRACE :: body ++ [RBRACE]) /\
      ((forall pre body post,
           cleaned <> pre ++ LBRACE :: body ++ RBRACE :: post) ->
       text = cleaned)) /\
  (forall ws1 mid ws2 obj,
      reply = FENCE_JSON ++ ws1 ++ (LBRACE :: mid ++ [RBRACE]) ++ ws2 ++ FENCE ->
      blank ws1 -> blank ws2 ->
      containsPat FENCE (LBRACE :: mid ++ [RBRACE]) = false ->
      JSON_parse (LBRACE :: mid ++ [RBRACE]) = Ok obj ->
      fst (parseAnalysis JSON_parse reply w) = Ok obj).
Proof.
  intros cleaned. split.
  - exists (jsonCandidate cleaned).
    destruct (JSON_parse (jsonCandidate cleaned)) as [v|e] eqn:Hp.
    + destruct (parseAnalysis_ok reply v w Hp) as (w' & Hrun & _).
      exists w'. split; [exact Hrun|]. split.
      * intros pre body post Hc Hpre Hpost. unfold jsonCandidate.
        by rewrite Hc, matchBraces_first_to_last.
      * intros Hno. unfold jsonCandidate. by rewrite matchBraces_None.
    + destruct (parseAnalysis_throw reply e w Hp) as (w' & Hrun & _).
      exists w'. split; [exact Hrun|]. split.
      * intros pre body post Hc Hpre Hpost. unfold jsonCandidate.
        by rewrite Hc, matchBraces_first_to_last.
      * intros Hno. unfold jsonCandidate. by rewrite matchBraces_None.
  - intros ws1 mid ws2 obj -> H1 H2 Hbody Hobj.
    assert (Hcand : JSON_parse (jsonCandidate (cleanResponse
              (FENCE_JSON ++ ws1 ++ (LBRACE :: mid ++ [RBRACE]) ++ ws2 ++ FENCE)))
            = Ok obj).
    { by rewrite cleanResponse_fenced, jsonCandidate_braced. }
    destruct (parseAnalysis_ok _ obj w Hcand) as (w' & Hrun & _).
    by rewrite Hrun.
Qed.


(** C4 (what the code does). For a declared type outside the four supported
    ones [extractTextFromFile] fails, but the error its caller receives is the
    generic one of the [catch] clause: the error naming the type is thrown
    inside the [try] block and replaced there. *)
Theorem C4_unsupported_type_error_is_generic filePath fileType w :
  fileType ∉ [MIME_PDF; MIME_DOCX; MIME_DOC; MIME_TXT] ->
  extractText filePath fileType w
  = (Throw (JsError (lit "Failed to extract text from document")),
     snd (console_error (lit "Text extraction error:") w)).
Proof.
  intros Hty. unfold extractTextFromFile, try_catch.
  apply not_elem_of_cons in Hty as [H1 Hty].
  apply not_elem_of_cons in Hty as [H2 Hty].
  apply not_elem_of_cons in Hty as [H3 Hty].
  apply not_elem_of_cons in Hty as [H4 _].
  destruct (decide (fileType = MIME_PDF)); [done|].
  destruct (decide (fileType = MIME_DOCX \/ fileType = MIME_DOC)) as [[|]|];
    [done..|].
  destruct (decide (fileType = MIME_TXT)); [done|].
  reflexivity.
Qed.


Ltac keeps :=
  repeat first
    [ apply Keeps_bind; [|intros ?]
    | apply Keeps_try_catch; [|intros ?]
    | apply Keeps_if
    | apply Keeps_ret | apply Keeps_throw | apply Keeps_liftResult
    | apply Keeps_console | apply Keeps_Date_now | apply Keeps_chain_invoke
    | apply Keeps_readFile | apply Keeps_unlink
    | case_decide ].

Ltac strict :=
  repeat first
    [ apply (Rel2_bind _ sameButUnlinkFaults); [done| |intros ?]
    | apply (Rel2_try_catch _ sameButUnlinkFaults); [done| |intros ?]
    | apply Rel2_if
    | apply Rel2_ret | apply Rel2_throw | apply Rel2_liftResult
    | apply Rel2_console_strict | apply Rel2_Date_now_strict
    | apply Rel2_chain_invoke | apply Rel2_readFile
    | case_decide ].

Lemma Keeps_deleteUploadedFile p : Keeps sameFaults (deleteUploadedFile p).
Proof. unfold deleteUploadedFile, console_log, console_error. keeps. Qed.

Lemma Keeps_extractTextFromFile p t : Keeps sameFaults (extractText p t).
Proof. unfold extractTextFromFile, console_log, console_error. keeps. Qed.

Lemma Keeps_parseAnalysis content :
  Keeps sameFaults (parseAnalysis JSON_parse content).
Proof. unfold parseAnalysis, console_log, console_error. keeps. Qed.

Lemma Keeps_processDocumentAction file :
  Keeps sameFaults (processAction file).
Proof.
  unfold processDocumentAction, processDocumentBody, console_log, console_error.
  keeps; first [ apply Keeps_extractTextFromFile | apply Keeps_parseAnalysis
               | apply Keeps_deleteUploadedFile ].
Qed.

Lemma Rel2_extractTextFromFile p t :
  Rel2 sameButUnlinkFaults sameButUnlinkFaults (extractText p t).
Proof. unfold extractTextFromFile, console_log, console_error. strict. Qed.

Lemma Rel2_parseAnalysis content :
  Rel2 sameButUnlinkFaults sameButUnlinkFaults (parseAnalysis JSON_parse content).
Proof. unfold parseAnalysis, console_log, console_error. strict. Qed.

(** Whether the deletion succeeds or not, [deleteUploadedFile] returns the
    same thing, and the worlds still agree outside temp storage. *)
Lemma Rel2_deleteUploadedFile p :
  Rel2 sameOutsideStorage sameOutsideStorage (deleteUploadedFile p).
Proof.
  intros w1 w2 H.
  destruct (deleteUploadedFile_total p w1) as [w1' H1].
  destruct (deleteUploadedFile_total p w2) as [w2' H2].
  pose proof (deleteUploadedFile_frame p w1) as [F1 _].
  pose proof (deleteUploadedFile_frame p w2) as [F2 _].
  rewrite H1 in F1 |- *. rewrite H2 in F2 |- *. cbn [fst snd] in F1, F2 |- *.
  split; [done|].
  destruct H as (? & ? & ? & ? & ? & ?), F1 as (? & ? & ? & ? & ? & ?),
    F2 as (? & ? & ? & ? & ? & ?).
  repeat split; congruence.
Qed.

Lemma Rel2_deleteUploadedFile_strict p :
  Rel2 sameButUnlinkFaults sameOutsideStorage (deleteUploadedFile p).
Proof.
  intros w1 w2 H. apply Rel2_deleteUploadedFile.
  by apply sameButUnlinkFaults_outside.
Qed.

Ltac outside :=
  repeat first
    [ apply (Rel2_bind _ sameOutsideStorage); [done| |intros ?]
    | apply Rel2_ret | apply Rel2_throw
    | apply Rel2_console_outside | apply Rel2_Date_now_outside
    | apply Rel2_deleteUploadedFile ].

Ltac strict_step :=
  apply (Rel2_bind _ sameButUnlinkFaults sameOutsideStorage);
  [ exact sameButUnlinkFaults_outside
  | first [ apply Rel2_extractTextFromFile | apply Rel2_parseAnalysis
          | solve [unfold console_log; strict] ]
  | intros ? ].

(** Up to its result, the [try] block does not depend on which deletions
    fail. *)
Lemma Rel2_processDocumentBody file startTime :
  Rel2 sameButUnlinkFaults sameOutsideStorage (processBody file startTime).
Proof.
  unfold processDocumentBody. repeat strict_step.
  apply (Rel2_bind _ sameOutsideStorage); [done| |intros ?].
  - apply Rel2_deleteUploadedFile_strict.
  - apply Rel2_ret.
Qed.

Lemma Rel2_processDocumentAction file :
  Rel2 sameButUnlinkFaults sameOutsideStorage (processAction file).
Proof.
  unfold processDocumentAction.
  apply (Rel2_bind _ sameButUnlinkFaults);
    [exact sameButUnlinkFaults_outside | apply Rel2_Date_now_strict | intros startTime].
  apply (Rel2_try_catch _ sameOutsideStorage);
    [done | apply Rel2_processDocumentBody | intros e].
  unfold console_error. outside.
Qed.

Lemma Rel2_processBatchStep file :
  Rel2 sameButUnlinkFaults sameOutsideStorage (batchStep file).
Proof.
  unfold processBatchStep.
  apply (Rel2_try_catch _ sameOutsideStorage);
    [done | apply Rel2_processDocumentAction | intros e].
  unfold console_error. outside.
Qed.

(** What a deletion attempt leaves behind. *)
Lemma deleteUploadedFile_afterDeletion p w :
  afterDeletion p (snd (deleteUploadedFile p w)).
Proof.
  unfold afterDeletion, deletionLine, deleteUploadedFile, try_catch, bind,
    Fs.unlink, Fs.lookup, console_log, console_error, console, set_uploads.
  destruct (w_fault w (OpUnlink p)) eqn:Hf; cbn.
  - split; [eauto|]. congruence.
  - destruct (w_uploads w) as [dir|] eqn:Hd; cbn.
    + destruct (dir !! p) eqn:Hp; cbn.
      * split; [eauto|]. intros _. apply lookup_delete_eq.
      * rewrite Hd. split; [eauto|]. done.
    + rewrite Hd. split; [eauto|]. done.
Qed.

Lemma processDocumentBody_ends_with_deletion file startTime w r w' :
  processBody file startTime w = (Ok r, w') ->
  exists w0, w' = snd (deleteUploadedFile (fd_filePath file) w0).
Proof.
  unfold processDocumentBody, bind, ret, throw, liftResult.
  intros H. split_run H. injection H as _ <-.
  match goal with
  | E : deleteUploadedFile _ ?w0 = _ |- _ => exists w0; by rewrite E
  end.
Qed.

(** Whether it returns or throws, [processDocumentAction] ends right behind a
    deletion attempt on the file's path. *)
Lemma processDocumentAction_afterDeletion file w :
  afterDeletion (fd_filePath file) (snd (processAction file w)).
Proof.
  unfold processDocumentAction, bind, try_catch, throw. cbn [Date_now].
  destruct (processBody _ _ _) as [[r|e] w1] eqn:E.
  - apply processDocumentBody_ends_with_deletion in E as [w0 ->].
    apply deleteUploadedFile_afterDeletion.
  - cbn [console_error console].
    match goal with
    | |- context [deleteUploadedFile ?p ?w0] =>
        pose proof (deleteUploadedFile_afterDeletion p w0) as Hpost;
        destruct (deleteUploadedFile p w0) as [[[]|?] w2]
    end; exact Hpost.
Qed.

Lemma processBatchStep_afterDeletion file w :
  afterDeletion (fd_filePath file) (snd (batchStep file w)).
Proof.
  unfold processBatchStep, try_catch.
  pose proof (processDocumentAction_afterDeletion file w) as Hact.
  destruct (processAction file w) as [[r|e] w1]; [exact Hact|].
  unfold bind. cbn [console_error console].
  match goal with
  | |- context [deleteUploadedFile ?p ?w0] =>
      pose proof (deleteUploadedFile_afterDeletion p w0) as Hpost;
      destruct (deleteUploadedFile p w0) as [[[]|?] w2]
  end; exact Hpost.
Qed.

Lemma Keeps_processBatchStep file : Keeps sameFaults (batchStep file).
Proof.
  unfold processBatchStep, console_error.
  keeps; first [ apply Keeps_processDocumentAction
               | apply Keeps_deleteUploadedFile ].
Qed.

(** C6. [deleteUploadedFile] never throws. Processing a file, alone or as one
    iteration of the batch, ends right behind a deletion attempt on the file's
    path whether the processing succeeded or failed: the attempt's console line
    is the latest one when the result is produced, and the entry is gone unless
    the deletion failed for an outside reason. Whether deletions fail does not
    change what is returned or thrown. *)
Theorem C6_deletion_attempted_and_contained file w :
  (forall p w0, exists w0', deleteUploadedFile p w0 = (Ok tt, w0')) /\
  (forall run, run = processAction file \/ run = batchStep file ->
     (exists line older,
         w_console (snd (run w)) = line :: older /\
         deletionLine (fd_filePath file) line) /\
     (w_fault w (OpUnlink (fd_filePath file)) = false ->
      Fs.lookup (fd_filePath file) (snd (run w)) = None) /\
     (forall w2, sameButUnlinkFaults w w2 -> fst (run w) = fst (run w2))).
Proof.
  split; [exact deleteUploadedFile_total|].
  intros run [-> | ->].
  - destruct (processDocumentAction_afterDeletion file w) as [Hline Hgone].
    split; [exact Hline|]. split.
    + rewrite <- (Keeps_processDocumentAction file w w eq_refl). exact Hgone.
    + intros w2 H. by apply Rel2_processDocumentAction.
  - destruct (processBatchStep_afterDeletion file w) as [Hline Hgone].
    split; [exact Hline|]. split.
    + rewrite <- (Keeps_processBatchStep file w w eq_refl). exact Hgone.
    + intros w2 H. by apply Rel2_processBatchStep.
Qed.

End ActionsFacts.

(** ** The upload route *)

(** The sweep returns normally whatever fails, and neither changes the fault
    plan nor creates or removes the uploads directory. *)
Lemma cleanupLoop_frame files : forall w,
  sameFaults w (snd (cleanupLoop files w)) /\
  sameDirPresence w (snd (cleanupLoop files w)).
Proof.
  unfold sameFaults, sameDirPresence.
  induction files as [|file rest IH]; intros w; [done|].
  rewrite cleanupLoop_cons.
  destruct (w_fault w (OpStat file)); [done|].
  destruct (Fs.lookup file w) as [e|] eqn:He; [|done]. cbv zeta.
  destruct (e_mtime e <? w_clock w (w_tick w) - 3600000).
  - destruct (w_fault w (OpUnlink file)) eqn:Hf; [done|].
    match goal with |- context [cleanupLoop rest ?w1] =>
      destruct (IH w1) as [-> ->]
    end.
    unfold Fs.unlink, Fs.lookup in *. cbn. rewrite Hf.
    destruct (w_uploads w) as [dir|]; [|done]. rewrite He. done.
  - destruct (IH (snd (Date_now w))) as [-> ->]. done.
Qed.

Lemma cleanupUploadsFolder_total w :
  exists w',
    cleanupUploadsFolder w = (Ok tt, w') /\
    sameFaults w w' /\ sameDirPresence w w'.
Proof.
  unfold cleanupUploadsFolder, try_catch, bind, Fs.readdir.
  destruct (w_fault w OpReaddir); [by eexists|].
  destruct (w_uploads w) as [dir|] eqn:Hdir;
    [|eexists; split; [reflexivity|]; unfold sameDirPresence; cbn; by rewrite Hdir].
  pose proof (cleanupLoop_frame (Fs.listing (w_order w) dir) w) as Hframe.
  destruct (cleanupLoop _ w) as [[[]|e] w1]; by eexists.
Qed.

Lemma js_gt_exceedsLimit maxSize file :
  js_gt (f_size file) maxSize = true <-> exceedsLimit maxSize file.
Proof.
  unfold js_gt, exceedsLimit. destruct maxSize as [m|]; [|done].
  rewrite Z.ltb_lt. lia.
Qed.

Section UploadFacts.

Variable env : option (list N).
Variable path_extname : list N -> list N.

Local Abbreviation maxSize := (MAX_FILE_SIZE env).

Lemma saveFile_total file w :
  exists r w',
    saveFile path_extname file w = (Ok r, w') /\
    ((exists fileId filePath uploadedAt,
         r = UploadSuccess fileId (f_name file) (f_name file) (f_size file)
                           (f_type file) filePath uploadedAt) \/
     r = UploadFailure (f_name file) (lit "Failed to save file")).
Proof.
  unfold saveFile, try_catch, bind. cbn [uuidv4].
  match goal with |- context [Fs.writeFile ?p ?b ?w0] =>
    destruct (Fs.writeFile p b w0) as [[[]|e] w1]
  end; cbn; eauto 10.
Qed.

(** Every iteration of the upload loop pushes one element, of one of the four
    kinds. *)
Lemma uploadStep_total file w :
  exists r w',
    uploadStep env path_extname file w = (Ok r, w') /\
    UploadOutcome maxSize file r.
Proof.
  unfold uploadStep.
  destruct (js_gt (f_size file) maxSize) eqn:Hsize.
  { apply js_gt_exceedsLimit in Hsize. eexists _, _. split; [reflexivity|].
    by constructor. }
  assert (Hfits : ~ exceedsLimit maxSize file).
  { rewrite <- js_gt_exceedsLimit. congruence. }
  case_bool_decide as Htype; cbn [negb].
  - destruct (saveFile_total file w) as (r & w' & Hrun & Hr).
    exists r, w'. split; [exact Hrun|].
    destruct Hr as [(fileId & filePath & uploadedAt & ->) | ->];
      by constructor.
  - eexists _, _. split; [reflexivity|]. by constructor.
Qed.

Lemma uploadLoop_total files : forall w,
  exists pushed w',
    (forall uploadResults,
        uploadLoop env path_extname files uploadResults w
        = (Ok (uploadResults ++ pushed), w')) /\
    Forall2 (UploadOutcome maxSize) files pushed.
Proof.
  induction files as [|file files IH]; intros w.
  - exists [], w. split; [|constructor].
    intros uploadResults. cbn. by rewrite app_nil_r.
  - destruct (uploadStep_total file w) as (r & w1 & Hstep & Hr).
    destruct (IH w1) as (pushed & w2 & Hloop & Hall).
    exists (r :: pushed), w2. split; [|by constructor].
    intros uploadResults. cbn [uploadLoop].
    rewrite (bind_ok _ _ _ _ _ Hstep), Hloop. by rewrite <- app_assoc.
Qed.

(** The response of the upload route, case by case. *)
Lemma POST_response req w :
  exists resp w',
    POST env path_extname req w = (Ok resp, w') /\
    match req with
    | Unreadable _ => resp = ErrorResponse 500 (lit "Upload failed")
    | FormData [] => resp = ErrorResponse 400 (lit "No files uploaded")
    | FormData files =>
        (cannotCreateDir w /\ resp = ErrorResponse 500 (lit "Upload failed")) \/
        (~ cannotCreateDir w /\
         exists results,
           resp = SuccessResponse results /\
           Forall2 (UploadOutcome maxSize) files results)
    end.
Proof.
  unfold POST, try_catch.
  destruct req as [e | [|file files]].
  - eexists _, _. cbn. done.
  - eexists _, _. cbn. done.
  - unfold bind at 1. cbn [liftResult length Nat.eqb].
    destruct (cleanupUploadsFolder_total w) as (w1 & Hsweep & Hfaults & Hdir).
    rewrite (bind_ok _ _ _ _ _ Hsweep).
    unfold bind at 1. cbn [Fs.existsSync].
    destruct (uploadLoop_total (file :: files) w1) as (pushed & w2 & Hloop & Hall).
    unfold sameFaults in Hfaults. unfold sameDirPresence in Hdir.
    destruct (w_uploads w1) as [dir|] eqn:Hdir1.
    + rewrite bool_decide_eq_true_2 by eauto. cbn [negb].
      unfold bind at 1. cbn [ret]. rewrite (bind_ok _ _ _ _ _ (Hloop [])).
      eexists _, _. split; [reflexivity|]. right. split.
      * intros [Hnone _]. apply Hdir in Hnone. discriminate Hnone.
      * eauto.
    + rewrite bool_decide_eq_false_2 by (by intros [? ?]). cbn [negb].
      unfold bind at 1, Fs.mkdir. rewrite Hfaults, Hdir1.
      destruct (w_fault w OpMkdir) eqn:Hmk.
      * eexists _, _. split; [reflexivity|]. left. split; [|done].
        split; [by apply Hdir | done].
      * destruct (uploadLoop_total (file :: files) (set_uploads (Some ∅) w1))
          as (pushed' & w3 & Hloop' & Hall').
        rewrite (bind_ok _ _ _ _ _ (Hloop' [])).
        eexists _, _. split; [reflexivity|]. right. split.
        -- intros [_ Hmk']. congruence.
        -- eauto.
Qed.


(** C10. In a successful response the element of a file that is both above
    the maximum size and of a type that is not allowed is the size failure:
    the size is checked first. *)
Theorem C10_size_check_comes_first files w results w' i file :
  POST env path_extname (FormData files) w = (Ok (SuccessResponse results), w') ->
  files !! i = Some file ->
  exceedsLimit maxSize file ->
  f_type file ∉ allowedTypes ->
  results !! i
  = Some (UploadFailure (f_name file) (lit "File size exceeds limit (10MB)")).
Proof.
  intros Hrun Hi Hsize Htype.
  destruct (POST_response (FormData files) w) as (resp & w0 & Hrun' & Hresp).
  rewrite Hrun in Hrun'. injection Hrun' as <- <-.
  destruct files as [|f fs]; [done|].
  destruct Hresp as [[_ [=]] | (_ & results' & [= <-] & Hall)].
  destruct (Forall2_lookup_l _ _ _ _ _ Hall Hi) as (r & -> & Hr).
  by destruct Hr.
Qed.

End UploadFacts.

(* ===================================================================== *)
(** * More of the pipeline *)
(* ===================================================================== *)

(** ** How often the model is invoked, and what happens to temp storage *)

Lemma Keeps_calls_console l : Keeps sameCalls (console l).
Proof. by intros w0 w H. Qed.

Lemma Keeps_calls_Date_now : Keeps sameCalls Date_now.
Proof. by intros w0 w H. Qed.

Lemma Keeps_calls_readFile p : Keeps sameCalls (Fs.readFile p).
Proof. intros w0 w H. unfold Fs.readFile. by repeat case_match. Qed.

Lemma Keeps_calls_unlink p : Keeps sameCalls (Fs.unlink p).
Proof. intros w0 w H. unfold Fs.unlink. by repeat case_match. Qed.

Ltac keeps_calls :=
  repeat first
    [ apply Keeps_bind; [|intros ?]
    | apply Keeps_try_catch; [|intros ?]
    | apply Keeps_if
    | apply Keeps_ret | apply Keeps_throw | apply Keeps_liftResult
    | apply Keeps_calls_console | apply Keeps_calls_Date_now
    | apply Keeps_calls_readFile | apply Keeps_calls_unlink
    | case_decide ].

Lemma removedAtMost_refl paths w : removedAtMost paths w w.
Proof. repeat split; auto. Qed.

Lemma Keeps_storage_console paths l : Keeps (removedAtMost paths) (console l).
Proof. by intros w0 w H. Qed.

Lemma Keeps_storage_Date_now paths : Keeps (removedAtMost paths) Date_now.
Proof. by intros w0 w H. Qed.

Lemma Keeps_storage_chain_invoke paths t :
  Keeps (removedAtMost paths) (chain_invoke t).
Proof. by intros w0 w H. Qed.

Lemma Keeps_storage_readFile paths p :
  Keeps (removedAtMost paths) (Fs.readFile p).
Proof. intros w0 w H. unfold Fs.readFile. by repeat case_match. Qed.

Lemma Keeps_storage_stat paths p :
  Keeps (removedAtMost paths) (Fs.stat_mtime p).
Proof. intros w0 w H. unfold Fs.stat_mtime. by repeat case_match. Qed.

(** Deleting a path of the list keeps the storage within what the list
    allows. *)
Lemma Keeps_storage_unlink paths p :
  p ∈ paths -> Keeps (removedAtMost paths) (Fs.unlink p).
Proof.
  intros Hp w0 w (Hshrink & Hframe & Hdir).
  destruct (unlink_effect p w) as (_ & _ & _ & Hl).
  split; [|split].
  - intros q. rewrite Hl.
    destruct (decide (p = q)), (w_fault w (OpUnlink p)); auto.
  - intros q Hq. rewrite Hl. rewrite decide_False by (by intros ->). auto.
  - unfold sameDirPresence in *. rewrite <- Hdir.
    unfold Fs.unlink. repeat case_match; cbn; split; congruence.
Qed.

Ltac keeps_storage :=
  repeat first
    [ apply Keeps_bind; [|intros ?]
    | apply Keeps_try_catch; [|intros ?]
    | apply Keeps_if
    | apply Keeps_ret | apply Keeps_throw | apply Keeps_liftResult
    | apply Keeps_storage_console | apply Keeps_storage_Date_now
    | apply Keeps_storage_chain_invoke | apply Keeps_storage_readFile
    | apply Keeps_storage_stat
    | apply Keeps_storage_unlink; solve [auto]
    | case_decide ].

(** ** Words and blank text *)

Lemma trimStart_nil_blank text : trimStart text = [] -> blank text.
Proof.
  induction text as [|c text IH]; [intros _; apply Forall_nil_2|].
  cbn. destruct (isWhiteSpace c) eqn:Hc; [|discriminate].
  intros H. apply Forall_cons_2; [exact Hc | exact (IH H)].
Qed.

Lemma trimStart_not_blank text : trimStart text <> [] -> ~ blank (trimStart text).
Proof.
  induction text as [|c text IH]; [done|].
  cbn. destruct (isWhiteSpace c) eqn:Hc; [done|].
  intros _ Hb. inversion Hb; congruence.
Qed.

Lemma blank_rev text : blank (rev text) -> blank text.
Proof.
  unfold blank. intros H. apply List.Forall_rev in H.
  by rewrite rev_involutive in H.
Qed.

(** [trim] leaves nothing exactly of the texts that are blank. *)
Lemma trim_nil_blank text : trim text = [] <-> blank text.
Proof.
  split; [|apply trim_blank].
  unfold trim, trimEnd. intros H.
  apply (f_equal (@rev N)) in H. rewrite rev_involutive in H. cbn in H.
  apply trimStart_nil_blank, blank_rev in H.
  destruct (trimStart text) as [|c rest] eqn:Ht.
  - by apply trimStart_nil_blank.
  - exfalso. apply (trimStart_not_blank text); [by rewrite Ht|]. by rewrite Ht.
Qed.

Lemma Tokenized_nil_blank text : Tokenized text [] -> blank text.
Proof.
  remember [] as toks eqn:Htoks.
  induction 1 as [|c text toks Hc _ IH|]; try discriminate.
  - apply Forall_nil_2.
  - apply Forall_cons_2; [exact Hc | exact (IH Htoks)].
Qed.

Lemma blank_Tokenized text : blank text -> Tokenized text [].
Proof. induction 1 as [|c text Hc _ IH]; constructor; auto. Qed.

(** A text has no words exactly when it is blank. *)
Lemma countWords_zero text : countWords text = 0%nat <-> blank text.
Proof.
  split.
  - intros H. destruct (Tokenized_total text) as [toks Htoks].
    rewrite (countWords_tokens _ _ Htoks) in H.
    destruct toks; [|discriminate]. by apply Tokenized_nil_blank.
  - intros H. by rewrite (countWords_tokens _ _ (blank_Tokenized _ H)).
Qed.



Lemma slice0_take n s : slice0 n s = take n s.
Proof. reflexivity. Qed.

Lemma length_slice0_le n s : (length (slice0 n s) <= n)%nat.
Proof. unfold slice0. rewrite length_take. lia. Qed.

(** ** Trimming and collapsing keep the words *)

Lemma blank_nil : blank [].
Proof. apply Forall_nil_2. Qed.

Lemma blank_cons c text : isWhiteSpace c = true -> blank text -> blank (c :: text).
Proof. intros Hc Htext. by apply Forall_cons_2. Qed.

Lemma trimStart_split s :
  exists ws, blank ws /\ s = ws ++ trimStart s.
Proof.
  induction s as [|c s (ws & Hws & Hs)].
  { exists []. split; [apply blank_nil | done]. }
  cbn. destruct (isWhiteSpace c) eqn:Hc.
  - exists (c :: ws). split; [by apply blank_cons|]. cbn. by rewrite <- Hs.
  - exists []. split; [apply blank_nil | done].
Qed.

Lemma trimStart_head_inv s c r :
  trimStart s = c :: r -> isWhiteSpace c = false.
Proof.
  induction s as [|a s IH]; [done|]. cbn.
  destruct (isWhiteSpace a) eqn:Ha; [exact IH|]. by intros [= <- _].
Qed.

Lemma trimStart_idemp s : trimStart (trimStart s) = trimStart s.
Proof.
  destruct (trimStart s) as [|c r] eqn:Hs; [done|].
  apply trimStart_head. by apply (trimStart_head_inv s c r).
Qed.

(** A text is its trimmed text between two blank margins. *)
Lemma trim_split s :
  exists ws1 ws2, blank ws1 /\ blank ws2 /\ s = ws1 ++ trim s ++ ws2.
Proof.
  destruct (trimStart_split s) as (ws1 & Hws1 & Hs).
  destruct (trimStart_split (rev (trimStart s))) as (ws2 & Hws2 & Hr).
  exists ws1, (rev ws2). split; [done|]. split; [by apply List.Forall_rev|].
  unfold trim, trimEnd. rewrite <- rev_app_distr, <- Hr, rev_involutive. exact Hs.
Qed.

(** Trimming what is trimmed changes nothing. *)
Lemma trim_idemp s : trim (trim s) = trim s.
Proof.
  unfold trim at 2, trimEnd.
  set (u := trimStart s). set (v := trimStart (rev u)).
  assert (Hstart : trimStart (rev v) = rev v).
  { destruct (trimStart_split (rev u)) as (ws & Hws & Hu). fold v in Hu.
    apply (f_equal (@rev N)) in Hu. rewrite rev_involutive, rev_app_distr in Hu.
    destruct (rev v) as [|c r] eqn:Hv; [done|].
    apply trimStart_head. apply (trimStart_head_inv s c (r ++ rev ws)).
    fold u. by rewrite Hu. }
  unfold trim, trimEnd. rewrite Hstart, rev_involutive.
  unfold v. by rewrite trimStart_idemp.
Qed.

Lemma Tokenized_app_blank text toks ws :
  Tokenized text toks -> blank ws -> Tokenized (text ++ ws) toks.
Proof.
  intros Htext Hws.
  induction Htext as [|c text toks Hc _ IH|tok text toks Hne Hall Hnext _ IH].
  - by apply blank_Tokenized.
  - cbn. by constructor.
  - rewrite <- app_assoc. apply Tokenized_token; auto.
    destruct Hnext as [-> | (c & text' & -> & Hc)].
    + cbn. destruct Hws as [|c ws Hc _]; [by left|].
      right. by exists c, ws.
    + right. by exists c, (text' ++ ws).
Qed.

Lemma Tokenized_blank_app sep text toks :
  blank sep -> Tokenized text toks -> Tokenized (sep ++ text) toks.
Proof.
  induction 1 as [|c sep Hc _ IH]; cbn; [done|].
  intros Htext. constructor; auto.
Qed.

Lemma Tokenized_unique text toks1 toks2 :
  Tokenized text toks1 -> Tokenized text toks2 -> toks1 = toks2.
Proof.
  intros H1 H2.
  destruct (split_tokens _ _ H1) as [_ <-].
  by destruct (split_tokens _ _ H2) as [_ <-].
Qed.

Lemma wordsOf_Tokenized text : Tokenized text (wordsOf text).
Proof.
  destruct (Tokenized_total text) as [toks H].
  unfold wordsOf, split_whitespace. by destruct (split_tokens _ _ H) as [_ ->].
Qed.

Lemma Tokenized_wordsOf text toks : Tokenized text toks -> wordsOf text = toks.
Proof. intros H. exact (Tokenized_unique _ _ _ (wordsOf_Tokenized text) H). Qed.

Lemma wordsOf_trim text : wordsOf (trim text) = wordsOf text.
Proof.
  destruct (trim_split text) as (ws1 & ws2 & H1 & H2 & Htext).
  symmetry. apply Tokenized_wordsOf.
  remember (trim text) as t eqn:Ht. rewrite Htext.
  apply Tokenized_blank_app; [done|].
  apply Tokenized_app_blank; [|done]. apply wordsOf_Tokenized.
Qed.

Lemma Tokenized_collapse text toks :
  Tokenized text toks -> forall insep,
  Tokenized (PdfParser.collapseFrom insep text) toks.
Proof.
  induction 1 as [|c text toks Hc _ IH|tok text toks Hne Hall Hnext _ IH];
    intros insep.
  - constructor.
  - cbn. rewrite Hc. destruct insep; [apply IH|].
    apply Tokenized_space; [reflexivity | apply IH].
  - assert (Htok : forall b rest,
               PdfParser.collapseFrom b (tok ++ rest)
               = tok ++ PdfParser.collapseFrom false rest).
    { clear -Hne Hall. intros b rest. revert b.
      induction Hall as [|c tok Hc Htok IHtok]; [done|]. intros b.
      cbn. rewrite Hc. f_equal.
      destruct tok as [|c' tok']; [done|]. by apply IHtok. }
    rewrite Htok. apply Tokenized_token; auto.
    destruct Hnext as [-> | (c & text' & -> & Hc)]; [by left|].
    right. cbn. rewrite Hc. by eexists _, _.
Qed.

Lemma wordsOf_collapse text :
  wordsOf (PdfParser.collapseWhitespace text) = wordsOf text.
Proof.
  apply Tokenized_wordsOf, Tokenized_collapse, wordsOf_Tokenized.
Qed.

Lemma Tokenized_app a ta : Tokenized a ta -> forall sep b tb,
  sep <> [] -> blank sep -> Tokenized b tb ->
  Tokenized (a ++ sep ++ b) (ta ++ tb).
Proof.
  induction 1 as [|c text toks Hc _ IH|tok text toks Hne Hall Hnext _ IH];
    intros sep b tb Hsep Hblank Hb.
  - cbn [app]. by apply Tokenized_blank_app.
  - cbn. constructor; auto.
  - rewrite <- app_assoc. cbn [app].
    apply Tokenized_token; auto.
    destruct Hnext as [-> | (c & text' & -> & Hc)].
    + right. destruct Hblank as [|c sep' Hc _]; [done|].
      exists c, (sep' ++ b). by split.
    + right. exists c, (text' ++ sep ++ b). by split.
Qed.

Lemma wordsOf_app a sep b :
  sep <> [] -> blank sep -> wordsOf (a ++ sep ++ b) = wordsOf a ++ wordsOf b.
Proof.
  intros Hsep Hblank. apply Tokenized_wordsOf.
  apply Tokenized_app; auto using wordsOf_Tokenized.
Qed.

Lemma wordsOf_nil_blank text : wordsOf text = [] <-> blank text.
Proof.
  split.
  - intros H. apply Tokenized_nil_blank. rewrite <- H. apply wordsOf_Tokenized.
  - intros H. by apply Tokenized_wordsOf, blank_Tokenized.
Qed.

(** ** The processing pipeline, step by step *)

Section PipelineFacts.

Variable JSON_parse : list N -> Result JSValue.
Variable parsePDFContent : list Byte.byte -> Result (list N).
Variable mammoth_extractRawText : list Byte.byte -> Result (list N).
Variable decodeUtf8 : list Byte.byte -> list N.
Variable splitText : list N -> list (list N).

Local Abbreviation extractText :=
  (extractTextFromFile parsePDFContent mammoth_extractRawText decodeUtf8).
Local Abbreviation processBody :=
  (processDocumentBody JSON_parse parsePDFContent mammoth_extractRawText
                       decodeUtf8 splitText).
Local Abbreviation processAction :=
  (processDocumentAction JSON_parse parsePDFContent mammoth_extractRawText
                         decodeUtf8 splitText).
Local Abbreviation batchStep :=
  (processBatchStep JSON_parse parsePDFContent mammoth_extractRawText
                    decodeUtf8 splitText).
Local Abbreviation batchLoop :=
  (processBatchLoop JSON_parse parsePDFContent mammoth_extractRawText
                    decodeUtf8 splitText).
Local Abbreviation batch :=
  (processBatchDocuments JSON_parse parsePDFContent mammoth_extractRawText
                         decodeUtf8 splitText).
Local Abbreviation emptyText text :=
  (negb (JsString.truthy text) || Nat.eqb (length (trim text)) 0).

Ltac solve_outcome :=
  first [ done | congruence | rewrite !elem_of_cons; by auto
        | intros [|]; congruence | intros; congruence ].

(** [extractTextFromFile] returns the text its extractor made of the bytes of
    an existing, readable entry, or fails with the one generic error. *)
Lemma extractTextFromFile_cases filePath fileType w :
  fst (extractText filePath fileType w)
  = Throw (JsError (lit "Failed to extract text from document")) \/
  exists e text,
    fst (extractText filePath fileType w) = Ok text /\
    Fs.lookup filePath w = Some e /\
    w_fault w (OpReadFile filePath) = false /\
    fileType ∈ [MIME_PDF; MIME_DOCX; MIME_DOC; MIME_TXT] /\
    (fileType = MIME_PDF -> parsePDFContent (e_data e) = Ok text) /\
    (fileType = MIME_DOCX \/ fileType = MIME_DOC ->
     mammoth_extractRawText (e_data e) = Ok text) /\
    (fileType = MIME_TXT -> text = decodeUtf8 (e_data e)).
Proof.
  assert (Hmime : MIME_PDF <> MIME_DOCX /\ MIME_PDF <> MIME_DOC /\
                  MIME_PDF <> MIME_TXT /\ MIME_DOCX <> MIME_TXT /\
                  MIME_DOC <> MIME_TXT)
    by (repeat split; intros H; vm_compute in H; discriminate H).
  destruct Hmime as (? & ? & ? & ? & ?).
  unfold extractTextFromFile, try_catch, bind, Fs.readFile, liftResult.
  repeat case_decide; try (by left);
    (destruct (w_fault w (OpReadFile filePath)) eqn:Hf; [by left|];
     destruct (Fs.lookup filePath w) as [e|] eqn:He; [|by left]).
  - destruct (parsePDFContent (e_data e)) as [text|err] eqn:Hp; [|by left].
    right. exists e, text. cbn [fst]. subst fileType.
    split_and!; solve_outcome.
  - destruct (mammoth_extractRawText (e_data e)) as [text|err] eqn:Hp; [|by left].
    right. exists e, text. cbn [fst].
    match goal with H : _ \/ _ |- _ => destruct H; subst fileType end;
      split_and!; solve_outcome.
  - right. exists e, (decodeUtf8 (e_data e)). cbn. subst fileType.
    split_and!; solve_outcome.
Qed.

(** What the [catch] of [processDocumentAction] makes of a failure of its
    [try] block. *)
Lemma processDocumentAction_throw fileData w e0 w1 :
  processBody fileData (w_clock w (w_tick w)) (snd (Date_now w)) = (Throw e0, w1) ->
  exists w',
    processAction fileData w
    = (Throw (JsError (lit "Failed to process document: " ++ errorMessage e0)), w').
Proof.
  intros Hbody. unfold processDocumentAction.
  rewrite (bind_ok _ _ w (w_clock w (w_tick w)) (snd (Date_now w)) eq_refl).
  rewrite (try_catch_throw _ _ _ _ _ Hbody).
  unfold bind at 1. cbn [console_error console].
  match goal with
  | |- context [bind (deleteUploadedFile ?p) ?k ?w0] =>
      destruct (deleteUploadedFile_total p w0) as [w2 Hdel];
      rewrite (bind_ok _ _ _ _ _ Hdel)
  end.
  by exists w2.
Qed.

Lemma processDocumentAction_throw_inv fileData w e w' :
  processAction fileData w = (Throw e, w') ->
  exists e0 w1,
    processBody fileData (w_clock w (w_tick w)) (snd (Date_now w)) = (Throw e0, w1) /\
    e = JsError (lit "Failed to process document: " ++ errorMessage e0).
Proof.
  intros Hrun.
  destruct (processBody fileData (w_clock w (w_tick w)) (snd (Date_now w)))
    as [[r|e0] w1] eqn:Hbody.
  - unfold processDocumentAction in Hrun.
    rewrite (bind_ok _ _ w (w_clock w (w_tick w)) (snd (Date_now w)) eq_refl) in Hrun.
    rewrite (try_catch_ok _ _ _ _ _ Hbody) in Hrun. discriminate Hrun.
  - destruct (processDocumentAction_throw _ _ _ _ Hbody) as [w2 Hrun'].
    rewrite Hrun in Hrun'. injection Hrun' as -> _. eauto.
Qed.

Lemma chain_invoke_ok t w reply :
  w_model w (w_calls w) t = Ok reply ->
  chain_invoke t w = (Ok reply, snd (chain_invoke t w)).
Proof. intros H. unfold chain_invoke. cbn [snd]. by rewrite H. Qed.

Lemma chain_invoke_throw t w e :
  w_model w (w_calls w) t = Throw e ->
  chain_invoke t w = (Throw e, snd (chain_invoke t w)).
Proof. intros H. unfold chain_invoke. cbn [snd]. by rewrite H. Qed.

Lemma getProp_fieldOf analysis k v :
  JsValue.getProp analysis k = Ok v -> v = fieldOf analysis k.
Proof. destruct analysis; cbn; congruence. Qed.

Lemma getProp_sentiment_ok analysis s k :
  JsValue.getProp analysis (lit "sentiment") = Ok s ->
  JsValue.getProp analysis k = Ok (fieldOf analysis k).
Proof. destruct analysis; cbn; congruence. Qed.

(** What the [try] block of [processDocumentAction] comes to, read off the
    results of the calls it makes. *)
Lemma processDocumentBody_outcome fileData startTime w :
  let run := fst (processBody fileData startTime w) in
  match extractText (fd_filePath fileData) (fd_type fileData) w with
  | (Throw e, _) => run = Throw e
  | (Ok text, _) =>
      if emptyText text
      then run = Throw (JsError (lit "No text content found in document"))
      else
        match w_model w (w_calls w) (analysisTextOf splitText text) with
        | Throw e => run = Throw e
        | Ok reply =>
            let analysis :=
              analysisOf (JSON_parse (jsonCandidate (cleanResponse reply))) in
            match JsValue.getProp analysis (lit "sentiment") with
            | Throw e => run = Throw e
            | Ok s =>
                run = Ok
                  {| id := fd_id fileData;
                     fileName := fd_fileName fileData;
                     fileType := fd_type fileData;
                     processingTime := w_clock w (w_tick w) - startTime;
                     textContent := slice0 1000 text;
                     wordCount := countWords text;
                     pageCount := Some (estimatePageCount text);
                     sentiment := s;
                     topics := JsValue.arrayOrEmpty (fieldOf analysis (lit "topics"));
                     summary := JsValue.or (fieldOf analysis (lit "summary"))
                                           (JStr (lit "No summary available"));
                     entities := JsValue.arrayOrEmpty (fieldOf analysis (lit "entities"));
                     keyInsights :=
                       JsValue.arrayOrEmpty (fieldOf analysis (lit "keyInsights"));
                     analyzedAt := w_clock w (S (w_tick w));
                     confidence := JsValue.or (fieldOf analysis (lit "confidence"))
                                              (JNum (Dec 7 (-1))) |}
            end
        end
  end.
Proof.
  cbv zeta. unfold processDocumentBody.
  destruct (extractText (fd_filePath fileData) (fd_type fileData) w)
    as [[text|e1] w1] eqn:Hx.
  2: { by rewrite (bind_throw _ _ _ _ _ Hx). }
  rewrite (bind_ok _ _ _ _ _ Hx).
  pose proof (extractTextFromFile_frame parsePDFContent mammoth_extractRawText
                decodeUtf8 (fd_filePath fileData) (fd_type fileData) w)
    as (_ & _ & Hclock & Htick & Hmodel & Hcalls & _).
  rewrite Hx in Hclock, Htick, Hmodel, Hcalls.
  cbn [snd] in Hclock, Htick, Hmodel, Hcalls.
  rewrite Hclock, Htick, Hmodel, Hcalls.
  destruct (emptyText text); [reflexivity|].
  rewrite (bind_ok _ _ w1 tt w1 eq_refl).
  destruct (w_model w1 (w_calls w1) (analysisTextOf splitText text))
    as [reply|e2] eqn:Hm.
  2: { by rewrite (bind_throw _ _ _ _ _ (chain_invoke_throw _ _ _ Hm)). }
  rewrite (bind_ok _ _ _ _ _ (chain_invoke_ok _ _ _ Hm)).
  destruct (JSON_parse (jsonCandidate (cleanResponse reply))) as [v|pe] eqn:Hp;
    cbn [analysisOf];
    match goal with
    | |- context [JsValue.getProp ?a (lit "sentiment")] =>
        destruct (JsValue.getProp a (lit "sentiment")) as [s|e3] eqn:Hs
    end.
  all: unfold bind at 1; cbn [console_log console].
  all: match goal with
       | |- context [bind (parseAnalysis _ _) ?k ?w0] =>
           first
             [ destruct (parseAnalysis_ok JSON_parse reply _ w0 Hp)
                 as (w3 & Hpa & Hsame)
             | destruct (parseAnalysis_throw JSON_parse reply _ w0 Hp)
                 as (w3 & Hpa & Hsame) ];
           rewrite (bind_ok _ _ _ _ _ Hpa);
           destruct Hsame as (_ & _ & Hclock3 & Htick3 & _);
           cbn [w_clock w_tick snd chain_invoke] in Hclock3, Htick3
       end.
  all: unfold bind at 1; cbn [console_log console];
       unfold bind at 1; cbn [Date_now w_clock w_tick];
       unfold bind at 1, liftResult at 1; cbv beta; rewrite Hs.
  2, 4: reflexivity.
  all: unfold bind, liftResult;
       match goal with
       | |- context [JsValue.getProp ?a _] =>
           rewrite !(getProp_sentiment_ok a s _ Hs)
       end.
  all: cbn [Date_now w_clock w_tick]; unfold ret;
       match goal with
       | |- context [deleteUploadedFile ?p ?w0] =>
           destruct (deleteUploadedFile_total p w0) as [w4 Hdel]; rewrite Hdel
       end;
       cbn [fst]; rewrite <- Hclock3, <- Htick3; reflexivity.
Qed.

(** What is extracted depends on temp storage and its faults only. *)
Lemma extractTextFromFile_fst filePath fileType w1 w2 :
  w_uploads w1 = w_uploads w2 -> w_fault w1 = w_fault w2 ->
  fst (extractText filePath fileType w1) = fst (extractText filePath fileType w2).
Proof.
  intros Hu Hf.
  unfold extractTextFromFile, try_catch, bind, Fs.readFile, Fs.lookup, liftResult.
  repeat case_decide; cbv beta; rewrite ?Hu, ?Hf; try reflexivity.
  all: rewrite ?Hu, ?Hf.
  all: destruct (w_fault w2 (OpReadFile filePath)); try reflexivity;
    destruct (w_uploads w2) as [dir|]; try reflexivity;
    destruct (dir !! filePath) as [e|]; try reflexivity.
  - by destruct (parsePDFContent (e_data e)).
  - by destruct (mammoth_extractRawText (e_data e)).
Qed.

(** What [processDocumentAction] comes to, read off the results of the calls
    it makes. *)
Lemma processDocumentAction_outcome fileData w :
  let run := fst (processAction fileData w) in
  let failed e :=
    run = Throw (JsError (lit "Failed to process document: " ++ errorMessage e)) in
  match fst (extractText (fd_filePath fileData) (fd_type fileData) w) with
  | Throw e => failed e
  | Ok text =>
      if emptyText text
      then failed (JsError (lit "No text content found in document"))
      else
        match w_model w (w_calls w) (analysisTextOf splitText text) with
        | Throw e => failed e
        | Ok reply =>
            let analysis :=
              analysisOf (JSON_parse (jsonCandidate (cleanResponse reply))) in
            match JsValue.getProp analysis (lit "sentiment") with
            | Throw e => failed e
            | Ok s =>
                run = Ok
                  {| id := fd_id fileData;
                     fileName := fd_fileName fileData;
                     fileType := fd_type fileData;
                     processingTime :=
                       w_clock w (S (w_tick w)) - w_clock w (w_tick w);
                     textContent := slice0 1000 text;
                     wordCount := countWords text;
                     pageCount := Some (estimatePageCount text);
                     sentiment := s;
                     topics := JsValue.arrayOrEmpty (fieldOf analysis (lit "topics"));
                     summary := JsValue.or (fieldOf analysis (lit "summary"))
                                           (JStr (lit "No summary available"));
                     entities := JsValue.arrayOrEmpty (fieldOf analysis (lit "entities"));
                     keyInsights :=
                       JsValue.arrayOrEmpty (fieldOf analysis (lit "keyInsights"));
                     analyzedAt := w_clock w (S (S (w_tick w)));
                     confidence := JsValue.or (fieldOf analysis (lit "confidence"))
                                              (JNum (Dec 7 (-1))) |}
            end
        end
  end.
Proof.
  cbv zeta.
  pose proof (processDocumentBody_outcome fileData (w_clock w (w_tick w))
                (snd (Date_now w))) as Hbody.
  cbv zeta in Hbody.
  rewrite <- (extractTextFromFile_fst _ _ (snd (Date_now w)) w eq_refl eq_refl).
  change (w_model (snd (Date_now w))) with (w_model w) in Hbody.
  change (w_calls (snd (Date_now w))) with (w_calls w) in Hbody.
  change (w_clock (snd (Date_now w))) with (w_clock w) in Hbody.
  change (w_tick (snd (Date_now w))) with (S (w_tick w)) in Hbody.
  destruct (processBody fileData (w_clock w (w_tick w)) (snd (Date_now w)))
    as [[r|e0] w1] eqn:Hrun.
  - assert (Hact : fst (processAction fileData w) = Ok r).
    { unfold processDocumentAction.
      rewrite (bind_ok _ _ w (w_clock w (w_tick w)) (snd (Date_now w)) eq_refl).
      by rewrite (try_catch_ok _ _ _ _ _ Hrun). }
    rewrite Hact. cbn [fst] in Hbody.
    destruct (extractText (fd_filePath fileData) (fd_type fileData)
                (snd (Date_now w))) as [[text|e1] w2]; cbn [fst];
      [|discriminate Hbody].
    destruct (emptyText text); [discriminate Hbody|].
    destruct (w_model w (w_calls w) (analysisTextOf splitText text));
      [|discriminate Hbody].
    destruct (JsValue.getProp _ (lit "sentiment")); [|discriminate Hbody].
    exact Hbody.
  - destruct (processDocumentAction_throw _ _ _ _ Hrun) as [w2 Hact].
    rewrite Hact. cbn [fst] in *.
    destruct (extractText (fd_filePath fileData) (fd_type fileData)
                (snd (Date_now w))) as [[text|e1] w3]; cbn [fst];
      [|congruence].
    destruct (emptyText text); [congruence|].
    destruct (w_model w (w_calls w) (analysisTextOf splitText text));
      [|congruence].
    destruct (JsValue.getProp _ (lit "sentiment")); [discriminate Hbody|].
    congruence.
Qed.

Lemma emptyText_blank text : emptyText text = true <-> blank text.
Proof.
  rewrite <- trim_nil_blank. split.
  - intros H. apply orb_true_iff in H as [H|H].
    + destruct text; [reflexivity | discriminate H].
    + apply Nat.eqb_eq in H. by destruct (trim text).
  - intros H. rewrite H. apply orb_true_r.
Qed.

Lemma emptyText_not_blank text : emptyText text = false <-> ~ blank text.
Proof.
  rewrite <- emptyText_blank. by destruct (emptyText text).
Qed.

(** X2. Whatever makes [processDocumentAction] fail, the error it throws is
    an [Error] whose message is "Failed to process document: " followed by
    the cause: the generic extraction error, the empty-content error, the
    message of the error the model call threw, or the [TypeError] of reading
    [sentiment] off a reply that parsed into [null] or [undefined]. The
    specific extraction error never reaches the caller. *)
Theorem processDocumentAction_failure_causes fileData w e w' :
  processAction fileData w = (Throw e, w') ->
  exists cause,
    e = JsError (lit "Failed to process document: " ++ cause) /\
    (cause = lit "Failed to extract text from document" \/
     cause = lit "No text content found in document" \/
     (exists text err,
         fst (extractText (fd_filePath fileData) (fd_type fileData) w) = Ok text /\
         w_model w (w_calls w) (analysisTextOf splitText text) = Throw err /\
         cause = errorMessage err) \/
     (exists text reply parsed,
         fst (extractText (fd_filePath fileData) (fd_type fileData) w) = Ok text /\
         w_model w (w_calls w) (analysisTextOf splitText text) = Ok reply /\
         JSON_parse (jsonCandidate (cleanResponse reply)) = Ok parsed /\
         (parsed = JNull /\
          cause = lit "Cannot read properties of null (reading 'sentiment')" \/
          parsed = JUndefined /\
          cause = lit "Cannot read properties of undefined (reading 'sentiment')"))).
Proof.
  intros Hrun.
  pose proof (processDocumentAction_outcome fileData w) as Hout.
  cbv zeta in Hout. rewrite Hrun in Hout. cbn [fst] in Hout.
  destruct (extractTextFromFile_cases (fd_filePath fileData)
              (fd_type fileData) w) as [Hx | (en & text & Hx & _)];
    rewrite Hx in Hout.
  { injection Hout as ->. eexists. split; [reflexivity|]. by left. }
  destruct (emptyText text).
  { injection Hout as ->. eexists. split; [reflexivity|]. right. by left. }
  destruct (w_model w (w_calls w) (analysisTextOf splitText text))
    as [reply|err] eqn:Hm.
  2: { injection Hout as ->. eexists. split; [reflexivity|].
       right. right. left. by exists text, err. }
  destruct (JSON_parse (jsonCandidate (cleanResponse reply))) as [parsed|pe] eqn:Hp;
    cbn [analysisOf] in Hout.
  2: { discriminate Hout. }
  destruct parsed; cbn [JsValue.getProp] in Hout; try discriminate Hout.
  all: injection Hout as ->; eexists; (split; [reflexivity|]);
    right; right; right; exists text, reply; eexists;
    (split_and!; [done | done | done |]).
  - right. by split.
  - left. by split.
Qed.

(** X3. A record returned by [processDocumentAction] is the record of a text
    that is not blank: its preview is the first 1000 code units of that text,
    it counts at least one word and one page, its summary and its confidence
    are truthy, its processing time is the difference of the second and the
    first reading of the clock and its time stamp is the third reading. *)
Theorem processDocumentAction_record fileData w r w' :
  processAction fileData w = (Ok r, w') ->
  exists text,
    fst (extractText (fd_filePath fileData) (fd_type fileData) w) = Ok text /\
    ~ blank text /\
    textContent r = take 1000 text /\
    (length (textContent r) <= 1000)%nat /\
    (1 <= wordCount r)%nat /\
    (exists pages, pageCount r = Some pages /\ 1 <= pages) /\
    JsValue.truthy (summary r) = true /\
    JsValue.truthy (confidence r) = true /\
    processingTime r = w_clock w (S (w_tick w)) - w_clock w (w_tick w) /\
    analyzedAt r = w_clock w (S (S (w_tick w))).
Proof.
  intros Hrun.
  pose proof (processDocumentAction_outcome fileData w) as Hout.
  cbv zeta in Hout. rewrite Hrun in Hout. cbn [fst] in Hout.
  destruct (fst (extractText (fd_filePath fileData) (fd_type fileData) w))
    as [text|e1]; [|discriminate Hout].
  destruct (emptyText text) eqn:Hempty; [discriminate Hout|].
  apply emptyText_not_blank in Hempty.
  pose proof (length_slice0_le 1000 text) as Hlen.
  assert (Hprev : slice0 1000 text = take 1000 text) by reflexivity.
  revert Hlen Hprev Hout. generalize (slice0 1000 text) as preview.
  intros preview Hlen Hprev Hout.
  destruct (w_model w (w_calls w) (analysisTextOf splitText text));
    [|discriminate Hout].
  destruct (JsValue.getProp _ (lit "sentiment")); [|discriminate Hout].
  injection Hout as ->.
  cbn [textContent wordCount pageCount summary confidence processingTime
       analyzedAt].
  assert (Hwords : (1 <= countWords text)%nat).
  { destruct (countWords text) eqn:Hc; [|lia].
    by apply countWords_zero in Hc. }
  exists text. split_and!; try done.
  - eexists. split; [reflexivity|].
    pose proof (estimatePageCount_ceiling text) as H. cbv zeta in H. lia.
  - unfold JsValue.or. by case_match.
  - unfold JsValue.or. by case_match.
Qed.

(** X4. When the reply parses into a value that is neither [null] nor
    [undefined], [processDocumentAction] returns a record, and the record
    carries the reply's fields: the sentiment as it is, whatever it is; the
    three lists when they are arrays, and empty lists otherwise; the summary
    and the confidence when they are truthy. A confidence of zero is
    reported as 0.7, and a reply that is not an object gives the defaults. *)
Theorem processDocumentAction_reply_fields fileData w text reply parsed :
  fst (extractText (fd_filePath fileData) (fd_type fileData) w) = Ok text ->
  ~ blank text ->
  w_model w (w_calls w) (analysisTextOf splitText text) = Ok reply ->
  JSON_parse (jsonCandidate (cleanResponse reply)) = Ok parsed ->
  parsed <> JNull -> parsed <> JUndefined ->
  exists r,
    fst (processAction fileData w) = Ok r /\
    sentiment r = fieldOf parsed (lit "sentiment") /\
    topics r = JsValue.arrayOrEmpty (fieldOf parsed (lit "topics")) /\
    entities r = JsValue.arrayOrEmpty (fieldOf parsed (lit "entities")) /\
    keyInsights r = JsValue.arrayOrEmpty (fieldOf parsed (lit "keyInsights")) /\
    summary r = JsValue.or (fieldOf parsed (lit "summary"))
                           (JStr (lit "No summary available")) /\
    confidence r = JsValue.or (fieldOf parsed (lit "confidence"))
                              (JNum (Dec 7 (-1))) /\
    (forall k, fieldOf parsed (lit "confidence") = JNum (Dec 0 k) ->
               confidence r = JNum (Dec 7 (-1))) /\
    ((forall fields, parsed <> JObj fields) ->
     sentiment r = JUndefined /\ topics r = [] /\ entities r = [] /\
     keyInsights r = [] /\ summary r = JStr (lit "No summary available") /\
     confidence r = JNum (Dec 7 (-1))).
Proof.
  intros Hx Hb Hm Hp Hnull Hundef.
  pose proof (processDocumentAction_outcome fileData w) as Hout.
  cbv zeta in Hout. rewrite Hx in Hout.
  apply emptyText_not_blank in Hb. rewrite Hb, Hm, Hp in Hout.
  cbn [analysisOf] in Hout.
  assert (Hs : JsValue.getProp parsed (lit "sentiment")
               = Ok (fieldOf parsed (lit "sentiment")))
    by (by destruct parsed).
  rewrite Hs in Hout. eexists. split; [exact Hout|]. cbn.
  split_and!; try reflexivity.
  - intros k ->. reflexivity.
  - intros Hobj. destruct parsed; try done. by destruct (Hobj fields).
Qed.

(** X5. One iteration of the batch loop pushes the record
    [processDocumentAction] returned, or else, when it threw, the error
    record: sentiment "Error", confidence 0, no words, no page count, an
    empty preview, empty lists, and a summary that is "Processing failed: "
    followed by the message thrown, which itself starts with "Failed to
    process document: ". *)
Theorem processBatchStep_record file w :
  exists r w',
    batchStep file w = (Ok r, w') /\
    (fst (processAction file w) = Ok r \/
     exists cause,
       fst (processAction file w)
       = Throw (JsError (lit "Failed to process document: " ++ cause)) /\
       describes file r /\
       sentiment r = JStr (lit "Error") /\
       confidence r = JNum (Dec 0 0) /\
       wordCount r = 0%nat /\ pageCount r = None /\
       textContent r = [] /\ processingTime r = 0 /\
       topics r = [] /\ entities r = [] /\ keyInsights r = [] /\
       summary r
       = JStr (lit "Processing failed: Failed to process document: " ++ cause)).
Proof.
  unfold processBatchStep.
  destruct (processAction file w) as [[r|e] w1] eqn:Hrun.
  - exists r, w1. rewrite (try_catch_ok _ _ _ _ _ Hrun). split; [done|by left].
  - destruct (processDocumentAction_throw_inv _ _ _ _ Hrun) as (e0 & w0 & _ & ->).
    rewrite (try_catch_throw _ _ _ _ _ Hrun).
    unfold bind at 1. cbn [console_error console].
    match goal with
    | |- context [bind (deleteUploadedFile ?p) ?k ?w0] =>
        destruct (deleteUploadedFile_total p w0) as [w2 Hdel];
        rewrite (bind_ok _ _ _ _ _ Hdel)
    end.
    eexists _, _. split; [reflexivity|]. right.
    exists (errorMessage e0). cbn.
    split_and!; done.
Qed.

(** *** Invocations of the model *)

Lemma Keeps_calls_deleteUploadedFile p : Keeps sameCalls (deleteUploadedFile p).
Proof. unfold deleteUploadedFile, console_log, console_error. keeps_calls. Qed.

Lemma Keeps_calls_extractTextFromFile p t : Keeps sameCalls (extractText p t).
Proof. unfold extractTextFromFile, console_log, console_error. keeps_calls. Qed.

Lemma Keeps_calls_parseAnalysis content :
  Keeps sameCalls (parseAnalysis JSON_parse content).
Proof. unfold parseAnalysis, console_log, console_error. keeps_calls. Qed.

Ltac keeps_calls' :=
  repeat first
    [ apply Keeps_calls_deleteUploadedFile
    | apply Keeps_calls_parseAnalysis
    | apply Keeps_bind; [|intros ?]
    | apply Keeps_try_catch; [|intros ?]
    | apply Keeps_if
    | apply Keeps_ret | apply Keeps_throw | apply Keeps_liftResult
    | apply Keeps_calls_console | apply Keeps_calls_Date_now ].

Lemma processDocumentBody_calls fileData startTime w :
  w_calls (snd (processBody fileData startTime w))
  = match fst (extractText (fd_filePath fileData) (fd_type fileData) w) with
    | Ok text => if emptyText text then w_calls w else S (w_calls w)
    | Throw _ => w_calls w
    end.
Proof.
  unfold processDocumentBody.
  pose proof (Keeps_calls_extractTextFromFile (fd_filePath fileData)
                (fd_type fileData) w w eq_refl) as Hcalls.
  unfold sameCalls in Hcalls. rewrite <- Hcalls.
  destruct (extractText (fd_filePath fileData) (fd_type fileData) w)
    as [[text|e1] w1] eqn:Hx; cbn [fst snd].
  2: { by rewrite (bind_throw _ _ _ _ _ Hx). }
  rewrite (bind_ok _ _ _ _ _ Hx).
  destruct (emptyText text); [reflexivity|].
  rewrite (bind_ok _ _ w1 tt w1 eq_refl).
  destruct (w_model w1 (w_calls w1) (analysisTextOf splitText text))
    as [reply|e2] eqn:Hm.
  2: { by rewrite (bind_throw _ _ _ _ _ (chain_invoke_throw _ _ _ Hm)). }
  rewrite (bind_ok _ _ _ _ _ (chain_invoke_ok _ _ _ Hm)).
  match goal with
  | |- w_calls (snd (?m ?w2)) = _ =>
      assert (HK : Keeps sameCalls m)
        by (unfold console_log; keeps_calls');
      exact (HK w2 w2 eq_refl)
  end.
Qed.

Lemma processDocumentAction_calls fileData w :
  w_calls (snd (processAction fileData w))
  = match fst (extractText (fd_filePath fileData) (fd_type fileData) w) with
    | Ok text => if emptyText text then w_calls w else S (w_calls w)
    | Throw _ => w_calls w
    end.
Proof.
  rewrite <- (extractTextFromFile_fst _ _ (snd (Date_now w)) w eq_refl eq_refl).
  change (w_calls w) with (w_calls (snd (Date_now w))).
  rewrite <- (processDocumentBody_calls fileData (w_clock w (w_tick w))).
  unfold processDocumentAction.
  rewrite (bind_ok _ _ w (w_clock w (w_tick w)) (snd (Date_now w)) eq_refl).
  destruct (processBody fileData (w_clock w (w_tick w)) (snd (Date_now w)))
    as [[r|e0] w1] eqn:Hrun.
  - by rewrite (try_catch_ok _ _ _ _ _ Hrun).
  - rewrite (try_catch_throw _ _ _ _ _ Hrun). cbn [snd].
    match goal with
    | |- w_calls (snd (?m ?w2)) = _ =>
        assert (HK : Keeps sameCalls m)
          by (unfold console_error; keeps_calls');
        exact (HK w2 w2 eq_refl)
    end.
Qed.

Lemma processBatchStep_calls file w :
  w_calls (snd (batchStep file w)) = w_calls (snd (processAction file w)).
Proof.
  unfold processBatchStep.
  destruct (processAction file w) as [[r|e0] w1] eqn:Hrun.
  - by rewrite (try_catch_ok _ _ _ _ _ Hrun).
  - rewrite (try_catch_throw _ _ _ _ _ Hrun). cbn [snd].
    match goal with
    | |- w_calls (snd (?m ?w2)) = _ =>
        assert (HK : Keeps sameCalls m)
          by (unfold console_error; keeps_calls');
        exact (HK w2 w2 eq_refl)
    end.
Qed.

(** X6. [processDocumentAction] invokes the model once when the extracted
    text is not blank, and not at all otherwise; so does one iteration of the
    batch loop, whose [catch] never calls the model again. *)
Theorem model_invoked_once_per_file file w :
  forall run, run = processAction file \/ run = batchStep file ->
    match fst (extractText (fd_filePath file) (fd_type file) w) with
    | Ok text =>
        (~ blank text -> w_calls (snd (run w)) = S (w_calls w)) /\
        (blank text -> w_calls (snd (run w)) = w_calls w)
    | Throw _ => w_calls (snd (run w)) = w_calls w
    end.
Proof.
  intros run Hrun.
  assert (Hcalls : w_calls (snd (run w)) = w_calls (snd (processAction file w)))
    by (destruct Hrun as [-> | ->]; [done | apply processBatchStep_calls]).
  rewrite Hcalls, processDocumentAction_calls.
  destruct (fst (extractText (fd_filePath file) (fd_type file) w)) as [text|];
    [|done].
  destruct (emptyText text) eqn:He.
  - apply emptyText_blank in He. by split.
  - apply emptyText_not_blank in He. by split.
Qed.

Lemma processBatchDocuments_snd_cons file rest w :
  snd (batch (file :: rest) w) = snd (batch rest (snd (batchStep file w))).
Proof.
  destruct (processBatchStep_total JSON_parse parsePDFContent
              mammoth_extractRawText decodeUtf8 splitText file w)
    as (r & w1 & Hstep & _).
  destruct (processBatchLoop_total JSON_parse parsePDFContent
              mammoth_extractRawText decodeUtf8 splitText rest w1)
    as (others & w2 & Hrest & _).
  rewrite (processBatchDocuments_cons _ _ _ _ _ file rest w r w1 others w2 Hstep
             (Hrest [])).
  rewrite Hstep. cbn [snd]. unfold processBatchDocuments.
  by rewrite (Hrest []).
Qed.

(** X7. A batch of [n] files invokes the model at most [n] times. *)
Theorem processBatchDocuments_calls files : forall w,
  let w' := snd (processBatchDocuments JSON_parse parsePDFContent
                   mammoth_extractRawText decodeUtf8 splitText files w) in
  (w_calls w <= w_calls w' <= w_calls w + length files)%nat.
Proof.
  cbv zeta. induction files as [|file rest IH]; intros w.
  - cbn. lia.
  - rewrite processBatchDocuments_snd_cons.
    specialize (IH (snd (batchStep file w))).
    rewrite processBatchStep_calls, processDocumentAction_calls in IH.
    cbn [length].
    destruct (fst (extractText (fd_filePath file) (fd_type file) w));
      [destruct (emptyText _)|]; lia.
Qed.

(** *** Temp storage *)

Lemma Keeps_storage_deleteUploadedFile paths p :
  p ∈ paths -> Keeps (removedAtMost paths) (deleteUploadedFile p).
Proof.
  intros Hp. unfold deleteUploadedFile, console_log, console_error.
  keeps_storage.
Qed.

Lemma Keeps_storage_extractTextFromFile paths p t :
  Keeps (removedAtMost paths) (extractText p t).
Proof. unfold extractTextFromFile, console_log, console_error. keeps_storage. Qed.

Lemma Keeps_storage_parseAnalysis paths content :
  Keeps (removedAtMost paths) (parseAnalysis JSON_parse content).
Proof. unfold parseAnalysis, console_log, console_error. keeps_storage. Qed.

Ltac keeps_storage' :=
  repeat first
    [ apply Keeps_storage_deleteUploadedFile; solve [auto]
    | apply Keeps_storage_extractTextFromFile
    | apply Keeps_storage_parseAnalysis
    | apply Keeps_bind; [|intros ?]
    | apply Keeps_try_catch; [|intros ?]
    | apply Keeps_if
    | apply Keeps_ret | apply Keeps_throw | apply Keeps_liftResult
    | apply Keeps_storage_console | apply Keeps_storage_Date_now
    | apply Keeps_storage_chain_invoke ].

Lemma Keeps_storage_processDocumentAction paths file :
  fd_filePath file ∈ paths -> Keeps (removedAtMost paths) (processAction file).
Proof.
  intros Hp.
  unfold processDocumentAction, processDocumentBody, console_log, console_error.
  keeps_storage'.
Qed.

Lemma Keeps_storage_processBatchStep paths file :
  fd_filePath file ∈ paths -> Keeps (removedAtMost paths) (batchStep file).
Proof.
  intros Hp. unfold processBatchStep.
  apply Keeps_try_catch; [by apply Keeps_storage_processDocumentAction|].
  intros e. unfold console_error. keeps_storage'.
Qed.

Lemma Keeps_storage_processBatchDocuments paths files :
  Forall (fun file => fd_filePath file ∈ paths) files ->
  forall w0 w, removedAtMost paths w0 w ->
               removedAtMost paths w0 (snd (batch files w)).
Proof.
  induction 1 as [|file rest Hp _ IH]; intros w0 w Hw; [done|].
  rewrite processBatchDocuments_snd_cons.
  apply IH. by apply Keeps_storage_processBatchStep.
Qed.

Lemma Keeps_faults_processBatchDocuments files : forall w,
  w_fault (snd (batch files w)) = w_fault w.
Proof.
  induction files as [|file rest IH]; intros w; [done|].
  rewrite processBatchDocuments_snd_cons, IH.
  exact (Keeps_processBatchStep JSON_parse parsePDFContent
           mammoth_extractRawText decodeUtf8 splitText file w w eq_refl).
Qed.

(** Once a batch has returned, the entry of every descriptor whose deletion
    is not hindered from outside is gone. *)
Lemma processBatchDocuments_gone files : forall w file,
  file ∈ files ->
  w_fault w (OpUnlink (fd_filePath file)) = false ->
  Fs.lookup (fd_filePath file) (snd (batch files w)) = None.
Proof.
  induction files as [|file0 rest IH]; intros w file Hin Hfault.
  - by apply elem_of_nil in Hin.
  - rewrite processBatchDocuments_snd_cons.
    pose proof (Keeps_processBatchStep JSON_parse parsePDFContent
                  mammoth_extractRawText decodeUtf8 splitText file0 w w eq_refl)
      as Hsame.
    unfold sameFaults in Hsame.
    apply elem_of_cons in Hin as [-> | Hin].
    + pose proof (processBatchStep_afterDeletion JSON_parse parsePDFContent
                    mammoth_extractRawText decodeUtf8 splitText file0 w)
        as [_ Hgone].
      rewrite Hsame in Hgone. specialize (Hgone Hfault).
      pose proof (Keeps_storage_processBatchDocuments
                    (fd_filePath <$> rest) rest) as Hrest.
      destruct (Hrest ltac:(apply Forall_forall; intros f Hf;
                            by apply list_elem_of_fmap_2)
                  _ _ (removedAtMost_refl _ (snd (batchStep file0 w))))
        as (Hshrink & _).
      destruct (Hshrink (fd_filePath file0)) as [Hnone | Heq]; congruence.
    + apply IH; [done|]. by rewrite Hsame.
Qed.

Lemma processBatchDocuments_app_run files1 files2 : forall w,
  exists results1 w1 results2 w2,
    batch files1 w = (Ok results1, w1) /\
    batch files2 w1 = (Ok results2, w2) /\
    batch (files1 ++ files2) w = (Ok (results1 ++ results2), w2).
Proof.
  induction files1 as [|file rest IH]; intros w.
  - destruct (processBatchLoop_total JSON_parse parsePDFContent
                mammoth_extractRawText decodeUtf8 splitText files2 w)
      as (results2 & w2 & H2 & _).
    exists [], w, results2, w2. split_and!; [done | apply (H2 []) | apply (H2 [])].
  - destruct (processBatchStep_total JSON_parse parsePDFContent
                mammoth_extractRawText decodeUtf8 splitText file w)
      as (r & w0 & Hstep & _).
    destruct (IH w0) as (results1 & w1 & results2 & w2 & H1 & H2 & H12).
    exists (r :: results1), w1, results2, w2. split_and!.
    + by apply (processBatchDocuments_cons _ _ _ _ _ file rest w r w0).
    + done.
    + by apply (processBatchDocuments_cons _ _ _ _ _ file (rest ++ files2) w r w0).
Qed.

Lemma processBatchStep_throw file w e w1 :
  processAction file w = (Throw e, w1) ->
  exists now w', batchStep file w = (Ok (errorResult file e now), w').
Proof.
  intros Hrun. unfold processBatchStep.
  rewrite (try_catch_throw _ _ _ _ _ Hrun).
  unfold bind at 1. cbn [console_error console].
  match goal with
  | |- context [bind (deleteUploadedFile ?p) ?k ?w0] =>
      destruct (deleteUploadedFile_total p w0) as [w2 Hdel];
      rewrite (bind_ok _ _ _ _ _ Hdel)
  end.
  by eexists _, _.
Qed.

(** A descriptor whose file is not in temp storage gets the error record of a
    failed extraction. *)
Lemma processBatchStep_missing file w :
  Fs.lookup (fd_filePath file) w = None ->
  exists now w',
    batchStep file w
    = (Ok (errorResult file
             (JsError (lit "Failed to process document: Failed to extract text from document"))
             now), w').
Proof.
  intros Hmissing.
  pose proof (processDocumentAction_outcome file w) as Hout. cbv zeta in Hout.
  destruct (extractTextFromFile_cases (fd_filePath file) (fd_type file) w)
    as [Hx | (en & text & _ & Hsome & _)]; [|congruence].
  rewrite Hx in Hout.
  destruct (processAction file w) as [r w1] eqn:Hrun. cbn [fst] in Hout.
  subst r. exact (processBatchStep_throw _ _ _ _ Hrun).
Qed.

(** *** The theorems about the pipeline *)

(** X1. Given the name of a file of the uploads directory (a path of one
    segment, which [path.join("./uploads", filePath)] resolves to the entry of
    that name), [extractTextFromFile] returns the text its extractor made of
    the bytes of an existing, readable entry of temp storage, for one of the
    four supported types; every failure, whichever it is, reaches the caller
    as the one error "Failed to extract text from document". *)
Theorem extractTextFromFile_outcomes filePath fileType w :
  plainName filePath ->
  fst (extractText filePath fileType w)
  = Throw (JsError (lit "Failed to extract text from document")) \/
  exists e text,
    fst (extractText filePath fileType w) = Ok text /\
    Fs.lookup filePath w = Some e /\
    w_fault w (OpReadFile filePath) = false /\
    fileType ∈ [MIME_PDF; MIME_DOCX; MIME_DOC; MIME_TXT] /\
    (fileType = MIME_PDF -> parsePDFContent (e_data e) = Ok text) /\
    (fileType = MIME_DOCX \/ fileType = MIME_DOC ->
     mammoth_extractRawText (e_data e) = Ok text) /\
    (fileType = MIME_TXT -> text = decodeUtf8 (e_data e)).
Proof. intros _. apply extractTextFromFile_cases. Qed.

(** X8. For descriptors whose [filePath] is the name of a file of the
    uploads directory (a path of one segment, which
    [path.join("./uploads", filePath)] resolves to the entry of that name),
    all a batch does to temp storage is to remove entries at the paths of
    its descriptors: no entry is created or rewritten, entries at other paths
    stay as they are, and the directory is neither created nor removed. Once
    the batch has returned, the entry of every descriptor whose deletion is
    not hindered from outside is gone, whether its processing failed or
    not. *)
Theorem processBatchDocuments_storage files w :
  Forall (fun file => plainName (fd_filePath file)) files ->
  let w' := snd (batch files w) in
  removedAtMost (fd_filePath <$> files) w w' /\
  forall file,
    file ∈ files ->
    w_fault w (OpUnlink (fd_filePath file)) = false ->
    Fs.lookup (fd_filePath file) w' = None.
Proof.
  intros _. cbv zeta. split.
  - apply Keeps_storage_processBatchDocuments; [|apply removedAtMost_refl].
    apply Forall_forall. intros file Hfile.
    by apply list_elem_of_fmap_2.
  - apply processBatchDocuments_gone.
Qed.

(** X9. A batch over two lists in a row is the batch over the first followed
    by the batch over the second, run from where the first one ended. *)
Theorem processBatchDocuments_app files1 files2 w :
  let run := processBatchDocuments JSON_parse parsePDFContent
               mammoth_extractRawText decodeUtf8 splitText in
  exists results1 w1 results2 w2,
    run files1 w = (Ok results1, w1) /\
    run files2 w1 = (Ok results2, w2) /\
    run (files1 ++ files2) w = (Ok (results1 ++ results2), w2).
Proof. apply processBatchDocuments_app_run. Qed.

(** X10. A batch that lists the same stored file twice analyses it once: the
    first descriptor's processing removes the file, and the later one gets
    the error record of a failed extraction (unless the deletion is hindered
    from outside). *)
Theorem processBatchDocuments_duplicate_path files w i j file1 file2 :
  files !! i = Some file1 ->
  files !! j = Some file2 ->
  (i < j)%nat ->
  fd_filePath file1 = fd_filePath file2 ->
  w_fault w (OpUnlink (fd_filePath file1)) = false ->
  exists results r,
    fst (batch files w) = Ok results /\
    results !! j = Some r /\
    describes file2 r /\
    sentiment r = JStr (lit "Error") /\
    wordCount r = 0%nat /\
    summary r
    = JStr (lit "Processing failed: Failed to process document: Failed to extract text from document").
Proof.
  intros Hi Hj Hlt Hpath Hfault.
  pose proof (take_drop_middle files j file2 Hj) as Hsplit.
  destruct (processBatchDocuments_app_run (take j files)
              (file2 :: drop (S j) files) w)
    as (results1 & w1 & results2 & w2 & H1 & H2 & H12).
  rewrite Hsplit in H12.
  assert (Hw1 : w1 = snd (batch (take j files) w)) by (by rewrite H1).
  assert (Hgone : Fs.lookup (fd_filePath file2) w1 = None).
  { rewrite Hw1, <- Hpath. apply processBatchDocuments_gone; [|done].
    apply list_elem_of_lookup. exists i. by rewrite lookup_take_lt. }
  destruct (processBatchStep_missing file2 w1 Hgone) as (now & w3 & Hstep).
  destruct (processBatchLoop_total JSON_parse parsePDFContent
              mammoth_extractRawText decodeUtf8 splitText (drop (S j) files) w3)
    as (others & w4 & Hrest & _).
  rewrite (processBatchDocuments_cons _ _ _ _ _ _ _ _ _ _ _ _ Hstep (Hrest []))
    in H2.
  injection H2 as <- <-.
  destruct (processBatchLoop_total JSON_parse parsePDFContent
              mammoth_extractRawText decodeUtf8 splitText (take j files) w)
    as (pushed & w5 & Hpushed & Hdesc).
  unfold processBatchDocuments in H1. rewrite (Hpushed []) in H1.
  injection H1 as <- <-.
  apply Forall2_length in Hdesc.
  rewrite length_take_le in Hdesc by (apply lookup_lt_Some in Hj; lia).
  eexists _, _. rewrite H12. cbn [fst]. split; [reflexivity|].
  split.
  { rewrite lookup_app_r by lia.
    replace (j - length pushed)%nat with 0%nat by lia.
    reflexivity. }
  by split_and!.
Qed.

End PipelineFacts.

(** ** Counting words and pages *)

(** X11. The page estimate is zero exactly for a blank text (one without a
    single word); every other text is given at least one page. *)
Theorem estimatePageCount_zero text : estimatePageCount text = 0 <-> blank text.
Proof.
  rewrite <- countWords_zero.
  pose proof (estimatePageCount_ceiling text) as H. cbv zeta in H.
  split; intros Hz.
  - rewrite Hz in H. lia.
  - rewrite Hz in H. cbn in H. lia.
Qed.

(** X12. Two texts joined by whitespace have the words of both: the word
    count of the whole is the sum of the two, and its page estimate is at
    most the sum of the two estimates. *)
Theorem countWords_joined a sep b :
  sep <> [] -> blank sep ->
  countWords (a ++ sep ++ b) = (countWords a + countWords b)%nat /\
  estimatePageCount (a ++ sep ++ b) <= estimatePageCount a + estimatePageCount b.
Proof.
  intros Hsep Hblank.
  destruct (Tokenized_total a) as [ta Ha].
  destruct (Tokenized_total b) as [tb Hb].
  assert (Hsum : countWords (a ++ sep ++ b) = (countWords a + countWords b)%nat).
  { rewrite (countWords_tokens _ _ (Tokenized_app _ _ Ha _ _ _ Hsep Hblank Hb)).
    rewrite (countWords_tokens _ _ Ha), (countWords_tokens _ _ Hb).
    apply length_app. }
  split; [exact Hsum|].
  pose proof (estimatePageCount_ceiling a) as H1.
  pose proof (estimatePageCount_ceiling b) as H2.
  pose proof (estimatePageCount_ceiling (a ++ sep ++ b)) as H3.
  cbv zeta in H1, H2, H3. rewrite Hsum in H3. lia.
Qed.

(** ** The sweep, once more *)

Lemma Keeps_storage_cleanupLoop paths files :
  Forall (fun file => file ∈ paths) files ->
  Keeps (removedAtMost paths) (cleanupLoop files).
Proof.
  induction 1 as [|file rest Hfile _ IH]; cbn [cleanupLoop].
  - apply Keeps_ret.
  - unfold console_log. keeps_storage. exact IH.
Qed.

Lemma Keeps_calls_stat p : Keeps sameCalls (Fs.stat_mtime p).
Proof. intros w0 w H. unfold Fs.stat_mtime. by repeat case_match. Qed.

Lemma Keeps_calls_cleanupLoop files : Keeps sameCalls (cleanupLoop files).
Proof.
  induction files as [|file rest IH]; cbn [cleanupLoop].
  - apply Keeps_ret.
  - unfold console_log.
    repeat first [ apply Keeps_calls_stat | exact IH | progress keeps_calls ].
Qed.

Lemma cleanupUploadsFolder_shrinks w :
  forall q, Fs.lookup q (snd (cleanupUploadsFolder w)) = None \/
            Fs.lookup q (snd (cleanupUploadsFolder w)) = Fs.lookup q w.
Proof.
  unfold cleanupUploadsFolder, try_catch, bind, Fs.readdir.
  destruct (w_fault w OpReaddir); [by right|].
  destruct (w_uploads w) as [dir|] eqn:Hdir; [|by right].
  pose proof (Keeps_storage_cleanupLoop (Fs.listing (w_order w) dir)
                (Fs.listing (w_order w) dir)
                ltac:(by apply Forall_forall) w w (removedAtMost_refl _ w))
    as (Hshrink & _).
  destruct (cleanupLoop _ w) as [[[]|e] w1]; exact Hshrink.
Qed.

(** X13. The sweep never throws, and all it does to temp storage is to
    remove entries: it creates and rewrites nothing, neither creates nor
    removes the directory, and does not touch the model. When the directory
    is missing or cannot be listed, it only reports
    "Failed to cleanup uploads folder:" on the console. *)
Theorem cleanupUploadsFolder_effects w :
  exists w',
    cleanupUploadsFolder w = (Ok tt, w') /\
    (forall q, Fs.lookup q w' = None \/ Fs.lookup q w' = Fs.lookup q w) /\
    sameDirPresence w w' /\
    w_calls w' = w_calls w /\
    (w_uploads w = None \/ w_fault w OpReaddir = true ->
     w_uploads w' = w_uploads w /\
     w_tick w' = w_tick w /\
     w_console w'
     = ConsoleError (lit "Failed to cleanup uploads folder:") :: w_console w).
Proof.
  destruct (cleanupUploadsFolder_total w) as (w' & Hrun & _ & Hdir).
  exists w'. split; [exact Hrun|].
  assert (Hw' : w' = snd (cleanupUploadsFolder w)) by (by rewrite Hrun).
  split_and!.
  - rewrite Hw'. apply cleanupUploadsFolder_shrinks.
  - exact Hdir.
  - rewrite Hw'. clear.
    unfold cleanupUploadsFolder, try_catch, bind, Fs.readdir.
    destruct (w_fault w OpReaddir); [done|].
    destruct (w_uploads w) as [dir|]; [|done].
    pose proof (Keeps_calls_cleanupLoop (Fs.listing (w_order w) dir) w w eq_refl) as H.
    destruct (cleanupLoop _ w) as [[[]|e] w1]; exact H.
  - rewrite Hw'. clear.
    unfold cleanupUploadsFolder, try_catch, bind, Fs.readdir.
    intros [Hnone | Hfault].
    + rewrite Hnone. by destruct (w_fault w OpReaddir).
    + by rewrite Hfault.
Qed.

(** ** From upload to extraction *)

Lemma writeFile_effect p buffer w :
  match Fs.writeFile p buffer w with
  | (Ok _, w') =>
      w_tick w' = w_tick w /\ w_clock w' = w_clock w /\
      w_fault w' = w_fault w /\ w_uuids w' = w_uuids w /\
      w_uuid w' = w_uuid w /\ w_remnant w' = w_remnant w /\
      forall q, Fs.lookup q w'
                = if decide (q = p)
                  then Some {| e_mtime := w_clock w (w_tick w); e_data := buffer |}
                  else Fs.lookup q w
  | (Throw _, w') =>
      w_tick w' = w_tick w /\ w_clock w' = w_clock w /\
      w_fault w' = w_fault w /\ w_uuids w' = w_uuids w /\
      w_uuid w' = w_uuid w /\ w_remnant w' = w_remnant w /\
      (forall q, q <> p -> Fs.lookup q w' = Fs.lookup q w) /\
      (Fs.lookup p w' = Fs.lookup p w \/
       exists written,
         w_fault w (OpWriteFile p) = true /\
         w_remnant w p = Some written /\
         Fs.lookup p w'
         = Some {| e_mtime := w_clock w (w_tick w);
                   e_data := take written buffer |})
  end.
Proof.
  unfold Fs.writeFile, Fs.lookup.
  destruct (w_fault w (OpWriteFile p)) eqn:Hfault.
  - destruct (w_uploads w) as [dir|] eqn:Hdir;
      [|rewrite Hdir; split_and!; auto].
    destruct (w_remnant w p) as [written|] eqn:Hleft;
      [|rewrite Hdir; split_and!; auto].
    cbn. split_and!; try done.
    + intros q Hq. by rewrite lookup_insert_ne.
    + right. exists written. split_and!; try done. apply lookup_insert_eq.
  - destruct (w_uploads w) as [dir|] eqn:Hdir;
      [|rewrite Hdir; split_and!; auto].
    cbn. split_and!; try done.
    intros q. rewrite lookup_insert. repeat case_decide; congruence.
Qed.

Section UploadMore.

Variable env : option (list N).
Variable path_extname : list N -> list N.
Variable parsePDFContent : list Byte.byte -> Result (list N).
Variable mammoth_extractRawText : list Byte.byte -> Result (list N).
Variable decodeUtf8 : list Byte.byte -> list N.

Local Abbreviation extractText :=
  (extractTextFromFile parsePDFContent mammoth_extractRawText decodeUtf8).

(** What saving one accepted file does. *)
Lemma saveFile_effect file w :
  let fileId := w_uuid w (w_uuids w) in
  let filePath := fileId ++ path_extname (f_name file) in
  let now := w_clock w (w_tick w) in
  exists w',
    w_fault w' = w_fault w /\ w_remnant w' = w_remnant w /\
    w_uuid w' = w_uuid w /\ w_uuids w' = S (w_uuids w) /\
    ((saveFile path_extname file w
      = (Ok (UploadSuccess fileId (f_name file) (f_name file) (f_size file)
                           (f_type file) filePath now), w') /\
      forall q, Fs.lookup q w'
                = if decide (q = filePath)
                  then Some {| e_mtime := now; e_data := f_bytes file |}
                  else Fs.lookup q w) \/
     (saveFile path_extname file w
      = (Ok (UploadFailure (f_name file) (lit "Failed to save file")), w') /\
      (forall q, q <> filePath -> Fs.lookup q w' = Fs.lookup q w) /\
      (Fs.lookup filePath w' = Fs.lookup filePath w \/
       exists written,
         w_fault w (OpWriteFile filePath) = true /\
         w_remnant w filePath = Some written /\
         Fs.lookup filePath w'
         = Some {| e_mtime := now; e_data := take written (f_bytes file) |}))).
Proof.
  cbv zeta. unfold saveFile, try_catch, bind. cbn [uuidv4].
  match goal with |- context [Fs.writeFile ?p ?b ?w0] =>
    pose proof (writeFile_effect p b w0) as Hw;
    destruct (Fs.writeFile p b w0) as [[[]|e] w1]
  end.
  - destruct Hw as (Htick & Hclock & Hfault & Huuids & Huuid & Hleft & Hlookup).
    cbn [w_tick w_clock w_fault w_uuids w_uuid w_remnant] in *.
    exists (snd (Date_now w1)).
    cbn [Date_now ret snd w_fault w_uuid w_uuids w_remnant].
    split_and!; try done.
    left. rewrite Htick, Hclock. split; [reflexivity | exact Hlookup].
  - destruct Hw as (Htick & Hclock & Hfault & Huuids & Huuid & Hleft & Hother
                    & Hthere).
    cbn [w_tick w_clock w_fault w_uuids w_uuid w_remnant] in *.
    exists w1. cbn [ret].
    split_and!; try done.
    right. split; [reflexivity|]. split; [exact Hother | exact Hthere].
Qed.

(** X14. A file the upload loop reports as saved is in temp storage under the
    reported [filePath], which is the id followed by the extension of the
    file's name; the entry holds the bytes of the upload, and its type is one
    [extractTextFromFile] supports. So extraction from the reported path and
    type gives what the extractor for that type makes of the uploaded bytes,
    and fails only if that extractor does (or reading is hindered). *)
Theorem upload_then_extract file w fileId fileName originalName size type
    filePath uploadedAt w' :
  uploadStep env path_extname file w
  = (Ok (UploadSuccess fileId fileName originalName size type filePath uploadedAt),
     w') ->
  w_fault w (OpReadFile filePath) = false ->
  filePath = fileId ++ path_extname (f_name file) /\
  Fs.lookup filePath w'
  = Some {| e_mtime := uploadedAt; e_data := f_bytes file |} /\
  type = f_type file /\
  let extracted :=
    if decide (type = MIME_PDF) then parsePDFContent (f_bytes file)
    else if decide (type = MIME_TXT) then Ok (decodeUtf8 (f_bytes file))
    else mammoth_extractRawText (f_bytes file) in
  fst (extractText filePath type w')
  = match extracted with
    | Ok text => Ok text
    | Throw _ => Throw (JsError (lit "Failed to extract text from document"))
    end.
Proof.
  unfold uploadStep. intros Hrun Hread.
  destruct (js_gt (f_size file) (MAX_FILE_SIZE env)); [discriminate Hrun|].
  case_bool_decide as Htype; cbn [negb] in Hrun; [|discriminate Hrun].
  destruct (saveFile_effect file w)
    as (w1 & Hfault & _ & _ & _ & [(Hsave & Hlookup) | (Hsave & _)]);
    rewrite Hsave in Hrun; [|discriminate Hrun].
  injection Hrun as <- <- <- <- <- <- <- <-.
  split; [reflexivity|].
  assert (Hentry : Fs.lookup (w_uuid w (w_uuids w) ++ path_extname (f_name file)) w1
                   = Some {| e_mtime := w_clock w (w_tick w);
                             e_data := f_bytes file |}).
  { rewrite Hlookup. by rewrite decide_True. }
  split; [exact Hentry|]. split; [reflexivity|]. cbv zeta.
  assert (Hmime : MIME_PDF <> MIME_TXT /\ MIME_DOCX <> MIME_TXT /\
                  MIME_DOC <> MIME_TXT /\ MIME_PDF <> MIME_DOCX /\
                  MIME_PDF <> MIME_DOC)
    by (repeat split; intros H; vm_compute in H; discriminate H).
  destruct Hmime as (? & ? & ? & ? & ?).
  assert (Hread' : forall k : list Byte.byte -> M (list N),
             bind (Fs.readFile (w_uuid w (w_uuids w) ++ path_extname (f_name file))) k w1
             = k (f_bytes file) w1).
  { intros k. unfold bind, Fs.readFile. by rewrite Hfault, Hread, Hentry. }
  unfold extractTextFromFile, try_catch.
  unfold allowedTypes in Htype. rewrite !elem_of_cons in Htype.
  destruct Htype as [Ht | [Ht | [Ht | [Ht | Hnil]]]];
    [| | | |by apply elem_of_nil in Hnil]; rewrite Ht.
  - rewrite !decide_True by done. rewrite Hread'.
    unfold bind, liftResult. by destruct (parsePDFContent (f_bytes file)).
  - rewrite decide_False by done.
    rewrite (decide_True (P := _ \/ _)) by (by left).
    rewrite (decide_False (P := MIME_DOCX = MIME_PDF)) by done.
    rewrite (decide_False (P := MIME_DOCX = MIME_TXT)) by done.
    rewrite Hread'.
    unfold bind, liftResult. by destruct (mammoth_extractRawText (f_bytes file)).
  - rewrite decide_False by done.
    rewrite (decide_True (P := _ \/ _)) by (by right).
    rewrite (decide_False (P := MIME_DOC = MIME_PDF)) by done.
    rewrite (decide_False (P := MIME_DOC = MIME_TXT)) by done.
    rewrite Hread'.
    unfold bind, liftResult. by destruct (mammoth_extractRawText (f_bytes file)).
  - rewrite (decide_False (P := MIME_TXT = MIME_PDF)) by done.
    rewrite (decide_False (P := _ \/ _)) by (intros [|]; congruence).
    rewrite !decide_True by done.
    rewrite Hread'. reflexivity.
Qed.

End UploadMore.

(** ** What the upload route stores *)

Lemma Keeps_uuids_console l : Keeps sameUuids (console l).
Proof. by intros w0 w H. Qed.

Lemma Keeps_uuids_Date_now : Keeps sameUuids Date_now.
Proof. by intros w0 w H. Qed.

Lemma Keeps_uuids_stat p : Keeps sameUuids (Fs.stat_mtime p).
Proof. intros w0 w H. unfold Fs.stat_mtime. by repeat case_match. Qed.

Lemma Keeps_uuids_unlink p : Keeps sameUuids (Fs.unlink p).
Proof. intros w0 w H. unfold Fs.unlink. by repeat case_match. Qed.

Lemma Keeps_uuids_cleanupLoop files : Keeps sameUuids (cleanupLoop files).
Proof.
  induction files as [|file rest IH]; cbn [cleanupLoop].
  - apply Keeps_ret.
  - unfold console_log.
    repeat first
      [ exact IH
      | apply Keeps_bind; [|intros ?]
      | apply Keeps_if
      | apply Keeps_ret
      | apply Keeps_uuids_console | apply Keeps_uuids_Date_now
      | apply Keeps_uuids_stat | apply Keeps_uuids_unlink ].
Qed.

Lemma cleanupUploadsFolder_uuids w :
  sameUuids w (snd (cleanupUploadsFolder w)).
Proof.
  unfold cleanupUploadsFolder, try_catch, bind, Fs.readdir.
  destruct (w_fault w OpReaddir); [done|].
  destruct (w_uploads w) as [dir|]; [|done].
  pose proof (Keeps_uuids_cleanupLoop (Fs.listing (w_order w) dir) w w
                (conj eq_refl eq_refl)) as H.
  destruct (cleanupLoop _ w) as [[[]|e] w1]; exact H.
Qed.

Lemma Keeps_remnants_console l : Keeps sameRemnants (console l).
Proof. by intros w0 w H. Qed.

Lemma Keeps_remnants_Date_now : Keeps sameRemnants Date_now.
Proof. by intros w0 w H. Qed.

Lemma Keeps_remnants_stat p : Keeps sameRemnants (Fs.stat_mtime p).
Proof. intros w0 w H. unfold Fs.stat_mtime. by repeat case_match. Qed.

Lemma Keeps_remnants_unlink p : Keeps sameRemnants (Fs.unlink p).
Proof. intros w0 w H. unfold Fs.unlink. by repeat case_match. Qed.

Lemma Keeps_remnants_cleanupLoop files : Keeps sameRemnants (cleanupLoop files).
Proof.
  induction files as [|file rest IH]; cbn [cleanupLoop].
  - apply Keeps_ret.
  - unfold console_log.
    repeat first
      [ exact IH
      | apply Keeps_bind; [|intros ?]
      | apply Keeps_if
      | apply Keeps_ret
      | apply Keeps_remnants_console | apply Keeps_remnants_Date_now
      | apply Keeps_remnants_stat | apply Keeps_remnants_unlink ].
Qed.

Lemma cleanupUploadsFolder_remnants w :
  w_remnant (snd (cleanupUploadsFolder w)) = w_remnant w.
Proof.
  unfold cleanupUploadsFolder, try_catch, bind, Fs.readdir.
  destruct (w_fault w OpReaddir); [done|].
  destruct (w_uploads w) as [dir|]; [|done].
  pose proof (Keeps_remnants_cleanupLoop (Fs.listing (w_order w) dir) w w
                eq_refl) as H.
  destruct (cleanupLoop _ w) as [[[]|e] w1]; exact H.
Qed.

Section UploadStorage.

Variable env : option (list N).
Variable path_extname : list N -> list N.

(** One iteration of the upload loop: the ids drawn, and the entries of temp
    storage afterwards. *)
Lemma uploadStep_effect file w :
  exists r w',
    uploadStep env path_extname file w = (Ok r, w') /\
    w_fault w' = w_fault w /\ w_remnant w' = w_remnant w /\
    w_uuid w' = w_uuid w /\
    (w_uuids w <= w_uuids w' <= S (w_uuids w))%nat /\
    (forall id, uploadedId r = Some id ->
                id = w_uuid w (w_uuids w) /\ w_uuids w' = S (w_uuids w)) /\
    (forall q e, Fs.lookup q w' = Some e ->
                 Fs.lookup q w = Some e \/ uploadedPath r = Some q \/
                 (r = UploadFailure (f_name file) (lit "Failed to save file") /\
                  leftBehind path_extname w file q e)).
Proof.
  unfold uploadStep.
  destruct (js_gt (f_size file) (MAX_FILE_SIZE env)).
  { eexists _, _. split; [reflexivity|]. split_and!; auto; try done; lia. }
  destruct (negb (bool_decide (f_type file ∈ allowedTypes))).
  { eexists _, _. split; [reflexivity|]. split_and!; auto; try done; lia. }
  destruct (saveFile_effect path_extname file w)
    as (w' & Hfault & Hleft & Huuid & Huuids &
        [(Hsave & Hlookup) | (Hsave & Hother & Hthere)]);
    rewrite Hsave; eexists _, _; (split; [reflexivity|]);
    split_and!; auto; try lia; cbn [uploadedId uploadedPath]; try done.
  - intros id [= <-]. done.
  - intros q e. rewrite Hlookup. case_decide; [subst q; by right; left | by left].
  - intros q e Hq.
    destruct (decide (q = w_uuid w (w_uuids w) ++ path_extname (f_name file)))
      as [->|Hne]; [|left; by rewrite <- Hother].
    destruct Hthere as [Hsame | (written & Hfails & Hwritten & Hentry)];
      [left; congruence|].
    right. right. split; [done|].
    exists (w_uuids w), written. split_and!; try done.
    rewrite Hentry in Hq. by injection Hq as <-.
Qed.

Lemma leftBehind_frame file w0 w q e :
  w_fault w = w_fault w0 -> w_remnant w = w_remnant w0 ->
  w_uuid w = w_uuid w0 ->
  leftBehind path_extname w file q e -> leftBehind path_extname w0 file q e.
Proof.
  intros Hfault Hleft Huuid (k & written & ? & ? & ? & ?).
  exists k, written. by rewrite <- Hfault, <- Hleft, <- Huuid.
Qed.

Lemma uploadLoop_effect files : forall w,
  exists pushed w',
    (forall uploadResults,
        uploadLoop env path_extname files uploadResults w
        = (Ok (uploadResults ++ pushed), w')) /\
    w_fault w' = w_fault w /\ w_remnant w' = w_remnant w /\
    w_uuid w' = w_uuid w /\
    (w_uuids w <= w_uuids w')%nat /\
    (exists ks,
        omap uploadedId pushed = w_uuid w <$> ks /\
        NoDup ks /\
        Forall (fun k => w_uuids w <= k < w_uuids w')%nat ks) /\
    (forall q e, Fs.lookup q w' = Some e ->
                 Fs.lookup q w = Some e \/
                 (exists r, r ∈ pushed /\ uploadedPath r = Some q) \/
                 (exists file,
                     file ∈ files /\
                     UploadFailure (f_name file) (lit "Failed to save file")
                       ∈ pushed /\
                     leftBehind path_extname w file q e)).
Proof.
  induction files as [|file files IH]; intros w.
  - exists [], w. split_and!; auto.
    + intros uploadResults. cbn. by rewrite app_nil_r.
    + exists []. split_and!; [done | constructor | constructor].
  - destruct (uploadStep_effect file w)
      as (r & w1 & Hstep & Hfault1 & Hleft1 & Huuid1 & Hrange1 & Hid & Hsome).
    destruct (IH w1) as (pushed & w2 & Hloop & Hfault2 & Hleft2 & Huuid2 & Hrange2 &
                         (ks & Hks & Hsorted & Hbounds) & Hstored).
    exists (r :: pushed), w2. split_and!.
    + intros uploadResults. cbn [uploadLoop].
      rewrite (bind_ok _ _ _ _ _ Hstep), Hloop. by rewrite <- app_assoc.
    + congruence.
    + congruence.
    + congruence.
    + lia.
    + change (omap uploadedId (r :: pushed))
        with (match uploadedId r with
              | Some id => id :: omap uploadedId pushed
              | None => omap uploadedId pushed
              end).
      destruct (uploadedId r) as [id|] eqn:Hr.
      * destruct (Hid id eq_refl) as [-> Hnext].
        exists (w_uuids w :: ks). split_and!.
        -- rewrite fmap_cons. by rewrite Hks, Huuid1.
        -- constructor; [|done].
           intros Hin. rewrite Forall_forall in Hbounds.
           specialize (Hbounds _ Hin). lia.
        -- constructor; [lia|].
           eapply Forall_impl; [exact Hbounds|]. cbn. lia.
      * exists ks. split_and!; [by rewrite Hks, Huuid1 | done |].
        eapply Forall_impl; [exact Hbounds|]. cbn. lia.
    + intros q e Hq.
      destruct (Hstored q e Hq)
        as [Hq1 | [(r' & Hin & Hr') | (file' & Hin & Hfailed & Hbehind)]].
      * destruct (Hsome q e Hq1) as [? | [Hr | [-> Hbehind]]]; [by left| |].
        -- right. left. exists r. split; [by left | done].
        -- right. right. exists file. split_and!; [by left | by left | done].
      * right. left. exists r'. split; [by right | done].
      * right. right. exists file'. split_and!; [by right | by right |].
        by eapply leftBehind_frame.
Qed.

(** The upload route on a request with files: a refusal that stores nothing,
    or the sweep followed by the upload loop. *)
Lemma POST_run file files w :
  exists resp w1 w',
    POST env path_extname (FormData (file :: files)) w = (Ok resp, w') /\
    w_fault w1 = w_fault w /\ w_remnant w1 = w_remnant w /\
    w_uuid w1 = w_uuid w /\ w_uuids w1 = w_uuids w /\
    (forall q e, Fs.lookup q w1 = Some e -> Fs.lookup q w = Some e) /\
    ((resp = ErrorResponse 500 (lit "Upload failed") /\
      forall q, Fs.lookup q w' = Fs.lookup q w1) \/
     (exists pushed,
         resp = SuccessResponse pushed /\
         forall uploadResults,
           uploadLoop env path_extname (file :: files) uploadResults w1
           = (Ok (uploadResults ++ pushed), w'))).
Proof.
  unfold POST, try_catch.
  unfold bind at 1. cbn [liftResult length Nat.eqb].
  destruct (cleanupUploadsFolder_total w) as (w1 & Hsweep & Hfaults & Hdir).
  pose proof (cleanupUploadsFolder_uuids w) as [Huuid Huuids].
  pose proof (cleanupUploadsFolder_remnants w) as Hleft.
  pose proof (cleanupUploadsFolder_shrinks w) as Hshrink.
  rewrite Hsweep in Huuid, Huuids, Hleft, Hshrink.
  cbn [snd] in Huuid, Huuids, Hleft, Hshrink.
  assert (Hkept : forall q e, Fs.lookup q w1 = Some e -> Fs.lookup q w = Some e).
  { intros q e Hq. destruct (Hshrink q); congruence. }
  rewrite (bind_ok _ _ _ _ _ Hsweep).
  unfold bind at 1. cbn [Fs.existsSync].
  unfold sameFaults in Hfaults. unfold sameDirPresence in Hdir.
  destruct (w_uploads w1) as [dir|] eqn:Hdir1.
  - rewrite bool_decide_eq_true_2 by eauto. cbn [negb].
    destruct (uploadLoop_effect (file :: files) w1) as (pushed & w2 & Hloop & _).
    unfold bind at 1. cbn [ret]. rewrite (bind_ok _ _ _ _ _ (Hloop [])).
    exists (SuccessResponse pushed), w1, w2.
    split_and!; try done. right. by exists pushed.
  - rewrite bool_decide_eq_false_2 by (by intros [? ?]). cbn [negb].
    unfold bind at 1, Fs.mkdir. rewrite Hfaults, Hdir1.
    destruct (w_fault w OpMkdir) eqn:Hmk.
    + eexists _, w1, _. split; [reflexivity|]. split_and!; try done.
      left. by split.
    + destruct (uploadLoop_effect (file :: files) (set_uploads (Some ∅) w1))
        as (pushed & w2 & Hloop & _).
      rewrite (bind_ok _ _ _ _ _ (Hloop [])).
      exists (SuccessResponse pushed), (set_uploads (Some ∅) w1), w2.
      split_and!; try done. right. by exists pushed.
Qed.

(** X15. Whatever the request, the upload route never throws, and every
    entry of temp storage after it is of one of three kinds: it was there
    before, unchanged; or it is at a path the response reports as the
    [filePath] of a saved file; or it is what a save that failed left behind
    (the file was opened and the write broke off), which the response
    reports as "Failed to save file" without the path, and which the [catch]
    around the save does not remove. *)
Theorem POST_stored_entries req w :
  exists resp w',
    POST env path_extname req w = (Ok resp, w') /\
    forall q e,
      Fs.lookup q w' = Some e ->
      Fs.lookup q w = Some e \/
      exists results,
        resp = SuccessResponse results /\
        ((exists r, r ∈ results /\ uploadedPath r = Some q) \/
         (exists files file,
             req = FormData files /\ file ∈ files /\
             UploadFailure (f_name file) (lit "Failed to save file") ∈ results /\
             leftBehind path_extname w file q e)).
Proof.
  destruct req as [e | [|file files]].
  - eexists _, _. split; [reflexivity|]. intros q e0 Hq. by left.
  - eexists _, _. split; [reflexivity|]. intros q e0 Hq. by left.
  - destruct (POST_run file files w)
      as (resp & w1 & w' & Hrun & Hfault & Hleft & Huuid & _ & Hkept &
          [[-> Hsame] | (pushed & -> & Hloop)]).
    + exists (ErrorResponse 500 (lit "Upload failed")), w'.
      split; [exact Hrun|]. intros q e. rewrite Hsame. auto.
    + exists (SuccessResponse pushed), w'. split; [exact Hrun|].
      destruct (uploadLoop_effect (file :: files) w1)
        as (pushed' & w2 & Hloop' & _ & _ & _ & _ & _ & Hstored).
      specialize (Hloop []). rewrite (Hloop' []) in Hloop.
      injection Hloop as <- <-.
      intros q e Hq.
      destruct (Hstored q e Hq)
        as [Hq1 | [(r & Hin & Hr) | (file' & Hin & Hfailed & Hbehind)]].
      * left. auto.
      * right. exists pushed'. split; [done|]. left. by exists r.
      * right. exists pushed'. split; [done|]. right.
        exists (file :: files), file'. split_and!; try done.
        by eapply leftBehind_frame.
Qed.

(** X16. As long as the id generator does not repeat itself, the files one
    response reports as saved have pairwise distinct ids. *)
Theorem POST_ids_distinct req w results w' :
  (forall i j, w_uuid w i = w_uuid w j -> i = j) ->
  POST env path_extname req w = (Ok (SuccessResponse results), w') ->
  NoDup (omap uploadedId results).
Proof.
  intros Hinj Hrun.
  destruct req as [e | [|file files]]; [discriminate Hrun | discriminate Hrun |].
  destruct (POST_run file files w)
    as (resp & w1 & w2 & Hrun' & _ & _ & Huuid & _ & _ &
        [[-> _] | (pushed & -> & Hloop)]);
    rewrite Hrun in Hrun'; [discriminate Hrun'|].
  injection Hrun' as -> ->.
  destruct (uploadLoop_effect (file :: files) w1)
    as (pushed' & w3 & Hloop' & _ & _ & _ & _ & (ks & Hks & Hnodup & _) & _).
  specialize (Hloop []). rewrite (Hloop' []) in Hloop.
  injection Hloop as <- <-.
  rewrite Hks, Huuid. apply NoDup_fmap_2; [|done].
  intros i j. apply Hinj.
Qed.

End UploadStorage.

(** ** The processing route *)

Section ProcessRouteFacts.

Variable JSON_parse : list N -> Result JSValue.
Variable parsePDFContent : list Byte.byte -> Result (list N).
Variable mammoth_extractRawText : list Byte.byte -> Result (list N).
Variable decodeUtf8 : list Byte.byte -> list N.
Variable splitText : list N -> list (list N).
Variable processDocumentAction_untyped : JSValue -> M DocumentAnalysis.

Local Abbreviation processAction :=
  (processDocumentAction JSON_parse parsePDFContent mammoth_extractRawText
                         decodeUtf8 splitText).
Local Abbreviation route :=
  (ProcessRoute.POST JSON_parse parsePDFContent mammoth_extractRawText
                     decodeUtf8 splitText processDocumentAction_untyped).

Lemma getProp_object fileData k :
  fileData <> JNull -> fileData <> JUndefined ->
  JsValue.getProp fileData k = Ok (fieldOf fileData k).
Proof. by destruct fileData. Qed.

(** X17. The processing route never throws, whatever the body. It answers
    500 with the error's message when the body cannot be read, 500 with the
    [TypeError] of the first property read when the body is [null], and 400
    "Missing required file data", without doing anything at all, when one of
    [id], [fileName], [filePath], [type] is missing or falsy (an empty
    string, for one). *)
Theorem POST_process_validation body w :
  exists resp w',
    route body w = (Ok resp, w') /\
    match body with
    | Throw (JsError message) => resp = ProcessRoute.ErrorResponse 500 message
    | Throw JsNonError =>
        resp = ProcessRoute.ErrorResponse 500 (lit "Processing failed")
    | Ok JNull =>
        resp = ProcessRoute.ErrorResponse 500
                 (lit "Cannot read properties of null (reading 'id')")
    | Ok JUndefined =>
        resp = ProcessRoute.ErrorResponse 500
                 (lit "Cannot read properties of undefined (reading 'id')")
    | Ok fileData =>
        (exists k, k ∈ [lit "id"; lit "fileName"; lit "filePath"; lit "type"] /\
                   JsValue.truthy (fieldOf fileData k) = false) ->
        resp = ProcessRoute.ErrorResponse 400 (lit "Missing required file data") /\
        w' = w
    end.
Proof.
  unfold ProcessRoute.POST.
  destruct body as [fileData|[message|]];
    [|eexists _, _; split; reflexivity..].
  assert (Hcases : fileData = JNull \/ fileData = JUndefined \/
                   (fileData <> JNull /\ fileData <> JUndefined))
    by (destruct fileData; auto).
  destruct Hcases as [-> | [-> | [Hnull Hundef]]];
    [eexists _, _; split; reflexivity..|].
  unfold try_catch. rewrite (bind_ok _ _ w fileData w eq_refl).
  unfold bind at 1, liftResult at 1. rewrite (getProp_object _ _ Hnull Hundef).
  unfold bind at 1, liftResult at 1. rewrite (getProp_object _ _ Hnull Hundef).
  unfold bind at 1, liftResult at 1. rewrite (getProp_object _ _ Hnull Hundef).
  unfold bind at 1, liftResult at 1. rewrite (getProp_object _ _ Hnull Hundef).
  destruct (negb (JsValue.truthy (fieldOf fileData (lit "id")))
            || negb (JsValue.truthy (fieldOf fileData (lit "fileName")))
            || negb (JsValue.truthy (fieldOf fileData (lit "filePath")))
            || negb (JsValue.truthy (fieldOf fileData (lit "type")))) eqn:Hmissing.
  - eexists _, _. split; [reflexivity|]. by destruct fileData.
  - assert (Hno : ~ exists k,
               k ∈ [lit "id"; lit "fileName"; lit "filePath"; lit "type"] /\
               JsValue.truthy (fieldOf fileData k) = false).
    { intros (k & Hk & Hfalsy). rewrite !orb_false_iff, !negb_false_iff in Hmissing.
      destruct Hmissing as [[[H1 H2] H3] H4].
      rewrite !elem_of_cons in Hk.
      destruct Hk as [-> | [-> | [-> | [-> | Hk]]]];
        [congruence.. | by apply elem_of_nil in Hk]. }
    match goal with
    | |- context [bind ?m ?k w] => destruct (m w) as [[r|e] w1] eqn:Hrun
    end.
    + rewrite (bind_ok _ _ _ _ _ Hrun). eexists _, _. split; [reflexivity|].
      by destruct fileData.
    + rewrite (bind_throw _ _ _ _ _ Hrun). eexists _, _. split; [reflexivity|].
      by destruct fileData.
Qed.

(** X18. On a body whose four fields are non-empty strings the route answers
    with the record [processDocumentAction] returns for that descriptor, or
    else with status 500 and the message [processDocumentAction] threw,
    "Failed to process document: " and the cause. Either way the file is
    gone from temp storage afterwards, unless its deletion is hindered from
    outside. *)
Theorem POST_process_typed fileData descriptor w :
  fieldOf fileData (lit "id") = JStr (fd_id descriptor) ->
  fieldOf fileData (lit "fileName") = JStr (fd_fileName descriptor) ->
  fieldOf fileData (lit "filePath") = JStr (fd_filePath descriptor) ->
  fieldOf fileData (lit "type") = JStr (fd_type descriptor) ->
  fd_id descriptor <> [] -> fd_fileName descriptor <> [] ->
  fd_filePath descriptor <> [] -> fd_type descriptor <> [] ->
  exists resp w',
    route (Ok fileData) w = (Ok resp, w') /\
    ((exists result,
         resp = ProcessRoute.ResultResponse result /\
         fst (processAction descriptor w) = Ok result) \/
     (exists cause,
         resp = ProcessRoute.ErrorResponse 500
                  (lit "Failed to process document: " ++ cause) /\
         fst (processAction descriptor w)
         = Throw (JsError (lit "Failed to process document: " ++ cause)))) /\
    (w_fault w (OpUnlink (fd_filePath descriptor)) = false ->
     Fs.lookup (fd_filePath descriptor) w' = None).
Proof.
  intros Hid Hname Hpath Htype Hid' Hname' Hpath' Htype'.
  assert (Hnull : fileData <> JNull) by (by intros ->).
  assert (Hundef : fileData <> JUndefined) by (by intros ->).
  unfold ProcessRoute.POST, try_catch.
  rewrite (bind_ok _ _ w fileData w eq_refl).
  unfold bind at 1, liftResult at 1. rewrite (getProp_object _ _ Hnull Hundef).
  unfold bind at 1, liftResult at 1. rewrite (getProp_object _ _ Hnull Hundef).
  unfold bind at 1, liftResult at 1. rewrite (getProp_object _ _ Hnull Hundef).
  unfold bind at 1, liftResult at 1. rewrite (getProp_object _ _ Hnull Hundef).
  rewrite Hid, Hname, Hpath, Htype. cbn [JsValue.truthy ProcessRoute.descriptorOf].
  replace (negb (JsString.truthy (fd_id descriptor))
           || negb (JsString.truthy (fd_fileName descriptor))
           || negb (JsString.truthy (fd_filePath descriptor))
           || negb (JsString.truthy (fd_type descriptor))) with false
    by (destruct (fd_id descriptor), (fd_fileName descriptor),
          (fd_filePath descriptor), (fd_type descriptor); done).
  replace {| fd_id := fd_id descriptor; fd_fileName := fd_fileName descriptor;
             fd_filePath := fd_filePath descriptor; fd_type := fd_type descriptor |}
    with descriptor by (by destruct descriptor).
  pose proof (processDocumentAction_afterDeletion JSON_parse parsePDFContent
                mammoth_extractRawText decodeUtf8 splitText descriptor w)
    as [_ Hgone].
  pose proof (Keeps_processDocumentAction JSON_parse parsePDFContent
                mammoth_extractRawText decodeUtf8 splitText descriptor w w eq_refl)
    as Hfaults.
  unfold sameFaults in Hfaults. rewrite Hfaults in Hgone.
  destruct (processAction descriptor w) as [[r|e] w1] eqn:Hrun.
  - rewrite (bind_ok _ _ _ _ _ Hrun). eexists _, _. split; [reflexivity|].
    split; [left; by exists r | exact Hgone].
  - rewrite (bind_throw _ _ _ _ _ Hrun).
    destruct (processDocumentAction_throw_inv _ _ _ _ _ _ _ _ _ Hrun)
      as (e0 & w0 & _ & ->).
    eexists _, _. split; [reflexivity|].
    split; [right; by exists (errorMessage e0) | exact Hgone].
Qed.

End ProcessRouteFacts.

(** ** The PDF parser *)

Lemma decodeAll_app decode ts1 ts2 :
  decodeAll decode (ts1 ++ ts2)
  = match decodeAll decode ts1 with
    | Ok ds1 =>
        match decodeAll decode ts2 with
        | Ok ds2 => Ok (ds1 ++ ds2)
        | Throw e => Throw e
        end
    | Throw e => Throw e
    end.
Proof.
  induction ts1 as [|t ts1 IH]; cbn.
  - by destruct (decodeAll decode ts2).
  - destruct (decode t); [|done]. rewrite IH.
    destruct (decodeAll decode ts1); [|done].
    by destruct (decodeAll decode ts2).
Qed.

Lemma blank_space : blank (lit " ").
Proof. apply blank_cons; [reflexivity | apply blank_nil]. Qed.

Lemma blank_newline : blank [10%N].
Proof. apply blank_cons; [reflexivity | apply blank_nil]. Qed.

Section PdfParserFacts.

Variable import_pdf2json : Result unit.
Variable parseBuffer : list Byte.byte -> PdfParser.ParserEvent.
Variable loadPDF : list N -> PdfParser.ParserEvent.
Variable decodeURIComponent : list N -> Result (list N).
Variable layoutPageText : list PdfParser.PDFText -> Result (list N).

Local Abbreviation runsText := (PdfParser.runsText decodeURIComponent).
Local Abbreviation textsText := (PdfParser.textsText decodeURIComponent).
Local Abbreviation pageContribution :=
  (PdfParser.pageContribution decodeURIComponent layoutPageText).
Local Abbreviation pagesText :=
  (PdfParser.pagesText decodeURIComponent layoutPageText).
Local Abbreviation onDataReady :=
  (PdfParser.onDataReady decodeURIComponent layoutPageText).
Local Abbreviation parsePDFContent :=
  (PdfParser.parsePDFContent import_pdf2json parseBuffer loadPDF
                             decodeURIComponent layoutPageText).
Local Abbreviation parsePDFContent_of_buffer :=
  (PdfParser.parsePDFContent_of_buffer import_pdf2json parseBuffer loadPDF
                                       decodeURIComponent layoutPageText).
Local Abbreviation decoded := (decodeAll decodeURIComponent).
Local Abbreviation truthyTexts runs :=
  (filter (fun t => JsString.truthy t = true) (PdfParser.T <$> runs)).

Lemma runsText_words runs :
  match runsText runs with
  | Ok raw =>
      exists ds, decoded (truthyTexts runs) = Ok ds /\
                 wordsOf raw = ds ≫= wordsOf /\
                 (raw = [] \/ exists init, raw = init ++ lit " ")
  | Throw e => decoded (truthyTexts runs) = Throw e
  end.
Proof.
  induction runs as [|textRun rest IH]; cbn [PdfParser.runsText].
  - exists []. split_and!; auto.
  - rewrite fmap_cons.
    destruct (PdfParser.T textRun) as [|c t] eqn:HT; cbn [JsString.truthy].
    + rewrite filter_cons_False by (cbn; congruence). exact IH.
    + rewrite filter_cons_True by done. cbn [decodeAll].
      destruct (decodeURIComponent (c :: t)) as [d|e]; [|done].
      destruct (runsText rest) as [more|e]; [|by rewrite IH].
      destruct IH as (ds & -> & Hwords & Hend).
      exists (d :: ds). split_and!; [done| |].
      * rewrite (wordsOf_app d (lit " ") more ltac:(done) blank_space).
        by rewrite Hwords.
      * right. destruct Hend as [-> | (init & ->)].
        -- exists d. by rewrite app_nil_r.
        -- exists (d ++ lit " " ++ init). by rewrite <- !app_assoc.
Qed.

(** Text that ends with a space, followed by more text: the words of
    both. *)
Lemma wordsOf_spaced here more :
  here = [] \/ (exists init, here = init ++ lit " ") ->
  wordsOf (here ++ more) = wordsOf here ++ wordsOf more.
Proof.
  intros [-> | (init & ->)]; [done|].
  rewrite <- app_assoc.
  rewrite (wordsOf_app init (lit " ") more ltac:(done) blank_space).
  rewrite <- (app_nil_r (init ++ lit " ")), <- app_assoc.
  rewrite (wordsOf_app init (lit " ") [] ltac:(done) blank_space).
  by rewrite app_nil_r.
Qed.

Lemma textsText_words texts :
  match textsText texts with
  | Ok raw =>
      exists ds,
        decoded (runsOfPage {| PdfParser.Texts := Some texts |}) = Ok ds /\
        wordsOf raw = ds ≫= wordsOf
  | Throw e => decoded (runsOfPage {| PdfParser.Texts := Some texts |}) = Throw e
  end.
Proof.
  unfold runsOfPage. cbn [PdfParser.Texts].
  induction texts as [|text rest IH]; cbn [PdfParser.textsText].
  - by exists [].
  - rewrite bind_cons, decodeAll_app.
    assert (Hhere :
      match (match PdfParser.R text with
             | Some ((_ :: _) as runs) => runsText runs
             | _ => Ok []
             end) with
      | Ok raw =>
          exists ds,
            decoded (match PdfParser.R text with
                     | Some runs => truthyTexts runs
                     | None => []
                     end) = Ok ds /\
            wordsOf raw = ds ≫= wordsOf /\
            (raw = [] \/ exists init, raw = init ++ lit " ")
      | Throw e =>
          decoded (match PdfParser.R text with
                   | Some runs => truthyTexts runs
                   | None => []
                   end) = Throw e
      end).
    { destruct (PdfParser.R text) as [[|textRun runs]|].
      - exists []. split_and!; auto.
      - exact (runsText_words (textRun :: runs)).
      - exists []. split_and!; auto. }
    destruct (match PdfParser.R text with
              | Some ((_ :: _) as runs) => runsText runs
              | _ => Ok []
              end) as [here|e]; [|by rewrite Hhere].
    destruct Hhere as (ds1 & -> & Hwords1 & Hend).
    destruct (textsText rest) as [more|e]; [|by rewrite IH].
    destruct IH as (ds2 & -> & Hwords2).
    exists (ds1 ++ ds2). split; [done|].
    rewrite (wordsOf_spaced _ _ Hend), bind_app. by rewrite Hwords1, Hwords2.
Qed.

Lemma pageContribution_words sep preserveWhitespace currentPage page :
  sep <> [] -> blank sep ->
  match pageContribution false sep false preserveWhitespace currentPage page with
  | Ok here =>
      exists ds,
        decoded (runsOfPage page) = Ok ds /\
        (forall more, wordsOf (here ++ more) = (ds ≫= wordsOf) ++ wordsOf more)
  | Throw e => decoded (runsOfPage page) = Throw e
  end.
Proof.
  intros Hsep Hblank. unfold PdfParser.pageContribution.
  unfold runsOfPage.
  destruct (PdfParser.Texts page) as [texts0|] eqn:Htexts; [|by exists []].
  destruct texts0 as [|text texts]; [by exists []|].
  change (decoded ((text :: texts) ≫= _))
    with (decoded (runsOfPage {| PdfParser.Texts := Some (text :: texts) |})).
  pose proof (textsText_words (text :: texts)) as Hraw.
  cbv iota.
  destruct (textsText (text :: texts)) as [raw|e]; [|exact Hraw].
  destruct Hraw as (ds & Hds & Hwords).
  set (pageText := if negb preserveWhitespace
                   then PdfParser.collapseWhitespace (trim raw) else trim raw).
  assert (Hpage : wordsOf pageText = ds ≫= wordsOf).
  { unfold pageText. destruct preserveWhitespace; cbn [negb];
      rewrite ?wordsOf_collapse, wordsOf_trim; exact Hwords. }
  destruct pageText as [|c rest] eqn:Ht; cbn [JsString.truthy];
    (exists ds; split; [exact Hds|]; intros more).
  - by rewrite <- Hpage.
  - rewrite <- app_assoc, (wordsOf_app _ sep more Hsep Hblank). by rewrite Hpage.
Qed.

Lemma pagesText_words sep preserveWhitespace pages : forall pageIndex,
  sep <> [] -> blank sep ->
  match pagesText false sep false preserveWhitespace pageIndex pages with
  | Ok text =>
      exists ds,
        decoded (pages ≫= runsOfPage) = Ok ds /\
        wordsOf text = ds ≫= wordsOf
  | Throw e => decoded (pages ≫= runsOfPage) = Throw e
  end.
Proof.
  induction pages as [|page rest IH]; intros pageIndex Hsep Hblank;
    cbn [PdfParser.pagesText].
  - by exists [].
  - rewrite bind_cons, decodeAll_app.
    pose proof (pageContribution_words sep preserveWhitespace (pageIndex + 1)
                  page Hsep Hblank) as Hhere.
    destruct (pageContribution false sep false preserveWhitespace
                (pageIndex + 1) page) as [here|e]; [|by rewrite Hhere].
    destruct Hhere as (ds1 & -> & Hwords1).
    specialize (IH (S pageIndex) Hsep Hblank).
    destruct (pagesText false sep false preserveWhitespace (S pageIndex) rest)
      as [more|e]; [|by rewrite IH].
    destruct IH as (ds2 & -> & Hwords2).
    exists (ds1 ++ ds2). split; [done|].
    by rewrite Hwords1, bind_app, Hwords2.
Qed.

(** X19. Whatever the source and the options, the text [parsePDFContent]
    resolves with is trimmed, and what it rejects with is an [Error] whose
    message is one of five kinds: the parser's error behind
    "PDF parsing error: ", "Invalid PDF data structure", an exception of the
    text loop behind "Text processing error: ", a failed import behind
    "PDF parser initialization failed: ", or the refusal of a source that is
    neither a buffer nor a path. *)
Theorem parsePDFContent_result pdfSource options :
  match parsePDFContent pdfSource options with
  | Ok text => trim text = text
  | Throw e =>
      exists message,
        e = JsError message /\
        (message = lit "Invalid PDF data structure" \/
         message = lit "Invalid PDF source. Expected Buffer or file path." \/
         exists detail,
           message = lit "PDF parsing error: " ++ detail \/
           message = lit "Text processing error: " ++ detail \/
           message = lit "PDF parser initialization failed: " ++ detail)
  end.
Proof.
  assert (Hready : forall pdfData,
    match onDataReady options pdfData with
    | Ok text => trim text = text
    | Throw e =>
        exists message,
          e = JsError message /\
          (message = lit "Invalid PDF data structure" \/
           message = lit "Invalid PDF source. Expected Buffer or file path." \/
           exists detail,
             message = lit "PDF parsing error: " ++ detail \/
             message = lit "Text processing error: " ++ detail \/
             message = lit "PDF parser initialization failed: " ++ detail)
    end).
  { intros [[[allPages|]]|]; unfold PdfParser.onDataReady; cbn [PdfParser.Pages];
      [|eexists; split; [reflexivity|]; by left..].
    cbv zeta. destruct (PdfParser.pagesText _ _ _ _ _ _ _ _) as [text|e].
    - apply trim_idemp.
    - eexists. split; [reflexivity|]. right. right. eexists. right. by left. }
  assert (Hevent : forall event,
    match PdfParser.onEvent decodeURIComponent layoutPageText options event with
    | Ok text => trim text = text
    | Throw e =>
        exists message,
          e = JsError message /\
          (message = lit "Invalid PDF data structure" \/
           message = lit "Invalid PDF source. Expected Buffer or file path." \/
           exists detail,
             message = lit "PDF parsing error: " ++ detail \/
             message = lit "Text processing error: " ++ detail \/
             message = lit "PDF parser initialization failed: " ++ detail)
    end).
  { intros [message|pdfData]; cbn [PdfParser.onEvent]; [|apply Hready].
    eexists. split; [reflexivity|]. right. right. eexists. by left. }
  unfold PdfParser.parsePDFContent.
  destruct import_pdf2json as [[]|error].
  - destruct pdfSource; [apply Hevent | apply Hevent |].
    eexists. split; [reflexivity|]. right. by left.
  - eexists. split; [reflexivity|]. right. right. eexists. right. by right.
Qed.

Lemma parsePDFContent_of_buffer_words pdfBuffer data pages :
  import_pdf2json = Ok tt ->
  parseBuffer pdfBuffer = PdfParser.pdfParser_dataReady (Some data) ->
  PdfParser.Pages data = Some pages ->
  match decodeAll decodeURIComponent (pages ≫= runsOfPage) with
  | Ok ds =>
      exists text,
        parsePDFContent_of_buffer pdfBuffer = Ok text /\
        wordsOf text = ds ≫= wordsOf /\
        countWords text = length (ds ≫= wordsOf) /\
        trim text = text
  | Throw e =>
      parsePDFContent_of_buffer pdfBuffer
      = Throw (JsError (lit "Text processing error: "
                          ++ match e with
                             | JsError message => message
                             | JsNonError => lit "Unknown processing error"
                             end))
  end.
Proof.
  intros Himport Hevent Hpages.
  unfold PdfParser.parsePDFContent_of_buffer, PdfParser.parsePDFContent.
  rewrite Himport, Hevent.
  unfold PdfParser.onEvent, PdfParser.onDataReady. rewrite Hpages.
  cbn [PdfParser.maxPages PdfParser.includePageNumbers
       PdfParser.pageBreakSeparator PdfParser.preserveLayout
       PdfParser.preserveWhitespace default from_option Datatypes.id].
  cbv zeta.
  pose proof (pagesText_words [10%N] false pages 0 ltac:(done) blank_newline)
    as Hwords.
  destruct (pagesText false [10%N] false false 0 pages) as [extracted|e].
  - destruct Hwords as (ds & -> & Hwords).
    exists (trim extracted). split_and!; [done | | | apply trim_idemp].
    + by rewrite wordsOf_trim.
    + change (countWords (trim extracted))
        with (length (wordsOf (trim extracted))).
      by rewrite wordsOf_trim, Hwords.
  - by rewrite Hwords.
Qed.

(** X20. For the call [extractTextFromFile] makes, on a buffer the parser
    reads into pages: the text returned has exactly the words of the texts of
    the runs, decoded, in the order of the pages, and so as many words as
    they have together; if a run cannot be decoded, the call fails with
    "Text processing error: " and that exception's message. *)
Theorem parsePDFContent_words pdfBuffer data pages :
  import_pdf2json = Ok tt ->
  parseBuffer pdfBuffer = PdfParser.pdfParser_dataReady (Some data) ->
  PdfParser.Pages data = Some pages ->
  match decodeAll decodeURIComponent (pages ≫= runsOfPage) with
  | Ok ds =>
      exists text,
        parsePDFContent_of_buffer pdfBuffer = Ok text /\
        wordsOf text = ds ≫= wordsOf /\
        countWords text = length (ds ≫= wordsOf) /\
        trim text = text
  | Throw e =>
      parsePDFContent_of_buffer pdfBuffer
      = Throw (JsError (lit "Text processing error: "
                          ++ match e with
                             | JsError message => message
                             | JsNonError => lit "Unknown processing error"
                             end))
  end.
Proof. apply parsePDFContent_of_buffer_words. Qed.

End PdfParserFacts.

(** ** From the PDF parser to the record *)

Section PdfPipeline.

Variable JSON_parse : list N -> Result JSValue.
Variable mammoth_extractRawText : list Byte.byte -> Result (list N).
Variable decodeUtf8 : list Byte.byte -> list N.
Variable splitText : list N -> list (list N).
Variable import_pdf2json : Result unit.
Variable parseBuffer : list Byte.byte -> PdfParser.ParserEvent.
Variable loadPDF : list N -> PdfParser.ParserEvent.
Variable decodeURIComponent : list N -> Result (list N).
Variable layoutPageText : list PdfParser.PDFText -> Result (list N).

Local Abbreviation parsePDF :=
  (PdfParser.parsePDFContent_of_buffer import_pdf2json parseBuffer loadPDF
                                       decodeURIComponent layoutPageText).

Lemma extractTextFromFile_pdf filePath w entry :
  Fs.lookup filePath w = Some entry ->
  w_fault w (OpReadFile filePath) = false ->
  fst (extractTextFromFile parsePDF mammoth_extractRawText decodeUtf8
         filePath MIME_PDF w)
  = match parsePDF (e_data entry) with
    | Ok text => Ok text
    | Throw _ => Throw (JsError (lit "Failed to extract text from document"))
    end.
Proof.
  intros Hentry Hread.
  unfold extractTextFromFile, try_catch. rewrite decide_True by done.
  unfold bind at 1, Fs.readFile. rewrite Hread, Hentry. cbn [e_data].
  unfold bind, liftResult. by destruct (parsePDF (e_data entry)).
Qed.

(** X21. For a stored PDF the parser reads into pages whose runs all decode:
    [processDocumentAction] fails with "No text content found in document"
    when the runs hold no word at all (a scan, for one), and any record it
    returns counts exactly the words of the decoded runs. *)
Theorem processDocumentAction_pdf_words fileData w entry data pages ds :
  let processAction :=
    processDocumentAction JSON_parse parsePDF mammoth_extractRawText
                          decodeUtf8 splitText in
  fd_type fileData = MIME_PDF ->
  Fs.lookup (fd_filePath fileData) w = Some entry ->
  w_fault w (OpReadFile (fd_filePath fileData)) = false ->
  import_pdf2json = Ok tt ->
  parseBuffer (e_data entry) = PdfParser.pdfParser_dataReady (Some data) ->
  PdfParser.Pages data = Some pages ->
  decodeAll decodeURIComponent (pages ≫= runsOfPage) = Ok ds ->
  (ds ≫= wordsOf = [] ->
   fst (processAction fileData w)
   = Throw (JsError (lit "Failed to process document: No text content found in document"))) /\
  (forall r, fst (processAction fileData w) = Ok r ->
             wordCount r = length (ds ≫= wordsOf)).
Proof.
  intros processAction Htype Hentry Hread Himport Hevent Hpages Hds.
  pose proof (parsePDFContent_of_buffer_words import_pdf2json parseBuffer loadPDF
                decodeURIComponent layoutPageText (e_data entry) data pages
                Himport Hevent Hpages) as Hparse.
  rewrite Hds in Hparse. destruct Hparse as (text & Hparse & Hwords & Hcount & _).
  pose proof (extractTextFromFile_pdf (fd_filePath fileData) w entry Hentry Hread)
    as Hextract.
  rewrite Hparse in Hextract.
  pose proof (processDocumentAction_outcome JSON_parse parsePDF
                mammoth_extractRawText decodeUtf8 splitText fileData w) as Hout.
  cbv zeta in Hout. rewrite Htype, Hextract in Hout.
  split.
  - intros Hnone. rewrite <- Hwords in Hnone. apply wordsOf_nil_blank in Hnone.
    apply emptyText_blank in Hnone. rewrite Hnone in Hout. exact Hout.
  - intros r Hr. subst processAction. rewrite Hr in Hout.
    destruct (negb (JsString.truthy text) || Nat.eqb (length (trim text)) 0);
      [discriminate Hout|].
    destruct (w_model w (w_calls w) (analysisTextOf splitText text));
      [|discriminate Hout].
    destruct (JsValue.getProp _ (lit "sentiment")); [|discriminate Hout].
    injection Hout as ->. exact Hcount.
Qed.

End PdfPipeline.

(** ** The processing status component *)

Lemma progressOnly_refl file b : progressOnly file [] b b.
Proof. by repeat split. Qed.

Lemma progressOnly_trans file r1 r2 b b1 b2 :
  progressOnly file r1 b b1 -> progressOnly file r2 b1 b2 ->
  progressOnly file (r1 ++ r2) b b2.
Proof.
  intros ((?&?&?&?&?&?&?) & ? & ? & ? & ? & Hk1 & Hc1)
         ((?&?&?&?&?&?&?) & ? & ? & ? & ? & Hk2 & Hc2).
  repeat split; try congruence.
  - intros k Hk. rewrite Hk2, Hk1; done.
  - rewrite Hc2, Hc1, rev_app_distr, fmap_app. by rewrite app_assoc.
Qed.

Lemma client_bind_ok {A B} (m : ProcessingStatus.C A)
    (k : A -> ProcessingStatus.C B) b a b' :
  m b = (Ok a, b') -> ProcessingStatus.bind m k b = k a b'.
Proof. intros H. unfold ProcessingStatus.bind. by rewrite H. Qed.

Lemma client_bind_throw {A B} (m : ProcessingStatus.C A)
    (k : A -> ProcessingStatus.C B) b e b' :
  m b = (Throw e, b') -> ProcessingStatus.bind m k b = (Throw e, b').
Proof. intros H. unfold ProcessingStatus.bind. by rewrite H. Qed.

Lemma client_try_catch_ok {A} (m : ProcessingStatus.C A) h b a b' :
  m b = (Ok a, b') -> ProcessingStatus.try_catch m h b = (Ok a, b').
Proof. intros H. unfold ProcessingStatus.try_catch. by rewrite H. Qed.

Lemma client_try_catch_throw {A} (m : ProcessingStatus.C A) h b e b' :
  m b = (Throw e, b') -> ProcessingStatus.try_catch m h b = h e b'.
Proof. intros H. unfold ProcessingStatus.try_catch. by rewrite H. Qed.

Section ProcessingStatusFacts.

Import ProcessingStatus.

Variable onProcessingProgress : bool.

Local Abbreviation processFile := (ProcessingStatus.processFile onProcessingProgress).
Local Abbreviation reportUpdates := (ProcessingStatus.reportUpdates onProcessingProgress).
Local Abbreviation processLoop := (ProcessingStatus.processLoop onProcessingProgress).

(** Setting the progress of a file and reporting it. *)
Lemma report_effect {A} file entry p (k : unit -> C A) b :
  fileId entry = uf_id file ->
  let m := bind (update (setProcessingFiles (insert (uf_id file) entry)))
             (fun _ => bind (if onProcessingProgress
                             then callback (OnProcessingProgress p) else ret tt) k) in
  (exists b1,
      progressOnly file (if onProcessingProgress then [p] else []) b b1 /\
      processingFiles b1 !! uf_id file = Some entry /\
      m b = k tt b1) \/
  (exists e b1,
      onProcessingProgress = true /\
      progressOnly file [p] b b1 /\
      b_callbackThrows b (length (b_calls b)) = Some e /\
      m b = (Throw e, b1)).
Proof.
  intros _. cbv zeta.
  set (b0 := setProcessingFiles <[uf_id file:=entry]> b).
  assert (Hb0 : progressOnly file [] b b0 /\
                processingFiles b0 !! uf_id file = Some entry).
  { split; [|cbn; by rewrite lookup_insert_eq].
    repeat split; try reflexivity.
    intros k0 Hk0. cbn. by rewrite lookup_insert_ne. }
  destruct Hb0 as [Hb0 Hentry].
  destruct onProcessingProgress.
  - set (b1 := snd (callback (OnProcessingProgress p) b0)).
    assert (Hb1 : progressOnly file [p] b0 b1 /\
                  processingFiles b1 !! uf_id file = Some entry).
    { unfold b1, callback. split; [|by destruct (b_callbackThrows b0 _)].
      destruct (b_callbackThrows b0 _); by repeat split. }
    destruct Hb1 as [Hb1 Hentry1].
    pose proof (progressOnly_trans _ _ _ _ _ _ Hb0 Hb1) as Hb.
    assert (Hcall : callback (OnProcessingProgress p) b0
                    = (match b_callbackThrows b (length (b_calls b)) with
                       | Some e => Throw e
                       | None => Ok tt
                       end, b1)).
    { unfold b1, callback.
      change (b_callbackThrows b0 (length (b_calls b0)))
        with (b_callbackThrows b (length (b_calls b))).
      by destruct (b_callbackThrows b (length (b_calls b))). }
    destruct (b_callbackThrows b (length (b_calls b))) as [e|] eqn:He.
    + right. exists e, b1. split_and!; try done.
      unfold bind at 1, update. fold b0. unfold bind at 1. by rewrite Hcall.
    + left. exists b1. split_and!; try done.
      unfold bind at 1, update. fold b0. unfold bind at 1. by rewrite Hcall.
  - left. exists b0. split_and!; done.
Qed.

Local Abbreviation reportsOf file updates :=
  (List.map (fun '(p, m) =>
               {| fileId := uf_id file; progress := p;
                  status := lit "Processing..."; message := Some m |})
            updates).

Lemma reportUpdates_effect file updates : forall b,
  (exists b1,
      progressOnly file (if onProcessingProgress then reportsOf file updates else [])
                   b b1 /\
      reportUpdates file updates b = (Ok tt, b1)) \/
  (exists e b1 done,
      onProcessingProgress = true /\
      done `prefix_of` reportsOf file updates /\
      progressOnly file done b b1 /\
      (exists k, b_callbackThrows b k = Some e) /\
      reportUpdates file updates b = (Throw e, b1)).
Proof.
  induction updates as [|[p m] rest IH]; intros b.
  - left. exists b. split; [|done]. destruct onProcessingProgress; apply progressOnly_refl.
  - cbn [ProcessingStatus.reportUpdates List.map].
    destruct (report_effect file
                {| fileId := uf_id file; progress := p;
                   status := lit "Processing..."; message := Some m |}
                {| fileId := uf_id file; progress := p;
                   status := lit "Processing..."; message := Some m |}
                (fun _ => reportUpdates file rest) b eq_refl)
      as [(b1 & Hb1 & _ & ->) | (e & b1 & Hflag & Hb1 & He & ->)].
    + destruct (IH b1) as [(b2 & Hb2 & ->) | (e & b2 & done & Hflag & Hdone & Hb2 & [k Hk] & ->)].
      * left. exists b2. split; [|done].
        pose proof (progressOnly_trans _ _ _ _ _ _ Hb1 Hb2) as Hb.
        by destruct onProcessingProgress.
      * right. rewrite Hflag in Hb1.
        exists e, b2, ({| fileId := uf_id file; progress := p;
                          status := lit "Processing..."; message := Some m |} :: done).
        split_and!; try done.
        -- by apply prefix_cons.
        -- exact (progressOnly_trans _ _ _ _ _ _ Hb1 Hb2).
        -- exists k. destruct Hb1 as ((_&_&_&_&_&_&Hthrows) & _). by rewrite <- Hthrows.
    + right. eexists e, b1, [_]. split_and!; try done; [|by eexists].
      apply prefix_cons, prefix_nil.
Qed.

(** What the inner [try] block does, whichever way it ends. *)
Lemma processFile_effect file b :
  let b' := snd (processFile file b) in
  exists reported,
    reported `prefix_of` progressReports file /\
    (onProcessingProgress = false -> reported = []) /\
    sameSurroundings b b' /\
    b_tick b' = b_tick b /\ b_console b' = b_console b /\
    b_calls b' = (OnProcessingProgress <$> rev reported) ++ b_calls b /\
    (forall k, k <> uf_id file ->
               processingFiles b' !! k = processingFiles b !! k) /\
    match fst (processFile file b) with
    | Ok item =>
        exists result statusText,
          item = FromServer result /\
          processedCount b' = S (processedCount b) /\
          processingFiles b' !! uf_id file = Some (completedEntry file) /\
          b_requests b' = requestBody file :: b_requests b /\
          b_fetch b (length (b_requests b)) (requestBody file)
          = FetchResponse true statusText (Ok result) /\
          (onProcessingProgress = true -> reported = progressReports file)
    | Throw e =>
        processedCount b' = processedCount b /\
        ((b_requests b' = b_requests b /\
          exists k, b_callbackThrows b k = Some e) \/
         (b_requests b' = requestBody file :: b_requests b /\
          (onProcessingProgress = true -> reported = progressReports file) /\
          match b_fetch b (length (b_requests b)) (requestBody file) with
          | FetchRejected e' => e = e'
          | FetchResponse false statusText _ =>
              e = JsError (lit "Processing failed: " ++ statusText)
          | FetchResponse true _ (Throw e') => e = e'
          | FetchResponse true _ (Ok _) => False
          end))
    end.
Proof.
  cbv zeta. unfold ProcessingStatus.processFile.
  set (first :=
         {| fileId := uf_id file; progress := 10;
            status := lit "Processing..."; message := None |}).
  match goal with
  | |- context [bind (update _) (fun _ => bind _ ?k)] =>
      destruct (report_effect file
                  {| fileId := uf_id file; progress := 10;
                     status := lit "Processing...";
                     message := Some (lit "Analyzing document content") |}
                  first k b eq_refl)
        as [(b1 & Hb1 & _ & Hrun) | (e & b1 & Hflag & Hb1 & He & Hrun)]
  end; cbv zeta in Hrun; rewrite Hrun; clear Hrun.
  2: { exists [first]. cbn [fst snd].
       destruct Hb1 as (Hsame & Htick & Hconsole & Hcount & Hreq & Hkeys & Hcalls).
       split_and!; try done.
       - apply prefix_cons, prefix_nil.
       - congruence.
       - left. split; [done|]. by eexists. }
  destruct (reportUpdates_effect file progressUpdates b1)
    as [(b2 & Hb2 & Hrun) | (e & b2 & done & Hflag & Hdone & Hb2 & [k Hk] & Hrun)];
    [rewrite (client_bind_ok _ _ _ _ _ Hrun)
    |rewrite (client_bind_throw _ _ _ _ _ Hrun)]; clear Hrun.
  2: { rewrite Hflag in Hb1.
       pose proof (progressOnly_trans _ _ _ _ _ _ Hb1 Hb2) as Hb.
       exists (first :: done). cbn [fst snd].
       destruct Hb as (Hsame & Htick & Hconsole & Hcount & Hreq & Hkeys & Hcalls).
       split_and!; try done.
       - by apply prefix_cons.
       - congruence.
       - left. split; [done|].
         exists k. destruct Hb1 as ((_&_&_&_&_&_&Hthrows) & _). by rewrite <- Hthrows. }
  pose proof (progressOnly_trans _ _ _ _ _ _ Hb1 Hb2) as Hb.
  set (reported := (if onProcessingProgress then [first] else [])
                   ++ (if onProcessingProgress
                       then reportsOf file progressUpdates else [])) in Hb.
  assert (Hreported : reported `prefix_of` progressReports file /\
                      (onProcessingProgress = false -> reported = []) /\
                      (onProcessingProgress = true -> reported = progressReports file)).
  { unfold reported. destruct onProcessingProgress; split_and!; try done.
    apply prefix_nil. }
  destruct Hreported as (Hprefix & Hnone & Hall).
  destruct Hb as (Hsame & Htick & Hconsole & Hcount & Hreq & Hkeys & Hcalls).
  destruct Hsame as (Hs1 & Hs2 & Hs3 & Hs4 & Hs5 & Hs6 & Hs7).
  assert (Hfetch : fetch (requestBody file) b2
                   = (Ok (b_fetch b (length (b_requests b)) (requestBody file)),
                      snd (fetch (requestBody file) b2))).
  { unfold fetch. cbn [snd]. by rewrite Hreq, Hs6. }
  rewrite (client_bind_ok _ _ _ _ _ Hfetch). clear Hfetch.
  exists reported.
  destruct (b_fetch b (length (b_requests b)) (requestBody file))
    as [e | [|] statusText [result|e]] eqn:Hfetch;
    cbn [negb fetch throw fst snd].
  - split_and!; try done. right. by rewrite Hreq.
  - split_and!; try done.
    + cbn. intros k Hk. rewrite lookup_insert_ne by done. by apply Hkeys.
    + exists result, statusText. cbn. split_and!; try done.
      * by rewrite Hcount.
      * by rewrite lookup_insert_eq.
      * by rewrite Hreq.
  - split_and!; try done. right. by rewrite Hreq.
  - split_and!; try done. right. by rewrite Hreq.
  - split_and!; try done. right. by rewrite Hreq.
Qed.

(** One iteration of the loop: the inner [try] with its [catch]. *)
Lemma processStep_effect file b :
  let run := try_catch (processFile file) (fileFailed file) b in
  let b' := snd run in
  exists item reported,
    fst run = Ok item /\
    itemOf file item /\
    reported `prefix_of` progressReports file /\
    (onProcessingProgress = false -> reported = []) /\
    sameSurroundings b b' /\
    b_calls b' = (OnProcessingProgress <$> rev reported) ++ b_calls b /\
    (forall k, k <> uf_id file ->
               processingFiles b' !! k = processingFiles b !! k) /\
    processedCount b' = S (processedCount b) /\
    match item with
    | FromServer result =>
        processingFiles b' !! uf_id file = Some (completedEntry file) /\
        b_tick b' = b_tick b /\ b_console b' = b_console b /\
        b_requests b' = requestBody file :: b_requests b /\
        (exists statusText,
            b_fetch b (length (b_requests b)) (requestBody file)
            = FetchResponse true statusText (Ok result)) /\
        (onProcessingProgress = true -> reported = progressReports file)
    | ErrorRecord r =>
        exists e,
          processingFiles b' !! uf_id file
          = Some (errorEntry file (match e with
                                   | JsError m => m
                                   | JsNonError => lit "Processing failed"
                                   end)) /\
          summary r = JStr (lit "Processing failed: " ++ errorMessage e) /\
          analyzedAt r = b_clock b (b_tick b) /\
          b_tick b' = S (b_tick b) /\
          b_console b'
          = ConsoleError (lit "Failed to process " ++ uf_name file ++ lit ":")
              :: b_console b /\
          ((b_requests b' = b_requests b /\
            exists k, b_callbackThrows b k = Some e) \/
           (b_requests b' = requestBody file :: b_requests b /\
            (onProcessingProgress = true -> reported = progressReports file) /\
            match b_fetch b (length (b_requests b)) (requestBody file) with
            | FetchRejected e' => e = e'
            | FetchResponse false statusText _ =>
                e = JsError (lit "Processing failed: " ++ statusText)
            | FetchResponse true _ (Throw e') => e = e'
            | FetchResponse true _ (Ok _) => False
            end))
    end.
Proof.
  cbv zeta.
  destruct (processFile_effect file b)
    as (reported & Hprefix & Hnone & Hsame & Htick & Hconsole & Hcalls & Hkeys & Hout).
  destruct (processFile file b) as [[item|e] b1] eqn:Hrun; cbn [fst snd] in *.
  - rewrite (client_try_catch_ok _ _ _ _ _ Hrun). cbn [fst snd].
    destruct Hout as (result & statusText & -> & Hcount & Hentry & Hreq & Hfetch & Hall).
    exists (FromServer result), reported. split_and!; try done. by exists statusText.
  - rewrite (client_try_catch_throw _ _ _ _ _ Hrun).
    destruct Hout as (Hcount & Hcause).
    destruct Hsame as (Hs1 & Hs2 & Hs3 & Hs4 & Hs5 & Hs6 & Hs7).
    unfold fileFailed, bind, console_error, update, newDate, ret.
    cbn [fst snd]. eexists _, reported. split; [reflexivity|].
    split_and!; try done.
    + cbn. split_and!; try done. by eexists.
    + cbn. intros k Hk. rewrite lookup_insert_ne by done. by apply Hkeys.
    + cbn. by rewrite Hcount.
    + exists e. cbn. split_and!; try done.
      * by rewrite lookup_insert_eq.
      * by rewrite Hs5, Htick.
      * by rewrite Htick.
      * by rewrite Hconsole.
Qed.

Lemma sameSurroundings_trans b0 b1 b2 :
  sameSurroundings b0 b1 -> sameSurroundings b1 b2 -> sameSurroundings b0 b2.
Proof.
  intros (?&?&?&?&?&?&?) (?&?&?&?&?&?&?). repeat split; congruence.
Qed.

Lemma processLoop_cons file rest results b :
  processLoop (file :: rest) results b
  = match try_catch (processFile file) (fileFailed file) b with
    | (Ok pushed, b1) => processLoop rest (results ++ [pushed]) b1
    | (Throw e, b1) => (Throw e, b1)
    end.
Proof. reflexivity. Qed.

(** The loop over the files. *)
Lemma processLoop_effect rest : forall results b,
  let run := processLoop rest results b in
  let b' := snd run in
  exists pushed reports,
    fst run = Ok (results ++ pushed) /\
    Forall2 itemOf rest pushed /\
    sameSurroundings b b' /\
    processedCount b' = (processedCount b + length rest)%nat /\
    b_calls b' = (OnProcessingProgress <$> rev reports) ++ b_calls b /\
    (onProcessingProgress = false -> reports = []) /\
    ((forall k, b_callbackThrows b k = None) ->
     (onProcessingProgress = true -> reports = rest ≫= progressReports) /\
     b_requests b' = rev (requestBody <$> rest) ++ b_requests b) /\
    (forall k, k ∉ uf_id <$> rest ->
               processingFiles b' !! k = processingFiles b !! k) /\
    (forall k, k ∈ uf_id <$> rest ->
               exists file,
                 file ∈ rest /\ uf_id file = k /\
                 (processingFiles b' !! k = Some (completedEntry file) \/
                  exists m, processingFiles b' !! k = Some (errorEntry file m))).
Proof.
  induction rest as [|file rest IH]; intros results b; cbv zeta.
  - exists [], []. cbn. rewrite app_nil_r.
    split_and!; try done; try (by constructor).
    intros k Hk. by apply elem_of_nil in Hk.
  - rewrite processLoop_cons.
    destruct (processStep_effect file b)
      as (item & r1 & Hitem & HitemOf & Hprefix & Hnone & Hsame & Hcalls &
          Hkeys & Hcount & Hcase).
    cbv zeta in *.
    destruct (try_catch (processFile file) (fileFailed file) b) as [res b1].
    cbn [fst snd] in *. subst res.
    destruct (IH (results ++ [item]) b1)
      as (pushed & rs & Hrun & Hall & Hsame' & Hcount' & Hcalls' & Hnone' &
          Hquiet & Hkeys' & Hentries).
    cbv zeta in *.
    exists (item :: pushed), (r1 ++ rs). split_and!.
    + rewrite Hrun. by rewrite <- app_assoc.
    + by constructor.
    + exact (sameSurroundings_trans _ _ _ Hsame Hsame').
    + rewrite Hcount', Hcount. cbn [length]. lia.
    + rewrite Hcalls', Hcalls, rev_app_distr, fmap_app. by rewrite app_assoc.
    + intros Hflag. by rewrite (Hnone Hflag), (Hnone' Hflag).
    + intros Hno.
      assert (Hno1 : forall k, b_callbackThrows b1 k = None).
      { intros k. destruct Hsame as (_&_&_&_&_&_&->). apply Hno. }
      destruct (Hquiet Hno1) as [Hreports Hrequests].
      assert (Hstep : (onProcessingProgress = true -> r1 = progressReports file) /\
                      b_requests b1 = requestBody file :: b_requests b).
      { destruct item as [result|r].
        - by destruct Hcase as (_ & _ & _ & Hreq & _ & Hall1).
        - destruct Hcase as (e & _ & _ & _ & _ & _ & [[_ [k Hk]] | (Hreq & Hall1 & _)]);
            [by rewrite Hno in Hk | done]. }
      destruct Hstep as [Hall1 Hreq]. split.
      * intros Hflag. rewrite bind_cons. by rewrite (Hall1 Hflag), (Hreports Hflag).
      * rewrite Hrequests, Hreq, fmap_cons. cbn [rev].
        by rewrite <- app_assoc.
    + intros k Hk. rewrite fmap_cons in Hk. apply not_elem_of_cons in Hk as [Hk1 Hk2].
      rewrite (Hkeys' k Hk2). by apply Hkeys.
    + intros k Hk.
      destruct (decide (k ∈ uf_id <$> rest)) as [Hin|Hout].
      * destruct (Hentries k Hin) as (file' & Hfile' & Hid & Hentry).
        exists file'. split_and!; [by right | done | done].
      * rewrite fmap_cons in Hk. apply elem_of_cons in Hk as [-> | Hk]; [|done].
        exists file. split_and!; [by left | done |].
        rewrite (Hkeys' _ Hout).
        destruct item as [result|r].
        -- left. by destruct Hcase as (Hentry & _).
        -- right. destruct Hcase as (e & Hentry & _). by eexists.
Qed.

Variable files : list UploadedFile.
Variable onProcessingStart : bool.

Local Abbreviation startProcessing :=
  (ProcessingStatus.startProcessing files onProcessingStart onProcessingProgress).

(** The browser when the loop starts. *)
Lemma startProcessing_prologue b :
  files <> [] ->
  let b0 := snd ((if onProcessingStart then callback OnProcessingStart else ret tt)
                   (setProcessedCount (fun _ => O)
                      (setCompletedResults []
                         (setError []
                            (setStartTime (Some (b_clock b (b_tick b)))
                               (snd (newDate (setIsProcessing true b)))))))) in
  let b1 := setProcessingFiles (fun _ => initialStatus files) b0 in
  isProcessing b1 = true /\ processedCount b1 = O /\
  startTime b1 = Some (b_clock b (b_tick b)) /\ error b1 = [] /\
  b_requests b1 = b_requests b /\
  b_callbackThrows b1 = b_callbackThrows b /\ b_fetch b1 = b_fetch b /\
  b_calls b1 = (if onProcessingStart then [OnProcessingStart] else []) ++ b_calls b /\
  startProcessing b
  = match (if onProcessingStart
           then b_callbackThrows b (length (b_calls b)) else None) with
    | Some e => (Throw e, b0)
    | None =>
        try_finally
          (try_catch
             (bind (ProcessingStatus.processLoop onProcessingProgress files [])
                (fun results =>
                   bind (update (setCompletedResults results))
                     (fun _ => callback (OnProcessingComplete results))))
             (fun error =>
                bind (console_error (lit "Batch processing error:"))
                  (fun _ =>
                     update (setError (match error with
                                       | JsError m => m
                                       | JsNonError => lit "Processing failed"
                                       end)))))
          (setIsProcessing false) b1
    end.
Proof.
  intros Hfiles. cbv zeta.
  unfold ProcessingStatus.startProcessing.
  destruct files as [|file rest] eqn:Hf; [done|]. cbn [length Nat.eqb].
  rewrite <- Hf.
  unfold bind, update, newDate, callback, ret.
  destruct onProcessingStart.
  - cbn [b_callbackThrows b_calls setProcessedCount setCompletedResults setError
         setStartTime setIsProcessing fst snd].
    destruct (b_callbackThrows b (length (b_calls b))); cbn [fst snd];
      split_and!; reflexivity.
  - cbn [fst snd]. split_and!; reflexivity.
Qed.

(** The run of [startProcessing] once the loop has been entered. *)
Lemma startProcessing_run b :
  files <> [] ->
  (onProcessingStart = true -> b_callbackThrows b (length (b_calls b)) = None) ->
  exists b' results reports,
    startProcessing b = (Ok tt, b') /\
    isProcessing b' = false /\
    processedCount b' = length files /\
    completedResults b' = results /\
    Forall2 itemOf files results /\
    startTime b' = Some (b_clock b (b_tick b)) /\
    b_callbackThrows b' = b_callbackThrows b /\
    b_calls b'
    = OnProcessingComplete results
        :: (OnProcessingProgress <$> rev reports)
        ++ (if onProcessingStart then [OnProcessingStart] else [])
        ++ b_calls b /\
    (onProcessingProgress = false -> reports = []) /\
    ((forall k, b_callbackThrows b k = None) ->
     (onProcessingProgress = true -> reports = files ≫= progressReports) /\
     b_requests b' = rev (requestBody <$> files) ++ b_requests b) /\
    match b_callbackThrows b
            (length ((OnProcessingProgress <$> rev reports)
                     ++ (if onProcessingStart then [OnProcessingStart] else [])
                     ++ b_calls b)) with
    | None => error b' = []
    | Some e =>
        error b' = match e with
                   | JsError m => m
                   | JsNonError => lit "Processing failed"
                   end
    end /\
    (forall file, file ∈ files ->
       exists file',
         file' ∈ files /\ uf_id file' = uf_id file /\
         (processingFiles b' !! uf_id file = Some (completedEntry file') \/
          exists m, processingFiles b' !! uf_id file = Some (errorEntry file' m))).
Proof.
  intros Hfiles Hstart.
  destruct (startProcessing_prologue b Hfiles)
    as (Hproc & Hcount & Htime & Herror & Hreq & Hthrows & Hfetch & Hcalls & Hrun).
  cbv zeta in *.
  assert (Hquiet : (if onProcessingStart
                    then b_callbackThrows b (length (b_calls b)) else None) = None)
    by (destruct onProcessingStart; auto).
  rewrite Hquiet in Hrun. rewrite Hrun. clear Hrun Hquiet.
  match type of Hproc with isProcessing ?w = _ => set (b1 := w) in * end.
  destruct (processLoop_effect files [] b1)
    as (pushed & reports & Hloop & Hitems & Hsame & Hcount' & Hcalls' & Hnone &
        Hexact & Hkeys & Hentries).
  cbv zeta in *.
  destruct (ProcessingStatus.processLoop onProcessingProgress files [] b1)
    as [res b2] eqn:Hres.
  cbn [fst snd] in *. subst res.
  destruct Hsame as (Hs1 & Hs2 & Hs3 & Hs4 & Hs5 & Hs6 & Hs7).
  unfold try_finally, try_catch.
  rewrite (client_bind_ok _ _ _ _ _ Hres).
  unfold bind at 1, update at 1. unfold callback.
  cbn [b_callbackThrows b_calls setCompletedResults].
  rewrite Hs7, Hthrows, Hcalls', Hcalls.
  assert (Hentries' : forall file, file ∈ files ->
            exists file',
              file' ∈ files /\ uf_id file' = uf_id file /\
              (processingFiles b2 !! uf_id file = Some (completedEntry file') \/
               exists m, processingFiles b2 !! uf_id file = Some (errorEntry file' m))).
  { intros file Hfile. apply Hentries. by apply list_elem_of_fmap_2. }
  assert (Hexact' : (forall k, b_callbackThrows b k = None) ->
            (onProcessingProgress = true -> reports = files ≫= progressReports) /\
            b_requests b2 = rev (requestBody <$> files) ++ b_requests b).
  { intros Hno. rewrite <- Hreq. apply Hexact. intros k. rewrite Hthrows. apply Hno. }
  destruct (b_callbackThrows b
              (length ((OnProcessingProgress <$> rev reports)
                       ++ (if onProcessingStart then [OnProcessingStart] else [])
                       ++ b_calls b))) as [e|] eqn:He.
  - unfold bind, console_error, update. cbn [fst snd].
    eexists _, pushed, reports. split; [reflexivity|]. rewrite He.
    cbn -[lit]. split_and!; try done; try congruence.
    by rewrite Hcount', Hcount.
  - eexists _, pushed, reports. split; [reflexivity|]. rewrite He.
    cbn -[lit]. split_and!; try done; try congruence.
    by rewrite Hcount', Hcount.
Qed.

(** X22. Started on a non-empty list of files (and unless the parent's
    [onProcessingStart] throws), [startProcessing] returns normally with one
    element of [results] per file, in order: what the server sent, or an
    error record naming the file. The results are stored and handed to
    [onProcessingComplete] as the last call; [isProcessing] is false again,
    every file has the entry of a completed or of a failed file in
    [processingFiles], and [processedCount] is the number of files, so that
    [allFilesCompleted] holds however many of them failed. *)
Theorem startProcessing_completes b :
  files <> [] ->
  (onProcessingStart = true -> b_callbackThrows b (length (b_calls b)) = None) ->
  exists b' results earlier,
    ProcessingStatus.startProcessing files onProcessingStart onProcessingProgress b
    = (Ok tt, b') /\
    Forall2 itemOf files results /\
    completedResults b' = results /\
    b_calls b' = OnProcessingComplete results :: earlier /\
    isProcessing b' = false /\
    processedCount b' = length files /\
    allFilesCompleted files b' = true /\
    (forall file, file ∈ files ->
       exists file',
         file' ∈ files /\ uf_id file' = uf_id file /\
         (processingFiles b' !! uf_id file = Some (completedEntry file') \/
          exists m, processingFiles b' !! uf_id file = Some (errorEntry file' m))).
Proof.
  intros Hfiles Hstart.
  destruct (startProcessing_run b Hfiles Hstart)
    as (b' & results & reports & Hrun & Hproc & Hcount & Hresults & Hitems & _ &
        _ & Hcalls & _ & _ & _ & Hentries).
  exists b', results. eexists. split_and!; try done.
  unfold allFilesCompleted. rewrite Hcount, Nat.eqb_refl.
  destruct files; [done|]. reflexivity.
Qed.

(** X23. When the parent's [onProcessingStart] throws, [startProcessing]
    throws the same, before the loop and outside every [try]: no request
    goes out, and the component is left with [isProcessing] set. *)
Theorem startProcessing_stuck b e :
  files <> [] ->
  onProcessingStart = true ->
  b_callbackThrows b (length (b_calls b)) = Some e ->
  exists b',
    ProcessingStatus.startProcessing files onProcessingStart onProcessingProgress b
    = (Throw e, b') /\
    isProcessing b' = true /\
    b_requests b' = b_requests b /\
    processedCount b' = O /\ completedResults b' = [] /\
    b_calls b' = OnProcessingStart :: b_calls b.
Proof.
  intros Hfiles Hstart He.
  destruct (startProcessing_prologue b Hfiles) as (_ & _ & _ & _ & _ & _ & _ & _ & Hrun).
  cbv zeta in Hrun. rewrite Hstart in *. rewrite He in Hrun. rewrite Hrun.
  eexists. split; [reflexivity|].
  unfold callback. cbn [b_callbackThrows b_calls setProcessedCount
    setCompletedResults setError setStartTime setIsProcessing newDate snd].
  rewrite He. by split_and!.
Qed.

(** X24. As long as no callback throws, what goes out of [startProcessing]
    is, in this order: the call of [onProcessingStart] if there is one; for
    every file in turn the four progress reports (10, 25, 50 and 75, all
    "Processing...") if [onProcessingProgress] is there; and the call of
    [onProcessingComplete]. Completion and failure of a file are never
    reported. One request is sent per file, in order, with the body of that
    file. *)
Theorem startProcessing_reports b :
  files <> [] ->
  (forall k, b_callbackThrows b k = None) ->
  let b' := snd (ProcessingStatus.startProcessing files onProcessingStart
                   onProcessingProgress b) in
  let reports := if onProcessingProgress then files ≫= progressReports else [] in
  b_calls b'
  = OnProcessingComplete (completedResults b')
      :: (OnProcessingProgress <$> rev reports)
      ++ (if onProcessingStart then [OnProcessingStart] else [])
      ++ b_calls b /\
  b_requests b' = rev (requestBody <$> files) ++ b_requests b /\
  Forall (fun p => progress p ∈ [10; 25; 50; 75] /\
                   status p = lit "Processing...") reports.
Proof.
  intros Hfiles Hno. cbv zeta.
  destruct (startProcessing_run b Hfiles (fun _ => Hno _))
    as (b' & results & reports & Hrun & _ & _ & Hresults & _ & _ & _ & Hcalls &
        Hnone & Hexact & _).
  destruct (Hexact Hno) as [Hall Hreq]. rewrite Hrun. cbn [snd].
  assert (Hreports : reports
                     = if onProcessingProgress then files ≫= progressReports else []).
  { destruct onProcessingProgress; auto. }
  rewrite <- Hreports, Hresults. split_and!; [done | done |].
  rewrite Hreports. destruct onProcessingProgress; [|constructor].
  apply Forall_forall. intros p Hp.
  apply list_elem_of_bind in Hp as (file & Hp & _).
  unfold progressReports, progressUpdates in Hp. cbn in Hp.
  rewrite !elem_of_cons in Hp.
  destruct Hp as [-> | [-> | [-> | [-> | Hp]]]];
    [..|by apply elem_of_nil in Hp]; cbn [progress status];
    (split; [|reflexivity]); rewrite !elem_of_cons; auto.
Qed.

(** X25. What the loop pushes for a file follows from how its request ends
    (as long as no callback throws): the body of an [ok] response as it is;
    and otherwise an error record, whose summary is "Processing failed: "
    followed by the message of the rejection of [fetch] or of
    [response.json()], or, for a response that is not [ok], by
    "Processing failed: " and the status text. The body of a response that
    is not [ok] is not read: the error the server reports in it does not
    reach the record. *)
Theorem processFile_outcome file b :
  (forall k, b_callbackThrows b k = None) ->
  let run := try_catch (ProcessingStatus.processFile onProcessingProgress file)
               (fileFailed file) b in
  let failed cause :=
    exists r,
      fst run = Ok (ErrorRecord r) /\
      itemOf file (ErrorRecord r) /\
      summary r = JStr (lit "Processing failed: " ++ cause) in
  match b_fetch b (length (b_requests b)) (requestBody file) with
  | FetchResponse true _ (Ok result) =>
      fst run = Ok (FromServer result) /\
      processingFiles (snd run) !! uf_id file = Some (completedEntry file)
  | FetchResponse true _ (Throw e) => failed (errorMessage e)
  | FetchRejected e => failed (errorMessage e)
  | FetchResponse false statusText _ =>
      failed (lit "Processing failed: " ++ statusText) /\
      processingFiles (snd run) !! uf_id file
      = Some (errorEntry file (lit "Processing failed: " ++ statusText))
  end.
Proof.
  intros Hno. cbv zeta.
  destruct (processStep_effect file b)
    as (item & reported & Hrun & HitemOf & _ & _ & _ & _ & _ & _ & Hcase).
  cbv zeta in *. rewrite Hrun.
  destruct item as [result|r].
  - destruct Hcase as (Hentry & _ & _ & _ & [statusText Hfetch] & _).
    rewrite Hfetch. by split.
  - destruct Hcase as (e & Hentry & Hsummary & _ & _ & _ &
                       [[_ [k Hk]] | (_ & _ & Hfetch)]);
      [by rewrite Hno in Hk|].
    destruct (b_fetch b (length (b_requests b)) (requestBody file))
      as [e' | [|] statusText [result|e']]; try done; subst e.
    + by exists r.
    + by exists r.
    + split; [by exists r | done].
    + split; [by exists r | done].
Qed.

End ProcessingStatusFacts.

(** ** The upload component *)

Lemma sameButProgress_refl b : sameButProgress b b.
Proof. by repeat split. Qed.

Lemma sameButProgress_trans b0 b1 b2 :
  sameButProgress b0 b1 -> sameButProgress b1 b2 -> sameButProgress b0 b2.
Proof.
  intros (?&?&?&?&?&?&?&?&?&?&?) (?&?&?&?&?&?&?&?&?&?&?).
  repeat split; congruence.
Qed.

Lemma upload_bind_ok {A B} (m : FileUpload.C A) (k : A -> FileUpload.C B) b a b' :
  m b = (Ok a, b') -> FileUpload.bind m k b = k a b'.
Proof. intros H. unfold FileUpload.bind. by rewrite H. Qed.

Lemma upload_bind_throw {A B} (m : FileUpload.C A) (k : A -> FileUpload.C B) b e b' :
  m b = (Throw e, b') -> FileUpload.bind m k b = (Throw e, b').
Proof. intros H. unfold FileUpload.bind. by rewrite H. Qed.

Section FileUploadFacts.

Import FileUpload.

Variable maxFiles : Z.
Variable maxFileSize : Z.
Variable Number_toString : JSNumber -> list N.

Local Abbreviation validateFile := (FileUpload.validateFile maxFileSize).
Local Abbreviation firstInvalid := (FileUpload.firstInvalid maxFileSize).
Local Abbreviation reportResult := (FileUpload.reportResult Number_toString).
Local Abbreviation upload := (FileUpload.upload Number_toString).
Local Abbreviation uploadFiles :=
  (FileUpload.uploadFiles maxFiles maxFileSize Number_toString).

(** The interval only changes the progress shown, and draws random
    numbers. *)
Lemma bumpAll_effect files : forall updated b,
  exists updated' b',
    bumpAll files updated b = (Ok updated', b') /\ sameButProgress b b'.
Proof.
  induction files as [|file files IH]; intros updated b; cbn [bumpAll].
  - exists updated, b. split; [done | apply sameButProgress_refl].
  - destruct (updated !! f_name file) as [shown|]; [|apply IH].
    destruct (Qlt_le_dec shown 90); [|apply IH].
    unfold bind at 1. cbn [Math_random].
    match goal with
    | |- context [bumpAll files ?u ?b1] =>
        destruct (IH u b1) as (updated' & b' & Hrun & Hsame)
    end.
    exists updated', b'. split; [exact Hrun|].
    eapply sameButProgress_trans; [|exact Hsame]. by repeat split.
Qed.

Lemma progressTicks_effect files n : forall b,
  exists b', progressTicks n files b = (Ok tt, b') /\ sameButProgress b b'.
Proof.
  induction n as [|n IH]; intros b; cbn [progressTicks].
  - exists b. split; [done | apply sameButProgress_refl].
  - assert (Htick : exists b1, progressTick files b = (Ok tt, b1) /\
                               sameButProgress b b1).
    { unfold progressTick.
      destruct (bumpAll_effect files (uploadProgress b) b)
        as (updated & b1 & Hrun & Hsame).
      rewrite Hrun. eexists. split; [reflexivity|].
      eapply sameButProgress_trans; [exact Hsame|]. by repeat split. }
    destruct Htick as (b1 & Hrun1 & Hsame1).
    destruct (IH b1) as (b' & Hrun & Hsame).
    exists b'. rewrite (upload_bind_ok _ _ _ _ _ Hrun1).
    split; [exact Hrun|]. by eapply sameButProgress_trans.
Qed.

(** The request: the form is sent, and the answer is the network's. *)
Lemma fetch_effect files b :
  exists b',
    fetch files b = (Ok (uploadAnswer b files), b') /\
    sameButProgress (send files b) b'.
Proof.
  unfold fetch.
  destruct (progressTicks_effect files (b_ticks b (length (b_requests b)))
              (send files b)) as (b' & Hrun & Hsame).
  rewrite Hrun. by exists b'.
Qed.

(** Setting the progress of every file of the list. *)
Lemma progress_set (v : Q) files : forall (prev : gmap (list N) Q) file,
  file ∈ files ->
  foldl (fun acc file => <[f_name file := v]> acc) prev files !! f_name file
  = Some v.
Proof.
  induction files as [|file' files IH] using rev_ind; intros prev file Hin.
  - by apply elem_of_nil in Hin.
  - rewrite foldl_app. cbn [foldl].
    destruct (decide (f_name file' = f_name file)) as [Heq|Hne].
    + rewrite Heq. apply lookup_insert_eq.
    + rewrite lookup_insert_ne by done. apply IH.
      apply elem_of_app in Hin as [Hin|Hin]; [done|].
      apply list_elem_of_singleton in Hin. congruence.
Qed.

Lemma upload_lift_bind {A B} (r : Result A) (k : A -> C B) b :
  bind (liftResult r) k b
  = match r with Ok a => k a b | Throw e => (Throw e, b) end.
Proof. by destruct r. Qed.

Lemma sameButReport_refl b : sameButReport b b.
Proof. by repeat split. Qed.

(** Whatever the body of the response is, what follows
    [if (result.success)] changes the error shown and calls the parent at
    most once, and nothing else. *)
Lemma reportResult_frame result b r b' :
  reportResult result b = (r, b') ->
  sameButReport b b' /\
  (b_calls b' = b_calls b \/ exists handed, b_calls b' = handed :: b_calls b).
Proof.
  assert (Hsame : forall r0 : Result unit, (r0, b) = (r, b') ->
            sameButReport b b' /\
            (b_calls b' = b_calls b \/
             exists handed, b_calls b' = handed :: b_calls b)).
  { intros r0 [= _ <-]. split; [apply sameButReport_refl | by left]. }
  unfold FileUpload.reportResult. rewrite upload_lift_bind.
  destruct (JsValue.getProp result (lit "files")) as [resultFiles|e] eqn:Hfiles;
    [|apply Hsame].
  rewrite upload_lift_bind.
  destruct (filterOf resultFiles) as [items|e] eqn:Hitems; [|apply Hsame].
  rewrite upload_lift_bind.
  destruct (filterSuccess (fun success => success) items) as [kept|e];
    [|apply Hsame].
  rewrite upload_lift_bind.
  destruct (mapResult uploadedOf kept) as [successfulFiles|e]; [|apply Hsame].
  clear Hsame. unfold bind at 1, onFilesUploaded. cbv zeta.
  destruct (b_callbackThrows b (length (b_calls b))) as [e|].
  { intros [= _ <-]. split; [by repeat split | right; by eexists]. }
  rewrite upload_lift_bind, ?Hfiles, upload_lift_bind, Hitems, upload_lift_bind.
  destruct (filterSuccess negb items) as [failedFiles|e].
  2: { intros [= _ <-]. split; [by repeat split | right; by eexists]. }
  destruct (0 <? length failedFiles)%nat.
  2: { intros [= _ <-]. split; [by repeat split | right; by eexists]. }
  rewrite upload_lift_bind.
  destruct (mapResult _ failedFiles) as [errors|e]; intros [= _ <-];
    (split; [by repeat split | right; by eexists]).
Qed.

Section Wire.

Variable numberOf : Z -> JSNumber.
Variable toISOString : Z -> list N.

Local Abbreviation wire := (wireResult numberOf toISOString).

Lemma wire_success r :
  JsValue.getProp (wire r) (lit "success") = Ok (JBool (isSaved r)).
Proof. destruct r; vm_compute; reflexivity. Qed.

Lemma filterSuccess_wire keep results :
  filterSuccess keep (wire <$> results)
  = Ok (wire <$> List.filter (fun r => keep (isSaved r)) results).
Proof.
  induction results as [|r results IH]; [done|].
  cbn [fmap list_fmap filterSuccess List.filter].
  change (list_fmap _ _ wire results) with (wire <$> results).
  rewrite wire_success, IH. cbn [JsValue.truthy].
  by destruct (keep (isSaved r)).
Qed.

Lemma uploadedOf_wire results :
  mapResult uploadedOf (wire <$> List.filter (fun r => isSaved r) results)
  = Ok (omap (handedOver numberOf toISOString) results).
Proof.
  induction results as [|r results IH]; [done|].
  cbn [List.filter omap list_omap].
  change (list_omap _ _ ?f results) with (omap f results).
  destruct r as [fileName error | id fileName originalName size type filePath at'];
    cbn [isSaved handedOver]; [exact IH|].
  cbn [fmap list_fmap mapResult].
  change (list_fmap _ _ wire ?l) with (wire <$> l).
  rewrite IH.
  replace (uploadedOf _) with
    (Ok {| uf_id := JStr id; uf_name := JStr originalName;
           uf_size := JNum (numberOf size); uf_type := JStr type;
           uf_uploadedAt := JStr (toISOString at');
           uf_status := lit "uploaded"; uf_filePath := JStr filePath |});
    [done|].
  vm_compute. reflexivity.
Qed.

Lemma errors_wire results :
  mapResult (fun f => JsValue.getProp f (lit "error"))
            (wire <$> List.filter (fun r => negb (isSaved r)) results)
  = Ok (JStr <$> omap failureOf results).
Proof.
  induction results as [|r results IH]; [done|].
  cbn [List.filter omap list_omap].
  change (list_omap _ _ ?f results) with (omap f results).
  destruct r as [fileName error | id fileName originalName size type filePath at'];
    cbn [isSaved negb failureOf]; [|exact IH].
  cbn [fmap list_fmap mapResult].
  change (list_fmap _ _ wire ?l) with (wire <$> l).
  change (list_fmap _ _ JStr ?l) with (JStr <$> l).
  rewrite IH.
  replace (JsValue.getProp _ _) with (Ok (JStr error)); [done|].
  vm_compute. reflexivity.
Qed.

Lemma failed_length results :
  length (List.filter (fun r => negb (isSaved r)) results)
  = length (omap failureOf results).
Proof.
  induction results as [|[] results IH]; cbn; [done| |done].
  by rewrite IH.
Qed.

Lemma joinText_strings (cells : list (list N)) :
  FileUpload.joinText Number_toString <$> (JStr <$> cells) = cells.
Proof. induction cells as [|cell cells IH]; [done|]. cbn. by f_equal. Qed.

(** What follows [if (result.success)] on a body the upload route wrote. *)
Lemma reportResult_wire results b :
  let handed := omap (handedOver numberOf toISOString) results in
  let failures := omap failureOf results in
  let b1 := snd (onFilesUploaded handed b) in
  reportResult
    (JObj [ (lit "success", JBool true); (lit "files", JArr (wire <$> results)) ])
    b
  = match b_callbackThrows b (length (b_calls b)) with
    | Some e => (Throw e, b1)
    | None =>
        (Ok tt,
         if (0 <? length failures)%nat
         then setError (lit "Some files failed to upload: "
                          ++ joinWith (lit ", ") failures) b1
         else b1)
    end.
Proof.
  cbv zeta. unfold FileUpload.reportResult.
  replace (JsValue.getProp _ (lit "files")) with (Ok (JArr (wire <$> results)))
    by (vm_compute; reflexivity).
  rewrite upload_lift_bind. cbn [filterOf]. rewrite upload_lift_bind.
  rewrite filterSuccess_wire, upload_lift_bind.
  rewrite uploadedOf_wire, upload_lift_bind.
  unfold bind at 1, onFilesUploaded.
  destruct (b_callbackThrows b (length (b_calls b))) as [e|]; [done|].
  rewrite upload_lift_bind. cbn beta iota. rewrite upload_lift_bind.
  cbn [filterOf]. rewrite upload_lift_bind, filterSuccess_wire.
  rewrite length_fmap, failed_length.
  destruct (0 <? length (omap failureOf results))%nat; [|done].
  rewrite upload_lift_bind, errors_wire.
  unfold bind, update. cbn [fst snd]. by rewrite joinText_strings.
Qed.

End Wire.

(** The [try] block, by how the request ends. *)
Lemma upload_run files b r b' :
  upload files b = (r, b') ->
  exists b1,
    sameButProgress
      (send files
         (setIntervals S
            (setUploadProgress
               (fun prev => foldl (fun acc file => <[f_name file := 0%Q]> acc)
                                  prev files) b))) b1 /\
    match uploadAnswer b files with
    | FetchRejected e => r = Throw e /\ b' = b1
    | FetchResponse false _ =>
        r = Throw (JsError (lit "Upload failed")) /\ b' = setIntervals Nat.pred b1
    | FetchResponse true (Throw e) =>
        r = Throw e /\ b' = setIntervals Nat.pred b1
    | FetchResponse true (Ok result) =>
        let b2 :=
          setTimeout
            (setUploadProgress
               (fun prev => foldl (fun acc file => <[f_name file := 100%Q]> acc)
                                  prev files)
               (setIntervals Nat.pred b1)) in
        match JsValue.getProp result (lit "success") with
        | Throw e => r = Throw e /\ b' = b2
        | Ok success =>
            if JsValue.truthy success then reportResult result b2 = (r, b')
            else r = Ok tt /\ b' = b2
        end
    end.
Proof.
  unfold FileUpload.upload.
  unfold bind at 1, update at 1. unfold bind at 1, update at 1.
  match goal with
  | |- context [bind (fetch files) _ ?b0] =>
      destruct (fetch_effect files b0) as (b1 & Hfetch & Hsame);
      rewrite (upload_bind_ok _ _ _ _ _ Hfetch);
      change (uploadAnswer b0 files) with (uploadAnswer b files)
  end.
  intros Hrun. exists b1. split; [exact Hsame|].
  destruct (uploadAnswer b files) as [e | ok json].
  { by injection Hrun as <- <-. }
  unfold bind at 1, update at 1 in Hrun.
  destruct ok; cbn [negb] in Hrun.
  2: { by injection Hrun as <- <-. }
  rewrite upload_lift_bind in Hrun.
  destruct json as [result|e].
  2: { by injection Hrun as <- <-. }
  unfold bind at 1, update at 1 in Hrun. unfold bind at 1, update at 1 in Hrun.
  rewrite upload_lift_bind in Hrun. cbv zeta.
  destruct (JsValue.getProp result (lit "success")) as [success|e].
  2: { by injection Hrun as <- <-. }
  destruct (JsValue.truthy success); [exact Hrun|].
  by injection Hrun as <- <-.
Qed.

Lemma validateFile_truthy file validation :
  validateFile file = Some validation -> JsString.truthy validation = true.
Proof.
  unfold FileUpload.validateFile.
  destruct (maxFileSize <? f_size file); [by intros [= <-]|].
  destruct (negb _); [by intros [= <-] | done].
Qed.

Lemma firstInvalid_none files :
  firstInvalid files = None <-> Forall (fun f => validateFile f = None) files.
Proof.
  induction files as [|file files IH]; cbn [FileUpload.firstInvalid].
  - split; [constructor | done].
  - destruct (validateFile file) as [validation|] eqn:Hfile.
    + rewrite (validateFile_truthy _ _ Hfile). split; [done|].
      intros Hall. apply Forall_cons in Hall as [Hfile' _]. congruence.
    + rewrite IH. split; [by constructor|].
      intros Hall. by apply Forall_cons in Hall as [_ ?].
Qed.

Lemma firstInvalid_some files validation :
  firstInvalid files = Some validation ->
  exists before file after,
    files = before ++ file :: after /\
    Forall (fun f => validateFile f = None) before /\
    validateFile file = Some validation.
Proof.
  induction files as [|file files IH]; cbn [FileUpload.firstInvalid]; [done|].
  destruct (validateFile file) as [validation'|] eqn:Hfile.
  - rewrite (validateFile_truthy _ _ Hfile). intros [= ->].
    exists [], file, files. by repeat split.
  - intros Hrest. destruct (IH Hrest) as (before & file' & after & -> & Hall & Hbad).
    exists (file :: before), file', after. repeat split; [|done].
    by constructor.
Qed.

(** X26. A list with a file that fails [validateFile], or with more than
    [maxFiles] files, is not uploaded: [uploadFiles] only shows a message and
    resets [isUploading]; no request is sent, no timer is started and the
    parent is not called. The message is that of the first file, in the order
    of the list, that fails the validation; the number of files is looked at
    only when every file passes. *)
Theorem uploadFiles_refused files b :
  files <> [] ->
  (exists file, file ∈ files /\ FileUpload.validateFile maxFileSize file <> None) \/
  maxFiles < Z.of_nat (length files) ->
  exists message,
    FileUpload.uploadFiles maxFiles maxFileSize Number_toString files b
    = (Ok tt, setIsUploading false (setError message b)) /\
    ((exists before file after,
         files = before ++ file :: after /\
         Forall (fun f => FileUpload.validateFile maxFileSize f = None) before /\
         FileUpload.validateFile maxFileSize file = Some message) \/
     (Forall (fun f => FileUpload.validateFile maxFileSize f = None) files /\
      message = lit "Too many files selected. Maximum is "
                  ++ showInt maxFiles ++ lit " files.")).
Proof.
  intros Hfiles Hbad. unfold FileUpload.uploadFiles.
  destruct files as [|file0 files0]; [done|].
  change (length (file0 :: files0) =? 0)%nat with false. cbv iota.
  set (files := file0 :: files0) in *.
  unfold bind at 1, update at 1. unfold bind at 1, update at 1.
  destruct (firstInvalid files) as [validation|] eqn:Hfirst.
  - exists validation. split; [reflexivity|]. left.
    by apply firstInvalid_some.
  - apply firstInvalid_none in Hfirst.
    destruct Hbad as [(file & Hin & Hfile) | Hmany].
    { rewrite Forall_forall in Hfirst. by specialize (Hfirst file Hin). }
    apply Z.ltb_lt in Hmany. rewrite Hmany.
    eexists. split; [reflexivity|]. by right.
Qed.

(** X27. A list that passes the checks is posted in one request, the files in
    the order of the list, and [uploadFiles] returns normally whatever comes
    back, with [isUploading] reset. When no body can be read (the request is
    rejected, the response is not ok, or its body is not JSON) the component
    shows "Failed to upload files. Please try again.", clears the progress
    and does not call the parent. The progress interval is stopped in every
    case but one: when the request is rejected, [clearInterval] is skipped and
    the interval keeps running after [uploadFiles] is through. When a body
    was read, one time-out is pending, the parent was called at most once,
    and the progress is either cleared (by the [catch]) or at 100 for every
    file. *)
Theorem uploadFiles_settles files b :
  files <> [] ->
  Forall (fun f => FileUpload.validateFile maxFileSize f = None) files ->
  Z.of_nat (length files) <= maxFiles ->
  exists b',
    FileUpload.uploadFiles maxFiles maxFileSize Number_toString files b
    = (Ok tt, b') /\
    isUploading b' = false /\
    b_requests b' = files :: b_requests b /\
    b_intervals b'
    = (if rejected (uploadAnswer b files)
       then S (b_intervals b) else b_intervals b) /\
    (answered (uploadAnswer b files) = false ->
     error b' = lit "Failed to upload files. Please try again." /\
     uploadProgress b' = ∅ /\
     b_calls b' = b_calls b /\
     b_timeouts b' = b_timeouts b /\
     b_console b' = ConsoleError (lit "Upload error:") :: b_console b) /\
    (answered (uploadAnswer b files) = true ->
     b_timeouts b' = S (b_timeouts b) /\
     (b_calls b' = b_calls b \/
      exists handed, b_calls b' = handed :: b_calls b) /\
     (uploadProgress b' = ∅ \/
      forall file, file ∈ files ->
                   uploadProgress b' !! f_name file = Some 100%Q)).
Proof.
  intros Hfiles Hvalid Hcount. unfold FileUpload.uploadFiles.
  destruct files as [|file0 files0]; [done|].
  change (length (file0 :: files0) =? 0)%nat with false. cbv iota.
  set (files := file0 :: files0) in *.
  unfold bind at 1, update at 1. unfold bind at 1, update at 1.
  apply firstInvalid_none in Hvalid. rewrite Hvalid.
  apply Z.ltb_ge in Hcount. rewrite Hcount.
  unfold try_finally, try_catch.
  match goal with
  | |- context [FileUpload.upload _ files ?b0] =>
      destruct (upload files b0) as [r b2] eqn:Hrun;
      apply upload_run in Hrun as (b1 & Hsame & Hcase);
      change (uploadAnswer b0 files) with (uploadAnswer b files) in Hcase
  end.
  destruct Hsame as (Hup & Herr & Hfetch & Hticks & Hreq & Hrandom & Hint
                     & Htime & Hcalls & Hthrows & Hconsole).
  cbn in Hup, Herr, Hfetch, Hticks, Hreq, Hrandom, Hint, Htime, Hcalls,
         Hthrows, Hconsole.
  destruct (uploadAnswer b files) as [e | [] [result|e]]; cbn [rejected answered].
  - (* the request was rejected *)
    destruct Hcase as [-> ->]. eexists. split; [reflexivity|].
    cbn -[lit]. rewrite Hreq, Hint, Hcalls, Htime, Hconsole.
    split_and!; try done; intros _; by split_and!.
  - (* a body was read *)
    cbv zeta in Hcase.
    set (b3 := setTimeout _) in Hcase.
    assert (Hb3 : b_timeouts b3 = S (b_timeouts b) /\
                  b_calls b3 = b_calls b /\
                  b_requests b3 = files :: b_requests b /\
                  b_intervals b3 = b_intervals b /\
                  forall file, file ∈ files ->
                               uploadProgress b3 !! f_name file = Some 100%Q).
    { subst b3. unfold setTimeout, setUploadProgress, setIntervals.
      cbn [uploadProgress b_timeouts b_calls b_requests b_intervals].
      rewrite Htime, Hcalls, Hreq, Hint. split_and!; try done.
      intros file Hin. by apply progress_set. }
    destruct Hb3 as (Htime3 & Hcalls3 & Hreq3 & Hint3 & Hprog3).
    assert (Hend : exists b4,
               (r, b2) = (r, b4) /\ sameButReport b3 b4 /\
               (b_calls b4 = b_calls b3 \/
                exists handed, b_calls b4 = handed :: b_calls b3)).
    { destruct (JsValue.getProp result (lit "success")) as [success|e].
      - destruct (JsValue.truthy success).
        + exists b2. split; [done|]. by eapply reportResult_frame.
        + destruct Hcase as [-> ->]. exists b3.
          split; [done|]. split; [apply sameButReport_refl | by left].
      - destruct Hcase as [-> ->]. exists b3.
        split; [done|]. split; [apply sameButReport_refl | by left]. }
    clear Hcase.
    destruct Hend as (b4 & [= <-] & (Hp4 & Hu4 & Hr4 & _ & Hi4 & Ht4 & Hc4 & _)
                      & Hcalls4).
    rewrite Hcalls3 in Hcalls4.
    destruct r as [[]|e]; (eexists; split; [reflexivity|]); cbn -[lit];
      rewrite ?Hr4, ?Hi4, ?Ht4, ?Hreq3, ?Hint3, ?Htime3;
      (split_and!; try done; intros _; split_and!; try done).
    + right. intros file Hin. rewrite Hp4. by apply Hprog3.
    + by left.
  - (* the body is not JSON *)
    destruct Hcase as [-> ->]. eexists. split; [reflexivity|].
    cbn -[lit]. rewrite Hreq, Hint, Hcalls, Htime, Hconsole.
    split_and!; try done; intros _; by split_and!.
  - (* the response is not ok *)
    destruct Hcase as [-> ->]. eexists. split; [reflexivity|].
    cbn -[lit]. rewrite Hreq, Hint, Hcalls, Htime, Hconsole.
    split_and!; try done; intros _; by split_and!.
  - destruct Hcase as [-> ->]. eexists. split; [reflexivity|].
    cbn -[lit]. rewrite Hreq, Hint, Hcalls, Htime, Hconsole.
    split_and!; try done; intros _; by split_and!.
Qed.

(** X28. A response that is ok and whose body has no truthy [success] (an
    object without the property or with [success: false], a number, a
    string) is passed over in silence: [uploadFiles] returns normally, the
    parent is not called, no error is shown and nothing is written to the
    console, while the progress of every file stands at 100. *)
Theorem uploadFiles_passes_over_unsuccessful_body files b result success :
  files <> [] ->
  Forall (fun f => FileUpload.validateFile maxFileSize f = None) files ->
  Z.of_nat (length files) <= maxFiles ->
  uploadAnswer b files = FetchResponse true (Ok result) ->
  JsValue.getProp result (lit "success") = Ok success ->
  JsValue.truthy success = false ->
  exists b',
    FileUpload.uploadFiles maxFiles maxFileSize Number_toString files b
    = (Ok tt, b') /\
    error b' = [] /\
    b_calls b' = b_calls b /\
    b_console b' = b_console b /\
    isUploading b' = false /\
    b_intervals b' = b_intervals b /\
    forall file, file ∈ files ->
                 uploadProgress b' !! f_name file = Some 100%Q.
Proof.
  intros Hfiles Hvalid Hcount Hanswer Hsuccess Hfalsy.
  unfold FileUpload.uploadFiles.
  destruct files as [|file0 files0]; [done|].
  change (length (file0 :: files0) =? 0)%nat with false. cbv iota.
  set (files := file0 :: files0) in *.
  unfold bind at 1, update at 1. unfold bind at 1, update at 1.
  apply firstInvalid_none in Hvalid. rewrite Hvalid.
  apply Z.ltb_ge in Hcount. rewrite Hcount.
  unfold try_finally, try_catch.
  match goal with
  | |- context [FileUpload.upload _ files ?b0] =>
      destruct (upload files b0) as [r b2] eqn:Hrun;
      apply upload_run in Hrun as (b1 & Hsame & Hcase);
      change (uploadAnswer b0 files) with (uploadAnswer b files) in Hcase
  end.
  destruct Hsame as (Hup & Herr & Hfetch & Hticks & Hreq & Hrandom & Hint
                     & Htime & Hcalls & Hthrows & Hconsole).
  cbn in Hup, Herr, Hfetch, Hticks, Hreq, Hrandom, Hint, Htime, Hcalls,
         Hthrows, Hconsole.
  rewrite Hanswer in Hcase. cbv zeta in Hcase.
  rewrite Hsuccess, Hfalsy in Hcase. destruct Hcase as [-> ->].
  eexists. split; [reflexivity|].
  unfold setIsUploading, setTimeout, setUploadProgress, setIntervals.
  cbn [uploadProgress error b_calls b_console isUploading b_intervals].
  rewrite Herr, Hcalls, Hconsole, Hint. split_and!; try done.
  intros file Hin. by apply progress_set.
Qed.

Section AgainstTheRoute.

Variable env : option (list N).
Variable path_extname : list N -> list N.
Variable numberOf : Z -> JSNumber.
Variable toISOString : Z -> list N.

Lemma validateFile_checks file :
  MAX_FILE_SIZE env = Some maxFileSize ->
  validateFile file = None <->
  ~ exceedsLimit (MAX_FILE_SIZE env) file /\ f_type file ∈ allowedTypes.
Proof.
  intros ->. unfold FileUpload.validateFile, exceedsLimit.
  change [lit "application/pdf";
          lit "application/vnd.openxmlformats-officedocument.wordprocessingml.document";
          lit "application/msword"; lit "text/plain"] with allowedTypes.
  destruct (Z.ltb_spec maxFileSize (f_size file)).
  { split; [done|]. intros [? _]. lia. }
  case_bool_decide; cbn [negb].
  - split; [|done]. intros _. split; [lia | done].
  - split; [done|]. by intros [_ ?].
Qed.

Lemma accepted_of_outcome file r :
  MAX_FILE_SIZE env = Some maxFileSize ->
  validateFile file = None ->
  UploadOutcome (MAX_FILE_SIZE env) file r -> accepted file r.
Proof.
  intros Hlimit Hvalid Hr.
  apply (validateFile_checks _ Hlimit) in Hvalid as [Hsize Htype].
  destruct Hr; try done; [left; eauto | by right].
Qed.

(** X29. The browser and the upload route apply the same two checks in the
    same order. With the same size limit on both sides, a file that
    [validateFile] lets pass is handed to the saving step by the route, and a
    file that [validateFile] turns down would be turned down by the route as
    well, for its size if it is too large and for its type otherwise. *)
Theorem validateFile_agrees_with_route file w :
  MAX_FILE_SIZE env = Some maxFileSize ->
  match FileUpload.validateFile maxFileSize file with
  | None =>
      uploadStep env path_extname file w = saveFile path_extname file w
  | Some _ =>
      uploadStep env path_extname file w
      = (Ok (UploadFailure (f_name file)
               (if maxFileSize <? f_size file
                then lit "File size exceeds limit (10MB)"
                else lit "Unsupported file type")), w)
  end.
Proof.
  intros Hlimit. unfold FileUpload.validateFile, uploadStep.
  rewrite Hlimit. cbn [js_gt].
  change [lit "application/pdf";
          lit "application/vnd.openxmlformats-officedocument.wordprocessingml.document";
          lit "application/msword"; lit "text/plain"] with allowedTypes.
  destruct (maxFileSize <? f_size file); [done|].
  by destruct (negb (bool_decide (f_type file ∈ allowedTypes))).
Qed.

(** X30. The component against the upload route, with the same size limit on
    both sides: a list that passes the browser's checks is posted, and when
    the answer is what the route produces for these files, every element of
    the answer is a saved file or the failure "Failed to save file"; the
    parent is called once with the saved files, in the order of the list and
    with the id, name, size, type and path the route reported (with the empty
    list when no file was saved); the progress of every file is at 100; and
    an error is shown exactly when some file was not saved, listing the
    failures. When the route answers with an error status, the parent is not
    called and "Failed to upload files. Please try again." is shown. *)
Theorem uploadFiles_hands_over_saved files w resp w' b :
  MAX_FILE_SIZE env = Some maxFileSize ->
  files <> [] ->
  Forall (fun f => FileUpload.validateFile maxFileSize f = None) files ->
  Z.of_nat (length files) <= maxFiles ->
  POST env path_extname (FormData files) w = (Ok resp, w') ->
  uploadAnswer b files = wireResponse numberOf toISOString resp ->
  b_callbackThrows b (length (b_calls b)) = None ->
  exists b',
    FileUpload.uploadFiles maxFiles maxFileSize Number_toString files b
    = (Ok tt, b') /\
    match resp with
    | ErrorResponse _ _ =>
        b_calls b' = b_calls b /\
        error b' = lit "Failed to upload files. Please try again."
    | SuccessResponse results =>
        Forall2 accepted files results /\
        b_calls b' = omap (handedOver numberOf toISOString) results :: b_calls b /\
        error b'
        = (let failures := omap failureOf results in
           if (0 <? length failures)%nat
           then lit "Some files failed to upload: "
                  ++ joinWith (lit ", ") failures
           else []) /\
        forall file, file ∈ files ->
                     uploadProgress b' !! f_name file = Some 100%Q
    end.
Proof.
  intros Hlimit Hfiles Hvalid Hcount Hpost Hanswer Hquiet.
  assert (Hresp : resp = ErrorResponse 500 (lit "Upload failed") \/
                  exists results, resp = SuccessResponse results /\
                                  Forall2 accepted files results).
  { destruct (POST_response env path_extname (FormData files) w)
      as (resp0 & w0 & Hpost0 & Hcases).
    rewrite Hpost in Hpost0. injection Hpost0 as <- <-.
    destruct files as [|file0 files0]; [done|].
    destruct Hcases as [[_ ->] | (_ & results & -> & Hall)]; [by left|].
    right. exists results. split; [done|].
    clear -Hvalid Hall Hlimit. revert Hvalid.
    induction Hall as [|file r files results Hr Hall IH]; [constructor|].
    intros [Hfile Hrest]%Forall_cons. constructor; [|by apply IH].
    by apply accepted_of_outcome. }
  unfold FileUpload.uploadFiles.
  destruct files as [|file0 files0]; [done|].
  change (length (file0 :: files0) =? 0)%nat with false. cbv iota.
  set (files := file0 :: files0) in *.
  unfold bind at 1, update at 1. unfold bind at 1, update at 1.
  apply firstInvalid_none in Hvalid. rewrite Hvalid.
  apply Z.ltb_ge in Hcount. rewrite Hcount.
  unfold try_finally, try_catch.
  match goal with
  | |- context [FileUpload.upload _ files ?b0] =>
      destruct (upload files b0) as [r b2] eqn:Hrun;
      apply upload_run in Hrun as (b1 & Hsame & Hcase);
      change (uploadAnswer b0 files) with (uploadAnswer b files) in Hcase
  end.
  destruct Hsame as (Hup & Herr & Hfetch & Hticks & Hreq & Hrandom & Hint
                     & Htime & Hcalls & Hthrows & Hconsole).
  cbn in Hup, Herr, Hfetch, Hticks, Hreq, Hrandom, Hint, Htime, Hcalls,
         Hthrows, Hconsole.
  rewrite Hanswer in Hcase.
  destruct Hresp as [-> | (results & -> & Hall)].
  - (* the route answered 500 *)
    cbn [wireResponse Z.leb andb] in Hcase.
    change ((200 <=? 500) && (500 <=? 299)) with false in Hcase.
    destruct Hcase as [-> ->]. eexists. split; [reflexivity|].
    cbn -[lit]. by rewrite Hcalls.
  - cbn [wireResponse] in Hcase. cbv zeta in Hcase.
    replace (JsValue.getProp _ (lit "success")) with (Ok (JBool true)) in Hcase
      by (vm_compute; reflexivity).
    cbn [JsValue.truthy] in Hcase.
    rewrite reportResult_wire in Hcase.
    set (b3 := setTimeout _) in Hcase.
    assert (Hb3 : b_calls b3 = b_calls b /\
                  b_callbackThrows b3 = b_callbackThrows b /\
                  forall file, file ∈ files ->
                               uploadProgress b3 !! f_name file = Some 100%Q).
    { subst b3. unfold setTimeout, setUploadProgress, setIntervals.
      cbn [uploadProgress b_calls b_callbackThrows].
      rewrite Hcalls, Hthrows. split_and!; try done.
      intros file Hin. by apply progress_set. }
    destruct Hb3 as (Hcalls3 & Hthrows3 & Hprog3).
    rewrite Hthrows3, Hcalls3, Hquiet in Hcase.
    unfold onFilesUploaded in Hcase. rewrite Hthrows3, Hcalls3, Hquiet in Hcase.
    cbn [snd] in Hcase. injection Hcase as <- <-.
    eexists. split; [reflexivity|]. split; [exact Hall|].
    cbv zeta.
    destruct (0 <? length (omap failureOf results))%nat; cbn -[lit];
      by split_and!.
Qed.

End AgainstTheRoute.

End FileUploadFacts.

(* ===================================================================== *)
(** * The theorems at concrete inputs *)
(* ===================================================================== *)

(** A text file holding "one two   three", answered by the model with a fenced
    JSON object: the record counts 3 words and 1 page. *)
Lemma C9_word_and_page_count_witness :
  let w := Demo.world [("notes.txt", 9000000, "one two   three")] Demo.noFaults
             (Ok (litq "```json {'sentiment':'Neutral','confidence':0.9} ```")) in
  exists r w',
    Demo.processDocumentAction (Demo.textFile "notes.txt") w = (Ok r, w') /\
    wordCount r = 3%nat /\ pageCount r = Some 1 /\
    exists text w1,
      extractTextFromFile Demo.parsePDFContent Demo.mammoth_extractRawText
        Demo.decodeUtf8 (lit "notes.txt") MIME_TXT (snd (Date_now w))
        = (Ok text, w1) /\
      (forall toks, Tokenized text toks -> wordCount r = length toks) /\
      (exists pages,
          pageCount r = Some pages /\
          250 * (pages - 1) < Z.of_nat (wordCount r) <= 250 * pages) /\
      (wordCount r = 500%nat -> pageCount r = Some 2).
Proof.
  intros w.
  assert (Hrun : match fst (Demo.processDocumentAction (Demo.textFile "notes.txt") w) with
                 | Ok r => wordCount r = 3%nat /\ pageCount r = Some 1
                 | Throw _ => False
                 end) by (vm_compute; split; reflexivity).
  destruct (Demo.processDocumentAction (Demo.textFile "notes.txt") w)
    as [[r|e] w'] eqn:H; [|exact (False_ind _ Hrun)].
  exists r, w'. split; [reflexivity|].
  destruct Hrun as [H3 H1]. split; [exact H3|]. split; [exact H1|].
  exact (C9_word_and_page_count _ _ _ _ _ _ _ _ _ H).
Defined.

(** A text file holding only spaces and a line break, followed in the batch by
    a readable one: the first record is the error record, the second is the
    analysis of the second file, and the model was not asked about the first. *)
Lemma C5_blank_text_becomes_error_record_witness :
  let w := Demo.world [("empty.txt", 9000000, "   "); ("notes.txt", 9000000, "hello")]
             Demo.noFaults (Ok (litq "{'sentiment':'Positive'}")) in
  let file := Demo.textFile "empty.txt" in
  let failure :=
    JsError (lit "Failed to process document: No text content found in document") in
  (exists w2,
      Demo.processDocumentAction file w = (Throw failure, w2) /\
      w_calls w2 = w_calls w) /\
  (forall rest, exists r w3 others w4,
      processBatchStep Json.parse Demo.parsePDFContent
        Demo.mammoth_extractRawText Demo.decodeUtf8 Demo.splitText file w
        = (Ok r, w3) /\
      Demo.processBatchDocuments rest w3 = (Ok others, w4) /\
      Demo.processBatchDocuments (file :: rest) w = (Ok (r :: others), w4) /\
      describes file r /\
      confidence r = JNum (Dec 0 0) /\
      sentiment r = JStr (lit "Error") /\
      summary r
      = JStr (lit "Processing failed: Failed to process document: No text content found in document")) /\
  (sentiment <$> default [] (match fst (Demo.processBatchDocuments
                                          [file; Demo.textFile "notes.txt"] w) with
                             | Ok rs => Some rs
                             | Throw _ => None
                             end))
  = [JStr (lit "Error"); JStr (lit "Positive")].
Proof.
  intros w file failure.
  split; [|split].
  1, 2: apply (C5_blank_text_becomes_error_record Json.parse
                 Demo.parsePDFContent Demo.mammoth_extractRawText
                 Demo.decodeUtf8 Demo.splitText file w (lit "   ")
                 (snd (Date_now w)));
        [ reflexivity | repeat constructor ].
  vm_compute. reflexivity.
Defined.

(** The reply of the specification's example is not JSON: the record is the
    fallback record. *)
Lemma C2_unparseable_reply_gives_fallback_witness :
  let w := Demo.world [("notes.txt", 9000000, "hello world")] Demo.noFaults
             (Ok (lit "I cannot analyze this.")) in
  exists r w',
    Demo.processDocumentAction (Demo.textFile "notes.txt") w = (Ok r, w') /\
    sentiment r = JStr (lit "Analysis completed") /\
    confidence r = JNum (Dec 7 (-1)) /\
    topics r = [JStr (lit "Document analysis")] /\
    summary r = JStr (lit "Document processed successfully") /\
    entities r = [] /\
    keyInsights r = [JStr (lit "Document contains valuable content")].
Proof.
  intros w.
  apply (C2_unparseable_reply_gives_fallback Json.parse Demo.parsePDFContent
           Demo.mammoth_extractRawText Demo.decodeUtf8 Demo.splitText
           (Demo.textFile "notes.txt") w (lit "hello world") (snd (Date_now w))
           (lit "I cannot analyze this.") Json.SyntaxError).
  - reflexivity.
  - vm_compute. discriminate.
  - reflexivity.
  - vm_compute. reflexivity.
Defined.

(** The claim as stated, for every reply that does not parse into a JSON
    object, fails on replies that are JSON without being an object. On the
    reply [42] [JSON.parse] returns the number, no property of which is
    defined, and the record is built from the defaults of the coercions: no
    sentiment, no topics, not the fallback. On the reply [null] reading
    [analysis.sentiment] throws, and [processDocumentAction] fails. *)
Lemma C2_counterexample :
  let file := Demo.textFile "notes.txt" in
  let w42 := Demo.world [("notes.txt", 9000000, "hello world")] Demo.noFaults
               (Ok (lit "42")) in
  let wnull := Demo.world [("notes.txt", 9000000, "hello world")] Demo.noFaults
                 (Ok (lit "null")) in
  ~ (forall reply file w text w1,
        extractTextFromFile Demo.parsePDFContent Demo.mammoth_extractRawText
          Demo.decodeUtf8 (fd_filePath file) (fd_type file) (snd (Date_now w))
          = (Ok text, w1) ->
        trim text <> [] ->
        w_model w1 (w_calls w1) (analysisTextOf Demo.splitText text) = Ok reply ->
        (forall fields,
            Json.parse (jsonCandidate (cleanResponse reply)) <> Ok (JObj fields)) ->
        exists r w',
          Demo.processDocumentAction file w = (Ok r, w') /\
          sentiment r = JStr (lit "Analysis completed")) /\
  Json.parse (jsonCandidate (cleanResponse (lit "42"))) = Ok (JNum (Dec 42 0)) /\
  match fst (Demo.processDocumentAction file w42) with
  | Ok r =>
      sentiment r = JUndefined /\ topics r = [] /\
      summary r = JStr (lit "No summary available") /\
      confidence r = JNum (Dec 7 (-1))
  | Throw _ => False
  end /\
  Json.parse (jsonCandidate (cleanResponse (lit "null"))) = Ok JNull /\
  fst (Demo.processDocumentAction file wnull)
  = Throw (JsError (lit "Failed to process document: Cannot read properties of null (reading 'sentiment')")).
Proof.
  intros file w42 wnull.
  assert (H42 : match fst (Demo.processDocumentAction file w42) with
                | Ok r =>
                    sentiment r = JUndefined /\ topics r = [] /\
                    summary r = JStr (lit "No summary available") /\
                    confidence r = JNum (Dec 7 (-1))
                | Throw _ => False
                end) by (vm_compute; repeat split).
  split; [|split; [vm_compute; reflexivity|]; split; [exact H42|];
           split; vm_compute; reflexivity].
  intros claim.
  destruct (claim (lit "42") file w42 (lit "hello world") (snd (Date_now w42)))
    as (r & w' & Hrun & Hsentiment).
  - reflexivity.
  - vm_compute. discriminate.
  - reflexivity.
  - intros fields. vm_compute. discriminate.
  - rewrite Hrun in H42. cbn [fst] in H42. destruct H42 as [H42 _].
    rewrite H42 in Hsentiment. discriminate Hsentiment.
Qed.

(** The specification's example: a json-fenced object on lines of its own is
    parsed into that object. *)
Lemma C3_response_parser_witness :
  let w := Demo.world [] Demo.noFaults (Ok []) in
  let mid := litq "'sentiment':'Positive','confidence':0.9" in
  let reply := FENCE_JSON ++ [10%N] ++ (LBRACE :: mid ++ [RBRACE]) ++ [10%N] ++ FENCE in
  reply = lit "```json" ++ [10%N]
          ++ litq "{'sentiment':'Positive','confidence':0.9}" ++ [10%N] ++ lit "```" /\
  fst (parseAnalysis Json.parse reply w)
  = Ok (JObj [ (lit "sentiment", JStr (lit "Positive"));
               (lit "confidence", JNum (Dec 9 (-1))) ]).
Proof.
  intros w mid reply. split; [reflexivity|].
  apply (proj2 (C3_response_parser Json.parse reply w) [10%N] mid [10%N]).
  - reflexivity.
  - repeat constructor.
  - repeat constructor.
  - vm_compute. reflexivity.
  - vm_compute. reflexivity.
Defined.

(** The claim as stated fails twice. A reply with two objects: the first
    balanced-brace substring is the first object, which is JSON, while the
    code hands over the text from the first opening to the last closing brace,
    which is not, and ends with the fallback. And a fenced object with a fence
    marker inside one of its strings does not come out unchanged. *)
Lemma C3_counterexample :
  let w := Demo.world [] Demo.noFaults (Ok []) in
  ~ (forall reply,
        fst (parseAnalysis Json.parse reply w)
        = Ok (match Json.parse (specCandidate (cleanResponse reply)) with
              | Ok v => v
              | Throw _ => fallbackAnalysis
              end)) /\
  (let two := litq "{'a':1} {'b':2}" in
   specCandidate (cleanResponse two) = litq "{'a':1}" /\
   Json.parse (litq "{'a':1}") = Ok (JObj [(lit "a", JNum (Dec 1 0))]) /\
   jsonCandidate (cleanResponse two) = two /\
   fst (parseAnalysis Json.parse two w) = Ok fallbackAnalysis) /\
  (let body := litq "{'summary':'use ``` fences'}" in
   let reply := lit "```json" ++ [10%N] ++ body ++ [10%N] ++ lit "```" in
   Json.parse body = Ok (JObj [(lit "summary", JStr (lit "use ``` fences"))]) /\
   fst (parseAnalysis Json.parse reply w)
   = Ok (JObj [(lit "summary", JStr (lit "use  fences"))])).
Proof.
  intros w. split; [|split].
  - intros claim. specialize (claim (litq "{'a':1} {'b':2}")).
    vm_compute in claim. discriminate claim.
  - vm_compute. repeat split.
  - vm_compute. repeat split.
Qed.


(** An image: the error that reaches the caller does not mention
    [image/png]. *)
Lemma C4_unsupported_type_error_is_generic_witness :
  let w := Demo.world [("photo.png", 9000000, "PNG")] Demo.noFaults (Ok []) in
  extractTextFromFile Demo.parsePDFContent Demo.mammoth_extractRawText
    Demo.decodeUtf8 (lit "photo.png") (lit "image/png") w
  = (Throw (JsError (lit "Failed to extract text from document")),
     snd (console_error (lit "Text extraction error:") w)).
Proof.
  intros w.
  apply (C4_unsupported_type_error_is_generic Demo.parsePDFContent
           Demo.mammoth_extractRawText Demo.decodeUtf8).
  apply (bool_decide_unpack _). vm_compute. exact I.
Defined.

(** Two worlds that differ only in whether the file can be deleted: in one the
    entry is removed, in the other the deletion fails and is logged; the record
    returned is the same, and in both the deletion was attempted last. *)
Lemma C6_deletion_attempted_and_contained_witness :
  let reply := Ok (litq "{'sentiment':'Positive'}") in
  let w := Demo.world [("notes.txt", 9000000, "hello world")] Demo.noFaults reply in
  let denied := fun op => match op with OpUnlink _ => true | _ => false end in
  let w2 := Demo.world [("notes.txt", 9000000, "hello world")] denied reply in
  let file := Demo.textFile "notes.txt" in
  let run := Demo.processDocumentAction file in
  sameButUnlinkFaults w w2 /\
  fst (run w) = fst (run w2) /\
  Fs.lookup (lit "notes.txt") (snd (run w)) = None /\
  Fs.lookup (lit "notes.txt") (snd (run w2))
  = Some {| e_mtime := 9000000; e_data := Demo.bytes "hello world" |} /\
  head (w_console (snd (run w)))
  = Some (ConsoleLog (lit "Deleted uploaded file: notes.txt")) /\
  head (w_console (snd (run w2)))
  = Some (ConsoleError (lit "Failed to delete file notes.txt:")) /\
  (exists line older,
      w_console (snd (run w2)) = line :: older /\
      deletionLine (lit "notes.txt") line).
Proof.
  intros reply w denied w2 file run.
  assert (Hsame : sameButUnlinkFaults w w2).
  { repeat split; try reflexivity.
    intros op Hop. destruct op; try reflexivity. by destruct (Hop p). }
  destruct (C6_deletion_attempted_and_contained Json.parse
              Demo.parsePDFContent Demo.mammoth_extractRawText Demo.decodeUtf8
              Demo.splitText file w) as [_ Hw].
  destruct (C6_deletion_attempted_and_contained Json.parse
              Demo.parsePDFContent Demo.mammoth_extractRawText Demo.decodeUtf8
              Demo.splitText file w2) as [_ Hw2].
  destruct (Hw run (or_introl eq_refl)) as (_ & Hgone & Hindep).
  destruct (Hw2 run (or_introl eq_refl)) as (Hline & _ & _).
  split; [exact Hsame|].
  split; [exact (Hindep w2 Hsame)|].
  split; [exact (Hgone eq_refl)|].
  split; [vm_compute; reflexivity|].
  split; [vm_compute; reflexivity|].
  split; [vm_compute; reflexivity|].
  exact Hline.
Defined.


(** A sweep in which nothing fails: the file written long ago is deleted, the
    recent one is kept. *)
Lemma C8_sweep_deletes_old_files_witness :
  let w := Demo.world [("old.txt", 1000, "x"); ("new.txt", 9999000, "y")]
             Demo.noFaults (Ok []) in
  exists w',
    cleanupUploadsFolder w = (Ok tt, w') /\
    Fs.lookup (lit "old.txt") w' = None /\
    Fs.lookup (lit "new.txt") w'
    = Some {| e_mtime := 9999000; e_data := Demo.bytes "y" |}.
Proof.
  intros w.
  destruct (C8_sweep_deletes_old_files w) as (w' & Hrun & Hfiles).
  exists w'. split; [exact Hrun|].
  pose (dir := list_to_map
                 [(lit "old.txt", {| e_mtime := 1000; e_data := Demo.bytes "x" |});
                  (lit "new.txt", {| e_mtime := 9999000; e_data := Demo.bytes "y" |})]
               : gmap (list N) Entry).
  assert (Hdir : w_uploads w = Some dir) by (vm_compute; reflexivity).
  assert (Hlen : length (Fs.listing (w_order w) dir) = 2%nat).
  { vm_compute. reflexivity. }
  split.
  - destruct (Hfiles dir (lit "old.txt") {| e_mtime := 1000; e_data := Demo.bytes "x" |}
                Hdir) as (i & _ & _ & Hdel & _).
    { vm_compute. reflexivity. }
    apply Hdel.
    + split; [reflexivity|]. intros j q _ _. split; [reflexivity|].
      intros e _ _. reflexivity.
    + unfold olderThanOneHour.
      change (10000000 + Z.of_nat (0 + i) - 1000 > 3600000). lia.
  - destruct (Hfiles dir (lit "new.txt") {| e_mtime := 9999000; e_data := Demo.bytes "y" |}
                Hdir) as (i & Hi & Hkeep & _).
    { vm_compute. reflexivity. }
    apply Hkeep. apply lookup_lt_Some in Hi. rewrite Hlen in Hi.
    unfold olderThanOneHour.
    change (~ 10000000 + Z.of_nat (0 + i) - 9999000 > 3600000). lia.
Defined.

(** The claim as stated fails when a file-system call of the sweep fails. Both
    files are older than one hour at every reading of the clock. Whichever of
    the two the listing gives first, when its deletion is denied the [catch]
    around the whole loop ends the sweep there, and the other file, which
    nothing prevents from being deleted, is retained. *)
Lemma C8_counterexample :
  let sweep first second :=
    let denied := fun op => match op with
                            | OpUnlink p => bool_decide (p = lit first)
                            | _ => false
                            end in
    Demo.listed [first; second]
      (Demo.world [("a.txt", 1000, "x"); ("b.txt", 2000, "y")] denied (Ok [])) in
  (let w := sweep "a.txt" "b.txt" in
   fst (Fs.readdir w) = Ok [lit "a.txt"; lit "b.txt"] /\
   fst (cleanupUploadsFolder w) = Ok tt /\
   Fs.lookup (lit "b.txt") (snd (cleanupUploadsFolder w))
   = Some {| e_mtime := 2000; e_data := Demo.bytes "y" |}) /\
  (let w := sweep "b.txt" "a.txt" in
   fst (Fs.readdir w) = Ok [lit "b.txt"; lit "a.txt"] /\
   fst (cleanupUploadsFolder w) = Ok tt /\
   Fs.lookup (lit "a.txt") (snd (cleanupUploadsFolder w))
   = Some {| e_mtime := 1000; e_data := Demo.bytes "x" |}) /\
  ~ (forall w p e,
        Fs.lookup p w = Some e ->
        w_fault w OpReaddir = false ->
        w_fault w (OpStat p) = false ->
        w_fault w (OpUnlink p) = false ->
        (forall k, olderThanOneHour (w_clock w k) e) ->
        Fs.lookup p (snd (cleanupUploadsFolder w)) = None).
Proof.
  intros sweep.
  assert (Hkept : Fs.lookup (lit "b.txt")
                    (snd (cleanupUploadsFolder (sweep "a.txt" "b.txt")))
                  = Some {| e_mtime := 2000; e_data := Demo.bytes "y" |}).
  { vm_compute. reflexivity. }
  split.
  { split; [vm_compute; reflexivity|]. split; [vm_compute; reflexivity|].
    exact Hkept. }
  split.
  { split; [vm_compute; reflexivity|]. split; vm_compute; reflexivity. }
  intros claim.
  specialize (claim (sweep "a.txt" "b.txt") (lit "b.txt")
                {| e_mtime := 2000; e_data := Demo.bytes "y" |}).
  rewrite claim in Hkept.
  - discriminate Hkept.
  - vm_compute; reflexivity.
  - vm_compute; reflexivity.
  - vm_compute; reflexivity.
  - vm_compute; reflexivity.
  - intros k. unfold olderThanOneHour. cbn. lia.
Qed.



(** A file of 20 MB declared as an image: the element carries the size-limit
    message, not the unsupported-type one. *)
Lemma C10_size_check_comes_first_witness :
  let w := Demo.world [] Demo.noFaults (Ok []) in
  let big := {| f_name := lit "photo.png"; f_size := 20000000;
                f_type := lit "image/png"; f_bytes := Demo.bytes "PNG" |} in
  exists results w',
    POST None Demo.path_extname (FormData [big]) w
    = (Ok (SuccessResponse results), w') /\
    results !! 0%nat
    = Some (UploadFailure (lit "photo.png") (lit "File size exceeds limit (10MB)")).
Proof.
  intros w big.
  assert (Hfst : match fst (POST None Demo.path_extname (FormData [big]) w) with
                 | Ok (SuccessResponse _) => True
                 | _ => False
                 end) by (vm_compute; exact I).
  destruct (POST None Demo.path_extname (FormData [big]) w)
    as [[[status err|results]|e] w'] eqn:Hrun; cbn [fst] in Hfst;
    try exact (False_ind _ Hfst).
  exists results, w'. split; [reflexivity|].
  apply (C10_size_check_comes_first None Demo.path_extname [big] w results w'
           0%nat big Hrun eq_refl).
  - vm_compute. reflexivity.
  - apply (bool_decide_unpack _). vm_compute. exact I.
Defined.

(** ** The pipeline at concrete inputs *)

(** The descriptor names a file that is not in temp storage: the cause is the
    generic extraction error. *)
Lemma processDocumentAction_failure_causes_witness :
  let w := Demo.world [("notes.txt", 9000000, "hello")] Demo.noFaults (Ok []) in
  exists e,
    fst (Demo.processDocumentAction (Demo.textFile "gone.txt") w) = Throw e /\
    exists cause,
      e = JsError (lit "Failed to process document: " ++ cause) /\
      (cause = lit "Failed to extract text from document" \/
       cause = lit "No text content found in document" \/
       (exists text err,
           fst (extractTextFromFile Demo.parsePDFContent
                  Demo.mammoth_extractRawText Demo.decodeUtf8
                  (lit "gone.txt") MIME_TXT w) = Ok text /\
           w_model w (w_calls w) (analysisTextOf Demo.splitText text) = Throw err /\
           cause = errorMessage err) \/
       (exists text reply parsed,
           fst (extractTextFromFile Demo.parsePDFContent
                  Demo.mammoth_extractRawText Demo.decodeUtf8
                  (lit "gone.txt") MIME_TXT w) = Ok text /\
           w_model w (w_calls w) (analysisTextOf Demo.splitText text) = Ok reply /\
           Json.parse (jsonCandidate (cleanResponse reply)) = Ok parsed /\
           (parsed = JNull /\
            cause = lit "Cannot read properties of null (reading 'sentiment')" \/
            parsed = JUndefined /\
            cause = lit "Cannot read properties of undefined (reading 'sentiment')"))).
Proof.
  intros w.
  assert (Hrun : match fst (Demo.processDocumentAction (Demo.textFile "gone.txt") w) with
                 | Ok _ => False
                 | Throw _ => True
                 end) by (vm_compute; exact I).
  destruct (Demo.processDocumentAction (Demo.textFile "gone.txt") w)
    as [[r|e] w'] eqn:H; [exact (False_ind _ Hrun)|].
  exists e. split; [reflexivity|].
  exact (processDocumentAction_failure_causes _ _ _ _ _ _ _ _ _ H).
Defined.

(** A text of 1200 code units, three words: the preview holds 1000 of them. *)
Lemma processDocumentAction_record_witness :
  let content := String.append "alpha beta " (string_of_list_ascii (List.repeat "x"%char 1189)) in
  let w := Demo.world [("long.txt", 9000000, content)] Demo.noFaults
             (Ok (litq "{'sentiment':'Neutral','summary':'','confidence':0}")) in
  exists r,
    fst (Demo.processDocumentAction (Demo.textFile "long.txt") w) = Ok r /\
    length (textContent r) = 1000%nat /\ wordCount r = 3%nat /\
    exists text,
      fst (extractTextFromFile Demo.parsePDFContent Demo.mammoth_extractRawText
             Demo.decodeUtf8 (lit "long.txt") MIME_TXT w) = Ok text /\
      ~ blank text /\
      textContent r = take 1000 text /\
      (length (textContent r) <= 1000)%nat /\
      (1 <= wordCount r)%nat /\
      (exists pages, pageCount r = Some pages /\ 1 <= pages) /\
      JsValue.truthy (summary r) = true /\
      JsValue.truthy (confidence r) = true /\
      processingTime r = w_clock w (S (w_tick w)) - w_clock w (w_tick w) /\
      analyzedAt r = w_clock w (S (S (w_tick w))).
Proof.
  intros content w.
  assert (Hrun : match fst (Demo.processDocumentAction (Demo.textFile "long.txt") w) with
                 | Ok r => length (textContent r) = 1000%nat /\ wordCount r = 3%nat
                 | Throw _ => False
                 end) by (vm_compute; split; reflexivity).
  destruct (Demo.processDocumentAction (Demo.textFile "long.txt") w)
    as [[r|e] w'] eqn:H; [|exact (False_ind _ Hrun)].
  exists r. split; [reflexivity|].
  destruct Hrun as [H1 H2]. split; [exact H1|]. split; [exact H2|].
  exact (processDocumentAction_record _ _ _ _ _ _ _ _ _ H).
Defined.

(** A reply whose topics are not an array and whose confidence is zero: the
    sentiment is copied, the topics are dropped and the confidence reads
    0.7. *)
Lemma processDocumentAction_reply_fields_witness :
  let w := Demo.world [("notes.txt", 9000000, "hello world")] Demo.noFaults
             (Ok (litq "{'sentiment':'Mixed','topics':'tax','confidence':0}")) in
  let parsed := JObj [ (lit "sentiment", JStr (lit "Mixed"));
                       (lit "topics", JStr (lit "tax"));
                       (lit "confidence", JNum (Dec 0 0)) ] in
  exists r,
    fst (Demo.processDocumentAction (Demo.textFile "notes.txt") w) = Ok r /\
    sentiment r = fieldOf parsed (lit "sentiment") /\
    topics r = JsValue.arrayOrEmpty (fieldOf parsed (lit "topics")) /\
    entities r = JsValue.arrayOrEmpty (fieldOf parsed (lit "entities")) /\
    keyInsights r = JsValue.arrayOrEmpty (fieldOf parsed (lit "keyInsights")) /\
    summary r = JsValue.or (fieldOf parsed (lit "summary"))
                           (JStr (lit "No summary available")) /\
    confidence r = JsValue.or (fieldOf parsed (lit "confidence"))
                              (JNum (Dec 7 (-1))) /\
    (forall k, fieldOf parsed (lit "confidence") = JNum (Dec 0 k) ->
               confidence r = JNum (Dec 7 (-1))) /\
    ((forall fields, parsed <> JObj fields) ->
     sentiment r = JUndefined /\ topics r = [] /\ entities r = [] /\
     keyInsights r = [] /\ summary r = JStr (lit "No summary available") /\
     confidence r = JNum (Dec 7 (-1))).
Proof.
  intros w parsed.
  apply (processDocumentAction_reply_fields Json.parse Demo.parsePDFContent
           Demo.mammoth_extractRawText Demo.decodeUtf8 Demo.splitText
           (Demo.textFile "notes.txt") w (lit "hello world")
           (litq "{'sentiment':'Mixed','topics':'tax','confidence':0}") parsed).
  - vm_compute. reflexivity.
  - intros Hb. inversion Hb as [|? ? Hc _]. vm_compute in Hc. discriminate Hc.
  - reflexivity.
  - vm_compute. reflexivity.
  - discriminate.
  - discriminate.
Defined.

(** A readable text file: one invocation, by [processDocumentAction] and by a
    batch step alike. *)
Lemma model_invoked_once_per_file_witness :
  let w := Demo.world [("notes.txt", 9000000, "hello world")] Demo.noFaults
             (Ok (lit "{}")) in
  let file := Demo.textFile "notes.txt" in
  let run := processBatchStep Json.parse Demo.parsePDFContent
               Demo.mammoth_extractRawText Demo.decodeUtf8 Demo.splitText file in
  match fst (extractTextFromFile Demo.parsePDFContent Demo.mammoth_extractRawText
               Demo.decodeUtf8 (fd_filePath file) (fd_type file) w) with
  | Ok text =>
      (~ blank text -> w_calls (snd (run w)) = S (w_calls w)) /\
      (blank text -> w_calls (snd (run w)) = w_calls w)
  | Throw _ => w_calls (snd (run w)) = w_calls w
  end.
Proof.
  intros w file run.
  apply (model_invoked_once_per_file Json.parse Demo.parsePDFContent
           Demo.mammoth_extractRawText Demo.decodeUtf8 Demo.splitText file w run).
  right. reflexivity.
Defined.

(** The same stored file listed first and third: the third record is the
    error record of a failed extraction. *)
Lemma processBatchDocuments_duplicate_path_witness :
  let w := Demo.world [("a.txt", 9000000, "hello"); ("b.txt", 9000000, "world")]
             Demo.noFaults (Ok (lit "{}")) in
  let files := [Demo.textFile "a.txt"; Demo.textFile "b.txt"; Demo.textFile "a.txt"] in
  exists results r,
    fst (Demo.processBatchDocuments files w) = Ok results /\
    results !! 2%nat = Some r /\
    describes (Demo.textFile "a.txt") r /\
    sentiment r = JStr (lit "Error") /\
    wordCount r = 0%nat /\
    summary r
    = JStr (lit "Processing failed: Failed to process document: Failed to extract text from document").
Proof.
  intros w files.
  apply (processBatchDocuments_duplicate_path Json.parse Demo.parsePDFContent
           Demo.mammoth_extractRawText Demo.decodeUtf8 Demo.splitText
           files w 0%nat 2%nat (Demo.textFile "a.txt") (Demo.textFile "a.txt")).
  - reflexivity.
  - reflexivity.
  - lia.
  - reflexivity.
  - reflexivity.
Defined.

(** Two lines joined by a line break. *)
Lemma countWords_joined_witness :
  countWords (lit "one two" ++ [10%N] ++ lit "three") = (2 + 1)%nat /\
  countWords (lit "one two" ++ [10%N] ++ lit "three")
  = (countWords (lit "one two") + countWords (lit "three"))%nat /\
  estimatePageCount (lit "one two" ++ [10%N] ++ lit "three")
  <= estimatePageCount (lit "one two") + estimatePageCount (lit "three").
Proof.
  split; [vm_compute; reflexivity|].
  apply countWords_joined; [discriminate | repeat constructor].
Defined.

(** ** The upload route at concrete inputs *)

(** A text file goes through the upload loop and is read back. *)
Lemma upload_then_extract_witness :
  let w := Demo.world [] Demo.noFaults (Ok []) in
  let notes := {| f_name := lit "notes.txt"; f_size := 5;
                  f_type := MIME_TXT; f_bytes := Demo.bytes "hello" |} in
  exists w',
    uploadStep None Demo.path_extname notes w
    = (Ok (UploadSuccess (lit "3f2b8c1e-0") (lit "notes.txt") (lit "notes.txt") 5
                         MIME_TXT (lit "3f2b8c1e-0.txt") 10000000), w') /\
    Fs.lookup (lit "3f2b8c1e-0.txt") w'
    = Some {| e_mtime := 10000000; e_data := Demo.bytes "hello" |} /\
    fst (extractTextFromFile Demo.parsePDFContent Demo.mammoth_extractRawText
           Demo.decodeUtf8 (lit "3f2b8c1e-0.txt") MIME_TXT w')
    = Ok (lit "hello").
Proof.
  intros w notes.
  assert (Hrun : fst (uploadStep None Demo.path_extname notes w)
                 = Ok (UploadSuccess (lit "3f2b8c1e-0") (lit "notes.txt")
                         (lit "notes.txt") 5 MIME_TXT (lit "3f2b8c1e-0.txt")
                         10000000))
    by (vm_compute; reflexivity).
  destruct (uploadStep None Demo.path_extname notes w) as [r w'] eqn:H.
  cbn [fst] in Hrun. subst r. exists w'. split; [reflexivity|].
  destruct (upload_then_extract None Demo.path_extname Demo.parsePDFContent
              Demo.mammoth_extractRawText Demo.decodeUtf8 notes w _ _ _ _ _ _ _ _
              H eq_refl) as (_ & Hentry & _ & Hextract).
  split; [exact Hentry|]. exact Hextract.
Defined.

(** Two accepted files in one request get two ids. *)
Lemma POST_ids_distinct_witness :
  let w := Demo.world [] Demo.noFaults (Ok []) in
  let notes := {| f_name := lit "notes.txt"; f_size := 5;
                  f_type := MIME_TXT; f_bytes := Demo.bytes "hello" |} in
  let memo := {| f_name := lit "memo.txt"; f_size := 2;
                 f_type := MIME_TXT; f_bytes := Demo.bytes "hi" |} in
  exists results,
    fst (POST None Demo.path_extname (FormData [notes; memo]) w)
    = Ok (SuccessResponse results) /\
    omap uploadedId results = [lit "3f2b8c1e-0"; lit "3f2b8c1e-00"] /\
    NoDup (omap uploadedId results).
Proof.
  intros w notes memo.
  assert (Hrun : match fst (POST None Demo.path_extname (FormData [notes; memo]) w) with
                 | Ok (SuccessResponse results) =>
                     omap uploadedId results = [lit "3f2b8c1e-0"; lit "3f2b8c1e-00"]
                 | _ => False
                 end) by (vm_compute; reflexivity).
  destruct (POST None Demo.path_extname (FormData [notes; memo]) w)
    as [[[status error|results]|e] w'] eqn:H; try exact (False_ind _ Hrun).
  exists results. split; [reflexivity|]. split; [exact Hrun|].
  apply (POST_ids_distinct None Demo.path_extname (FormData [notes; memo]) w
           results w'); [|exact H].
  intros i j Hij. apply (f_equal length) in Hij. cbn in Hij.
  rewrite !repeat_length in Hij. lia.
Defined.

(** ** The processing route and the PDF parser at concrete inputs *)

(** The body the client sends for an uploaded text file. *)
Lemma POST_process_typed_witness :
  let w := Demo.world [("notes.txt", 9000000, "hello world")] Demo.noFaults
             (Ok (litq "{'sentiment':'Positive'}")) in
  let fileData := JObj [ (lit "id", JStr (lit "id-notes.txt"));
                         (lit "fileName", JStr (lit "notes.txt"));
                         (lit "filePath", JStr (lit "notes.txt"));
                         (lit "type", JStr MIME_TXT) ] in
  let route := ProcessRoute.POST Json.parse Demo.parsePDFContent
                 Demo.mammoth_extractRawText Demo.decodeUtf8 Demo.splitText
                 (fun _ => throw JsNonError) in
  exists resp w',
    route (Ok fileData) w = (Ok resp, w') /\
    ((exists result,
         resp = ProcessRoute.ResultResponse result /\
         fst (Demo.processDocumentAction (Demo.textFile "notes.txt") w) = Ok result) \/
     (exists cause,
         resp = ProcessRoute.ErrorResponse 500
                  (lit "Failed to process document: " ++ cause) /\
         fst (Demo.processDocumentAction (Demo.textFile "notes.txt") w)
         = Throw (JsError (lit "Failed to process document: " ++ cause)))) /\
    (w_fault w (OpUnlink (lit "notes.txt")) = false ->
     Fs.lookup (lit "notes.txt") w' = None).
Proof.
  intros w fileData route.
  apply (POST_process_typed Json.parse Demo.parsePDFContent
           Demo.mammoth_extractRawText Demo.decodeUtf8 Demo.splitText
           (fun _ => throw JsNonError) fileData (Demo.textFile "notes.txt") w);
    try reflexivity; discriminate.
Defined.

(** A letter of two pages of text around an empty one: six words. *)
Lemma parsePDFContent_words_witness :
  exists text,
    DemoPdf.parsePDFContent_of_buffer (Demo.bytes "Letter") = Ok text /\
    text = lit "Dear Ada, thank you" ++ [10%N] ++ lit "Yours Charles" /\
    wordsOf text
    = [lit "Dear"; lit "Ada,"; lit "thank"; lit "you"; lit "Yours"; lit "Charles"] /\
    countWords text = 6%nat /\
    trim text = text.
Proof.
  pose proof (parsePDFContent_words (Ok tt) DemoPdf.parseBuffer DemoPdf.loadPDF
                DemoPdf.decodeURIComponent DemoPdf.layoutPageText
                (Demo.bytes "Letter") DemoPdf.letter
                (default [] (PdfParser.Pages DemoPdf.letter))
                eq_refl eq_refl eq_refl) as H.
  change (decodeAll DemoPdf.decodeURIComponent
            (default [] (PdfParser.Pages DemoPdf.letter) ≫= runsOfPage))
    with (Ok [lit "Dear  Ada,"; lit "thank you"; lit "Yours" ++ [10%N]; lit "Charles"])
    in H.
  destruct H as (text & Hparse & Hwords & Hcount & Htrim).
  exists text. split; [exact Hparse|].
  split; [|split; [exact Hwords | split; [exact Hcount | exact Htrim]]].
  assert (Hrun : DemoPdf.parsePDFContent_of_buffer (Demo.bytes "Letter")
                 = Ok (lit "Dear Ada, thank you" ++ [10%N] ++ lit "Yours Charles"))
    by (vm_compute; reflexivity).
  unfold DemoPdf.parsePDFContent_of_buffer in Hrun.
  rewrite Hparse in Hrun. by injection Hrun.
Defined.

(** A stored letter is analysed, and the record counts its six words; a
    stored scan has no words, and its processing fails for want of content. *)
Lemma processDocumentAction_pdf_words_witness :
  let w := Demo.world [("letter.pdf", 9000000, "Letter"); ("scan.pdf", 9000000, "Scan")]
             Demo.noFaults (Ok (litq "{'sentiment':'Positive'}")) in
  let processAction :=
    processDocumentAction Json.parse DemoPdf.parsePDFContent_of_buffer
      Demo.mammoth_extractRawText Demo.decodeUtf8 Demo.splitText in
  (exists r,
      fst (processAction (DemoPdf.pdfFile "letter.pdf") w) = Ok r /\
      sentiment r = JStr (lit "Positive") /\
      wordCount r = 6%nat) /\
  fst (processAction (DemoPdf.pdfFile "scan.pdf") w)
  = Throw (JsError (lit "Failed to process document: No text content found in document")) /\
  (forall r, fst (processAction (DemoPdf.pdfFile "scan.pdf") w) = Ok r ->
             wordCount r = 0%nat).
Proof.
  intros w processAction.
  split.
  - assert (Hrun : match fst (processAction (DemoPdf.pdfFile "letter.pdf") w) with
                   | Ok r => sentiment r = JStr (lit "Positive")
                   | Throw _ => False
                   end) by (vm_compute; reflexivity).
    destruct (processAction (DemoPdf.pdfFile "letter.pdf") w)
      as [[r|e] w'] eqn:H; [|exact (False_ind _ Hrun)].
    exists r. split; [reflexivity|]. split; [exact Hrun|].
    destruct (processDocumentAction_pdf_words Json.parse Demo.mammoth_extractRawText
                Demo.decodeUtf8 Demo.splitText (Ok tt) DemoPdf.parseBuffer
                DemoPdf.loadPDF DemoPdf.decodeURIComponent DemoPdf.layoutPageText
                (DemoPdf.pdfFile "letter.pdf") w
                {| e_mtime := 9000000; e_data := Demo.bytes "Letter" |}
                DemoPdf.letter (default [] (PdfParser.Pages DemoPdf.letter))
                [lit "Dear  Ada,"; lit "thank you"; lit "Yours" ++ [10%N];
                 lit "Charles"])
      as [_ Hcount]; try reflexivity.
    unfold processAction, DemoPdf.parsePDFContent_of_buffer in H.
    rewrite H in Hcount. rewrite (Hcount r eq_refl).
    vm_compute. reflexivity.
  - destruct (processDocumentAction_pdf_words Json.parse Demo.mammoth_extractRawText
                Demo.decodeUtf8 Demo.splitText (Ok tt) DemoPdf.parseBuffer
                DemoPdf.loadPDF DemoPdf.decodeURIComponent DemoPdf.layoutPageText
                (DemoPdf.pdfFile "scan.pdf") w
                {| e_mtime := 9000000; e_data := Demo.bytes "Scan" |}
                DemoPdf.scan (default [] (PdfParser.Pages DemoPdf.scan)) [])
      as [Hnone Hcount]; try reflexivity.
    split; [exact (Hnone eq_refl) | exact Hcount].
Defined.

(** ** The processing status component at concrete inputs *)

(** Two files, the second of which the server fails on. *)
Lemma startProcessing_completes_witness :
  let b := DemoClient.browser DemoClient.firstOnly DemoClient.quiet in
  let files := [DemoClient.uploaded "a.txt"; DemoClient.uploaded "b.txt"] in
  exists b' results earlier,
    ProcessingStatus.startProcessing files true true b = (Ok tt, b') /\
    Forall2 itemOf files results /\
    ProcessingStatus.completedResults b' = results /\
    ProcessingStatus.b_calls b'
    = ProcessingStatus.OnProcessingComplete results :: earlier /\
    ProcessingStatus.isProcessing b' = false /\
    ProcessingStatus.processedCount b' = 2%nat /\
    ProcessingStatus.allFilesCompleted files b' = true /\
    (forall file, file ∈ files ->
       exists file',
         file' ∈ files /\
         ProcessingStatus.uf_id file' = ProcessingStatus.uf_id file /\
         (ProcessingStatus.processingFiles b' !! ProcessingStatus.uf_id file
          = Some (completedEntry file') \/
          exists m,
            ProcessingStatus.processingFiles b' !! ProcessingStatus.uf_id file
            = Some (errorEntry file' m))).
Proof.
  intros b files.
  apply (startProcessing_completes true files true b); [discriminate | reflexivity].
Defined.

(** The parent's [onProcessingStart] throws. *)
Lemma startProcessing_stuck_witness :
  let throws := fun k => match k with
                         | O => Some (JsError (lit "boom"))
                         | S _ => None
                         end in
  let b := DemoClient.browser DemoClient.firstOnly throws in
  let files := [DemoClient.uploaded "a.txt"] in
  exists b',
    ProcessingStatus.startProcessing files true true b
    = (Throw (JsError (lit "boom")), b') /\
    ProcessingStatus.isProcessing b' = true /\
    ProcessingStatus.b_requests b' = ProcessingStatus.b_requests b /\
    ProcessingStatus.processedCount b' = O /\
    ProcessingStatus.completedResults b' = [] /\
    ProcessingStatus.b_calls b'
    = ProcessingStatus.OnProcessingStart :: ProcessingStatus.b_calls b.
Proof.
  intros throws b files.
  apply (startProcessing_stuck true files true b (JsError (lit "boom")));
    [discriminate | reflexivity | reflexivity].
Defined.

(** Two files and a parent that listens to everything: ten calls, two
    requests. *)
Lemma startProcessing_reports_witness :
  let b := DemoClient.browser DemoClient.firstOnly DemoClient.quiet in
  let files := [DemoClient.uploaded "a.txt"; DemoClient.uploaded "b.txt"] in
  let b' := snd (ProcessingStatus.startProcessing files true true b) in
  length (ProcessingStatus.b_calls b') = 10%nat /\
  ProcessingStatus.b_calls b'
  = ProcessingStatus.OnProcessingComplete (ProcessingStatus.completedResults b')
      :: (ProcessingStatus.OnProcessingProgress <$> rev (files ≫= progressReports))
      ++ [ProcessingStatus.OnProcessingStart]
      ++ ProcessingStatus.b_calls b /\
  ProcessingStatus.b_requests b'
  = rev (ProcessingStatus.requestBody <$> files) ++ ProcessingStatus.b_requests b /\
  Forall (fun p => ProcessingStatus.progress p ∈ [10; 25; 50; 75] /\
                   ProcessingStatus.status p = lit "Processing...")
         (files ≫= progressReports).
Proof.
  intros b files b'.
  split; [vm_compute; reflexivity|].
  apply (startProcessing_reports true files true b); [discriminate | reflexivity].
Defined.

(** The server answers 500 with the cause in the body: the record only has
    the status text. *)
Lemma processFile_outcome_witness :
  let b := DemoClient.browser (fun _ => DemoClient.firstOnly 1) DemoClient.quiet in
  let file := DemoClient.uploaded "b.txt" in
  let run := ProcessingStatus.try_catch (ProcessingStatus.processFile true file)
               (ProcessingStatus.fileFailed file) b in
  (exists r,
      fst run = Ok (ProcessingStatus.ErrorRecord r) /\
      itemOf file (ProcessingStatus.ErrorRecord r) /\
      summary r
      = JStr (lit "Processing failed: " ++ lit "Processing failed: "
                ++ lit "Internal Server Error")) /\
  ProcessingStatus.processingFiles (snd run) !! ProcessingStatus.uf_id file
  = Some (errorEntry file (lit "Processing failed: " ++ lit "Internal Server Error")).
Proof.
  intros b file run.
  exact (processFile_outcome true file b (fun _ => eq_refl)).
Defined.

(** The default limit of the route and of the component, and a text file of
    five bytes. *)
Lemma validateFile_agrees_with_route_witness :
  let w := Demo.world [] Demo.noFaults (Ok []) in
  MAX_FILE_SIZE None = Some 10485760 /\
  match FileUpload.validateFile 10485760 DemoUpload.notes with
  | None =>
      uploadStep None Demo.path_extname DemoUpload.notes w
      = saveFile Demo.path_extname DemoUpload.notes w
  | Some _ =>
      uploadStep None Demo.path_extname DemoUpload.notes w
      = (Ok (UploadFailure (f_name DemoUpload.notes)
               (if 10485760 <? f_size DemoUpload.notes
                then lit "File size exceeds limit (10MB)"
                else lit "Unsupported file type")), w)
  end.
Proof.
  intros w.
  assert (Hlimit : MAX_FILE_SIZE None = Some 10485760) by (vm_compute; reflexivity).
  split; [exact Hlimit|].
  exact (validateFile_agrees_with_route 10485760 None Demo.path_extname
           DemoUpload.notes w Hlimit).
Defined.

(** Three files, the second an image and the third too large: nothing is
    sent, and the message is the one of the image. *)
Lemma uploadFiles_refused_witness :
  let files := [DemoUpload.notes; DemoUpload.photo; DemoUpload.big] in
  let b := DemoUpload.browser DemoUpload.offline DemoUpload.quiet in
  files <> [] /\
  ((exists file, file ∈ files /\ FileUpload.validateFile 10485760 file <> None) \/
   10 < Z.of_nat (length files)) /\
  exists message,
    FileUpload.uploadFiles 10 10485760 DemoUpload.Number_toString files b
    = (Ok tt, FileUpload.setIsUploading false (FileUpload.setError message b)) /\
    ((exists before file after,
         files = before ++ file :: after /\
         Forall (fun f => FileUpload.validateFile 10485760 f = None) before /\
         FileUpload.validateFile 10485760 file = Some message) \/
     (Forall (fun f => FileUpload.validateFile 10485760 f = None) files /\
      message = lit "Too many files selected. Maximum is "
                  ++ FileUpload.showInt 10 ++ lit " files.")).
Proof.
  intros files b.
  assert (Hfiles : files <> []) by discriminate.
  assert (Hbad : (exists file, file ∈ files /\
                               FileUpload.validateFile 10485760 file <> None) \/
                 10 < Z.of_nat (length files)).
  { left. exists DemoUpload.photo. split; [repeat constructor|].
    vm_compute. discriminate. }
  split; [exact Hfiles|]. split; [exact Hbad|].
  exact (uploadFiles_refused 10 10485760 DemoUpload.Number_toString files b
           Hfiles Hbad).
Defined.

(** One text file and no network: the request is rejected, and the interval
    started for it is still running afterwards. *)
Lemma uploadFiles_settles_witness :
  let files := [DemoUpload.notes] in
  let b := DemoUpload.browser DemoUpload.offline DemoUpload.quiet in
  rejected (uploadAnswer b files) = true /\
  files <> [] /\
  Forall (fun f => FileUpload.validateFile 10485760 f = None) files /\
  Z.of_nat (length files) <= 10 /\
  exists b',
    FileUpload.uploadFiles 10 10485760 DemoUpload.Number_toString files b
    = (Ok tt, b') /\
    FileUpload.isUploading b' = false /\
    FileUpload.b_requests b' = files :: FileUpload.b_requests b /\
    FileUpload.b_intervals b'
    = (if rejected (uploadAnswer b files)
       then S (FileUpload.b_intervals b) else FileUpload.b_intervals b) /\
    (answered (uploadAnswer b files) = false ->
     FileUpload.error b' = lit "Failed to upload files. Please try again." /\
     FileUpload.uploadProgress b' = ∅ /\
     FileUpload.b_calls b' = FileUpload.b_calls b /\
     FileUpload.b_timeouts b' = FileUpload.b_timeouts b /\
     FileUpload.b_console b'
     = ConsoleError (lit "Upload error:") :: FileUpload.b_console b) /\
    (answered (uploadAnswer b files) = true ->
     FileUpload.b_timeouts b' = S (FileUpload.b_timeouts b) /\
     (FileUpload.b_calls b' = FileUpload.b_calls b \/
      exists handed, FileUpload.b_calls b' = handed :: FileUpload.b_calls b) /\
     (FileUpload.uploadProgress b' = ∅ \/
      forall file, file ∈ files ->
                   FileUpload.uploadProgress b' !! f_name file = Some 100%Q)).
Proof.
  intros files b.
  assert (Hfiles : files <> []) by discriminate.
  assert (Hvalid : Forall (fun f => FileUpload.validateFile 10485760 f = None) files).
  { constructor; [vm_compute; reflexivity | constructor]. }
  assert (Hcount : Z.of_nat (length files) <= 10) by (vm_compute; discriminate).
  split; [reflexivity|].
  split; [exact Hfiles|]. split; [exact Hvalid|]. split; [exact Hcount|].
  exact (uploadFiles_settles 10 10485760 DemoUpload.Number_toString files b
           Hfiles Hvalid Hcount).
Defined.

(** Two text files against the route, the first of which cannot be written:
    the parent is handed the second one, and the failure of the first is
    shown. *)
Lemma uploadFiles_hands_over_saved_witness :
  let files := [DemoUpload.notes; DemoUpload.memo] in
  let w := Demo.world [] DemoUpload.firstWriteFails (Ok []) in
  let b := DemoUpload.browser (DemoUpload.route w) DemoUpload.quiet in
  exists resp w',
    (exists failed saved, resp = SuccessResponse [failed; saved] /\
                          isSaved failed = false /\ isSaved saved = true) /\
    MAX_FILE_SIZE None = Some 10485760 /\
    files <> [] /\
    Forall (fun f => FileUpload.validateFile 10485760 f = None) files /\
    Z.of_nat (length files) <= 10 /\
    POST None Demo.path_extname (FormData files) w = (Ok resp, w') /\
    uploadAnswer b files
    = wireResponse DemoUpload.numberOf DemoUpload.toISOString resp /\
    FileUpload.b_callbackThrows b (length (FileUpload.b_calls b)) = None /\
    exists b',
      FileUpload.uploadFiles 10 10485760 DemoUpload.Number_toString files b
      = (Ok tt, b') /\
      match resp with
      | ErrorResponse _ _ =>
          FileUpload.b_calls b' = FileUpload.b_calls b /\
          FileUpload.error b' = lit "Failed to upload files. Please try again."
      | SuccessResponse results =>
          Forall2 accepted files results /\
          FileUpload.b_calls b'
          = omap (handedOver DemoUpload.numberOf DemoUpload.toISOString) results
              :: FileUpload.b_calls b /\
          FileUpload.error b'
          = (let failures := omap failureOf results in
             if (0 <? length failures)%nat
             then lit "Some files failed to upload: "
                    ++ FileUpload.joinWith (lit ", ") failures
             else []) /\
          forall file, file ∈ files ->
                       FileUpload.uploadProgress b' !! f_name file = Some 100%Q
      end.
Proof.
  intros files w b.
  assert (Hresp : match fst (POST None Demo.path_extname (FormData files) w) with
                  | Ok (SuccessResponse [failed; saved]) =>
                      isSaved failed = false /\ isSaved saved = true
                  | _ => False
                  end) by (vm_compute; split; reflexivity).
  destruct (POST None Demo.path_extname (FormData files) w)
    as [[resp|e] w'] eqn:H; [|exact (False_ind _ Hresp)].
  exists resp, w'.
  assert (Hlimit : MAX_FILE_SIZE None = Some 10485760) by (vm_compute; reflexivity).
  assert (Hfiles : files <> []) by discriminate.
  assert (Hvalid : Forall (fun f => FileUpload.validateFile 10485760 f = None) files).
  { constructor; [vm_compute; reflexivity|].
    constructor; [vm_compute; reflexivity | constructor]. }
  assert (Hcount : Z.of_nat (length files) <= 10) by (vm_compute; discriminate).
  assert (Hanswer : uploadAnswer b files
                    = wireResponse DemoUpload.numberOf DemoUpload.toISOString resp).
  { unfold uploadAnswer, b, DemoUpload.browser, DemoUpload.route.
    cbn [FileUpload.b_fetch]. rewrite H. reflexivity. }
  split.
  { cbn [fst] in Hresp.
    destruct resp as [|[|failed [|saved [|]]]]; try exact (False_ind _ Hresp).
    exists failed, saved. split; [reflexivity | exact Hresp]. }
  split; [exact Hlimit|]. split; [exact Hfiles|]. split; [exact Hvalid|].
  split; [exact Hcount|]. split; [reflexivity|]. split; [exact Hanswer|].
  split; [reflexivity|].
  exact (uploadFiles_hands_over_saved 10 10485760 DemoUpload.Number_toString
           None Demo.path_extname DemoUpload.numberOf DemoUpload.toISOString
           files w resp w' b Hlimit Hfiles Hvalid Hcount H Hanswer eq_refl).
Defined.

(** A server that answers 200 with [{ success: false }]. *)
Lemma uploadFiles_passes_over_unsuccessful_body_witness :
  let files := [DemoUpload.notes] in
  let result := JObj [ (lit "success", JBool false) ] in
  let b := DemoUpload.browser
             (fun _ _ => FileUpload.FetchResponse true (Ok result))
             DemoUpload.quiet in
  files <> [] /\
  Forall (fun f => FileUpload.validateFile 10485760 f = None) files /\
  Z.of_nat (length files) <= 10 /\
  uploadAnswer b files = FileUpload.FetchResponse true (Ok result) /\
  JsValue.getProp result (lit "success") = Ok (JBool false) /\
  JsValue.truthy (JBool false) = false /\
  exists b',
    FileUpload.uploadFiles 10 10485760 DemoUpload.Number_toString files b
    = (Ok tt, b') /\
    FileUpload.error b' = [] /\
    FileUpload.b_calls b' = FileUpload.b_calls b /\
    FileUpload.b_console b' = FileUpload.b_console b /\
    FileUpload.isUploading b' = false /\
    FileUpload.b_intervals b' = FileUpload.b_intervals b /\
    forall file, file ∈ files ->
                 FileUpload.uploadProgress b' !! f_name file = Some 100%Q.
Proof.
  intros files result b.
  assert (Hfiles : files <> []) by discriminate.
  assert (Hvalid : Forall (fun f => FileUpload.validateFile 10485760 f = None) files).
  { constructor; [vm_compute; reflexivity | constructor]. }
  assert (Hcount : Z.of_nat (length files) <= 10) by (vm_compute; discriminate).
  assert (Hsuccess : JsValue.getProp result (lit "success") = Ok (JBool false))
    by (vm_compute; reflexivity).
  split; [exact Hfiles|]. split; [exact Hvalid|]. split; [exact Hcount|].
  split; [reflexivity|]. split; [exact Hsuccess|]. split; [reflexivity|].
  exact (uploadFiles_passes_over_unsuccessful_body 10 10485760
           DemoUpload.Number_toString files b result (JBool false)
           Hfiles Hvalid Hcount eq_refl Hsuccess eq_refl).
Defined.

(** ** Temp storage at concrete inputs *)

(** A stored text file, named by its file name. *)
Lemma extractTextFromFile_outcomes_witness :
  let w := Demo.world [("notes.txt", 9000000, "hello world")] Demo.noFaults (Ok []) in
  let extractText :=
    extractTextFromFile Demo.parsePDFContent Demo.mammoth_extractRawText
                        Demo.decodeUtf8 in
  plainName (lit "notes.txt") /\
  fst (extractText (lit "notes.txt") MIME_TXT w) = Ok (lit "hello world") /\
  (fst (extractText (lit "notes.txt") MIME_TXT w)
   = Throw (JsError (lit "Failed to extract text from document")) \/
   exists e text,
     fst (extractText (lit "notes.txt") MIME_TXT w) = Ok text /\
     Fs.lookup (lit "notes.txt") w = Some e /\
     w_fault w (OpReadFile (lit "notes.txt")) = false /\
     MIME_TXT ∈ [MIME_PDF; MIME_DOCX; MIME_DOC; MIME_TXT] /\
     (MIME_TXT = MIME_PDF -> Demo.parsePDFContent (e_data e) = Ok text) /\
     (MIME_TXT = MIME_DOCX \/ MIME_TXT = MIME_DOC ->
      Demo.mammoth_extractRawText (e_data e) = Ok text) /\
     (MIME_TXT = MIME_TXT -> text = Demo.decodeUtf8 (e_data e))).
Proof.
  intros w extractText.
  assert (Hplain : plainName (lit "notes.txt")).
  { unfold plainName. apply (bool_decide_unpack _). vm_compute. exact I. }
  split; [exact Hplain|]. split; [vm_compute; reflexivity|].
  exact (extractTextFromFile_outcomes Demo.parsePDFContent
           Demo.mammoth_extractRawText Demo.decodeUtf8 (lit "notes.txt")
           MIME_TXT w Hplain).
Defined.

(** A batch over two of three stored files: the third is left alone, the two
    are gone. *)
Lemma processBatchDocuments_storage_witness :
  let w := Demo.world [("a.txt", 9000000, "hello"); ("b.txt", 9000000, "world");
                       ("c.txt", 9000000, "again")]
             Demo.noFaults (Ok (lit "{}")) in
  let files := [Demo.textFile "a.txt"; Demo.textFile "b.txt"] in
  Forall (fun file => plainName (fd_filePath file)) files /\
  let w' := snd (Demo.processBatchDocuments files w) in
  removedAtMost (fd_filePath <$> files) w w' /\
  forall file,
    file ∈ files ->
    w_fault w (OpUnlink (fd_filePath file)) = false ->
    Fs.lookup (fd_filePath file) w' = None.
Proof.
  intros w files.
  assert (Hplain : Forall (fun file => plainName (fd_filePath file)) files).
  { repeat constructor;
      unfold plainName; apply (bool_decide_unpack _); vm_compute; exact I. }
  split; [exact Hplain|].
  exact (processBatchDocuments_storage Json.parse Demo.parsePDFContent
           Demo.mammoth_extractRawText Demo.decodeUtf8 Demo.splitText
           files w Hplain).
Defined.

(** Two text files, the first of which cannot be written to the end: the
    response reports "Failed to save file" for it, and the first two bytes
    stay behind at the path the save wrote to. *)
Lemma POST_stored_entries_witness :
  let w := Demo.leavingBehind 2
             (Demo.world [] DemoUpload.firstWriteFails (Ok [])) in
  let req := FormData [DemoUpload.notes; DemoUpload.memo] in
  let q := lit "3f2b8c1e-0.txt" in
  let e := {| e_mtime := 10000000; e_data := Demo.bytes "he" |} in
  exists resp w',
    POST None Demo.path_extname req w = (Ok resp, w') /\
    Fs.lookup q w = None /\
    Fs.lookup q w' = Some e /\
    (Fs.lookup q w = Some e \/
     exists results,
       resp = SuccessResponse results /\
       ((exists r, r ∈ results /\ uploadedPath r = Some q) \/
        (exists files file,
            req = FormData files /\ file ∈ files /\
            UploadFailure (f_name file) (lit "Failed to save file") ∈ results /\
            leftBehind Demo.path_extname w file q e))).
Proof.
  intros w req q e.
  destruct (POST_stored_entries None Demo.path_extname req w)
    as (resp & w' & Hrun & Hstored).
  exists resp, w'. split; [exact Hrun|].
  assert (Hentry : Fs.lookup q (snd (POST None Demo.path_extname req w)) = Some e)
    by (vm_compute; reflexivity).
  rewrite Hrun in Hentry. cbn [snd] in Hentry.
  split; [vm_compute; reflexivity|]. split; [exact Hentry|].
  exact (Hstored q e Hentry).
Defined.
